(** * Traliq ChatHub client: session handling, HTTP wrappers, upload polling

A shallow embedding of the TypeScript sources

- [src/lib/config.ts]
- [src/lib/auth-api.ts]        (class [AuthAPI])
- [src/lib/business-api.ts]    (class [BusinessAPI])
- [src/lib/chat-api.ts]        (class [ChatAPI])
- [src/lib/api.ts]             (class [DocumentAPI])
- [src/contexts/auth-context.tsx]   (component [AuthProvider])
- [src/app/auth/login/page.tsx]     ([onSubmit])
- [src/app/dashboard/integrations/page.tsx] (component [DocumentsPage])
- [src/components/protected-route.tsx]      (component [ProtectedRoute])
- [src/app/onboarding/page.tsx]             ([onSubmit])
- the chat page                             (component [Chat])

Conventions of the embedding.

- Values have the TypeScript types the sources declare for them:
  [string | null] is [option string], an interface is a record, an
  optional field is an [option].  A [string] may be empty, and the
  JavaScript truthiness tests the code makes on strings are written
  out ([truthy]).
- A string is held as the bytes of its UTF-8 encoding.  Equality,
  [includes] and [startsWith] do not depend on the encoding; the
  functions that do ([trim], [encodeURIComponent]) are written for
  it.
- [localStorage] is a finite map from keys to strings.
- [async] functions that can throw are computations in the monad
  [Eff W], which threads a world [W] and ends normally or with a thrown
  [JsError]; [try]/[catch]/[finally] are combinators of that monad.
- The backend is not part of the repository.  Every function that
  awaits [fetch] takes the outcome of that call as an argument
  ([Fetch T]): the promise is rejected, or it resolves to a
  [Response].
- [console.log] and its siblings have no effect that the program can
  observe and are left out. *)

From Stdlib Require Import Ascii QArith.
From stdpp Require Import base option list strings gmap pretty.

Local Open Scope string_scope.
Local Open Scope list_scope.
Local Open Scope Z_scope.

(** ** JavaScript primitives *)

(** [!!s] for a string: every string but the empty one is truthy. *)
Definition truthy (s : string) : bool :=
  match s with
  | EmptyString => false
  | String _ _ => true
  end.

(** [!!v] for a value of type [string | null] or [string | undefined]. *)
Definition truthy_opt (v : option string) : bool :=
  match v with
  | Some s => truthy s
  | None => false
  end.

(** [v || d] where [v : string | undefined] and [d : string]. *)
Definition or_else (v : option string) (d : string) : string :=
  match v with
  | Some s => if truthy s then s else d
  | None => d
  end.

(** [s || d] for two strings. *)
Definition str_or (s d : string) : string := if truthy s then s else d.

(** [s.includes(sub)] *)
Fixpoint includes (s sub : string) : bool :=
  String.prefix sub s ||
  match s with
  | EmptyString => false
  | String _ rest => includes rest sub
  end.

(** [s.startsWith(p)] *)
Definition startsWith (s p : string) : bool := String.prefix p s.

(** White space and line terminators, which [trim] removes: U+0009 to
    U+000D and U+0020 (one byte), U+00A0 (two bytes, C2 A0), and U+1680,
    U+2000 to U+200A, U+2028, U+2029, U+202F, U+205F, U+3000 and U+FEFF
    (three bytes). *)
Definition white_space1 (c1 : ascii) : bool :=
  let n1 := nat_of_ascii c1 in
  ((9 <=? n1) && (n1 <=? 13) || (n1 =? 32))%nat.

Definition white_space2 (c1 c2 : ascii) : bool :=
  ((nat_of_ascii c1 =? 194) && (nat_of_ascii c2 =? 160))%nat.

Definition white_space3 (c1 c2 c3 : ascii) : bool :=
  let n1 := nat_of_ascii c1 in
  let n2 := nat_of_ascii c2 in
  let n3 := nat_of_ascii c3 in
  ((n1 =? 225) && (n2 =? 154) && (n3 =? 128) ||
   (n1 =? 226) && (n2 =? 128) &&
     ((128 <=? n3) && (n3 <=? 138) || (n3 =? 168) || (n3 =? 169) || (n3 =? 175)) ||
   (n1 =? 226) && (n2 =? 129) && (n3 =? 159) ||
   (n1 =? 227) && (n2 =? 128) && (n3 =? 128) ||
   (n1 =? 239) && (n2 =? 187) && (n3 =? 191))%nat.

(** [s.trimStart()] *)
Fixpoint trimStart (s : string) : string :=
  match s with
  | EmptyString => EmptyString
  | String c1 rest1 =>
      if white_space1 c1 then trimStart rest1
      else
        match rest1 with
        | EmptyString => s
        | String c2 rest2 =>
            if white_space2 c1 c2 then trimStart rest2
            else
              match rest2 with
              | EmptyString => s
              | String c3 rest3 =>
                  if white_space3 c1 c2 c3 then trimStart rest3 else s
              end
        end
  end.

(** [s.trimEnd()]: the string is cut where its last run of white space
    starts. *)
Fixpoint trimEnd (s : string) : string :=
  match s with
  | EmptyString => EmptyString
  | String c rest =>
      match trimStart s with
      | EmptyString => EmptyString
      | String _ _ => String c (trimEnd rest)
      end
  end.

(** [s.trim()] *)
Definition trim (s : string) : string := trimEnd (trimStart s).

(** [encodeURIComponent(s)]: the bytes of the letters, the digits and of
    [- _ . ! ~ * ' ( )] are kept, every other byte is written as [%] and
    its two hexadecimal digits, in upper case. *)
Definition uri_unreserved (c : ascii) : bool :=
  let n := nat_of_ascii c in
  ((65 <=? n) && (n <=? 90) || (97 <=? n) && (n <=? 122) || (48 <=? n) && (n <=? 57))%nat ||
  bool_decide (c ∈ ["-"; "_"; "."; "!"; "~"; "*"; "'"; "("; ")"]%char).

Definition hex_digit (n : nat) : ascii :=
  nth n ["0"; "1"; "2"; "3"; "4"; "5"; "6"; "7"; "8"; "9"; "A"; "B"; "C"; "D"; "E"; "F"]%char
      "0"%char.

Fixpoint encodeURIComponent (s : string) : string :=
  match s with
  | EmptyString => EmptyString
  | String c rest =>
      if uri_unreserved c then String c (encodeURIComponent rest)
      else
        let n := nat_of_ascii c in
        String "%" (String (hex_digit (n / 16)) (String (hex_digit (n mod 16))
                                                        (encodeURIComponent rest)))
  end.

(** Errors.  Everything the modelled code throws or catches is an instance
    of [Error]: [new Error(msg)], the [TypeError] of a failed [fetch] or of a
    property read on [null], the [SyntaxError] of [JSON.parse], the
    [DOMException] named [AbortError] of an aborted request. *)
Inductive ErrorClass := ErrorC | TypeErrorC | SyntaxErrorC | DOMExceptionC.

Record JsError := mkError {
  eclass : ErrorClass;
  ename : string;
  emessage : string
}.

(** [new Error(msg)] *)
Definition new_Error (msg : string) : JsError :=
  {| eclass := ErrorC; ename := "Error"; emessage := msg |}.

(** [err instanceof TypeError] *)
Definition instanceof_TypeError (e : JsError) : bool :=
  match eclass e with
  | TypeErrorC => true
  | _ => false
  end.

(** ** Computations with a world and exceptions *)

Inductive Completion (A : Type) :=
| Normal (a : A)
| Throw (e : JsError).
Arguments Normal {A} a.
Arguments Throw {A} e.

Definition Eff (W A : Type) : Type := W -> Completion A * W.

Definition eff_ret {W A} (a : A) : Eff W A := fun w => (Normal a, w).

Definition eff_bind {W A B} (m : Eff W A) (k : A -> Eff W B) : Eff W B :=
  fun w =>
    match m w with
    | (Normal a, w') => k a w'
    | (Throw e, w') => (Throw e, w')
    end.

(** [throw e] *)
Definition throw {W A} (e : JsError) : Eff W A := fun w => (Throw e, w).

(** [try { body } catch (err) { handler err }] *)
Definition try_catch {W A} (body : Eff W A) (handler : JsError -> Eff W A) : Eff W A :=
  fun w =>
    match body w with
    | (Normal a, w') => (Normal a, w')
    | (Throw e, w') => handler e w'
    end.

(** [try { body } finally { fin }]: [fin] runs on both ways out of [body];
    the completion of [body] stands unless [fin] itself throws. *)
Definition try_finally {W A} (body : Eff W A) (fin : Eff W unit) : Eff W A :=
  fun w =>
    match body w with
    | (c, w') =>
        match fin w' with
        | (Normal _, w'') => (c, w'')
        | (Throw e, w'') => (Throw e, w'')
        end
    end.

(** Read and update the world. *)
Definition get_world {W} : Eff W W := fun w => (Normal w, w).
Definition modify {W} (f : W -> W) : Eff W unit := fun w => (Normal tt, f w).

(** Run a computation on a component of a larger world. *)
Definition zoom {W V A} (get : W -> V) (set : V -> W -> W) (m : Eff V A) : Eff W A :=
  fun w =>
    match m (get w) with
    | (c, v') => (c, set v' w)
    end.

#[global] Instance eff_mret {W} : MRet (Eff W) := fun A => @eff_ret W A.
#[global] Instance eff_mbind {W} : MBind (Eff W) := fun A B k m => @eff_bind W A B m k.

(** The world a computation ends in, and its completion. *)
Definition exec {W A} (m : Eff W A) (w : W) : W := snd (m w).
Definition eval {W A} (m : Eff W A) (w : W) : Completion A := fst (m w).

(** ** Configuration ([src/lib/config.ts]) *)

Module config.

Module upload.

Definition maxFileSize : Z := 10 * 1024 * 1024.  (* 10MB *)

Definition acceptedFileTypes : list string :=
  [".pdf"; ".doc"; ".docx"; ".txt"; ".rtf"; ".csv"; ".xlsx"; ".xls"].

End upload.

(** The numbers of [polling] are rationals: [backoffMultiplier] is 1.5.
    The products the code forms with them are exact in floating point. *)
Module polling.

Definition interval : Q := 2000%Q.  (* 2 seconds *)

Definition maxRetries : Z := 150.

Definition backoffMultiplier : Q := (3 # 2)%Q.

End polling.

End config.

(** ** The fetch API *)

(** The body of an error reply read as [{ detail?: string }]. *)
Record ErrorBody := mkErrorBody { detail : option string }.

(** A [Response] as the code observes it.  The body of a reply is read in
    one of three ways, and a field records what each reading yields:
      - [text]: [await response.text()];
      - [json]: [await response.json()] on a reply the caller treats as a
        success, at the type [T] the caller declares for it; the promise
        is rejected when the body is not JSON;
      - [error_body]: the body of a reply the caller treats as an error,
        parsed ([response.json()], or [JSON.parse] of [text]): the
        parser throws when the body is not JSON; it yields [None] when
        the body is the JSON text [null], and otherwise a value that the
        code reads as [{ detail?: string }].
    On a given reply the code makes one of the last two readings, by
    [response.ok]. *)
Record Response (T : Type) := mkResponse {
  status : Z;
  statusText : string;
  content_type : option string;
  text : string;
  json : Completion T;
  error_body : Completion (option ErrorBody)
}.
Arguments mkResponse {T}.
Arguments status {T}.
Arguments statusText {T}.
Arguments content_type {T}.
Arguments text {T}.
Arguments json {T}.
Arguments error_body {T}.

(** [response.ok] *)
Definition ok {T} (r : Response T) : bool :=
  (200 <=? status r) && (status r <=? 299).

(** The outcome of [await fetch(...)]. *)
Inductive Fetch (T : Type) :=
| Rejected (e : JsError)
| Replied (r : Response T).
Arguments Rejected {T} e.
Arguments Replied {T} r.

(** [await fetch(...)] inside a computation. *)
Definition await_fetch {W T} (f : Fetch T) : Eff W (Response T) :=
  match f with
  | Rejected e => throw e
  | Replied r => mret r
  end.

(** [await p] for a promise that settles with completion [c]. *)
Definition await {W A} (c : Completion A) : Eff W A :=
  match c with
  | Normal a => mret a
  | Throw e => throw e
  end.

(** ** Local storage *)

Abbreviation Storage := (gmap string string).

Definition getItem (k : string) (s : Storage) : option string := s !! k.
Definition setItem (k v : string) (s : Storage) : Storage := <[k := v]> s.
Definition removeItem (k : string) (s : Storage) : Storage := delete k s.

(** ** Backend types ([src/lib/auth-api.ts]) *)

(** [preferences?: Record<string, unknown>] is never read by the client and
    is left out. *)
Record UserProfile := mkUserProfile {
  id : string;
  email : string;
  name : option string;
  avatar_url : option string;
  phone : option string;
  last_login_at : option string;
  login_count : Z;
  created_at : string;
  is_verified : bool
}.

Module LoginResponse.

Record t := mk {
  access_token : string;
  token_type : string;
  user : UserProfile
}.

End LoginResponse.

Record LoginForm := mkLoginForm {
  form_email : string;
  form_password : string
}.

(** The form of the signup page ([SignupForm]). *)
Module SignupForm.

Record t := mk {
  firstName : string;
  lastName : string;
  email : string;
  password : string;
  confirmPassword : string;
  acceptTerms : bool
}.

End SignupForm.

(** [AuthResponse]; [data?: unknown] is never read and is left out. *)
Module AuthResponse.

Record t := mk {
  success : bool;
  message : string
}.

End AuthResponse.

Module VerificationCodeResponse.

Record t := mk {
  success : bool;
  message : string
}.

End VerificationCodeResponse.

(** [JSON.parse] of a stored profile, read at the type [UserProfile | null]
    of the session user. *)
Inductive Parsed :=
| ParseError
| ParsedNull
| ParsedProfile (u : UserProfile).

(** The [JSON] object of the platform, on user profiles. *)
Class Json := {
  JSON_stringify : UserProfile -> string;
  JSON_parse : string -> Parsed
}.

(** ** [AuthAPI] ([src/lib/auth-api.ts]) *)

(** The reply of [/auth/refresh-token]. *)
Record TokenResponse := mkTokenResponse { new_access_token : option string }.

(** A second read of a body that [response.json()] has already consumed:
    the promise is rejected with a [TypeError] (the message is the
    engine's). *)
Definition body_already_read : Completion string :=
  Throw {| eclass := TypeErrorC; ename := "TypeError";
           emessage := "body stream already read" |}.

(** Reading a property of [null] (the message is the engine's). *)
Definition null_property_error : JsError :=
  {| eclass := TypeErrorC; ename := "TypeError";
     emessage := "Cannot read properties of null" |}.

(** [JSON.parse] on malformed text (the message is the engine's). *)
Definition json_syntax_error : JsError :=
  {| eclass := SyntaxErrorC; ename := "SyntaxError";
     emessage := "Unexpected token in JSON" |}.

(** The body of an error reply parsed and its [detail] read, where both
    happen in the same [try] block: the parser throws when the body is
    not JSON, and the read of [detail] throws when the body is [null]. *)
Definition error_json {T} (response : Response T) : Completion ErrorBody :=
  match error_body response with
  | Normal (Some errorData) => Normal errorData
  | Normal None => Throw null_property_error
  | Throw err => Throw err
  end.

(** [contentType && contentType.includes('text/html')], where
    [contentType = response.headers.get('content-type')]. *)
Definition is_html {T} (response : Response T) : bool :=
  match content_type response with
  | Some contentType => truthy contentType && includes contentType "text/html"
  | None => false
  end.

(** The reply as a caller sees it that casts the result of
    [response.json()] to [{ detail?: string }], or finds it [null]. *)
Definition as_error {T} (response : Response T) : Response (option ErrorBody) :=
  {| status := status response; statusText := statusText response;
     content_type := content_type response; text := text response;
     json := error_body response; error_body := error_body response |}.

Module AuthAPI.
Section WithJson.
Context {J : Json}.

(** [static getToken()], in the browser ([typeof window !== "undefined"]). *)
Definition getToken (s : Storage) : option string := getItem "auth_token" s.

(** [private static async handleResponse(response)] *)
Definition handleResponse {T} (response : Response T) : Eff Storage T :=
  if is_html response then
    if status response =? 404 then
      throw (new_Error "API endpoint not found. Please check if the backend server is running and the URL is correct.")
    else if 500 <=? status response then
      throw (new_Error "Server error occurred. Please try again later.")
    else
      throw (new_Error "Unexpected server response. Please check your network connection and try again.")
  else
    try_catch
      (await (json response))
      (fun err =>
         _ ← await body_already_read;
         throw (new_Error "Invalid response format from server")).

(** [static async login(data)]; [reply] is the outcome of the POST to
    [/auth/login]. *)
Definition login (data : LoginForm) (reply : Fetch LoginResponse.t)
  : Eff Storage LoginResponse.t :=
  try_catch
    (response ← await_fetch reply;
     if negb (ok response) then
       let errorText := text response in
       let errorMessage := "Login failed" in
       let errorMessage :=
         match error_json response with
         | Normal errorData =>
             if bool_decide (detail errorData = Some "LOGIN_BAD_CREDENTIALS") then
               "Invalid email or password"
             else if bool_decide (detail errorData = Some "LOGIN_USER_NOT_VERIFIED") then
               "Please verify your email before logging in"
             else
               or_else (detail errorData) errorMessage
         | Throw _ =>
             (* If not JSON, use the raw text *)
             str_or errorText errorMessage
         end in
       throw (new_Error errorMessage)
     else
       result ← handleResponse response;
       (* Store token and user info *)
       (if truthy (LoginResponse.access_token result) then
          modify (setItem "auth_token" (LoginResponse.access_token result));;
          modify (setItem "user_profile" (JSON_stringify (LoginResponse.user result)))
        else mret tt);;
       mret result)
    (fun err => throw err).

(** [static async getCurrentUser()]; [reply] is the outcome of the GET
    of [/auth/me]. *)
Definition getCurrentUser (reply : Fetch UserProfile) : Eff Storage UserProfile :=
  try_catch
    (response ← await_fetch reply;
     if negb (ok response) then
       errorData ← await (error_json response);
       throw (new_Error (or_else (detail errorData) "Failed to get user profile"))
     else
       result ← await (json response);
       modify (setItem "user_profile" (JSON_stringify result));;
       mret result)
    (fun err => throw err).

(** [static async validateToken()]; [reply] is the outcome of the GET of
    [/auth/validate-token]. *)
Definition validateToken (reply : Fetch unit) : Eff Storage bool :=
  try_catch
    (s ← get_world;
     let token := getToken s in
     if negb (truthy_opt token) then mret false
     else
       response ← await_fetch reply;
       if ok response then mret true else mret false)
    (fun err =>
       if instanceof_TypeError err && includes (emessage err) "fetch"
       then mret true
       else mret false).

(** [static async logout()]; [reply] is the outcome of the POST to
    [/auth/logout], read only when a token is stored. *)
Definition logout (reply : Fetch unit) : Eff Storage unit :=
  try_finally
    (try_catch
       (s ← get_world;
        let token := getToken s in
        if truthy_opt token then
          _ ← await_fetch reply; mret tt
        else mret tt)
       (fun err => mret tt))
    ((* Always remove tokens and user data from localStorage *)
     modify (removeItem "auth_token");;
     modify (removeItem "user_profile")).

(** [static getUserProfile()], in the browser. *)
Definition getUserProfile : Eff Storage (option UserProfile) :=
  s ← get_world;
  match getItem "user_profile" s with
  | Some profile =>
      if truthy profile then
        try_catch
          (match JSON_parse profile with
           | ParseError => throw json_syntax_error
           | ParsedNull => throw null_property_error   (* [parsed.email] *)
           | ParsedProfile parsed => mret (Some parsed)
           end)
          (fun err =>
             modify (removeItem "user_profile");;
             mret None)
      else mret None
  | None => mret None
  end.

(** [static isAuthenticated()] *)
Definition isAuthenticated : Eff Storage bool :=
  s ← get_world;
  let hasToken := truthy_opt (getToken s) in
  profile ← getUserProfile;
  let hasProfile := bool_decide (profile <> None) in
  mret (hasToken && hasProfile).

(** [static async refreshToken()]; [reply] is the outcome of the POST to
    [/auth/refresh-token], [logout_reply] that of the POST that the
    [logout()] of the error path makes.  That [logout()] is not awaited
    by the source; the model runs it to its end before the error is
    rethrown. *)
Definition refreshToken (reply : Fetch TokenResponse) (logout_reply : Fetch unit)
  : Eff Storage string :=
  try_catch
    (response ← await_fetch reply;
     if negb (ok response) then throw (new_Error "Token refresh failed")
     else
       result ← await (json response);
       match new_access_token result with
       | Some token =>
           if truthy token then
             modify (setItem "auth_token" token);;
             mret token
           else throw (new_Error "No token received")
       | None => throw (new_Error "No token received")
       end)
    (fun err =>
       (* If refresh fails, logout user *)
       logout logout_reply;;
       throw err).

(** [static async signup(data)]; [reply] is the outcome of the POST to
    [/auth/register/register].  A reply that is not [ok] goes through
    [handleResponse] as well, and its result is read as
    [{ detail?: string }]; a body [null] is replaced by [{}]. *)
Definition signup (data : SignupForm.t) (reply : Fetch UserProfile)
  : Eff Storage UserProfile :=
  try_catch
    (response ← await_fetch reply;
     if negb (ok response) then
       errorData ← handleResponse (as_error response);
       let errObj := default {| detail := None |} errorData in
       throw (new_Error (or_else (detail errObj) "Registration failed"))
     else
       result ← handleResponse response;
       mret result)
    (fun err => throw err).

(** [static async forgotPassword(data)]; [reply] is the outcome of the
    POST to [/auth/forgot-password].  The body of a reply that is [ok] is
    not read. *)
Definition forgotPassword (email : string) (reply : Fetch unit)
  : Eff Storage AuthResponse.t :=
  try_catch
    (response ← await_fetch reply;
     if negb (ok response) then
       errorData ← await (error_json response);
       throw (new_Error (or_else (detail errorData) "Failed to send reset email"))
     else
       mret (AuthResponse.mk true "Password reset email sent successfully"))
    (fun err => throw err).

(** [static async sendVerificationCode(email)]; [reply] is the outcome of
    the POST to [/auth/send-verification-code]. *)
Definition sendVerificationCode (email : string)
           (reply : Fetch VerificationCodeResponse.t)
  : Eff Storage VerificationCodeResponse.t :=
  try_catch
    (response ← await_fetch reply;
     if negb (ok response) then
       errorData ← await (error_json response);
       throw (new_Error (or_else (detail errorData) "Failed to send verification code"))
     else
       result ← await (json response);
       mret result)
    (fun err => throw err).

(** [static async verifyCode(email, code)]; [reply] is the outcome of the
    POST to [/auth/verify-code]. *)
Definition verifyCode (email code : string)
           (reply : Fetch VerificationCodeResponse.t)
  : Eff Storage VerificationCodeResponse.t :=
  try_catch
    (response ← await_fetch reply;
     if negb (ok response) then
       errorData ← await (error_json response);
       throw (new_Error (or_else (detail errorData) "Code verification failed"))
     else
       result ← await (json response);
       mret result)
    (fun err => throw err).

(** [static async resetPassword(token, password)]; [reply] is the outcome
    of the POST to [/auth/forgot-password/reset]. *)
Definition resetPassword (token password : string) (reply : Fetch unit)
  : Eff Storage AuthResponse.t :=
  try_catch
    (response ← await_fetch reply;
     if negb (ok response) then
       errorData ← await (error_json response);
       throw (new_Error (or_else (detail errorData) "Password reset failed"))
     else
       mret (AuthResponse.mk true "Password reset successfully"))
    (fun err => throw err).

End WithJson.
End AuthAPI.

(** ** [BusinessAPI] ([src/lib/business-api.ts]) *)

(** The reply of [/businesses/status]. *)
Record BusinessStatus := mkBusinessStatus {
  success : bool;
  has_business : bool;
  business_count : Z;
  status_message : string
}.

(** The template literal [`HTTP ${response.status}: ${response.statusText}`]. *)
Definition http_status_line {T} (response : Response T) : string :=
  "HTTP " +:+ pretty (status response) +:+ ": " +:+ statusText response.

(** The template literal [`HTTP ${response.status}`]. *)
Definition http_status {T} (response : Response T) : string :=
  "HTTP " +:+ pretty (status response).

Module BusinessAPI.

(** [private async handleResponse<T>(response)] *)
Definition handleResponse {W T} (response : Response T) : Eff W T :=
  if negb (ok response) then
    (* prefer a typed fallback object instead of `any` *)
    let errorData :=
      match error_body response with
      | Normal parsed => parsed
      | Throw _ => Some {| detail := Some "Unknown error" |}
      end in
    match errorData with
    | Some errorData =>
        throw (new_Error (or_else (detail errorData) (http_status_line response)))
    | None => throw null_property_error   (* [errorData.detail] on [null] *)
    end
  else await (json response).

(** [async hasRegisteredBusiness()]; [reply] is the outcome of the GET of
    [/businesses/status]. *)
Definition hasRegisteredBusiness {W} (reply : Fetch BusinessStatus) : Eff W bool :=
  try_catch
    (response ← await_fetch reply;
     data ← handleResponse response;
     mret (has_business data))
    (fun error => mret false).

End BusinessAPI.

(** ** [ChatAPI] ([src/lib/chat-api.ts]) *)

(** The body of the reply of the health endpoint of the chatbot, a
    [Record<string, unknown>], as [healthCheck] looks at it: [healthy]
    when [typeof data.healthy === 'boolean'], [health_status] when
    [typeof data.status === 'string']. *)
Record HealthData := mkHealthData {
  healthy : option bool;
  health_status : option string
}.

Module ChatAPI.

(** [private async handleResponse<T>(response)] *)
Definition handleResponse {W T} (response : Response T) : Eff W T :=
  if negb (ok response) then
    let errorData :=
      match error_body response with
      | Normal parsed => parsed
      | Throw _ => Some {| detail := Some "Unknown error" |}
      end in
    match errorData with
    | Some errorData =>
        throw (new_Error (or_else (detail errorData) (http_status_line response)))
    | None => throw null_property_error   (* [errorData.detail] on [null] *)
    end
  else await (json response).

(** The shape of [sendMessage], [createConversation], [getBotConfig] and
    the other calls of the class: one [fetch], then [handleResponse]. *)
Definition call {W T} (reply : Fetch T) : Eff W T :=
  response ← await_fetch reply;
  handleResponse response.

(** [async healthCheck()]; [reply] is the outcome of the GET of
    [/api/v1/chatbot/health].  The request is made outside the [try]. *)
Definition healthCheck {W} (reply : Fetch HealthData) : Eff W bool :=
  response ← await_fetch reply;
  try_catch
    (data ← handleResponse response;
     match healthy data with
     | Some b => mret b
     | None =>
         match health_status data with
         | Some s => mret (bool_decide (s = "ok") || bool_decide (s = "healthy"))
         | None => mret (ok response)
         end
     end)
    (fun _ =>
       (* If parsing fails, fallback to response.ok *)
       mret (ok response)).

End ChatAPI.

(** ** [AuthProvider] ([src/contexts/auth-context.tsx]) *)

Inductive ToastKind := ToastSuccess | ToastError.

(** [toast.success(title, { description })], [toast.error(...)]. *)
Record Toast := mkToast {
  kind : ToastKind;
  title : string;
  description : option string
}.

(** [e.key] and [e.newValue] of a [StorageEvent]. *)
Record StorageEvent := mkStorageEvent {
  key : option string;
  newValue : option string
}.

Module AuthProvider.

(** The state of the provider and what its effects act on: the
    [localStorage] of the origin, the [user] and [isLoading] state
    variables, the paths given to [router.push] (oldest first) and the
    toasts shown (oldest first). *)
Record State := mkState {
  storage : Storage;
  user : option UserProfile;
  isLoading : bool;
  pushed : list string;
  toasts : list Toast
}.

Definition setUser (u : option UserProfile) : Eff State unit :=
  modify (fun st => mkState (storage st) u (isLoading st) (pushed st) (toasts st)).

Definition setIsLoading (b : bool) : Eff State unit :=
  modify (fun st => mkState (storage st) (user st) b (pushed st) (toasts st)).

Definition router_push (path : string) : Eff State unit :=
  modify (fun st =>
    mkState (storage st) (user st) (isLoading st) (pushed st ++ [path]) (toasts st)).

Definition toast (k : ToastKind) (t : string) (d : option string) : Eff State unit :=
  modify (fun st =>
    mkState (storage st) (user st) (isLoading st) (pushed st)
            (toasts st ++ [mkToast k t d])).

(** A call into [AuthAPI], which acts on the storage alone. *)
Definition api {A} (m : Eff Storage A) : Eff State A :=
  zoom storage
       (fun s st => mkState s (user st) (isLoading st) (pushed st) (toasts st))
       m.

(** [const isAuthenticated = !!user && !!AuthAPI.getToken()] *)
Definition isAuthenticated (st : State) : bool :=
  bool_decide (user st <> None) && truthy_opt (AuthAPI.getToken (storage st)).

Section WithJson.
Context {J : Json}.

(** [handleStorageChange(e)], the listener of the [storage] event. *)
Definition handleStorageChange (e : StorageEvent) : Eff State unit :=
  st ← get_world;
  if bool_decide (key e = Some "auth_token") then
    match newValue e with
    | None =>
        (* Token was removed, logout user *)
        setUser None
    | Some v =>
        if truthy v && negb (bool_decide (user st <> None)) then
          (* Token was added, try to restore user session *)
          cachedProfile ← api AuthAPI.getUserProfile;
          match cachedProfile with
          | Some p => setUser (Some p)
          | None => mret tt
          end
        else mret tt
    end
  else if bool_decide (key e = Some "user_profile") then
    match newValue e with
    | None =>
        (* User profile was removed *)
        setUser None
    | Some v =>
        if truthy v then
          (* User profile was updated *)
          try_catch
            (match JSON_parse v with
             | ParseError => throw json_syntax_error
             | ParsedNull => setUser None
             | ParsedProfile updatedProfile => setUser (Some updatedProfile)
             end)
            (fun error => mret tt)
        else mret tt
    end
  else mret tt.

(** [checkBusinessRegistrationAndRedirect()]; [status_reply] is the
    outcome of the GET of [/businesses/status]. *)
Definition checkBusinessRegistrationAndRedirect (status_reply : Fetch BusinessStatus)
  : Eff State unit :=
  try_catch
    (hasBusiness ← BusinessAPI.hasRegisteredBusiness status_reply;
     if hasBusiness : bool then router_push "/dashboard"
     else router_push "/onboarding")
    (fun error =>
       (* Default to dashboard if check fails *)
       router_push "/dashboard").

(** [login(data)] *)
Definition login (data : LoginForm) (reply : Fetch LoginResponse.t)
           (status_reply : Fetch BusinessStatus) : Eff State unit :=
  try_finally
    (try_catch
       (setIsLoading true;;
        response ← api (AuthAPI.login data reply);
        setUser (Some (LoginResponse.user response));;
        toast ToastSuccess "Welcome back!"
              (Some ("Logged in as " +:+ email (LoginResponse.user response)));;
        (* Check business registration status and redirect accordingly *)
        checkBusinessRegistrationAndRedirect status_reply)
       (fun error =>
          toast ToastError "Login failed" (Some (emessage error));;
          throw error))
    (setIsLoading false).

(** [signup(data)]; [reply] is the outcome of the POST to
    [/auth/register/register]. *)
Definition signup (data : SignupForm.t) (reply : Fetch UserProfile) : Eff State unit :=
  try_finally
    (try_catch
       (setIsLoading true;;
        newUser ← api (AuthAPI.signup data reply);
        toast ToastSuccess "Account created successfully!"
              (Some "Please check your email to verify your account.");;
        (* Redirect to email verification page *)
        router_push ("/auth/verify-email?email=" +:+ encodeURIComponent (email newUser)))
       (fun error =>
          toast ToastError "Registration failed" (Some (emessage error));;
          throw error))
    (setIsLoading false).

(** [logout()] *)
Definition logout (reply : Fetch unit) : Eff State unit :=
  try_finally
    (try_catch
       (setIsLoading true;;
        api (AuthAPI.logout reply);;
        setUser None;;
        toast ToastSuccess "Logged out successfully" None;;
        (* Redirect to auth page *)
        router_push "/auth")
       (fun error =>
          toast ToastError "Logout failed" (Some "Please try again.")))
    (setIsLoading false).

(** [refreshUser()]; [reply] is the outcome of the GET of [/auth/me],
    [logout_reply] that of the POST of the [logout()] of the error
    path. *)
Definition refreshUser (reply : Fetch UserProfile) (logout_reply : Fetch unit)
  : Eff State unit :=
  try_catch
    (currentUser ← api (AuthAPI.getCurrentUser reply);
     setUser (Some currentUser))
    (fun error =>
       (* If refresh fails, user might need to re-authenticate *)
       logout logout_reply).

(** [initializeAuth()], outside development mode (where the provider
    first runs the connectivity tests of [APITest], which only log).
    [currentPath] is [window.location.pathname]; the replies are those
    of [/auth/validate-token], [/auth/logout] (for the [logout()] of the
    path that makes one), [/auth/me] and [/businesses/status].  [Some
    tt] stands for a [return] out of the function. *)
Definition initializeAuth (currentPath : string)
           (validate_reply logout_reply : Fetch unit)
           (me_reply : Fetch UserProfile) (status_reply : Fetch BusinessStatus)
  : Eff State unit :=
  try_finally
    (try_catch
       (st ← get_world;
        let token := AuthAPI.getToken (storage st) in
        if negb (truthy_opt token) then
          setIsLoading false
        else
          (* Get user profile from localStorage first (for immediate UI update) *)
          cachedProfile ← api AuthAPI.getUserProfile;
          match cachedProfile with
          | Some p => setUser (Some p)
          | None => mret tt
          end;;
          (* Validate token with backend *)
          returned ← try_catch
            (isValid ← api (AuthAPI.validateToken validate_reply);
             if negb isValid then
               api (AuthAPI.logout logout_reply);;
               setUser None;;
               setIsLoading false;;
               mret (Some tt)
             else mret None)
            (fun validationError => mret None);
          match returned with
          | Some _ => mret tt
          | None =>
              (* Try to refresh user profile from backend *)
              try_catch
                (currentUser ← api (AuthAPI.getCurrentUser me_reply);
                 setUser (Some currentUser);;
                 let shouldCheckBusinessRegistration :=
                   bool_decide (currentPath = "/") ||
                   startsWith currentPath "/auth" ||
                   bool_decide (currentPath = "/dashboard") in
                 if shouldCheckBusinessRegistration then
                   try_catch
                     (hasBusiness ← BusinessAPI.hasRegisteredBusiness status_reply;
                      if negb hasBusiness && negb (bool_decide (currentPath = "/onboarding"))
                      then router_push "/onboarding"
                      else if hasBusiness &&
                              (bool_decide (currentPath = "/") || startsWith currentPath "/auth")
                      then router_push "/dashboard"
                      else mret tt)
                     (fun businessCheckError => mret tt)
                 else mret tt)
                (fun error =>
                   (* If we can't get fresh user profile but have cached profile, keep it *)
                   match cachedProfile with
                   | None =>
                       api (AuthAPI.logout logout_reply);;
                       setUser None
                   | Some _ => mret tt
                   end)
          end)
       (fun error =>
          (* Only logout if we're sure there's an auth problem *)
          st ← get_world;
          let token := AuthAPI.getToken (storage st) in
          if negb (truthy_opt token) then
            api (AuthAPI.logout logout_reply);;
            setUser None
          else mret tt))
    (setIsLoading false).

(** The operations that change the session, with what the backend and
    the other tabs answer. *)
Inductive Op :=
| OpInitialize (currentPath : string) (validate_reply logout_reply : Fetch unit)
               (me_reply : Fetch UserProfile) (status_reply : Fetch BusinessStatus)
| OpLogin (data : LoginForm) (reply : Fetch LoginResponse.t)
          (status_reply : Fetch BusinessStatus)
| OpLogout (reply : Fetch unit)
| OpRefreshUser (reply : Fetch UserProfile) (logout_reply : Fetch unit)
| OpStorageEvent (e : StorageEvent).

Definition perform (op : Op) : Eff State unit :=
  match op with
  | OpInitialize currentPath validate_reply logout_reply me_reply status_reply =>
      initializeAuth currentPath validate_reply logout_reply me_reply status_reply
  | OpLogin data reply status_reply => login data reply status_reply
  | OpLogout reply => logout reply
  | OpRefreshUser reply logout_reply => refreshUser reply logout_reply
  | OpStorageEvent e => handleStorageChange e
  end.

End WithJson.
End AuthProvider.

(** ** The login page ([src/app/auth/login/page.tsx]) *)

Module LoginPage.

(** The provider's state and the [error] state variable of the page,
    which the page renders in an alert when it is not empty. *)
Record State := mkState {
  auth : AuthProvider.State;
  error : string
}.

Definition setError (msg : string) : Eff State unit :=
  modify (fun st => mkState (auth st) msg).

Definition useAuth {A} (m : Eff AuthProvider.State A) : Eff State A :=
  zoom auth (fun a st => mkState a (error st)) m.

Section WithJson.
Context {J : Json}.

(** [onSubmit(data)] *)
Definition onSubmit (data : LoginForm) (reply : Fetch LoginResponse.t)
           (status_reply : Fetch BusinessStatus) : Eff State unit :=
  setError "";;
  try_catch
    (useAuth (AuthProvider.login data reply status_reply))
    (fun err => setError (emessage err)).

End WithJson.
End LoginPage.

(** ** [ProtectedRoute] ([src/components/protected-route.tsx]) *)

Module ProtectedRoute.

(** What the component returns: the [fallback] of its props, its own
    spinner with a label, [null], or its children. *)
Inductive Rendered :=
| Fallback
| Spinner (label : string)
| Nothing
| Children.

(** The provider's state, which [useAuth()] and [useRouter()] give
    access to, and the [isRedirecting] state variable. *)
Record State := mkState {
  auth : AuthProvider.State;
  isRedirecting : bool
}.

Definition setIsRedirecting (b : bool) : Eff State unit :=
  modify (fun st => mkState (auth st) b).

Definition router_push (path : string) : Eff State unit :=
  zoom auth (fun a st => mkState a (isRedirecting st)) (AuthProvider.router_push path).

(** The effect of the component, which runs after a render in which
    [isAuthenticated], [isLoading] or the router have changed. *)
Definition effect : Eff State unit :=
  st ← get_world;
  let isLoading := AuthProvider.isLoading (auth st) in
  let isAuthenticated := AuthProvider.isAuthenticated (auth st) in
  (* Only redirect if we're sure the user is not authenticated *)
  if negb isLoading && negb isAuthenticated then
    setIsRedirecting true;;
    router_push "/auth/login"
  else if negb isLoading && isAuthenticated then
    setIsRedirecting false
  else mret tt.

(** The render; [fallback] tells whether the props hold a [fallback]
    that is truthy. *)
Definition render (fallback : bool) (st : State) : Rendered :=
  let isLoading := AuthProvider.isLoading (auth st) in
  let isAuthenticated := AuthProvider.isAuthenticated (auth st) in
  let user := AuthProvider.user (auth st) in
  (* Show loading state during auth initialization or redirect *)
  if isLoading || isRedirecting st then
    if fallback then Fallback
    else Spinner (if isRedirecting st then "Redirecting..." else "Loading...")
  (* Double-check authentication state *)
  else if negb isAuthenticated || negb (bool_decide (user <> None)) then
    Nothing
  else Children.

End ProtectedRoute.

(** ** Documents: types ([src/lib/api.ts], [src/lib/business-api.ts],
       [src/app/dashboard/integrations/page.tsx]) *)

Module TaskStatusResponse.

(** [result?: unknown] is never read and is left out. *)
Record t := mk {
  task_id : string;
  status : string;
  updated_at : string;
  message : option string;
  completed_at : option string
}.

End TaskStatusResponse.

Module UploadResponse.

(** The fields of the reply that the client reads. *)
Record t := mk {
  task_id : string;
  document_id : string;
  filename : string
}.

End UploadResponse.

Module Business.

(** The fields of a business that the documents page reads. *)
Record t := mk {
  id : string;
  name : string;
  namespace : string
}.

End Business.

(** ** [businessAPI]: the businesses of the user ([src/lib/business-api.ts]) *)

(** ['owner' | 'admin' | 'member'] *)
Inductive Role := owner | admin | member.

#[global] Instance Role_eq_dec : EqDecision Role.
Proof. solve_decision. Defined.

Module BusinessListItem.

(** The fields of an entry of the list that the client reads. *)
Record t := mk {
  id : string;
  name : string;
  namespace : string;
  user_role : Role
}.

End BusinessListItem.

Module BusinessListResponse.

Record t := mk {
  success : bool;
  message : string;
  businesses : list BusinessListItem.t;
  total : Z
}.

End BusinessListResponse.

Module BusinessResponse.

Record t := mk {
  success : bool;
  message : string;
  business : option Business.t
}.

End BusinessResponse.

(** The methods of [BusinessAPI] that the pages call on the exported
    instance [businessAPI]. *)
Module businessAPI.

(** [async createBusiness(businessData)]; [reply] is the outcome of the
    POST to [/businesses/]. *)
Definition createBusiness {W} (reply : Fetch BusinessResponse.t)
  : Eff W BusinessResponse.t :=
  response ← await_fetch reply;
  BusinessAPI.handleResponse response.

(** [async getUserBusinesses()]; [reply] is the outcome of the GET of
    [/businesses/]. *)
Definition getUserBusinesses {W} (reply : Fetch BusinessListResponse.t)
  : Eff W BusinessListResponse.t :=
  response ← await_fetch reply;
  BusinessAPI.handleResponse response.

(** [async getBusiness(businessId)]; [details businessId] is the
    outcome of the GET of [/businesses/${businessId}]. *)
Definition getBusiness {W} (businessId : string)
           (details : string -> Fetch BusinessResponse.t)
  : Eff W BusinessResponse.t :=
  response ← await_fetch (details businessId);
  BusinessAPI.handleResponse response.

(** [async getPrimaryBusiness()] *)
Definition getPrimaryBusiness {W} (list_reply : Fetch BusinessListResponse.t)
           (details : string -> Fetch BusinessResponse.t)
  : Eff W (option Business.t) :=
  try_catch
    (response ← getUserBusinesses list_reply;
     (* Find the first business where user is owner or admin *)
     let primaryBusiness :=
       match
         List.find
           (fun business =>
              bool_decide (BusinessListItem.user_role business = owner) ||
              bool_decide (BusinessListItem.user_role business = admin))
           (BusinessListResponse.businesses response)
       with
       | Some business => Some business
       | None =>
           (* Fallback to first business if no owner/admin role found *)
           head (BusinessListResponse.businesses response)
       end in
     match primaryBusiness with
     | None => mret None
     | Some primaryBusiness =>
         (* Get full business details *)
         businessResponse ← getBusiness (BusinessListItem.id primaryBusiness) details;
         mret (BusinessResponse.business businessResponse)
     end)
    (fun error => mret None).

End businessAPI.

(** ** The onboarding page ([src/app/onboarding/page.tsx]) *)

Module Onboarding.

(** [BusinessFormData], the values of the form. *)
Record BusinessFormData := mkBusinessFormData {
  name : string;
  slug : string;
  industry : string;
  description : string;
  tone : string
}.

(** The state variables [currentStep] and [isLoading], the toasts shown
    (oldest first), and the navigations that were scheduled with
    [setTimeout(() => router.push(path), delay)] (oldest first). *)
Record State := mkState {
  currentStep : Z;
  isLoading : bool;
  toasts : list Toast;
  scheduled : list (string * Z)
}.

Definition setIsLoading (b : bool) : Eff State unit :=
  modify (fun st => mkState (currentStep st) b (toasts st) (scheduled st)).

Definition toast (k : ToastKind) (t : string) (d : option string) : Eff State unit :=
  modify (fun st =>
    mkState (currentStep st) (isLoading st) (toasts st ++ [mkToast k t d]) (scheduled st)).

(** [setTimeout(() => { router.push(path) }, delay)] *)
Definition push_later (path : string) (delay : Z) : Eff State unit :=
  modify (fun st =>
    mkState (currentStep st) (isLoading st) (toasts st) (scheduled st ++ [(path, delay)])).

(** [onSubmit(data)]; [reply] is the outcome of the POST of
    [createBusiness]. *)
Definition onSubmit (data : BusinessFormData) (reply : Fetch BusinessResponse.t)
  : Eff State unit :=
  setIsLoading true;;
  try_finally
    (try_catch
       ((* Create business using the API *)
        response ← businessAPI.createBusiness reply;
        if BusinessResponse.success response then
          toast ToastSuccess "Business registered successfully!"
                (Some "Welcome to Traliq.ai! Redirecting to your dashboard...");;
          (* Redirect to dashboard after successful registration *)
          push_later "/dashboard" 1500
        else
          throw (new_Error (str_or (BusinessResponse.message response)
                                   "Failed to create business")))
       (fun error =>
          let errorMessage := emessage error in
          toast ToastError "Registration failed"
                (Some (if includes errorMessage "401" || includes errorMessage "403"
                       then "Please log in again to continue."
                       else "Please try again or contact support if the issue persists."));;
          (* If authentication error, redirect to login *)
          if includes errorMessage "401" || includes errorMessage "403" then
            push_later "/auth/login" 2000
          else mret tt))
    (setIsLoading false).

End Onboarding.

(** A DOM [File]. *)
Module File.

Record t := mk {
  name : string;
  size : Z;
  type : string
}.

End File.

Inductive FileStatus := uploading | success_ | error_ | processing.

Module UploadedFile.

(** [url] and [category] are never assigned and are left out;
    [uploadedAt] holds the reading of the clock. *)
Record t := mk {
  id : string;
  name : string;
  size : Z;
  type : string;
  status : FileStatus;
  progress : Q;
  uploadedAt : option Z;
  taskId : option string;
  documentId : option string;
  errorMessage : option string
}.

End UploadedFile.

(** The requests the documents page sends. *)
Inductive Request :=
| ReqUpload (file : File.t) (businessId : string)       (* POST /documents/upload *)
| ReqTaskStatus (taskId : string)                       (* GET /documents/status/{taskId} *)
| ReqListDocuments (businessId : string) (limit offset : Z).  (* GET /documents *)

(** The calls that the event loop makes later: the functions handed to
    [setTimeout], and the rest of a call that waits for a reply. *)
Inductive Callback :=
| CbPoll (currentBusiness : option Business.t) (taskId fileId : string)
    (* [() => pollTaskStatus(taskId, fileId)], with the [currentBusiness]
       that the closure of [pollTaskStatus] holds *)
| CbPollStarted (currentBusiness : option Business.t) (taskId fileId : string)
                (request : nat)
    (* the rest of a call [pollTaskStatus(taskId, fileId)] that was made
       and not awaited: the call has sent the status request number
       [request], and goes on when that request is answered *)
| CbLoadDocuments (businessId : string)
    (* [() => loadDocuments(currentBusiness.id)] *)
| CbAbort
    (* [() => controller.abort()] *)
| CbResolve.
    (* [resolve] of a promise that the caller awaits *)

(** What the page does that is visible from outside, in order. *)
Inductive Event :=
| EvRequest (r : Request)
| EvSetTimeout (cb : Callback) (delay : Q)
| EvClearTimeout
| EvToast (t : Toast)
| EvFileStatus (fileId : string) (s : FileStatus).
    (* a [setFiles] that gives the files with this id the status [s] *)

(** The world of the documents page:
      - [files], [isUploading]: state variables of the component;
      - [log]: the events so far, oldest first;
      - [pending]: the calls that later turns of the event loop make, in
        the order in which they were queued: the callbacks of the
        [setTimeout]s of the page, and what is left to do of the calls of
        [pollTaskStatus] that were made and not awaited.  The abort timer
        of a status request and the pause of a retry are logged and not
        queued: what they do is part of the outcome of the request they
        belong to;
      - [status_backend n]: the outcome of the [n]-th request of
        [/documents/status/...], a network error, a timeout or a reply;
      - [status_requests]: the number of such requests sent so far. *)
Record World := mkWorld {
  files : list UploadedFile.t;
  isUploading : bool;
  log : list Event;
  pending : list Callback;
  status_backend : nat -> Fetch TaskStatusResponse.t;
  status_requests : nat
}.

Definition emit (e : Event) : Eff World unit :=
  modify (fun w =>
    mkWorld (files w) (isUploading w) (log w ++ [e]) (pending w)
            (status_backend w) (status_requests w)).

Definition enqueue (cb : Callback) : Eff World unit :=
  modify (fun w =>
    mkWorld (files w) (isUploading w) (log w) (pending w ++ [cb])
            (status_backend w) (status_requests w)).

(** [setTimeout(cb, delay)] for a callback of the page. *)
Definition setTimeout (cb : Callback) (delay : Q) : Eff World unit :=
  emit (EvSetTimeout cb delay);; enqueue cb.

(** [setFiles(prev => f prev)] *)
Definition setFiles (f : list UploadedFile.t -> list UploadedFile.t) : Eff World unit :=
  modify (fun w =>
    mkWorld (f (files w)) (isUploading w) (log w) (pending w)
            (status_backend w) (status_requests w)).

Definition setIsUploading (b : bool) : Eff World unit :=
  modify (fun w =>
    mkWorld (files w) b (log w) (pending w)
            (status_backend w) (status_requests w)).

Definition toast_success (msg : string) : Eff World unit :=
  emit (EvToast (mkToast ToastSuccess msg None)).

Definition toast_error (msg : string) : Eff World unit :=
  emit (EvToast (mkToast ToastError msg None)).

(** ** [DocumentAPI] ([src/lib/api.ts]) *)

(** What an [XMLHttpRequest] ends with. *)
Inductive XhrOutcome :=
| XhrLoad (r : Response UploadResponse.t)
| XhrError
| XhrTimeout.

(** An upload as the backend and the network decide it: the percentages
    [(event.loaded / event.total) * 100] of the computable progress
    events, and the end of the request. *)
Record Upload := mkUpload {
  progress_events : list Q;
  outcome : XhrOutcome
}.

Module DocumentAPI.

(** [async uploadDocument(file, businessId, onProgress)] *)
Definition uploadDocument (file : File.t) (businessId : string)
           (onProgress : Q -> Eff World unit) (up : Upload)
  : Eff World UploadResponse.t :=
  emit (EvRequest (ReqUpload file businessId));;
  mapM onProgress (progress_events up);;
  match outcome up with
  | XhrLoad xhr =>
      if (200 <=? status xhr) && (status xhr <? 300) then
        match json xhr with
        | Normal response => mret response
        | Throw _ => throw (new_Error "Invalid JSON response")
        end
      else
        match error_json xhr with
        | Normal errorResponse =>
            throw (new_Error (or_else (detail errorResponse) (http_status xhr)))
        | Throw _ => throw (new_Error (http_status_line xhr))
        end
  | XhrError => throw (new_Error "Network error occurred")
  | XhrTimeout => throw (new_Error "Upload timeout")
  end.

(** The start of a status request, the part of the [try] block of
    [getTaskStatus] before its [await]: the timer that aborts the request
    is set and [fetch] is called.  A call of an [async] function runs
    this far at once, also when the caller does not await it; the
    result is the number of the request. *)
Definition send_status (taskId : string) : Eff World nat :=
  emit (EvSetTimeout CbAbort 10000);;  (* 10 second timeout for status checks *)
  w ← get_world;
  emit (EvRequest (ReqTaskStatus taskId));;
  modify (fun w =>
    mkWorld (files w) (isUploading w) (log w) (pending w)
            (status_backend w) (S (status_requests w)));;
  mret (status_requests w).

(** What a reply that is not [ok] makes [getTaskStatus],
    [listDocuments], [searchDocuments], [getQueueInfo], [cancelTask] and
    [getDownloadUrl] throw:
    [const errorData = await response.json().catch(() => ({}));
     throw new Error(errorData.detail || `HTTP ${response.status}`)].
    The [catch] replaces a body that is not JSON by [{}]; it does not
    run for the body [null], on which the read of [detail] throws. *)
Definition error_of_reply {T} (response : Response T) : JsError :=
  let errorData :=
    match error_body response with
    | Normal parsed => parsed
    | Throw _ => Some {| detail := None |}
    end in
  match errorData with
  | Some errorData => new_Error (or_else (detail errorData) (http_status response))
  | None => null_property_error   (* [errorData.detail] on [null] *)
  end.

(** The shape of [listDocuments], [searchDocuments], [getQueueInfo],
    [cancelTask] and [getDownloadUrl] once their request is sent: one
    [fetch], the check of [response.ok], [response.json()]. *)
Definition call {W T} (reply : Fetch T) : Eff W T :=
  response ← await_fetch reply;
  if negb (ok response) then throw (error_of_reply response)
  else await (json response).

(** [async getTaskStatus(taskId, retryCount = 0)] from the [await] of
    its [fetch] on, [request] being the number of the status request
    that [send_status] has sent.  The function calls itself with
    [retryCount + 1] while [retryCount < 3]; [fuel] bounds the depth of
    these calls, and [getTaskStatus] below gives it the value
    [3 - retryCount], which they never exceed.

    Both [return]s hand a promise to the caller without awaiting it, so
    a rejection of [response.json()] is not caught by the [catch] of the
    function. *)
Fixpoint getTaskStatus_from (fuel : nat) (taskId : string) (retryCount : nat)
         (request : nat) : Eff World TaskStatusResponse.t :=
  returned ← try_catch
    (w ← get_world;
     response ← await_fetch (status_backend w request);
     emit EvClearTimeout;;
     if negb (ok response) then throw (error_of_reply response)
     else mret (inl response))
    (fun error =>
       (* Retry logic for network errors *)
       if (retryCount <? 3)%nat &&
          (bool_decide (ename error = "AbortError") || includes (emessage error) "fetch")
       then
         emit (EvSetTimeout CbResolve (inject_Z (1000 * (Z.of_nat retryCount + 1))));;
         mret (inr tt)
       else throw error);
  match returned with
  | inl response => await (json response)
  | inr _ =>
      match fuel with
      | S fuel' =>
          request' ← send_status taskId;
          getTaskStatus_from fuel' taskId (S retryCount) request'
      | O => throw (new_Error "getTaskStatus: out of fuel")
      end
  end.

Definition getTaskStatus_fuel (fuel : nat) (taskId : string) (retryCount : nat)
  : Eff World TaskStatusResponse.t :=
  request ← send_status taskId;
  getTaskStatus_from fuel taskId retryCount request.

Definition getTaskStatus (taskId : string) (retryCount : nat)
  : Eff World TaskStatusResponse.t :=
  getTaskStatus_fuel (3 - retryCount) taskId retryCount.

(** What is left of a call [getTaskStatus(taskId)] once it has sent its
    first request. *)
Definition getTaskStatus_started (taskId : string) (request : nat)
  : Eff World TaskStatusResponse.t :=
  getTaskStatus_from 3 taskId 0 request.

(** [async listDocuments(businessId, limit, offset)] up to its request;
    the reply fills the document table of the page, which is not
    modelled. *)
Definition listDocuments (businessId : string) (limit offset : Z) : Eff World unit :=
  emit (EvRequest (ReqListDocuments businessId limit offset)).

End DocumentAPI.

(** ** [DocumentsPage] ([src/app/dashboard/integrations/page.tsx]) *)

(** [c.toLowerCase()] on the letters A to Z; other characters are kept. *)
Definition lower_ascii (c : ascii) : ascii :=
  let n := nat_of_ascii c in
  if ((65 <=? n) && (n <=? 90))%nat then ascii_of_nat (n + 32) else c.

Fixpoint toLowerCase (s : string) : string :=
  match s with
  | EmptyString => EmptyString
  | String c rest => String (lower_ascii c) (toLowerCase rest)
  end.

(** [s.split('.').pop()]: what follows the last dot of [s], all of [s]
    when it has none.  [seg] is the segment read so far. *)
Fixpoint split_dot_pop (s seg : string) : string :=
  match s with
  | EmptyString => seg
  | String c rest =>
      if Ascii.eqb c "."%char then split_dot_pop rest EmptyString
      else split_dot_pop rest (seg +:+ String c EmptyString)
  end.

(** [l.join(', ')] *)
Definition join_comma (l : list string) : string := String.concat ", " l.

Module DocumentsPage.

Definition acceptedFileTypes : list string := config.upload.acceptedFileTypes.
Definition maxFileSize : Z := config.upload.maxFileSize.

(** [formatFileSize(maxFileSize)]: the function works on floating-point
    logarithms and is given here at the one argument [validateFile] calls
    it with, 10 MiB. *)
Definition formatFileSize_maxFileSize : string := "10 MB".

(** [loadDocuments(businessId)] *)
Definition loadDocuments (businessId : string) : Eff World unit :=
  DocumentAPI.listDocuments businessId 100 0.

(** [validateFile(file)] *)
Definition validateFile (file : File.t) : Eff World bool :=
  if maxFileSize <? File.size file then
    toast_error ("File too large. Maximum size is " +:+ formatFileSize_maxFileSize);;
    mret false
  else
    let fileExtension := "." +:+ toLowerCase (split_dot_pop (File.name file) EmptyString) in
    if negb (bool_decide (fileExtension ∈ acceptedFileTypes)) then
      toast_error ("Invalid file type. Supported types: " +:+ join_comma acceptedFileTypes);;
      mret false
    else mret true.

(** [prev.map(f => f.id === fileId ? g f : f)] *)
Definition update_file (fileId : string) (g : UploadedFile.t -> UploadedFile.t)
           (prev : list UploadedFile.t) : list UploadedFile.t :=
  map (fun f => if bool_decide (UploadedFile.id f = fileId) then g f else f) prev.

Definition with_status (s : FileStatus) (f : UploadedFile.t) : UploadedFile.t :=
  UploadedFile.mk (UploadedFile.id f) (UploadedFile.name f) (UploadedFile.size f)
    (UploadedFile.type f) s (UploadedFile.progress f) (UploadedFile.uploadedAt f)
    (UploadedFile.taskId f) (UploadedFile.documentId f) (UploadedFile.errorMessage f).

Definition with_error (msg : string) (f : UploadedFile.t) : UploadedFile.t :=
  UploadedFile.mk (UploadedFile.id f) (UploadedFile.name f) (UploadedFile.size f)
    (UploadedFile.type f) error_ (UploadedFile.progress f) (UploadedFile.uploadedAt f)
    (UploadedFile.taskId f) (UploadedFile.documentId f) (Some msg).

Definition with_progress (p : Q) (f : UploadedFile.t) : UploadedFile.t :=
  UploadedFile.mk (UploadedFile.id f) (UploadedFile.name f) (UploadedFile.size f)
    (UploadedFile.type f) (UploadedFile.status f) p (UploadedFile.uploadedAt f)
    (UploadedFile.taskId f) (UploadedFile.documentId f) (UploadedFile.errorMessage f).

Definition with_upload (response : UploadResponse.t) (now : Z) (f : UploadedFile.t)
  : UploadedFile.t :=
  UploadedFile.mk (UploadedFile.id f) (UploadedFile.name f) (UploadedFile.size f)
    (UploadedFile.type f) processing 100 (Some now)
    (Some (UploadResponse.task_id response)) (Some (UploadResponse.document_id response))
    (UploadedFile.errorMessage f).

(** [setFiles(prev => prev.map(f => f.id === fileId ? g f : f))] for a
    [g] that sets the status [s]; the log records the update. *)
Definition setFileStatus (fileId : string) (s : FileStatus)
           (g : UploadedFile.t -> UploadedFile.t) : Eff World unit :=
  setFiles (update_file fileId g);;
  emit (EvFileStatus fileId s).

(** The body of [pollTaskStatus(taskId, fileId)] around its call of
    [getTaskStatus]; [status] is that call, or what is left of it.
    [currentBusiness] is the value the closure holds. *)
Definition poll_with (currentBusiness : option Business.t) (taskId fileId : string)
           (status : Eff World TaskStatusResponse.t) : Eff World unit :=
  try_catch
    (statusResponse ← status;
     if bool_decide (TaskStatusResponse.status statusResponse = "completed") then
       setFileStatus fileId success_ (with_status success_);;
       toast_success "Document processing completed";;
       (* Refresh documents list when processing completes *)
       match currentBusiness with
       | Some b => loadDocuments (Business.id b)
       | None => mret tt
       end
     else if bool_decide (TaskStatusResponse.status statusResponse = "failed") then
       setFileStatus fileId error_
         (with_error (or_else (TaskStatusResponse.message statusResponse) "Processing failed"));;
       toast_error "Document processing failed"
     else
       (* Still processing, poll again after configured interval *)
       setTimeout (CbPoll currentBusiness taskId fileId) config.polling.interval)
    (fun err =>
       (* Continue polling in case of temporary network issues with backoff *)
       setTimeout (CbPoll currentBusiness taskId fileId)
                  (config.polling.interval * config.polling.backoffMultiplier)%Q).

(** [pollTaskStatus(taskId, fileId)], one call run to its end. *)
Definition pollTaskStatus (currentBusiness : option Business.t) (taskId fileId : string)
  : Eff World unit :=
  poll_with currentBusiness taskId fileId (DocumentAPI.getTaskStatus taskId 0).

(** What is left of a call [pollTaskStatus(taskId, fileId)] that has
    sent the status request number [request]. *)
Definition pollTaskStatus_started (currentBusiness : option Business.t)
           (taskId fileId : string) (request : nat) : Eff World unit :=
  poll_with currentBusiness taskId fileId (DocumentAPI.getTaskStatus_started taskId request).

(** [uploadFile(file, fileId)]; [up] decides the upload, [now] is the
    reading of the clock by [new Date()].  The call of [pollTaskStatus]
    is not awaited: it runs as far as the [fetch] of [getTaskStatus],
    before [uploadFile] goes on, and the rest of it is queued for the
    turn of the event loop in which the reply arrives. *)
Definition uploadFile (currentBusiness : option Business.t) (file : File.t)
           (fileId : string) (up : Upload) (now : Z) : Eff World unit :=
  match currentBusiness with
  | None => toast_error "No business selected"
  | Some b =>
      try_catch
        (response ← DocumentAPI.uploadDocument file (Business.id b)
                      (fun progress => setFiles (update_file fileId (with_progress progress)))
                      up;
         (* Update file with upload response *)
         setFileStatus fileId processing (with_upload response now);;
         toast_success ("Upload successful: " +:+ UploadResponse.filename response);;
         (* Start polling for processing status *)
         request ← DocumentAPI.send_status (UploadResponse.task_id response);
         enqueue (CbPollStarted currentBusiness (UploadResponse.task_id response) fileId
                                request);;
         (* Refresh documents list after successful upload *)
         setTimeout (CbLoadDocuments (Business.id b)) 1000)
        (fun err =>
           let errorMessage := emessage err in
           setFileStatus fileId error_ (with_error errorMessage);;
           toast_error ("Upload failed: " +:+ errorMessage))
  end.

(** The [forEach] of [handleFiles]: validate each file and give the valid
    ones an id; [ids n] is the [n]-th value of
    [Math.random().toString(36).substring(7)]. *)
Fixpoint validate_all (ids : nat -> string) (n : nat) (fileList : list File.t)
  : Eff World (list (File.t * string)) :=
  match fileList with
  | [] => mret []
  | file :: rest =>
      valid ← validateFile file;
      if valid : bool then
        validFiles ← validate_all ids (S n) rest;
        mret ((file, ids n) :: validFiles)
      else validate_all ids n rest
  end.

(** The entry of [newFiles] for a valid file. *)
Definition new_file (entry : File.t * string) : UploadedFile.t :=
  UploadedFile.mk (snd entry) (File.name (fst entry)) (File.size (fst entry))
    (File.type (fst entry)) uploading 0 None None None None.

(** The loop [for (const { file, fileId } of validFiles) await uploadFile(file, fileId)];
    [now n] is the reading of the clock by the upload number [n] of the
    loop.  The queued calls that the event loop makes while an upload is
    under way are left in the queue: the model follows the schedule in
    which they run after the loop. *)
Fixpoint upload_all (currentBusiness : option Business.t)
         (uploads : File.t -> Upload) (now : nat -> Z) (n : nat)
         (validFiles : list (File.t * string)) : Eff World unit :=
  match validFiles with
  | [] => mret tt
  | (file, fileId) :: rest =>
      uploadFile currentBusiness file fileId (uploads file) (now n);;
      upload_all currentBusiness uploads now (S n) rest
  end.

(** [handleFiles(fileList)] *)
Definition handleFiles (currentBusiness : option Business.t)
           (ids : nat -> string) (uploads : File.t -> Upload) (now : nat -> Z)
           (fileList : list File.t) : Eff World unit :=
  w ← get_world;
  if isUploading w then
    toast_error "Please wait for current uploads to complete"
  else
    validFiles ← validate_all ids 0 fileList;
    let newFiles := map new_file validFiles in
    if (0 <? length newFiles)%nat then
      setFiles (fun prev => prev ++ newFiles);;
      setIsUploading true;;
      (* Upload files sequentially to avoid overwhelming the server *)
      upload_all currentBusiness uploads now 0 validFiles;;
      setIsUploading false
    else mret tt.

(** [removeFile(fileId)] *)
Definition removeFile (fileId : string) : Eff World unit :=
  setFiles (List.filter (fun f => negb (bool_decide (UploadedFile.id f = fileId)))).

(** One turn of the event loop: the oldest queued call runs. *)
Definition fire : Eff World unit :=
  w ← get_world;
  match pending w with
  | [] => mret tt
  | cb :: rest =>
      modify (fun w =>
        mkWorld (files w) (isUploading w) (log w) rest
                (status_backend w) (status_requests w));;
      match cb with
      | CbPoll currentBusiness taskId fileId => pollTaskStatus currentBusiness taskId fileId
      | CbPollStarted currentBusiness taskId fileId request =>
          pollTaskStatus_started currentBusiness taskId fileId request
      | CbLoadDocuments businessId => loadDocuments businessId
      | CbAbort | CbResolve => mret tt
      end
  end.

(** [n] turns of the event loop. *)
Fixpoint run (n : nat) : Eff World unit :=
  match n with
  | O => mret tt
  | S n' => fire;; run n'
  end.

End DocumentsPage.

(** ** The chat page (component [Chat]) *)

Module ChatMessage.

(** ['user' | 'bot'] *)
Inductive Sender := user | bot.

(** ['sending' | 'sent' | 'error'] *)
Inductive Status := sending | sent | error.

Record t := mk {
  id : string;
  content : string;
  sender : Sender;
  timestamp : Z;
  status : option Status;
  confidence_score : option Q;
  model_used : option string
}.

End ChatMessage.

Module ChatRequest.

Record t := mk {
  message : string;
  business_namespace : string;
  conversation_id : option string;
  session_id : option string;
  customer_id : option string;
  customer_email : option string;
  customer_name : option string;
  channel : option string
}.

End ChatRequest.

Module ChatResponse.

Record t := mk {
  success : bool;
  response : string;
  conversation_id : string;
  message_id : option string;
  confidence_score : option Q;
  context_used : option Q;
  model_used : option string;
  processing_time_ms : option Q
}.

End ChatResponse.

Module ConversationCreateRequest.

Record t := mk {
  business_namespace : string;
  session_id : option string;
  customer_id : option string;
  customer_email : option string;
  customer_name : option string;
  channel : option string;
  initial_query : option string
}.

End ConversationCreateRequest.

Module ConversationResponse.

Record t := mk {
  success : bool;
  conversation_id : string;
  status : string;
  created_at : option string
}.

End ConversationResponse.

Module BotConfig.

(** The required field of a bot configuration and the two fields that
    the chat page reads. *)
Record t := mk {
  bot_name : string;
  greeting_message : option string;
  fallback_message : option string
}.

End BotConfig.

Module BotConfigResponse.

Record t := mk {
  success : bool;
  config : BotConfig.t
}.

End BotConfigResponse.

Module ChatPage.

(** The requests of the page to the chatbot service. *)
Inductive Request :=
| ReqHealth                                              (* GET /api/v1/chatbot/health *)
| ReqBotConfig (businessNamespace : string)              (* GET /api/v1/chatbot/config/{ns} *)
| ReqConversation (request : ConversationCreateRequest.t)  (* POST /api/v1/chatbot/conversations *)
| ReqChat (chatRequest : ChatRequest.t).                 (* POST /api/v1/chatbot/chat *)

(** [toast(message)] and [toast.error(message)] *)
Inductive Shown :=
| ToastPlain (message : string)
| ToastFailure (message : string).

(** The state variables of the component. *)
Record State := mkState {
  messages : list ChatMessage.t;
  inputValue : string;
  isTyping : bool;
  isLoading : bool;
  isConnected : bool;
  conversationId : option string;
  businessNamespace : option string;
  botConfig : option BotConfig.t;
  error : option string
}.

(** The page and what it did: the toasts shown and the requests sent,
    oldest first, and the numbers of readings of the clock and of
    [Math.random()] so far. *)
Record World := mkWorld {
  state : State;
  toasts : list Shown;
  requests : list Request;
  clock_reads : nat;
  random_reads : nat
}.

Definition setState (f : State -> State) : Eff World unit :=
  modify (fun w =>
    mkWorld (f (state w)) (toasts w) (requests w) (clock_reads w) (random_reads w)).

(** [setMessages(prev => f prev)] *)
Definition setMessages (f : list ChatMessage.t -> list ChatMessage.t) : Eff World unit :=
  setState (fun st =>
    mkState (f (messages st)) (inputValue st) (isTyping st) (isLoading st) (isConnected st)
            (conversationId st) (businessNamespace st) (botConfig st) (error st)).

Definition setInputValue (v : string) : Eff World unit :=
  setState (fun st =>
    mkState (messages st) v (isTyping st) (isLoading st) (isConnected st)
            (conversationId st) (businessNamespace st) (botConfig st) (error st)).

Definition setIsTyping (b : bool) : Eff World unit :=
  setState (fun st =>
    mkState (messages st) (inputValue st) b (isLoading st) (isConnected st)
            (conversationId st) (businessNamespace st) (botConfig st) (error st)).

Definition setIsLoading (b : bool) : Eff World unit :=
  setState (fun st =>
    mkState (messages st) (inputValue st) (isTyping st) b (isConnected st)
            (conversationId st) (businessNamespace st) (botConfig st) (error st)).

Definition setIsConnected (b : bool) : Eff World unit :=
  setState (fun st =>
    mkState (messages st) (inputValue st) (isTyping st) (isLoading st) b
            (conversationId st) (businessNamespace st) (botConfig st) (error st)).

Definition setConversationId (v : option string) : Eff World unit :=
  setState (fun st =>
    mkState (messages st) (inputValue st) (isTyping st) (isLoading st) (isConnected st)
            v (businessNamespace st) (botConfig st) (error st)).

Definition setBusinessNamespace (v : option string) : Eff World unit :=
  setState (fun st =>
    mkState (messages st) (inputValue st) (isTyping st) (isLoading st) (isConnected st)
            (conversationId st) v (botConfig st) (error st)).

Definition setBotConfig (v : option BotConfig.t) : Eff World unit :=
  setState (fun st =>
    mkState (messages st) (inputValue st) (isTyping st) (isLoading st) (isConnected st)
            (conversationId st) (businessNamespace st) v (error st)).

Definition setError (v : option string) : Eff World unit :=
  setState (fun st =>
    mkState (messages st) (inputValue st) (isTyping st) (isLoading st) (isConnected st)
            (conversationId st) (businessNamespace st) (botConfig st) v).

Definition show (t : Shown) : Eff World unit :=
  modify (fun w =>
    mkWorld (state w) (toasts w ++ [t]) (requests w) (clock_reads w) (random_reads w)).

Definition send (r : Request) : Eff World unit :=
  modify (fun w =>
    mkWorld (state w) (toasts w) (requests w ++ [r]) (clock_reads w) (random_reads w)).

(** [prev.map(msg => msg.id === id ? { ...msg, status: s } : msg)] *)
Definition mark (id : string) (s : ChatMessage.Status) (prev : list ChatMessage.t)
  : list ChatMessage.t :=
  map (fun msg =>
         if bool_decide (ChatMessage.id msg = id) then
           ChatMessage.mk (ChatMessage.id msg) (ChatMessage.content msg)
             (ChatMessage.sender msg) (ChatMessage.timestamp msg) (Some s)
             (ChatMessage.confidence_score msg) (ChatMessage.model_used msg)
         else msg)
      prev.

Section Component.

(** [const { user } = useAuth()] *)
Variable user : option UserProfile.
(** [const [sessionId] = useState(() => chatAPI.generateSessionId())] *)
Variable sessionId : string.
(** [clock n] is the [n]-th reading of the clock, by [Date.now()] or
    [new Date()], in milliseconds; [random n] is the [n]-th value of
    [Math.random().toString(36).substr(2, 9)]. *)
Variable clock : nat -> Z.
Variable random : nat -> string.

Definition Date_now : Eff World Z :=
  w ← get_world;
  modify (fun w =>
    mkWorld (state w) (toasts w) (requests w) (S (clock_reads w)) (random_reads w));;
  mret (clock (clock_reads w)).

(** [chatAPI.generateCustomerId()] *)
Definition generateCustomerId : Eff World string :=
  now ← Date_now;
  w ← get_world;
  modify (fun w =>
    mkWorld (state w) (toasts w) (requests w) (clock_reads w) (S (random_reads w)));;
  mret ("customer_" +:+ pretty now +:+ "_" +:+ random (random_reads w)).

(** [chatAPI.healthCheck()], [chatAPI.getBotConfig(businessNamespace)],
    [chatAPI.createConversation(request)] and
    [chatAPI.sendMessage(chatRequest)], each with the outcome of its
    request. *)
Definition healthCheck (reply : Fetch HealthData) : Eff World bool :=
  send ReqHealth;;
  ChatAPI.healthCheck reply.

Definition getBotConfig (businessNamespace : string) (reply : Fetch BotConfigResponse.t)
  : Eff World BotConfigResponse.t :=
  send (ReqBotConfig businessNamespace);;
  ChatAPI.call reply.

Definition createConversation (request : ConversationCreateRequest.t)
           (reply : Fetch ConversationResponse.t) : Eff World ConversationResponse.t :=
  send (ReqConversation request);;
  ChatAPI.call reply.

Definition sendMessage (chatRequest : ChatRequest.t) (reply : Fetch ChatResponse.t)
  : Eff World ChatResponse.t :=
  send (ReqChat chatRequest);;
  ChatAPI.call reply.

(** [initializeChat()].  The callback reads [botConfig] from the render
    that made it: the configuration that this call fetches and sets is
    not the one its welcome message is written from. *)
Definition initializeChat (list_reply : Fetch BusinessListResponse.t)
           (details : string -> Fetch BusinessResponse.t)
           (health_reply : Fetch HealthData)
           (config_reply : Fetch BotConfigResponse.t)
           (conversation_reply : Fetch ConversationResponse.t) : Eff World unit :=
  match user with
  | None => mret tt
  | Some user =>
      w ← get_world;
      let botConfig := botConfig (state w) in
      try_finally
        (try_catch
           (setIsLoading true;;
            setError None;;
            (* Get user's primary business *)
            business ← businessAPI.getPrimaryBusiness list_reply details;
            match business with
            | None => setError (Some "No business found. Please register a business first.")
            | Some business =>
                setBusinessNamespace (Some (Business.namespace business));;
                (* Check chatbot service health *)
                healthCheck health_reply;;
                setIsConnected true;;
                (* Get bot configuration *)
                try_catch
                  (configResponse ← getBotConfig (Business.namespace business) config_reply;
                   if BotConfigResponse.success configResponse then
                     setBotConfig (Some (BotConfigResponse.config configResponse))
                   else mret tt)
                  (fun configError => mret tt);;
                (* Create conversation *)
                customer_id ← generateCustomerId;
                conversationResponse ←
                  createConversation
                    (ConversationCreateRequest.mk
                       (Business.namespace business)
                       (Some sessionId)
                       (Some customer_id)
                       (Some (email user))
                       (* Use user.name (matches UserProfile) with fallback to email *)
                       (Some (or_else (name user) (email user)))
                       (Some "web_chat")
                       None)
                    conversation_reply;
                if ConversationResponse.success conversationResponse then
                  setConversationId
                    (Some (ConversationResponse.conversation_id conversationResponse));;
                  (* Add welcome message *)
                  date ← Date_now;
                  let welcomeMessage :=
                    ChatMessage.mk "welcome"
                      (or_else (botConfig ≫= BotConfig.greeting_message)
                         "Hello! I'm here to help you with any questions you might have. How can I assist you today?")
                      ChatMessage.bot date (Some ChatMessage.sent) None None in
                  setMessages (fun _ => [welcomeMessage])
                else mret tt
            end)
           (fun err =>
              setError (Some (emessage err));;
              setIsConnected false;;
              show (ToastFailure "Failed to connect to chat service. Please try again.")))
        (setIsLoading false)
  end.

(** [handleSendMessage()]; [reply] is the outcome of the POST of
    [sendMessage].  The values that the callback reads, [inputValue],
    [isLoading], [businessNamespace], [conversationId] and [botConfig],
    are those of the state when it is called.  The test on
    [!businessNamespace] and [!conversationId] comes first here, for
    the case [null], and again in the order of the source for the
    empty string. *)
Definition handleSendMessage (reply : Fetch ChatResponse.t) : Eff World unit :=
  w ← get_world;
  let st := state w in
  match businessNamespace st, conversationId st with
  | Some businessNamespace, Some conversationId =>
      if negb (truthy (trim (inputValue st))) || isLoading st ||
         negb (truthy businessNamespace) || negb (truthy conversationId)
      then mret tt
      else
        let messageContent := trim (inputValue st) in
        now ← Date_now;
        date ← Date_now;
        let userMessage :=
          ChatMessage.mk (pretty now) messageContent ChatMessage.user date
            (Some ChatMessage.sending) None None in
        setMessages (fun prev => prev ++ [userMessage]);;
        setInputValue "";;
        setIsLoading true;;
        setIsTyping true;;
        setError None;;
        try_finally
          (try_catch
             ((* Mark user message as sent *)
              setMessages (mark (ChatMessage.id userMessage) ChatMessage.sent);;
              (* Send message to Gemini AI via backend *)
              customer_id ← generateCustomerId;
              response ←
                sendMessage
                  (ChatRequest.mk messageContent businessNamespace (Some conversationId)
                     (Some sessionId) (Some customer_id)
                     (email <$> user)
                     (* Use user.name (matches UserProfile) with fallback to email *)
                     ((fun u => or_else (name u) (email u)) <$> user)
                     (Some "web_chat"))
                  reply;
              if ChatResponse.success response then
                id ←
                  match ChatResponse.message_id response with
                  | Some message_id =>
                      if truthy message_id then mret message_id
                      else now ← Date_now; mret (pretty (now + 1))
                  | None => now ← Date_now; mret (pretty (now + 1))
                  end;
                date ← Date_now;
                let botMessage :=
                  ChatMessage.mk id (ChatResponse.response response) ChatMessage.bot date
                    (Some ChatMessage.sent) (ChatResponse.confidence_score response)
                    (ChatResponse.model_used response) in
                setMessages (fun prev => prev ++ [botMessage])
              else throw (new_Error "Failed to get response from AI"))
             (fun err =>
                let errorMessage := emessage err in
                setError (Some errorMessage);;
                (* Mark user message as error *)
                setMessages (mark (ChatMessage.id userMessage) ChatMessage.error);;
                (* Add error bot message *)
                now ← Date_now;
                date ← Date_now;
                let errorBotMessage :=
                  ChatMessage.mk (pretty (now + 2))
                    (or_else (botConfig st ≫= BotConfig.fallback_message)
                       "I apologize, but I'm having trouble processing your request right now. Please try again.")
                    ChatMessage.bot date (Some ChatMessage.sent) None None in
                setMessages (fun prev => prev ++ [errorBotMessage]);;
                show (ToastFailure ("Message Failed: " +:+ errorMessage))))
          (setIsTyping false;;
           setIsLoading false)
  | _, _ => mret tt
  end.

(** [resetChat()] *)
Definition resetChat (list_reply : Fetch BusinessListResponse.t)
           (details : string -> Fetch BusinessResponse.t)
           (health_reply : Fetch HealthData)
           (config_reply : Fetch BotConfigResponse.t)
           (conversation_reply : Fetch ConversationResponse.t) : Eff World unit :=
  w ← get_world;
  if negb (truthy_opt (businessNamespace (state w))) then mret tt
  else
    try_catch
      (setMessages (fun _ => []);;
       setConversationId None;;
       setError None;;
       initializeChat list_reply details health_reply config_reply conversation_reply;;
       show (ToastPlain "Started a new conversation"))
      (fun err => show (ToastPlain "Reset Failed")).

End Component.

End ChatPage.

(** * Vocabulary of the statements *)

(** ** Sessions *)

(** What [hasRegisteredBusiness] answers, as a function of the outcome of
    its request (lemma [hasRegisteredBusiness_spec]). *)
Definition business_answer (status_reply : Fetch BusinessStatus) : bool :=
  match status_reply with
  | Rejected _ => false
  | Replied r =>
      if ok r then
        match json r with
        | Normal data => has_business data
        | Throw _ => false
        end
      else false
  end.

(** A computation keeps a preorder [R] on worlds when the world it ends in
    is related to the one it starts from, however it ends. *)
Definition keeps {W A} (R : W -> W -> Prop) (m : Eff W A) : Prop :=
  forall w, R w (snd (m w)).

(** How a step may change the stored token: not at all, to nothing, or
    to a string that is not empty. *)
Definition token_step (s s' : Storage) : Prop :=
  getItem "auth_token" s' = getItem "auth_token" s \/
  getItem "auth_token" s' = None \/
  exists t, getItem "auth_token" s' = Some t /\ t <> "".

(** The stored token is not the empty string. *)
Definition token_not_empty (s : Storage) : Prop :=
  getItem "auth_token" s <> Some "".

(** A sequence of operations of the provider.  The error that an
    operation throws goes to its caller (the login page shows it), and
    the next operation runs. *)
Fixpoint perform_all {J : Json} (ops : list AuthProvider.Op) : Eff AuthProvider.State unit :=
  match ops with
  | [] => mret tt
  | op :: rest =>
      try_catch (AuthProvider.perform op) (fun err => mret tt);;
      perform_all rest
  end.

(** [token_step] on the storage of the provider. *)
Definition session_step (st st' : AuthProvider.State) : Prop :=
  token_step (AuthProvider.storage st) (AuthProvider.storage st').

(** The paths on which [initializeAuth] looks at the business
    registration: [/], the paths that start with [/auth], and
    [/dashboard]. *)
Definition checked_path (currentPath : string) : bool :=
  bool_decide (currentPath = "/") || startsWith currentPath "/auth" ||
  bool_decide (currentPath = "/dashboard").

(** What [validateToken] answers for a stored token that is not empty. *)
Definition token_accepted (validate_reply : Fetch unit) : bool :=
  match validate_reply with
  | Replied r => ok r
  | Rejected err => instanceof_TypeError err && includes (emessage err) "fetch"
  end.

(** The storage without the two entries of the session. *)
Definition cleared (s : Storage) : Storage :=
  removeItem "user_profile" (removeItem "auth_token" s).

(** How a call of [AuthAPI] that reads the body of a failed reply with
    [await response.json()], outside any [catch] of its own, ends when
    its request fails: it leaves the storage alone; it throws the rejection
    of [fetch]; for a reply that is not 2xx it throws the [detail] of a
    JSON body, or [fallback] when there is none; and when that body is not
    JSON it throws the error of the parser. *)
Definition throws_server_error {T A} (call : Fetch T -> Eff Storage A) (fallback : string)
  : Prop :=
  forall s : Storage,
    (forall reply, exec (call reply) s = s) /\
    (forall e, eval (call (Rejected e)) s = Throw e) /\
    (forall r d, ok r = false -> error_json r = Normal d ->
                 eval (call (Replied r)) s = Throw (new_Error (or_else (detail d) fallback))) /\
    (forall r e, ok r = false -> error_json r = Throw e ->
                 eval (call (Replied r)) s = Throw e).

(** ** Businesses *)

(** The test of [getPrimaryBusiness] on an entry of the list:
    [business.user_role === 'owner' || business.user_role === 'admin']. *)
Definition owner_or_admin (business : BusinessListItem.t) : bool :=
  bool_decide (BusinessListItem.user_role business = owner) ||
  bool_decide (BusinessListItem.user_role business = admin).

(** The test of the onboarding page on the message of an error:
    [errorMessage.includes('401') || errorMessage.includes('403')]. *)
Definition mentions_auth_status (errorMessage : string) : bool :=
  includes errorMessage "401" || includes errorMessage "403".

(** ** Documents *)

(** The test of the [catch] of [getTaskStatus]:
    [retryCount < 3 && (error.name === 'AbortError' || error.message.includes('fetch'))]. *)
Definition retried (retryCount : nat) (error : JsError) : bool :=
  (retryCount <? 3)%nat &&
  (bool_decide (ename error = "AbortError") || includes (emessage error) "fetch").

(** The world after one status request that adds the events [evs] to the
    log. *)
Definition requested (evs : list Event) (w : World) : World :=
  mkWorld (files w) (isUploading w) (log w ++ evs) (pending w)
          (status_backend w) (S (status_requests w)).

(** The world with more events, with one more queued call, with other
    files. *)
Definition logged (evs : list Event) (w : World) : World :=
  mkWorld (files w) (isUploading w) (log w ++ evs) (pending w)
          (status_backend w) (status_requests w).

Definition queued (cb : Callback) (w : World) : World :=
  mkWorld (files w) (isUploading w) (log w) (pending w ++ [cb])
          (status_backend w) (status_requests w).

Definition with_files (f : list UploadedFile.t -> list UploadedFile.t) (w : World) : World :=
  mkWorld (f (files w)) (isUploading w) (log w) (pending w)
          (status_backend w) (status_requests w).

(** The world with the queue [q] of calls. *)
Definition with_pending (q : list Callback) (w : World) : World :=
  mkWorld (files w) (isUploading w) (log w) q (status_backend w) (status_requests w).

(** The pause of the retry number [retryCount] of [getTaskStatus]. *)
Definition retry_pause (retryCount : nat) : Event :=
  EvSetTimeout CbResolve (inject_Z (1000 * (Z.of_nat retryCount + 1))).

(** The abort timer of a status request. *)
Definition abort_timer : Event := EvSetTimeout CbAbort 10000.

(** What a call of [pollTaskStatus] does once [getTaskStatus] has answered
    [statusResponse]. *)
Definition poll_end (currentBusiness : option Business.t) (taskId fileId : string)
           (statusResponse : TaskStatusResponse.t) (w : World) : World :=
  if bool_decide (TaskStatusResponse.status statusResponse = "completed") then
    logged
      ([EvFileStatus fileId success_;
        EvToast (mkToast ToastSuccess "Document processing completed" None)] ++
       match currentBusiness with
       | Some b => [EvRequest (ReqListDocuments (Business.id b) 100 0)]
       | None => []
       end)
      (with_files
         (DocumentsPage.update_file fileId (DocumentsPage.with_status success_)) w)
  else if bool_decide (TaskStatusResponse.status statusResponse = "failed") then
    logged
      [EvFileStatus fileId error_;
       EvToast (mkToast ToastError "Document processing failed" None)]
      (with_files
         (DocumentsPage.update_file fileId
            (DocumentsPage.with_error
               (or_else (TaskStatusResponse.message statusResponse) "Processing failed")))
         w)
  else
    queued (CbPoll currentBusiness taskId fileId)
      (logged [EvSetTimeout (CbPoll currentBusiness taskId fileId) config.polling.interval] w).

(** A status is terminal when it is [completed] or [failed]. *)
Definition terminal (statusResponse : TaskStatusResponse.t) : bool :=
  bool_decide (TaskStatusResponse.status statusResponse = "completed") ||
  bool_decide (TaskStatusResponse.status statusResponse = "failed").

(** The events of one status request that is answered at once. *)
Definition status_round (taskId : string) : list Event :=
  [abort_timer; EvRequest (ReqTaskStatus taskId); EvClearTimeout].

(** The [i]-th status request from now on is answered at once, by a 2xx
    reply whose body is [statusResponse]. *)
Definition answers (w : World) (i : nat) (statusResponse : TaskStatusResponse.t) : Prop :=
  exists r,
    status_backend w (status_requests w + i) = Replied r /\
    ok r = true /\ json r = Normal statusResponse.

(** The events of [n] polls that find a status that is not terminal: each
    sends its request and sets the timer of the next poll. *)
Definition poll_rounds (cb : Callback) (taskId : string) (n : nat) : list Event :=
  concat (replicate n (status_round taskId ++ [EvSetTimeout cb config.polling.interval])).

(** The world after [n] such polls and the request of one more, when no
    call was queued before. *)
Definition polled (cb : Callback) (taskId : string) (n : nat) (w : World) : World :=
  mkWorld (files w) (isUploading w)
          (log w ++ poll_rounds cb taskId n ++ status_round taskId)
          []
          (status_backend w) (status_requests w + n + 1).

(** Counting events. *)
Definition is_terminal_update (fileId : string) (e : Event) : bool :=
  match e with
  | EvFileStatus f success_ | EvFileStatus f error_ => bool_decide (f = fileId)
  | _ => false
  end.

Definition is_list_request (e : Event) : bool :=
  match e with
  | EvRequest (ReqListDocuments _ _ _) => true
  | _ => false
  end.

Definition is_status_request (e : Event) : bool :=
  match e with
  | EvRequest (ReqTaskStatus _) => true
  | _ => false
  end.

Definition is_poll_timer (e : Event) : bool :=
  match e with
  | EvSetTimeout (CbPoll _ _ _) _ => true
  | _ => false
  end.

Definition count (p : Event -> bool) (l : list Event) : nat :=
  length (List.filter p l).

(** The [i]-th status request from now on, made by a call of
    [getTaskStatus] whose first request has the retry count [retryCount]:
    whether the call asks again after it, and what the call ends with if
    it does not. *)
Definition attempt_retried (retryCount : nat) (w : World) (i : nat) : bool :=
  match status_backend w (status_requests w + i) with
  | Rejected e => retried (retryCount + i) e
  | Replied r => negb (ok r) && retried (retryCount + i) (DocumentAPI.error_of_reply r)
  end.

Definition attempt_outcome (w : World) (i : nat) : Completion TaskStatusResponse.t :=
  match status_backend w (status_requests w + i) with
  | Rejected e => Throw e
  | Replied r => if ok r then json r else Throw (DocumentAPI.error_of_reply r)
  end.

(** The files of the upload requests among some events. *)
Fixpoint upload_requests (evs : list Event) : list File.t :=
  match evs with
  | [] => []
  | EvRequest (ReqUpload file _) :: rest => file :: upload_requests rest
  | _ :: rest => upload_requests rest
  end.

(** What an entry of the file list keeps of the file it was made for.
    The updates of the list by the page change the other fields only. *)
Definition entry_of (f : UploadedFile.t) : string * Z * string :=
  (UploadedFile.name f, UploadedFile.size f, UploadedFile.type f).

Definition file_entry (file : File.t) : string * Z * string :=
  (File.name file, File.size file, File.type file).

(** The file list [after] is the list [before] in which the entries with
    the id [fileId] have the status [s], and keep their name, size, type,
    progress, task and document; the other entries are the same. *)
Definition given_status (fileId : string) (s : FileStatus)
           (before after : list UploadedFile.t) : Prop :=
  Forall2 (fun f f' =>
             if bool_decide (UploadedFile.id f = fileId) then
               UploadedFile.id f' = fileId /\ UploadedFile.status f' = s /\
               entry_of f' = entry_of f /\
               UploadedFile.progress f' = UploadedFile.progress f /\
               UploadedFile.taskId f' = UploadedFile.taskId f /\
               UploadedFile.documentId f' = UploadedFile.documentId f
             else f' = f)
          before after.

(** From [w] to [w'] the log grows, by upload requests for files that
    satisfy [Q] only, and the file list grows, by entries for files that
    satisfy [Q] only. *)
Definition uploads_only (Q : File.t -> Prop) (w w' : World) : Prop :=
  (exists evs, log w' = log w ++ evs /\ Forall Q (upload_requests evs)) /\
  (exists added,
     map entry_of (files w') = map entry_of (files w) ++ map file_entry added /\
     Forall Q added).

(** The file is within the size limit. *)
Definition within_limit (file : File.t) : Prop :=
  File.size file <= config.upload.maxFileSize.

(** What [validateFile] decides: the size is within the limit and the
    lower-cased text after the last dot of the name, with a dot in front, is
    one of the accepted types (lemma [validateFile_spec]). *)
Definition accepted_file (file : File.t) : bool :=
  (File.size file <=? config.upload.maxFileSize) &&
  bool_decide ("." +:+ toLowerCase (split_dot_pop (File.name file) EmptyString)
               ∈ config.upload.acceptedFileTypes).

(** The ids that [handleFiles] gives to the files it accepts: the [n]-th
    random id and the following ones, in the order of the files. *)
Fixpoint with_ids (ids : nat -> string) (n : nat) (accepted : list File.t)
  : list (File.t * string) :=
  match accepted with
  | [] => []
  | file :: rest => (file, ids n) :: with_ids ids (S n) rest
  end.

(** The file list after the progress callbacks of an upload. *)
Definition progress_updates (fileId : string) (percentages : list Q)
           (prev : list UploadedFile.t) : list UploadedFile.t :=
  fold_left
    (fun files progress =>
       DocumentsPage.update_file fileId (DocumentsPage.with_progress progress) files)
    percentages prev.

(** A queued poll holds a business. *)
Definition holds_business (cb : Callback) : Prop :=
  match cb with
  | CbPoll currentBusiness _ _ => currentBusiness <> None
  | CbPollStarted currentBusiness _ _ _ => currentBusiness <> None
  | _ => True
  end.

(** From [w] to [w'] the queue grows, by polls that hold a business and by
    other calls. *)
Definition queues_polls_with_business (w w' : World) : Prop :=
  exists q, pending w' = pending w ++ q /\ Forall holds_business q.

(** ** Chat *)

(** The business that [getPrimaryBusiness] finds, if any. *)
Definition primary_business (list_reply : Fetch BusinessListResponse.t)
           (details : string -> Fetch BusinessResponse.t) : option Business.t :=
  match eval (businessAPI.getPrimaryBusiness list_reply details) tt with
  | Normal business => business
  | Throw _ => None
  end.

(** What a call of the chatbot service ends with, given the outcome of its
    request. *)
Definition answer {T} (reply : Fetch T) : Completion T :=
  eval (ChatAPI.call reply) tt.

(** The test that opens [handleSendMessage]. *)
Definition send_blocked (st : ChatPage.State) : bool :=
  negb (truthy (trim (ChatPage.inputValue st))) || ChatPage.isLoading st ||
  negb (truthy_opt (ChatPage.businessNamespace st)) ||
  negb (truthy_opt (ChatPage.conversationId st)).

(** The message of the error that [handleSendMessage] catches, if the
    send fails. *)
Definition send_failure (reply : Fetch ChatResponse.t) : option string :=
  match answer reply with
  | Normal response =>
      if ChatResponse.success response then None
      else Some "Failed to get response from AI"
  | Throw err => Some (emessage err)
  end.

(** The message of the user as [handleSendMessage] adds it to the list,
    with the status [s] it has in the end. *)
Definition user_message (clock : nat -> Z) (w : ChatPage.World) (s : ChatMessage.Status)
  : ChatMessage.t :=
  ChatMessage.mk (pretty (clock (ChatPage.clock_reads w)))
    (trim (ChatPage.inputValue (ChatPage.state w))) ChatMessage.user
    (clock (S (ChatPage.clock_reads w))) (Some s) None None.

(** * Sample data for the examples *)

(** ** Sessions and replies *)

Definition alice : UserProfile :=
  {| id := "u-1"; email := "alice@example.com"; name := Some "Alice";
     avatar_url := None; phone := None; last_login_at := None;
     login_count := 3; created_at := "2024-01-01T00:00:00Z"; is_verified := true |}.

(** A stand-in for the [JSON] of the platform in the examples: a profile is
    written as its e-mail address between braces, and the only texts that
    read back are that of [alice] and [null]. *)
Definition sample_json : Json := {|
  JSON_stringify u := "{" +:+ email u +:+ "}";
  JSON_parse s :=
    if bool_decide (s = "{alice@example.com}") then ParsedProfile alice
    else if bool_decide (s = "null") then ParsedNull
    else ParseError
|}.

Definition sample_form : LoginForm :=
  {| form_email := "alice@example.com"; form_password := "secret" |}.

Definition no_session : AuthProvider.State :=
  AuthProvider.mkState ∅ None false [] [].

(** The session of [alice] after a login. *)
Definition alice_session : AuthProvider.State :=
  AuthProvider.mkState
    {[ "auth_token" := "tok-1"; "user_profile" := "{alice@example.com}" ]}
    (Some alice) false ["/dashboard"] [].

(** A reply of status 200 with the JSON body [body].  (A 2xx reply is
    never read as an error, and a reply that is not 2xx never as a success:
    the field of the other reading is immaterial.) *)
Definition reply_200 {T} (body : T) : Response T :=
  {| status := 200; statusText := "OK"; content_type := Some "application/json";
     text := "(json)"; json := Normal body; error_body := Throw json_syntax_error |}.

(** A rejected [fetch]: the network is down. *)
Definition failed_to_fetch : JsError :=
  {| eclass := TypeErrorC; ename := "TypeError"; emessage := "Failed to fetch" |}.

(** A rejected [fetch] in a browser whose message does not mention
    [fetch]. *)
Definition load_failed : JsError :=
  {| eclass := TypeErrorC; ename := "TypeError"; emessage := "Load failed" |}.

Definition no_business : BusinessStatus :=
  {| success := true; has_business := false; business_count := 0;
     status_message := "No business registered" |}.

Definition one_business : BusinessStatus :=
  {| success := true; has_business := true; business_count := 1;
     status_message := "Business found" |}.

(** The double quote, to write JSON texts. *)
Definition dq : string := String (ascii_of_nat 34) EmptyString.

(** A reply of status 401 whose body is the JSON text
    [{"detail":"LOGIN_BAD_CREDENTIALS"}]. *)
Definition bad_credentials : Response LoginResponse.t :=
  {| status := 401; statusText := "Unauthorized";
     content_type := Some "application/json";
     text := "{" +:+ dq +:+ "detail" +:+ dq +:+ ":" +:+ dq +:+ "LOGIN_BAD_CREDENTIALS" +:+ dq +:+ "}";
     json := Throw json_syntax_error;
     error_body := Normal (Some {| detail := Some "LOGIN_BAD_CREDENTIALS" |}) |}.

(** A reply of status 200 to a login of [alice]. *)
Definition alice_login : Response LoginResponse.t :=
  reply_200 (LoginResponse.mk "tok-1" "bearer" alice).

(** A reply of status 200 to a login whose [access_token] is empty. *)
Definition empty_token_login : Response LoginResponse.t :=
  reply_200 (LoginResponse.mk "" "bearer" alice).

(** A session whose stored token is the empty string. *)
Definition empty_token_session : AuthProvider.State :=
  AuthProvider.mkState {[ "auth_token" := "" ]} (Some alice) false [] [].

(** A tab without session user, with the empty string stored as token. *)
Definition empty_token_tab : AuthProvider.State :=
  AuthProvider.mkState {[ "auth_token" := "" ]} None false [] [].

(** A storage event: another tab stored the profile of [alice]. *)
Definition profile_event : StorageEvent :=
  {| key := Some "user_profile"; newValue := Some "{alice@example.com}" |}.

(** A storage with an empty token and the profile of [alice]. *)
Definition empty_token_storage : Storage :=
  {[ "auth_token" := ""; "user_profile" := "{alice@example.com}" ]}.

(** A storage event: another tab stored the empty string as token. *)
Definition empty_token_event : StorageEvent :=
  {| key := Some "auth_token"; newValue := Some "" |}.

(** A tab without session user whose storage caches the profile of
    [alice]. *)
Definition cached_alice : AuthProvider.State :=
  AuthProvider.mkState {[ "user_profile" := "{alice@example.com}" ]} None false [] [].

(** A storage event: another tab stored a token. *)
Definition token_added_event : StorageEvent :=
  {| key := Some "auth_token"; newValue := Some "tok-1" |}.

(** A reply of status 500 whose body is the JSON text [{}]. *)
Definition error_without_detail : Response unit :=
  {| status := 500; statusText := "Internal Server Error";
     content_type := Some "application/json"; text := "{}";
     json := Normal tt; error_body := Normal (Some {| detail := None |}) |}.

(** A reply of status 404 whose body is the JSON text
    [{"detail":"Task not found"}]. *)
Definition error_with_detail : Response unit :=
  {| status := 404; statusText := "Not Found";
     content_type := Some "application/json";
     text := "{" +:+ dq +:+ "detail" +:+ dq +:+ ":" +:+ dq +:+ "Task not found" +:+ dq +:+ "}";
     json := Normal tt; error_body := Normal (Some {| detail := Some "Task not found" |}) |}.

(** A reply of status 500 whose body is the JSON text [null]. *)
Definition null_body : Response unit :=
  {| status := 500; statusText := "Internal Server Error";
     content_type := Some "application/json"; text := "null";
     json := Normal tt; error_body := Normal None |}.

(** A reply of status 502 whose body is an HTML page. *)
Definition bad_gateway : Response unit :=
  {| status := 502; statusText := "Bad Gateway";
     content_type := Some "text/html"; text := "<html>Bad Gateway</html>";
     json := Throw json_syntax_error; error_body := Throw json_syntax_error |}.

(** The storage of a tab in which [alice] is logged in. *)
Definition stored_session : Storage :=
  {[ "auth_token" := "tok-1"; "user_profile" := "{alice@example.com}" ]}.

(** The same storage with a profile entry that is not JSON. *)
Definition corrupt_cache : Storage :=
  {[ "auth_token" := "tok-1"; "user_profile" := "{broken" ]}.

(** A tab that is being loaded over [stored_session]. *)
Definition reloading_tab : AuthProvider.State :=
  AuthProvider.mkState stored_session None true [] [].

(** A reply of status 401 whose body is the JSON text [{}]. *)
Definition unauthorized : Response unit :=
  {| status := 401; statusText := "Unauthorized"; content_type := Some "application/json";
     text := "{}"; json := Normal tt; error_body := Normal (Some {| detail := None |}) |}.

(** A reply of status 200 whose body is the plain text [pong]. *)
Definition plain_text_reply : Response LoginResponse.t :=
  {| status := 200; statusText := "OK"; content_type := Some "text/plain";
     text := "pong"; json := Throw json_syntax_error;
     error_body := Throw json_syntax_error |}.

(** A reply of status 400 to a registration, with the JSON body
    [{"detail":"REGISTER_USER_ALREADY_EXISTS"}]. *)
Definition email_taken : Response UserProfile :=
  {| status := 400; statusText := "Bad Request"; content_type := Some "application/json";
     text := "{" +:+ dq +:+ "detail" +:+ dq +:+ ":" +:+ dq +:+ "REGISTER_USER_ALREADY_EXISTS" +:+ dq +:+ "}";
     json := Throw json_syntax_error;
     error_body := Normal (Some {| detail := Some "REGISTER_USER_ALREADY_EXISTS" |}) |}.

Definition alice_signup : SignupForm.t :=
  SignupForm.mk "Alice" "Liddell" "alice@example.com" "Secret123" "Secret123" true.

(** ** Documents *)

Definition acme : Business.t := Business.mk "biz-1" "Acme" "acme".

(** The businesses of a user who is a member of one and the owner of
    another, and the details that the backend gives for each. *)
Definition two_businesses : BusinessListResponse.t :=
  BusinessListResponse.mk true "ok"
    [BusinessListItem.mk "biz-0" "Globex" "globex" member;
     BusinessListItem.mk "biz-1" "Acme" "acme" owner]
    2.

Definition business_details (businessId : string) : Fetch BusinessResponse.t :=
  if bool_decide (businessId = "biz-1") then
    Replied (reply_200 (BusinessResponse.mk true "ok" (Some acme)))
  else
    Replied (reply_200 (BusinessResponse.mk true "ok"
                          (Some (Business.mk businessId "Globex" "globex")))).

(** The form of the onboarding page, filled in. *)
Definition acme_form : Onboarding.BusinessFormData :=
  Onboarding.mkBusinessFormData "Acme" "acme" "Technology" "Rockets and anvils" "friendly".

Definition onboarding_start : Onboarding.State := Onboarding.mkState 3 false [] [].

(** The body of a 2xx reply to [createBusiness] that refuses the
    registration. *)
Definition slug_taken : BusinessResponse.t :=
  BusinessResponse.mk false "Slug already in use" None.

(** A reply of status 401 to [createBusiness] whose body is the JSON text
    [{}], and one whose body is an HTML page. *)
Definition session_expired : Response BusinessResponse.t :=
  {| status := 401; statusText := "Unauthorized"; content_type := Some "application/json";
     text := "{}"; json := Throw json_syntax_error; error_body := Normal (Some {| detail := None |}) |}.

Definition session_expired_html : Response BusinessResponse.t :=
  {| status := 401; statusText := "Unauthorized"; content_type := Some "text/html";
     text := "<html>401</html>"; json := Throw json_syntax_error;
     error_body := Throw json_syntax_error |}.

Definition report_pdf : UploadedFile.t :=
  UploadedFile.mk "file-1" "report.pdf" 1024 "application/pdf" processing 100
                  (Some 0) (Some "task-1") (Some "doc-1") None.

(** A reply of status 200 that reports the status [s] of the task. *)
Definition status_reply (s : string) : Fetch TaskStatusResponse.t :=
  Replied (reply_200 (TaskStatusResponse.mk "task-1" s "2024-01-01T00:00:00Z" None None)).

(** A script for the backend: the status [processing] three times, then
    [completed]. *)
Definition three_then_completed (n : nat) : Fetch TaskStatusResponse.t :=
  if (n <? 3)%nat then status_reply "processing" else status_reply "completed".

(** A backend that never gets further than [processing]. *)
Definition always_processing (n : nat) : Fetch TaskStatusResponse.t :=
  status_reply "processing".

(** A backend that cannot be reached. *)
Definition unreachable (n : nat) : Fetch TaskStatusResponse.t := Rejected failed_to_fetch.

(** A backend that cannot be reached, in that browser. *)
Definition offline (n : nat) : Fetch TaskStatusResponse.t := Rejected load_failed.

(** A backend that is reached at the second request only, and reports
    [completed]. *)
Definition one_network_error (n : nat) : Fetch TaskStatusResponse.t :=
  if (n <? 1)%nat then Rejected failed_to_fetch else status_reply "completed".

(** The page with one uploaded file that is being processed. *)
Definition page_after_upload (backend : nat -> Fetch TaskStatusResponse.t) : World :=
  mkWorld [report_pdf] false [] [] backend 0.

Definition huge_pdf : File.t := File.mk "huge.pdf" (11 * 1024 * 1024) "application/pdf".
Definition small_pdf : File.t := File.mk "small.pdf" 2048 "application/pdf".

(** An upload that the backend accepts. *)
Definition upload_ok (file : File.t) : Upload :=
  {| progress_events := [50%Q; 100%Q];
     outcome := XhrLoad (reply_200 (UploadResponse.mk "task-1" "doc-1" (File.name file))) |}.

(** The entry of [small_pdf] while it is being uploaded. *)
Definition uploading_pdf : UploadedFile.t :=
  UploadedFile.mk "file-1" "small.pdf" 2048 "application/pdf" uploading 0
                  None None None None.

(** The page while [small_pdf] is being uploaded. *)
Definition page_uploading (backend : nat -> Fetch TaskStatusResponse.t) : World :=
  mkWorld [uploading_pdf] true [] [] backend 0.

(** A reply of status 422 to an upload, with the JSON body
    [{"detail":"Unsupported file content"}]. *)
Definition bad_upload : Response UploadResponse.t :=
  {| status := 422; statusText := "Unprocessable Entity";
     content_type := Some "application/json";
     text := "{" +:+ dq +:+ "detail" +:+ dq +:+ ":" +:+ dq +:+ "Unsupported file content" +:+ dq +:+ "}";
     json := Throw json_syntax_error;
     error_body := Normal (Some {| detail := Some "Unsupported file content" |}) |}.

(** The page of a business, with no file yet. *)
Definition empty_page : World := mkWorld [] false [] [] three_then_completed 0.

(** ** The chat page *)

(** A reading of the clock and a value of [Math.random()] for the
    examples. *)
Definition sample_clock (n : nat) : Z := 1700000000000 + Z.of_nat n.
Definition sample_random (n : nat) : string := "k3j9x2a1b".

(** The chat of [alice] with the bot of [acme], a message typed and not yet
    sent. *)
Definition chat_ready : ChatPage.World :=
  ChatPage.mkWorld
    (ChatPage.mkState [] "  Where is my order?  " false false true
       (Some "conv-1") (Some "acme") None None)
    [] [] 0 0.

(** The page before its chat is initialised. *)
Definition chat_start : ChatPage.World :=
  ChatPage.mkWorld (ChatPage.mkState [] "" false false false None None None None) [] [] 0 0.

(** An answer of the bot. *)
Definition bot_answer : ChatResponse.t :=
  ChatResponse.mk true "It ships tomorrow." "conv-1" (Some "msg-7") None None None None.

(** The health endpoint reports that the service is down, with a 2xx
    reply. *)
Definition service_down : Response HealthData :=
  reply_200 (mkHealthData (Some false) None).

Definition acme_bot : BotConfigResponse.t :=
  BotConfigResponse.mk true (BotConfig.mk "Acme bot" (Some "Welcome to Acme!") None).

Definition conversation_created : ConversationResponse.t :=
  ConversationResponse.mk true "conv-1" "active" None.

(** * Properties *)

(** Unfold the monad of effects. *)
Ltac eff :=
  repeat first
    [ progress unfold mbind, mret, eff_mbind, eff_mret, eff_bind, eff_ret, throw,
        try_catch, try_finally, modify, get_world, zoom, await, await_fetch,
        exec, eval in *
    | progress cbn in * ].

(** ** Logout *)

Section Logout.
Context {J : Json}.

Lemma AuthAPI_logout_spec (reply : Fetch unit) (s : Storage) :
  AuthAPI.logout reply s =
    (Normal tt, removeItem "user_profile" (removeItem "auth_token" s)).
Proof.
  unfold AuthAPI.logout. eff.
  destruct (truthy_opt (AuthAPI.getToken s)); [destruct reply |]; reflexivity.
Qed.

Lemma removed_both (s : Storage) :
  let s' := removeItem "user_profile" (removeItem "auth_token" s) in
  getItem "auth_token" s' = None /\ getItem "user_profile" s' = None.
Proof.
  unfold getItem, removeItem. split.
  - rewrite lookup_delete_ne by discriminate. apply lookup_delete_eq.
  - apply lookup_delete_eq.
Qed.

Lemma AuthProvider_logout_spec (reply : Fetch unit) (st : AuthProvider.State) :
  AuthProvider.logout reply st =
    (Normal tt,
     AuthProvider.mkState
       (removeItem "user_profile" (removeItem "auth_token" (AuthProvider.storage st)))
       None false
       (AuthProvider.pushed st ++ ["/auth"])
       (AuthProvider.toasts st ++ [mkToast ToastSuccess "Logged out successfully" None])).
Proof.
  unfold AuthProvider.logout, AuthProvider.api, AuthProvider.setIsLoading,
    AuthProvider.setUser, AuthProvider.toast, AuthProvider.router_push.
  eff. rewrite AuthAPI_logout_spec. reflexivity.
Qed.

End Logout.

(** C2.  After [logout()], of [AuthAPI] and of the provider alike, the
    storage holds neither [auth_token] nor [user_profile], and the call
    ends normally, for every outcome [reply] of the invalidation request (a
    reply of any status, or a rejected [fetch]) and for every storage the
    call starts from, with a token (the request is made) or without one
    (it is skipped). *)
Theorem logout_clears_session (reply : Fetch unit) :
  (forall s : Storage,
     eval (AuthAPI.logout reply) s = Normal tt /\
     getItem "auth_token" (exec (AuthAPI.logout reply) s) = None /\
     getItem "user_profile" (exec (AuthAPI.logout reply) s) = None) /\
  (forall st : AuthProvider.State,
     eval (AuthProvider.logout reply) st = Normal tt /\
     getItem "auth_token" (AuthProvider.storage (exec (AuthProvider.logout reply) st)) = None /\
     getItem "user_profile" (AuthProvider.storage (exec (AuthProvider.logout reply) st)) = None /\
     AuthProvider.user (exec (AuthProvider.logout reply) st) = None).
Proof.
  split.
  - intros s. unfold eval, exec. rewrite AuthAPI_logout_spec. cbn.
    split; [reflexivity | apply removed_both].
  - intros st. unfold eval, exec. rewrite AuthProvider_logout_spec. cbn.
    split; [reflexivity |].
    destruct (removed_both (AuthProvider.storage st)) as [Ht Hp].
    repeat split; assumption.
Qed.

(** ** The business-status check *)

Lemma hasRegisteredBusiness_spec {W} (reply : Fetch BusinessStatus) (w : W) :
  BusinessAPI.hasRegisteredBusiness reply w =
    (Normal
       match reply with
       | Rejected _ => false
       | Replied r =>
           if ok r then
             match json r with
             | Normal data => has_business data
             | Throw _ => false
             end
           else false
       end,
     w).
Proof.
  unfold BusinessAPI.hasRegisteredBusiness, BusinessAPI.handleResponse.
  destruct reply as [e | r]; eff; [reflexivity |].
  destruct (ok r); eff; [| destruct (error_body r) as [[d |] | e]; reflexivity].
  destruct (json r); reflexivity.
Qed.

Lemma checkBusinessRegistrationAndRedirect_spec
      (status_reply : Fetch BusinessStatus) (st : AuthProvider.State) :
  AuthProvider.checkBusinessRegistrationAndRedirect status_reply st =
    (Normal tt,
     AuthProvider.mkState (AuthProvider.storage st) (AuthProvider.user st)
       (AuthProvider.isLoading st)
       (AuthProvider.pushed st ++
          [if fst (BusinessAPI.hasRegisteredBusiness status_reply st)
           is Normal true then "/dashboard" else "/onboarding"])
       (AuthProvider.toasts st)).
Proof.
  unfold AuthProvider.checkBusinessRegistrationAndRedirect, AuthProvider.router_push.
  eff. rewrite hasRegisteredBusiness_spec. cbn.
  match goal with |- context [if ?b then _ else _] => destruct b end; reflexivity.
Qed.

(** ** Login *)

Section Login.
Context {J : Json}.

(** The message of the error that [AuthAPI.login] throws on a reply that
    is not 2xx. *)
Lemma AuthAPI_login_rejected (data : LoginForm) (r : Response LoginResponse.t)
      (s : Storage) :
  ok r = false ->
  AuthAPI.login data (Replied r) s =
    (Throw (new_Error
       match error_json r with
       | Normal errorData =>
           if bool_decide (detail errorData = Some "LOGIN_BAD_CREDENTIALS")
           then "Invalid email or password"
           else if bool_decide (detail errorData = Some "LOGIN_USER_NOT_VERIFIED")
           then "Please verify your email before logging in"
           else or_else (detail errorData) "Login failed"
       | Throw _ => str_or (text r) "Login failed"
       end),
     s).
Proof.
  intros Hok. unfold AuthAPI.login. eff. rewrite Hok. reflexivity.
Qed.

Lemma AuthAPI_login_accepted (data : LoginForm) (r : Response LoginResponse.t)
      (result : LoginResponse.t) (s : Storage) :
  ok r = true -> is_html r = false -> json r = Normal result ->
  AuthAPI.login data (Replied r) s =
    (Normal result,
     if truthy (LoginResponse.access_token result) then
       setItem "user_profile" (JSON_stringify (LoginResponse.user result))
         (setItem "auth_token" (LoginResponse.access_token result) s)
     else s).
Proof.
  intros Hok Hhtml Hjson. unfold AuthAPI.login, AuthAPI.handleResponse. eff.
  rewrite Hok, Hhtml. eff. rewrite Hjson. eff.
  destruct (truthy (LoginResponse.access_token result)); reflexivity.
Qed.

Lemma AuthProvider_login_rejected (data : LoginForm) (r : Response LoginResponse.t)
      (status_reply : Fetch BusinessStatus) (st : AuthProvider.State) :
  ok r = false ->
  exists msg,
    AuthAPI.login data (Replied r) (AuthProvider.storage st) =
      (Throw (new_Error msg), AuthProvider.storage st) /\
    AuthProvider.login data (Replied r) status_reply st =
      (Throw (new_Error msg),
       AuthProvider.mkState (AuthProvider.storage st) (AuthProvider.user st) false
         (AuthProvider.pushed st)
         (AuthProvider.toasts st ++ [mkToast ToastError "Login failed" (Some msg)])).
Proof.
  intros Hok. eexists. split; [apply AuthAPI_login_rejected; exact Hok |].
  unfold AuthProvider.login, AuthProvider.api, AuthProvider.setIsLoading,
    AuthProvider.toast.
  eff. rewrite (AuthAPI_login_rejected _ _ _ Hok). reflexivity.
Qed.

Lemma AuthProvider_login_accepted (data : LoginForm) (r : Response LoginResponse.t)
      (result : LoginResponse.t) (status_reply : Fetch BusinessStatus)
      (st : AuthProvider.State) :
  ok r = true -> is_html r = false -> json r = Normal result ->
  AuthProvider.login data (Replied r) status_reply st =
    (Normal tt,
     AuthProvider.mkState
       (if truthy (LoginResponse.access_token result) then
          setItem "user_profile" (JSON_stringify (LoginResponse.user result))
            (setItem "auth_token" (LoginResponse.access_token result)
                     (AuthProvider.storage st))
        else AuthProvider.storage st)
       (Some (LoginResponse.user result))
       false
       (AuthProvider.pushed st ++
          [if business_answer status_reply then "/dashboard" else "/onboarding"])
       (AuthProvider.toasts st ++
          [mkToast ToastSuccess "Welcome back!"
             (Some ("Logged in as " +:+ email (LoginResponse.user result)))])).
Proof.
  intros Hok Hhtml Hjson.
  unfold AuthProvider.login, AuthProvider.api, AuthProvider.setIsLoading,
    AuthProvider.setUser, AuthProvider.toast.
  eff. rewrite (AuthAPI_login_accepted _ _ _ _ Hok Hhtml Hjson).
  rewrite checkBusinessRegistrationAndRedirect_spec.
  rewrite hasRegisteredBusiness_spec. cbn.
  fold (business_answer status_reply).
  destruct (business_answer status_reply); reflexivity.
Qed.

End Login.

(** C10.  [hasRegisteredBusiness] never throws and leaves the world as it
    found it.  Its result is [false] when the [fetch] is rejected, when
    the reply is not 2xx and when the body of a 2xx reply is not JSON; it
    is the [has_business] field of the body otherwise.  The redirect that
    follows a login therefore ends normally and pushes [/onboarding] in
    each of the three error cases, and a login that the backend accepts
    ends normally with that push and the toast of welcome, whatever the
    outcome of the status request. *)
Theorem hasRegisteredBusiness_never_throws (status_reply : Fetch BusinessStatus) :
  let answer :=
    match status_reply with
    | Rejected _ => false
    | Replied r =>
        if ok r then
          match json r with
          | Normal data => has_business data
          | Throw _ => false
          end
        else false
    end in
  (forall (W : Type) (w : W),
     BusinessAPI.hasRegisteredBusiness status_reply w = (Normal answer, w)) /\
  (forall st : AuthProvider.State,
     AuthProvider.checkBusinessRegistrationAndRedirect status_reply st =
       (Normal tt,
        AuthProvider.mkState (AuthProvider.storage st) (AuthProvider.user st)
          (AuthProvider.isLoading st)
          (AuthProvider.pushed st ++ [if answer then "/dashboard" else "/onboarding"])
          (AuthProvider.toasts st))) /\
  (forall (J : Json) (data : LoginForm) (r : Response LoginResponse.t)
          (result : LoginResponse.t) (st : AuthProvider.State),
     ok r = true -> is_html r = false -> json r = Normal result ->
     let st' := exec (AuthProvider.login data (Replied r) status_reply) st in
     eval (AuthProvider.login data (Replied r) status_reply) st = Normal tt /\
     AuthProvider.pushed st' =
       AuthProvider.pushed st ++ [if answer then "/dashboard" else "/onboarding"] /\
     AuthProvider.toasts st' =
       AuthProvider.toasts st ++
         [mkToast ToastSuccess "Welcome back!"
            (Some ("Logged in as " +:+ email (LoginResponse.user result)))]).
Proof.
  cbn zeta. split; [| split].
  - intros W w. apply hasRegisteredBusiness_spec.
  - intros st. rewrite checkBusinessRegistrationAndRedirect_spec.
    rewrite hasRegisteredBusiness_spec. cbn [fst].
    match goal with |- context [if ?b then _ else _] => destruct b end; reflexivity.
  - intros J data r result st Hok Hhtml Hjson. unfold eval, exec.
    rewrite (AuthProvider_login_accepted _ _ _ _ _ Hok Hhtml Hjson).
    repeat split.
Qed.

Lemma hasRegisteredBusiness_never_throws_witness :
  AuthProvider.pushed
    (exec (AuthProvider.login (J := sample_json) sample_form (Replied alice_login)
             (Rejected failed_to_fetch))
          no_session) = ["/onboarding"].
Proof.
  destruct (hasRegisteredBusiness_never_throws (Rejected failed_to_fetch)) as (_ & _ & H).
  destruct (H sample_json sample_form alice_login (LoginResponse.mk "tok-1" "bearer" alice)
              no_session eq_refl eq_refl eq_refl) as (_ & Hpush & _).
  exact Hpush.
Defined.

(** C3 (amended).  When the backend answers a login with a reply that is
    not 2xx, [onSubmit] ends normally, the storage, the session user and the
    navigation are as before (so is [isAuthenticated]: a session that was
    unauthenticated stays so), and the message shown, in the alert of the
    page and in the toast, is:
      - the [detail] of a JSON body, except that the codes
        [LOGIN_BAD_CREDENTIALS] and [LOGIN_USER_NOT_VERIFIED] are replaced
        by a sentence of the client and that an absent or empty [detail]
        gives [Login failed];
      - the raw body when it is not JSON, [Login failed] when it is
        empty. *)
Theorem login_rejected_message {J : Json} (data : LoginForm)
        (r : Response LoginResponse.t) (status_reply : Fetch BusinessStatus)
        (st : LoginPage.State) :
  ok r = false ->
  let msg :=
    match error_json r with
    | Normal errorData =>
        if bool_decide (detail errorData = Some "LOGIN_BAD_CREDENTIALS")
        then "Invalid email or password"
        else if bool_decide (detail errorData = Some "LOGIN_USER_NOT_VERIFIED")
        then "Please verify your email before logging in"
        else or_else (detail errorData) "Login failed"
    | Throw _ => str_or (text r) "Login failed"
    end in
  let st' := exec (LoginPage.onSubmit data (Replied r) status_reply) st in
  eval (LoginPage.onSubmit data (Replied r) status_reply) st = Normal tt /\
  LoginPage.error st' = msg /\
  AuthProvider.toasts (LoginPage.auth st') =
    AuthProvider.toasts (LoginPage.auth st) ++ [mkToast ToastError "Login failed" (Some msg)] /\
  AuthProvider.storage (LoginPage.auth st') = AuthProvider.storage (LoginPage.auth st) /\
  AuthProvider.user (LoginPage.auth st') = AuthProvider.user (LoginPage.auth st) /\
  AuthProvider.pushed (LoginPage.auth st') = AuthProvider.pushed (LoginPage.auth st) /\
  AuthProvider.isAuthenticated (LoginPage.auth st') =
    AuthProvider.isAuthenticated (LoginPage.auth st).
Proof.
  intros Hok msg st'. subst st'.
  destruct (AuthProvider_login_rejected data r status_reply (LoginPage.auth st) Hok)
    as (m & Hapi & Hctx).
  rewrite (AuthAPI_login_rejected _ _ _ Hok) in Hapi.
  assert (m = msg) as -> by (injection Hapi as Hm; symmetry; exact Hm).
  unfold LoginPage.onSubmit, LoginPage.useAuth, LoginPage.setError.
  eff. rewrite Hctx. cbn. repeat split; reflexivity.
Qed.

Lemma login_rejected_message_witness :
  ok bad_credentials = false /\
  LoginPage.error
    (exec (LoginPage.onSubmit (J := sample_json) sample_form (Replied bad_credentials)
             (Replied (reply_200 no_business)))
          (LoginPage.mkState no_session "")) = "Invalid email or password".
Proof.
  split; [reflexivity |].
  apply (login_rejected_message (J := sample_json) sample_form bad_credentials
           (Replied (reply_200 no_business)) (LoginPage.mkState no_session "")).
  reflexivity.
Defined.

(** C3 as stated fails: for the reply 401 with body
    [{"detail":"LOGIN_BAD_CREDENTIALS"}] the page shows
    [Invalid email or password], which is neither the body of the reply nor
    its [detail]. *)
Lemma login_rejected_not_verbatim :
  let shown :=
    LoginPage.error
      (exec (LoginPage.onSubmit (J := sample_json) sample_form (Replied bad_credentials)
               (Replied (reply_200 no_business)))
            (LoginPage.mkState no_session "")) in
  ok bad_credentials = false /\
  error_json bad_credentials = Normal {| detail := Some "LOGIN_BAD_CREDENTIALS" |} /\
  shown = "Invalid email or password" /\
  shown <> text bad_credentials /\
  shown <> "LOGIN_BAD_CREDENTIALS".
Proof.
  cbn zeta. repeat split; try reflexivity; vm_compute; discriminate.
Qed.

(** C4 (amended).  When the backend accepts a login, that is answers with a
    2xx reply that is not an HTML page and whose JSON body is a
    [LoginResponse], and the [access_token] of that body is not empty, then
    [login] ends normally, [auth_token] holds the token, [user_profile]
    holds [JSON.stringify] of the profile, the session user is the
    profile, and exactly one path is pushed: [/dashboard] when the status
    query answers with a business, [/onboarding] when it answers without
    one (or fails). *)
Theorem login_accepted_stores_and_redirects {J : Json} (data : LoginForm)
        (r : Response LoginResponse.t) (result : LoginResponse.t)
        (status_reply : Fetch BusinessStatus) (st : AuthProvider.State) :
  ok r = true -> is_html r = false -> json r = Normal result ->
  LoginResponse.access_token result <> "" ->
  let st' := exec (AuthProvider.login data (Replied r) status_reply) st in
  eval (AuthProvider.login data (Replied r) status_reply) st = Normal tt /\
  getItem "auth_token" (AuthProvider.storage st') =
    Some (LoginResponse.access_token result) /\
  getItem "user_profile" (AuthProvider.storage st') =
    Some (JSON_stringify (LoginResponse.user result)) /\
  AuthProvider.user st' = Some (LoginResponse.user result) /\
  AuthProvider.pushed st' =
    AuthProvider.pushed st ++
      [if business_answer status_reply then "/dashboard" else "/onboarding"] /\
  (forall rs data,
     status_reply = Replied rs -> ok rs = true -> json rs = Normal data ->
     business_answer status_reply = has_business data).
Proof.
  intros Hok Hhtml Hjson Htok st'. subst st'.
  unfold eval, exec.
  rewrite (AuthProvider_login_accepted _ _ _ _ _ Hok Hhtml Hjson). cbn.
  assert (truthy (LoginResponse.access_token result) = true) as ->
    by (destruct (LoginResponse.access_token result); [congruence | reflexivity]).
  unfold getItem, setItem.
  repeat split.
  - rewrite lookup_insert_ne by discriminate. apply lookup_insert_eq.
  - apply lookup_insert_eq.
  - intros rs d -> Hoks Hjs. cbn. rewrite Hoks, Hjs. reflexivity.
Qed.

Lemma login_accepted_stores_and_redirects_witness :
  getItem "auth_token"
    (AuthProvider.storage
       (exec (AuthProvider.login (J := sample_json) sample_form (Replied alice_login)
                (Replied (reply_200 one_business)))
             no_session)) = Some "tok-1".
Proof.
  apply (login_accepted_stores_and_redirects (J := sample_json) sample_form alice_login
           (LoginResponse.mk "tok-1" "bearer" alice)
           (Replied (reply_200 one_business)) no_session);
    [reflexivity | reflexivity | reflexivity | discriminate].
Defined.

(** C4 as stated fails: the backend accepts the login with a reply whose
    [access_token] is the empty string; the client greets the user and
    navigates, and stores neither the token nor the profile. *)
Lemma login_accepted_empty_token_not_stored :
  let st' :=
    exec (AuthProvider.login (J := sample_json) sample_form (Replied empty_token_login)
            (Replied (reply_200 no_business)))
         no_session in
  ok empty_token_login = true /\
  json empty_token_login = Normal (LoginResponse.mk "" "bearer" alice) /\
  eval (AuthProvider.login (J := sample_json) sample_form (Replied empty_token_login)
          (Replied (reply_200 no_business)))
       no_session = Normal tt /\
  getItem "auth_token" (AuthProvider.storage st') = None /\
  getItem "user_profile" (AuthProvider.storage st') = None /\
  AuthProvider.pushed st' = ["/onboarding"].
Proof.
  cbn zeta. repeat split; reflexivity.
Qed.

(** ** A small logic for what a computation keeps *)

Section Keeps.
Context {W : Type} (R : W -> W -> Prop).
Hypothesis R_refl : forall w, R w w.
Hypothesis R_trans : forall a b c, R a b -> R b c -> R a c.

Lemma keeps_ret {A} (a : A) : keeps R (mret a : Eff W A).
Proof. intros w. apply R_refl. Qed.

Lemma keeps_throw {A} (e : JsError) : keeps R (throw e : Eff W A).
Proof. intros w. apply R_refl. Qed.

Lemma keeps_get_world : keeps R (get_world : Eff W W).
Proof. intros w. apply R_refl. Qed.

Lemma keeps_await {A} (c : Completion A) : keeps R (await c : Eff W A).
Proof. destruct c; intros w; apply R_refl. Qed.

Lemma keeps_await_fetch {T} (f : Fetch T) : keeps R (await_fetch f : Eff W (Response T)).
Proof. destruct f; intros w; apply R_refl. Qed.

Lemma keeps_bind {A B} (m : Eff W A) (k : A -> Eff W B) :
  keeps R m -> (forall a, keeps R (k a)) -> keeps R (m ≫= k).
Proof.
  intros Hm Hk w. specialize (Hm w). eff.
  destruct (m w) as [[a | e] w1]; cbn in *; [| exact Hm].
  eapply R_trans; [exact Hm | apply Hk].
Qed.

Lemma keeps_try_catch {A} (m : Eff W A) (h : JsError -> Eff W A) :
  keeps R m -> (forall e, keeps R (h e)) -> keeps R (try_catch m h).
Proof.
  intros Hm Hh w. specialize (Hm w). unfold try_catch.
  destruct (m w) as [[a | e] w1]; cbn in *; [exact Hm |].
  eapply R_trans; [exact Hm | apply Hh].
Qed.

Lemma keeps_try_finally {A} (m : Eff W A) (fin : Eff W unit) :
  keeps R m -> keeps R fin -> keeps R (try_finally m fin).
Proof.
  intros Hm Hf w. specialize (Hm w). unfold try_finally.
  destruct (m w) as [c w1]. specialize (Hf w1).
  destruct (fin w1) as [[[] | e] w2]; cbn in *; eapply R_trans; eassumption.
Qed.

Lemma keeps_modify (f : W -> W) : (forall w, R w (f w)) -> keeps R (modify f).
Proof. intros Hf w. apply Hf. Qed.

End Keeps.

(** ** The stored token is never the empty string *)

Lemma token_step_refl (s : Storage) : token_step s s.
Proof. left. reflexivity. Qed.

Lemma token_step_trans (a b c : Storage) :
  token_step a b -> token_step b c -> token_step a c.
Proof.
  unfold token_step. intros Hab [Hbc | [Hbc | Hbc]].
  - rewrite Hbc. exact Hab.
  - right. left. exact Hbc.
  - right. right. exact Hbc.
Qed.

Lemma token_step_not_empty (s s' : Storage) :
  token_step s s' -> token_not_empty s -> token_not_empty s'.
Proof.
  unfold token_step, token_not_empty. intros [H | [H | (t & H & Ht)]] Hs; rewrite H.
  - exact Hs.
  - discriminate.
  - intros [= ->]. apply Ht. reflexivity.
Qed.

Lemma token_step_other_key (k v : string) (s : Storage) :
  k <> "auth_token" -> token_step s (setItem k v s).
Proof.
  intros Hk. left. unfold getItem, setItem. apply lookup_insert_ne. exact Hk.
Qed.

Lemma token_step_remove (k : string) (s : Storage) : token_step s (removeItem k s).
Proof.
  unfold token_step, getItem, removeItem.
  destruct (decide (k = "auth_token")) as [-> | Hk].
  - right. left. apply lookup_delete_eq.
  - left. apply lookup_delete_ne. exact Hk.
Qed.

Lemma token_step_set_token (t : string) (s : Storage) :
  truthy t = true -> token_step s (setItem "auth_token" t s).
Proof.
  intros Ht. right. right. exists t. split.
  - apply lookup_insert_eq.
  - intros ->. discriminate.
Qed.

(** Apply the rules of [keeps] as far as they go, for a preorder with the
    proofs [refl] and [trans]. *)
Ltac keeps_step refl trans :=
  first
    [ apply (keeps_bind _ trans); [ | intros ? ]
    | apply (keeps_try_catch _ trans); [ | intros ? ]
    | apply (keeps_try_finally _ trans)
    | apply (keeps_ret _ refl)
    | apply (keeps_throw _ refl)
    | apply (keeps_get_world _ refl)
    | apply (keeps_await _ refl)
    | apply (keeps_await_fetch _ refl)
    | progress cbv zeta
    | match goal with
      | |- keeps _ (if ?b then _ else _) => destruct b eqn:?
      | |- keeps _ (match ?x with _ => _ end) => destruct x eqn:?
      end ].

(** The writes of the storage. *)
Ltac token_write :=
  apply keeps_modify; intros ?;
  first
    [ apply token_step_remove
    | apply token_step_other_key; discriminate
    | apply token_step_set_token; assumption ].

Ltac keeps_token :=
  repeat keeps_step token_step_refl token_step_trans;
  try token_write.

Section TokenInvariant.
Context {J : Json}.

Lemma keeps_AuthAPI_handleResponse {T} (r : Response T) :
  keeps token_step (AuthAPI.handleResponse r).
Proof. unfold AuthAPI.handleResponse, body_already_read. keeps_token. Qed.

Lemma keeps_AuthAPI_login (data : LoginForm) (reply : Fetch LoginResponse.t) :
  keeps token_step (AuthAPI.login data reply).
Proof. unfold AuthAPI.login. keeps_token. apply keeps_AuthAPI_handleResponse. Qed.

Lemma keeps_AuthAPI_getCurrentUser (reply : Fetch UserProfile) :
  keeps token_step (AuthAPI.getCurrentUser reply).
Proof. unfold AuthAPI.getCurrentUser. keeps_token. Qed.

Lemma keeps_AuthAPI_validateToken (reply : Fetch unit) :
  keeps token_step (AuthAPI.validateToken reply).
Proof. unfold AuthAPI.validateToken. keeps_token. Qed.

Lemma keeps_AuthAPI_logout (reply : Fetch unit) :
  keeps token_step (AuthAPI.logout reply).
Proof. unfold AuthAPI.logout. keeps_token. Qed.

Lemma keeps_AuthAPI_getUserProfile : keeps token_step AuthAPI.getUserProfile.
Proof. unfold AuthAPI.getUserProfile. keeps_token. Qed.

Lemma keeps_AuthAPI_refreshToken (reply : Fetch TokenResponse) (logout_reply : Fetch unit) :
  keeps token_step (AuthAPI.refreshToken reply logout_reply).
Proof.
  unfold AuthAPI.refreshToken. keeps_token.
Qed.

End TokenInvariant.

Lemma session_step_refl (st : AuthProvider.State) : session_step st st.
Proof. apply token_step_refl. Qed.

Lemma session_step_trans (a b c : AuthProvider.State) :
  session_step a b -> session_step b c -> session_step a c.
Proof. apply token_step_trans. Qed.

Lemma keeps_api {A} (m : Eff Storage A) :
  keeps token_step m -> keeps session_step (AuthProvider.api m).
Proof.
  intros Hm st. unfold AuthProvider.api, zoom, session_step.
  specialize (Hm (AuthProvider.storage st)).
  destruct (m (AuthProvider.storage st)) as [c s']. exact Hm.
Qed.

(** The state updates of the provider leave the storage alone. *)
Ltac session_write :=
  first
    [ apply keeps_api;
      first [ apply keeps_AuthAPI_login | apply keeps_AuthAPI_logout
            | apply keeps_AuthAPI_getCurrentUser | apply keeps_AuthAPI_validateToken
            | apply keeps_AuthAPI_getUserProfile ]
    | (unfold AuthProvider.setUser, AuthProvider.setIsLoading,
         AuthProvider.router_push, AuthProvider.toast);
      apply keeps_modify; intros ?; apply session_step_refl ].

Ltac keeps_session :=
  repeat first
    [ session_write
    | keeps_step session_step_refl session_step_trans ].

Section SessionInvariant.
Context {J : Json}.

Lemma keeps_hasRegisteredBusiness (status_reply : Fetch BusinessStatus) :
  keeps session_step
    (BusinessAPI.hasRegisteredBusiness status_reply : Eff AuthProvider.State bool).
Proof.
  intros st. rewrite hasRegisteredBusiness_spec. apply session_step_refl.
Qed.

Lemma keeps_checkBusinessRegistrationAndRedirect (status_reply : Fetch BusinessStatus) :
  keeps session_step (AuthProvider.checkBusinessRegistrationAndRedirect status_reply).
Proof.
  intros st. rewrite checkBusinessRegistrationAndRedirect_spec. apply token_step_refl.
Qed.

Lemma keeps_login (data : LoginForm) (reply : Fetch LoginResponse.t)
      (status_reply : Fetch BusinessStatus) :
  keeps session_step (AuthProvider.login data reply status_reply).
Proof.
  unfold AuthProvider.login.
  apply (keeps_try_finally _ session_step_trans); [| keeps_session].
  apply (keeps_try_catch _ session_step_trans); [| intros; keeps_session].
  apply (keeps_bind _ session_step_trans); [keeps_session | intros _].
  apply (keeps_bind _ session_step_trans); [keeps_session | intros response].
  apply (keeps_bind _ session_step_trans); [keeps_session | intros _].
  apply (keeps_bind _ session_step_trans); [keeps_session | intros _].
  apply keeps_checkBusinessRegistrationAndRedirect.
Qed.

Lemma keeps_logout (reply : Fetch unit) :
  keeps session_step (AuthProvider.logout reply).
Proof.
  intros st. rewrite AuthProvider_logout_spec. cbn.
  eapply token_step_trans; apply token_step_remove.
Qed.

Lemma keeps_refreshUser (reply : Fetch UserProfile) (logout_reply : Fetch unit) :
  keeps session_step (AuthProvider.refreshUser reply logout_reply).
Proof.
  unfold AuthProvider.refreshUser.
  apply (keeps_try_catch _ session_step_trans); [keeps_session |].
  intros _. apply keeps_logout.
Qed.

Lemma keeps_handleStorageChange (e : StorageEvent) :
  keeps session_step (AuthProvider.handleStorageChange e).
Proof. unfold AuthProvider.handleStorageChange. keeps_session. Qed.

Lemma keeps_initializeAuth (currentPath : string)
      (validate_reply logout_reply : Fetch unit)
      (me_reply : Fetch UserProfile) (status_reply : Fetch BusinessStatus) :
  keeps session_step
    (AuthProvider.initializeAuth currentPath validate_reply logout_reply
       me_reply status_reply).
Proof.
  unfold AuthProvider.initializeAuth.
  apply (keeps_try_finally _ session_step_trans); [| keeps_session].
  apply (keeps_try_catch _ session_step_trans); [| intros; keeps_session].
  apply (keeps_bind _ session_step_trans); [keeps_session | intros st].
  cbv zeta. destruct (negb _); [keeps_session |].
  apply (keeps_bind _ session_step_trans); [keeps_session | intros cachedProfile].
  apply (keeps_bind _ session_step_trans);
    [destruct cachedProfile; keeps_session | intros _].
  apply (keeps_bind _ session_step_trans); [keeps_session | intros returned].
  destruct returned; [keeps_session |].
  apply (keeps_try_catch _ session_step_trans);
    [| intros; destruct cachedProfile; keeps_session].
  apply (keeps_bind _ session_step_trans); [keeps_session | intros currentUser].
  apply (keeps_bind _ session_step_trans); [keeps_session | intros _].
  cbv zeta. destruct (_ || _ || _); [| keeps_session].
  apply (keeps_try_catch _ session_step_trans); [| intros; keeps_session].
  apply (keeps_bind _ session_step_trans);
    [apply keeps_hasRegisteredBusiness | intros hasBusiness].
  destruct (_ && _); [keeps_session |].
  destruct (_ && _); keeps_session.
Qed.

(** No operation of the provider stores an empty token. *)
Lemma keeps_perform (op : AuthProvider.Op) :
  keeps session_step (AuthProvider.perform op).
Proof.
  destruct op; cbn.
  - apply keeps_initializeAuth.
  - apply keeps_login.
  - apply keeps_logout.
  - apply keeps_refreshUser.
  - apply keeps_handleStorageChange.
Qed.

End SessionInvariant.

(** ** The flag [isAuthenticated] *)

Lemma truthy_opt_true (v : option string) :
  truthy_opt v = true <-> exists t, v = Some t /\ t <> "".
Proof.
  destruct v as [[| c t] |]; cbn; split.
  - discriminate.
  - intros (t & [= <-] & Ht). congruence.
  - intros _. eexists. split; [reflexivity | discriminate].
  - reflexivity.
  - discriminate.
  - intros (t & [=] & _).
Qed.

Lemma isAuthenticated_truthy (st : AuthProvider.State) :
  AuthProvider.isAuthenticated st = true <->
  AuthProvider.user st <> None /\
  exists t, AuthAPI.getToken (AuthProvider.storage st) = Some t /\ t <> "".
Proof.
  unfold AuthProvider.isAuthenticated.
  rewrite andb_true_iff, bool_decide_eq_true, truthy_opt_true. reflexivity.
Qed.

Lemma isAuthenticated_present (st : AuthProvider.State) :
  token_not_empty (AuthProvider.storage st) ->
  AuthProvider.isAuthenticated st = true <->
  AuthAPI.getToken (AuthProvider.storage st) <> None /\ AuthProvider.user st <> None.
Proof.
  intros Hne. rewrite isAuthenticated_truthy.
  unfold token_not_empty, AuthAPI.getToken in *.
  destruct (getItem "auth_token" (AuthProvider.storage st)) as [t |].
  - split.
    + intros [Hu _]. split; [discriminate | exact Hu].
    + intros [_ Hu]. split; [exact Hu |]. exists t. split; [reflexivity |].
      intros ->. apply Hne. reflexivity.
  - split.
    + intros [_ (t & [=] & _)].
    + intros [Hn _]. congruence.
Qed.

Lemma AuthAPI_isAuthenticated_true {J : Json} (s : Storage) :
  eval AuthAPI.isAuthenticated s = Normal true <->
  (exists t, getItem "auth_token" s = Some t /\ t <> "") /\
  (exists profile p,
     getItem "user_profile" s = Some profile /\ profile <> "" /\
     JSON_parse profile = ParsedProfile p).
Proof.
  rewrite <- truthy_opt_true.
  unfold AuthAPI.isAuthenticated, AuthAPI.getUserProfile, AuthAPI.getToken. eff.
  destruct (truthy_opt (getItem "auth_token" s)); cbn.
  - destruct (getItem "user_profile" s) as [[| c profile] |]; eff.
    + split; [discriminate |]. intros [_ (pr & p & [= <-] & Hne & _)]. congruence.
    + destruct (JSON_parse (String c profile)) eqn:Hp; eff.
      * split; [discriminate |]. intros [_ (pr & p & [= <-] & _ & Hq)]. congruence.
      * split; [discriminate |]. intros [_ (pr & p & [= <-] & _ & Hq)]. congruence.
      * split; [| reflexivity]. intros _. split; [reflexivity |].
        exists (String c profile), u. repeat split; [discriminate | exact Hp].
    + split; [discriminate |]. intros [_ (pr & p & [=] & _)].
  - split.
    + destruct (getItem "user_profile" s) as [[| c profile] |]; eff;
        try discriminate.
      destruct (JSON_parse (String c profile)); eff; discriminate.
    + intros [[=] _].
Qed.

(** C1 (amended).  In every state of the provider, [isAuthenticated] is
    true exactly when the session user is not [null] and [auth_token] is
    stored with a value that is not the empty string; this holds as well
    in the state that any operation (initialisation, login, logout,
    refresh, storage event of another tab) leads to.  No operation stores
    an empty token: from a state whose stored token is not the empty
    string, every operation leads to such a state, and in such a state the
    flag is true exactly when the token and the user are both present.
    [AuthAPI.isAuthenticated()] is true exactly when [auth_token] is
    stored and not empty and [user_profile] is stored, not empty and
    parses to a profile. *)
Theorem isAuthenticated_iff_truthy {J : Json} (st : AuthProvider.State) :
  (AuthProvider.isAuthenticated st = true <->
   AuthProvider.user st <> None /\
   exists t, AuthAPI.getToken (AuthProvider.storage st) = Some t /\ t <> "") /\
  (forall op : AuthProvider.Op,
     let st' := exec (AuthProvider.perform op) st in
     AuthProvider.isAuthenticated st' = true <->
     AuthProvider.user st' <> None /\
     exists t, AuthAPI.getToken (AuthProvider.storage st') = Some t /\ t <> "") /\
  (token_not_empty (AuthProvider.storage st) ->
     (AuthProvider.isAuthenticated st = true <->
      AuthAPI.getToken (AuthProvider.storage st) <> None /\ AuthProvider.user st <> None) /\
     (forall op : AuthProvider.Op,
        let st' := exec (AuthProvider.perform op) st in
        token_not_empty (AuthProvider.storage st') /\
        (AuthProvider.isAuthenticated st' = true <->
         AuthAPI.getToken (AuthProvider.storage st') <> None /\
         AuthProvider.user st' <> None))) /\
  (forall s : Storage,
     eval AuthAPI.isAuthenticated s = Normal true <->
     (exists t, getItem "auth_token" s = Some t /\ t <> "") /\
     (exists profile p,
        getItem "user_profile" s = Some profile /\ profile <> "" /\
        JSON_parse profile = ParsedProfile p)).
Proof.
  split; [apply isAuthenticated_truthy |].
  split; [intros op st'; apply isAuthenticated_truthy |].
  split; [| apply AuthAPI_isAuthenticated_true].
  intros Hne. split; [apply isAuthenticated_present; exact Hne |].
  intros op st'.
  assert (token_not_empty (AuthProvider.storage st')) as Hne'.
  { eapply token_step_not_empty; [| exact Hne]. apply (keeps_perform op st). }
  split; [exact Hne' | apply isAuthenticated_present; exact Hne'].
Qed.

(** In the states that the operations of the provider reach from a
    state whose stored token is not the empty string, from an empty
    storage in particular, the flag is true exactly when the token and the
    user are both present. *)
Lemma isAuthenticated_iff_present_reachable {J : Json} (ops : list AuthProvider.Op)
      (st : AuthProvider.State) :
  token_not_empty (AuthProvider.storage st) ->
  let st' := exec (perform_all ops) st in
  token_not_empty (AuthProvider.storage st') /\
  (AuthProvider.isAuthenticated st' = true <->
   AuthAPI.getToken (AuthProvider.storage st') <> None /\ AuthProvider.user st' <> None).
Proof.
  intros Hne. cbv zeta.
  assert (token_not_empty (AuthProvider.storage (exec (perform_all ops) st))) as Hne'.
  { revert st Hne. induction ops as [| op ops IH]; intros st Hne; [exact Hne |].
    unfold exec. cbn [perform_all]. unfold mbind, eff_mbind, eff_bind, try_catch.
    pose proof (keeps_perform op st) as Hstep.
    destruct (AuthProvider.perform op st) as [[[] | err] st1]; cbn in *;
      apply IH; eapply token_step_not_empty; eassumption. }
  split; [exact Hne' | apply isAuthenticated_present; exact Hne'].
Qed.

Lemma isAuthenticated_iff_truthy_witness :
  token_not_empty (AuthProvider.storage alice_session) /\
  (AuthProvider.isAuthenticated alice_session = true <->
   AuthAPI.getToken (AuthProvider.storage alice_session) <> None /\
   AuthProvider.user alice_session <> None).
Proof.
  assert (token_not_empty (AuthProvider.storage alice_session)) as Hne
    by (vm_compute; discriminate).
  split; [exact Hne |].
  destruct (isAuthenticated_iff_truthy (J := sample_json) alice_session)
    as (_ & _ & H & _).
  apply (H Hne).
Defined.

(** C1 as stated fails: with the empty string stored under [auth_token]
    and a session user (a state that a tab reaches from a storage with
    that token when another tab writes a profile), the token and the user
    are both present (not [null]) and [isAuthenticated] is false; likewise
    [AuthAPI.isAuthenticated()] with an empty token and a stored
    profile. *)
Lemma isAuthenticated_false_with_empty_token :
  exec (AuthProvider.handleStorageChange (J := sample_json) profile_event) empty_token_tab
    = empty_token_session /\
  AuthAPI.getToken (AuthProvider.storage empty_token_session) = Some "" /\
  AuthProvider.user empty_token_session = Some alice /\
  AuthProvider.isAuthenticated empty_token_session = false /\
  getItem "auth_token" empty_token_storage = Some "" /\
  eval (AuthAPI.getUserProfile (J := sample_json)) empty_token_storage = Normal (Some alice) /\
  eval (AuthAPI.isAuthenticated (J := sample_json)) empty_token_storage = Normal false.
Proof. repeat split; reflexivity. Qed.

(** ** Storage events of other tabs *)

Lemma getUserProfile_cached {J : Json} (s : Storage) (profile : string) (p : UserProfile) :
  getItem "user_profile" s = Some profile -> profile <> "" ->
  JSON_parse profile = ParsedProfile p ->
  AuthAPI.getUserProfile s = (Normal (Some p), s).
Proof.
  intros Hget Hne Hparse. unfold AuthAPI.getUserProfile. eff. rewrite Hget.
  destruct profile as [| c profile]; [congruence |]. eff. rewrite Hparse. reflexivity.
Qed.

(** C8 (amended).  On a storage event whose key is [auth_token] the
    listener ends normally and:
      - when the new value is [null], the session user of the tab is
        cleared;
      - when the new value is a string that is not empty and the tab has
        no session user, the tab takes as session user the profile cached
        under [user_profile], if that entry parses to one, and stays
        without session user if [getUserProfile()] finds none;
      - when the new value is the empty string, or the tab has a session
        user, the session user is left as it is. *)
Theorem storage_event_auth_token {J : Json} (e : StorageEvent) (st : AuthProvider.State) :
  key e = Some "auth_token" ->
  let st' := exec (AuthProvider.handleStorageChange e) st in
  eval (AuthProvider.handleStorageChange e) st = Normal tt /\
  (newValue e = None -> AuthProvider.user st' = None) /\
  (forall v profile p,
     newValue e = Some v -> v <> "" -> AuthProvider.user st = None ->
     getItem "user_profile" (AuthProvider.storage st) = Some profile -> profile <> "" ->
     JSON_parse profile = ParsedProfile p ->
     AuthProvider.user st' = Some p) /\
  (forall v,
     newValue e = Some v -> v <> "" -> AuthProvider.user st = None ->
     eval AuthAPI.getUserProfile (AuthProvider.storage st) = Normal None ->
     AuthProvider.user st' = None) /\
  (newValue e = Some "" -> st' = st) /\
  (forall v, newValue e = Some v -> AuthProvider.user st <> None -> st' = st).
Proof.
  intros Hkey st'. subst st'.
  unfold AuthProvider.handleStorageChange, AuthProvider.setUser, AuthProvider.api.
  eff. rewrite Hkey. rewrite bool_decide_eq_true_2 by reflexivity.
  destruct (newValue e) as [v |]; eff;
    [| repeat split; try discriminate; congruence].
  destruct v as [| c v]; cbn;
    [repeat split; try discriminate; try congruence; intros; congruence |].
  destruct (bool_decide (AuthProvider.user st <> None)) eqn:Hbd; cbn.
  - apply bool_decide_eq_true in Hbd.
    repeat split; try discriminate; try congruence.
  - apply bool_decide_eq_false in Hbd.
    assert (AuthProvider.user st = None) as Hnone
      by (destruct (AuthProvider.user st); [exfalso; apply Hbd; discriminate | reflexivity]).
    destruct (AuthAPI.getUserProfile (AuthProvider.storage st))
      as [[[p |] | err] s'] eqn:Hprof; cbn.
    + repeat split; try discriminate; try congruence;
        first
          [ intros v' profile p' _ _ _ Hget Hne Hparse;
            rewrite (getUserProfile_cached _ _ _ Hget Hne Hparse) in Hprof; congruence
          | intros; contradiction
          | intros; congruence ].
    + repeat split; try discriminate; try congruence;
        first
          [ intros v' profile p' _ _ _ Hget Hne Hparse;
            rewrite (getUserProfile_cached _ _ _ Hget Hne Hparse) in Hprof; congruence
          | intros; contradiction
          | intros; congruence ].
    + exfalso. revert Hprof. unfold AuthAPI.getUserProfile. eff.
      destruct (getItem _ _) as [[| c' pr] |]; eff; try discriminate.
      destruct (JSON_parse _); eff; discriminate.
Qed.

Lemma storage_event_auth_token_witness :
  AuthProvider.user
    (exec (AuthProvider.handleStorageChange (J := sample_json) token_added_event)
          cached_alice) = Some alice.
Proof.
  destruct (storage_event_auth_token (J := sample_json) token_added_event cached_alice
              eq_refl) as (_ & _ & H & _).
  apply (H "tok-1" "{alice@example.com}" alice);
    [reflexivity | discriminate | reflexivity | reflexivity | discriminate | reflexivity].
Defined.

(** C8 as stated fails: a tab without session user, with the profile of
    [alice] in the cache, sees [auth_token] set to the empty string, a
    value that is not [null]; it does not hydrate. *)
Lemma storage_event_empty_token_no_hydration :
  key empty_token_event = Some "auth_token" /\
  newValue empty_token_event = Some "" /\
  AuthProvider.user cached_alice = None /\
  eval (AuthAPI.getUserProfile (J := sample_json)) (AuthProvider.storage cached_alice)
    = Normal (Some alice) /\
  AuthProvider.user
    (exec (AuthProvider.handleStorageChange (J := sample_json) empty_token_event)
          cached_alice) = None.
Proof. repeat split; reflexivity. Qed.

(** ** Errors of the HTTP wrappers *)

Lemma prefix_app (sub post : string) : String.prefix sub (sub +:+ post) = true.
Proof.
  induction sub as [| c sub IH]; simpl.
  - destruct post; reflexivity.
  - destruct (Ascii.ascii_dec c c) as [_ | Hne]; [exact IH | congruence].
Qed.

Lemma includes_prefix (s sub : string) :
  String.prefix sub s = true -> includes s sub = true.
Proof. intros H. destruct s; cbn [includes]; rewrite H; reflexivity. Qed.

Lemma includes_app (pre sub post : string) :
  includes (pre +:+ sub +:+ post) sub = true.
Proof.
  induction pre as [| c pre IH].
  - change ("" +:+ sub +:+ post) with (sub +:+ post).
    apply includes_prefix, prefix_app.
  - change (String c pre +:+ sub +:+ post) with (String c (pre +:+ sub +:+ post)).
    cbn [includes]. rewrite IH. apply orb_true_r.
Qed.

Lemma http_status_line_includes {T} (r : Response T) :
  includes (http_status_line r) (pretty (status r)) = true.
Proof. unfold http_status_line. apply includes_app. Qed.

Lemma append_empty_r (s : string) : s +:+ "" = s.
Proof.
  induction s as [| c s IH]; [reflexivity |].
  change (String c s +:+ "") with (String c (s +:+ "")). rewrite IH. reflexivity.
Qed.

Lemma http_status_includes {T} (r : Response T) :
  includes (http_status r) (pretty (status r)) = true.
Proof.
  unfold http_status.
  rewrite <- (append_empty_r (pretty (status r))) at 1.
  apply includes_app.
Qed.

Lemma or_else_detail (d : option string) (m fallback : string) :
  d = Some m -> m <> "" -> or_else d fallback = m.
Proof. intros -> Hm. destruct m; [congruence | reflexivity]. Qed.

Lemma or_else_no_detail (d : option string) (fallback : string) :
  d = None \/ d = Some "" -> or_else d fallback = fallback.
Proof. intros [-> | ->]; reflexivity. Qed.


(** ** Status requests *)

Lemma requested_logged (evs evs' : list Event) (w : World) :
  logged evs' (requested evs w) = requested (evs ++ evs') w.
Proof. unfold logged, requested. cbn. rewrite app_assoc. reflexivity. Qed.

Lemma logged_requested (evs evs' : list Event) (w : World) :
  requested evs' (logged evs w) = requested (evs ++ evs') w.
Proof. unfold logged, requested. cbn. rewrite app_assoc. reflexivity. Qed.

Lemma logged_logged (evs evs' : list Event) (w : World) :
  logged evs' (logged evs w) = logged (evs ++ evs') w.
Proof. unfold logged. cbn. rewrite app_assoc. reflexivity. Qed.

Lemma logged_nil (w : World) : logged [] w = w.
Proof. unfold logged. rewrite app_nil_r. destruct w; reflexivity. Qed.

Lemma emit_spec (e : Event) (w : World) : emit e w = (Normal tt, logged [e] w).
Proof. reflexivity. Qed.

(** The fields of a world after [logged], [requested], [queued] and
    [with_files]. *)
Lemma files_logged evs w : files (logged evs w) = files w.
Proof. reflexivity. Qed.
Lemma files_requested evs w : files (requested evs w) = files w.
Proof. reflexivity. Qed.
Lemma files_queued cb w : files (queued cb w) = files w.
Proof. reflexivity. Qed.
Lemma files_with_files f w : files (with_files f w) = f (files w).
Proof. reflexivity. Qed.
Lemma isUploading_logged evs w : isUploading (logged evs w) = isUploading w.
Proof. reflexivity. Qed.
Lemma isUploading_requested evs w : isUploading (requested evs w) = isUploading w.
Proof. reflexivity. Qed.
Lemma isUploading_queued cb w : isUploading (queued cb w) = isUploading w.
Proof. reflexivity. Qed.
Lemma isUploading_with_files f w : isUploading (with_files f w) = isUploading w.
Proof. reflexivity. Qed.
Lemma log_logged evs w : log (logged evs w) = log w ++ evs.
Proof. reflexivity. Qed.
Lemma log_requested evs w : log (requested evs w) = log w ++ evs.
Proof. reflexivity. Qed.
Lemma log_queued cb w : log (queued cb w) = log w.
Proof. reflexivity. Qed.
Lemma log_with_files f w : log (with_files f w) = log w.
Proof. reflexivity. Qed.
Lemma pending_logged evs w : pending (logged evs w) = pending w.
Proof. reflexivity. Qed.
Lemma pending_requested evs w : pending (requested evs w) = pending w.
Proof. reflexivity. Qed.
Lemma pending_queued cb w : pending (queued cb w) = pending w ++ [cb].
Proof. reflexivity. Qed.
Lemma pending_with_files f w : pending (with_files f w) = pending w.
Proof. reflexivity. Qed.
Lemma status_backend_logged evs w : status_backend (logged evs w) = status_backend w.
Proof. reflexivity. Qed.
Lemma status_backend_requested evs w : status_backend (requested evs w) = status_backend w.
Proof. reflexivity. Qed.
Lemma status_backend_queued cb w : status_backend (queued cb w) = status_backend w.
Proof. reflexivity. Qed.
Lemma status_backend_with_files f w : status_backend (with_files f w) = status_backend w.
Proof. reflexivity. Qed.
Lemma status_requests_logged evs w : status_requests (logged evs w) = status_requests w.
Proof. reflexivity. Qed.
Lemma status_requests_requested evs w :
  status_requests (requested evs w) = S (status_requests w).
Proof. reflexivity. Qed.
Lemma status_requests_queued cb w : status_requests (queued cb w) = status_requests w.
Proof. reflexivity. Qed.
Lemma status_requests_with_files f w :
  status_requests (with_files f w) = status_requests w.
Proof. reflexivity. Qed.

Create Rewrite HintDb world.
#[export] Hint Rewrite
  files_logged files_requested files_queued files_with_files
  isUploading_logged isUploading_requested isUploading_queued isUploading_with_files
  log_logged log_requested log_queued log_with_files
  pending_logged pending_requested pending_queued pending_with_files
  status_backend_logged status_backend_requested status_backend_queued
  status_backend_with_files
  status_requests_logged status_requests_requested status_requests_queued
  status_requests_with_files : world.

Lemma send_status_spec (taskId : string) (w : World) :
  DocumentAPI.send_status taskId w =
    (Normal (status_requests w),
     requested [abort_timer; EvRequest (ReqTaskStatus taskId)] w).
Proof.
  unfold DocumentAPI.send_status, emit, requested, abort_timer. eff.
  rewrite <- app_assoc. reflexivity.
Qed.

(** One attempt of [getTaskStatus], from the reply to its request on. *)
Lemma getTaskStatus_from_step (fuel : nat) (taskId : string) (retryCount request : nat)
      (w : World) :
  DocumentAPI.getTaskStatus_from fuel taskId retryCount request w =
    let again w' :=
      match fuel with
      | S fuel' => DocumentAPI.getTaskStatus_fuel fuel' taskId (S retryCount) w'
      | O => (Throw (new_Error "getTaskStatus: out of fuel"), w')
      end in
    match status_backend w request with
    | Replied r =>
        if ok r then (json r, logged [EvClearTimeout] w)
        else if retried retryCount (DocumentAPI.error_of_reply r) then
          again (logged [EvClearTimeout; retry_pause retryCount] w)
        else (Throw (DocumentAPI.error_of_reply r), logged [EvClearTimeout] w)
    | Rejected e =>
        if retried retryCount e then again (logged [retry_pause retryCount] w)
        else (Throw e, w)
    end.
Proof.
  cbv zeta. unfold retried, logged, retry_pause, DocumentAPI.getTaskStatus_fuel.
  destruct fuel as [| fuel']; cbn [DocumentAPI.getTaskStatus_from];
    unfold emit; eff;
    destruct (status_backend w request) as [e | r]; eff.
  all: repeat match goal with
         | |- context [if ?b then _ else _] => destruct b eqn:?; eff
         end.
  all: try discriminate.
  all: try destruct (json r).
  all: rewrite <- ?app_assoc; reflexivity.
Qed.

(** One attempt of [getTaskStatus]. *)
Lemma getTaskStatus_fuel_step (fuel : nat) (taskId : string) (retryCount : nat)
      (w : World) :
  DocumentAPI.getTaskStatus_fuel fuel taskId retryCount w =
    let request := EvRequest (ReqTaskStatus taskId) in
    let again w' :=
      match fuel with
      | S fuel' => DocumentAPI.getTaskStatus_fuel fuel' taskId (S retryCount) w'
      | O => (Throw (new_Error "getTaskStatus: out of fuel"), w')
      end in
    match status_backend w (status_requests w) with
    | Replied r =>
        if ok r then
          (json r, requested [abort_timer; request; EvClearTimeout] w)
        else if retried retryCount (DocumentAPI.error_of_reply r) then
          again (requested [abort_timer; request; EvClearTimeout; retry_pause retryCount] w)
        else
          (Throw (DocumentAPI.error_of_reply r),
           requested [abort_timer; request; EvClearTimeout] w)
    | Rejected e =>
        if retried retryCount e then
          again (requested [abort_timer; request; retry_pause retryCount] w)
        else
          (Throw e, requested [abort_timer; request] w)
    end.
Proof.
  cbv zeta. unfold DocumentAPI.getTaskStatus_fuel at 1.
  unfold mbind at 1. unfold eff_mbind, eff_bind at 1.
  rewrite send_status_spec, getTaskStatus_from_step. cbv zeta.
  cbn [requested status_backend].
  destruct (status_backend w (status_requests w)) as [e | r];
    [| destruct (ok r)];
    try match goal with |- context [retried ?k ?x] => destruct (retried k x) end;
    rewrite ?requested_logged; reflexivity.
Qed.

(** More fuel than [3 - retryCount] changes nothing: the calls of
    [getTaskStatus] never run out of it. *)
Lemma getTaskStatus_fuel_enough (taskId : string) (fuel retryCount : nat) (w : World) :
  (3 <= fuel + retryCount)%nat ->
  DocumentAPI.getTaskStatus_fuel fuel taskId retryCount w =
  DocumentAPI.getTaskStatus taskId retryCount w.
Proof.
  unfold DocumentAPI.getTaskStatus.
  revert retryCount w. induction fuel as [| fuel IH]; intros n w Hle.
  - replace (3 - n)%nat with 0%nat by lia. reflexivity.
  - rewrite (getTaskStatus_fuel_step (S fuel)), (getTaskStatus_fuel_step (3 - n)).
    cbv zeta.
    destruct (decide (n < 3)%nat) as [Hlt | Hge].
    + replace (3 - n)%nat with (S (3 - S n)) by lia.
      destruct (status_backend w (status_requests w)) as [e | r];
        [| destruct (ok r); [reflexivity |]];
        match goal with |- context [retried n ?x] => destruct (retried n x) end;
        try reflexivity; apply IH; lia.
    + assert (forall e, retried n e = false) as Hno.
      { intros e. unfold retried.
        destruct (Nat.ltb_spec n 3); [lia | reflexivity]. }
      destruct (status_backend w (status_requests w)) as [e | r];
        [| destruct (ok r); [reflexivity |]];
        rewrite Hno; reflexivity.
Qed.

(** A status request that is answered at once with a 2xx reply. *)
Lemma getTaskStatus_answered (taskId : string) (r : Response TaskStatusResponse.t)
      (w : World) :
  status_backend w (status_requests w) = Replied r -> ok r = true ->
  DocumentAPI.getTaskStatus taskId 0 w = (json r, requested (status_round taskId) w).
Proof.
  intros Hr Hok. unfold DocumentAPI.getTaskStatus.
  rewrite getTaskStatus_fuel_step. cbv zeta. rewrite Hr, Hok. reflexivity.
Qed.

(** A rejection of the request with an [AbortError], or with a message
    that contains [fetch], is retried inside [getTaskStatus] while
    [retryCount < 3], after [1000 * (retryCount + 1)] ms. *)
Lemma getTaskStatus_retries (taskId : string) (retryCount : nat) (e : JsError)
      (w : World) :
  status_backend w (status_requests w) = Rejected e ->
  (retryCount < 3)%nat ->
  ename e = "AbortError" \/ includes (emessage e) "fetch" = true ->
  DocumentAPI.getTaskStatus taskId retryCount w =
  DocumentAPI.getTaskStatus taskId (S retryCount)
    (requested [abort_timer; EvRequest (ReqTaskStatus taskId); retry_pause retryCount] w).
Proof.
  intros Hr Hlt He. unfold DocumentAPI.getTaskStatus at 1.
  rewrite getTaskStatus_fuel_step. cbv zeta. rewrite Hr.
  assert (retried retryCount e = true) as ->.
  { unfold retried. destruct (Nat.ltb_spec retryCount 3); [| lia]. cbn.
    destruct He as [-> | ->]; [reflexivity | apply orb_true_r]. }
  replace (3 - retryCount)%nat with (S (3 - S retryCount)) by lia.
  reflexivity.
Qed.

(** [getTaskStatus] touches neither the files, nor the queue, nor the
    backend; it only adds to the log and sends requests. *)
Lemma getTaskStatus_fuel_frame (fuel : nat) (taskId : string) (retryCount : nat)
      (w : World) :
  let w' := snd (DocumentAPI.getTaskStatus_fuel fuel taskId retryCount w) in
  files w' = files w /\ isUploading w' = isUploading w /\ pending w' = pending w /\
  status_backend w' = status_backend w /\
  (status_requests w < status_requests w')%nat /\
  exists evs, log w' = log w ++ evs /\ count is_poll_timer evs = 0%nat.
Proof.
  revert retryCount w. induction fuel as [| fuel IH]; intros n w;
    rewrite getTaskStatus_fuel_step; cbv zeta.
  all: destruct (status_backend w (status_requests w)) as [e | r];
    [| destruct (ok r)];
    try match goal with |- context [retried ?k ?x] => destruct (retried k x) end.
  all: try (cbn; repeat split; try lia; eexists; split; reflexivity).
  all: match goal with
       | |- context [DocumentAPI.getTaskStatus_fuel _ _ (S ?k) ?w1] =>
           destruct (IH (S k) w1) as (Hf & Hu & Hp & Hb & Hs & evs & Hl & Hc)
       end.
  all: cbn in *; repeat split; try congruence; try lia.
  all: eexists; split; [rewrite Hl, <- app_assoc; reflexivity |].
  all: unfold count in *; rewrite List.filter_app, length_app, Hc; reflexivity.
Qed.

(** ** Polling *)

(** One call of [pollTaskStatus], from what [getTaskStatus] gives. *)
Lemma poll_with_spec (currentBusiness : option Business.t) (taskId fileId : string)
      (status : Eff World TaskStatusResponse.t) (w : World) :
  DocumentsPage.poll_with currentBusiness taskId fileId status w =
    match status w with
    | (Normal statusResponse, w1) =>
        (Normal tt, poll_end currentBusiness taskId fileId statusResponse w1)
    | (Throw err, w1) =>
        (Normal tt,
         queued (CbPoll currentBusiness taskId fileId)
           (logged [EvSetTimeout (CbPoll currentBusiness taskId fileId)
                      (config.polling.interval * config.polling.backoffMultiplier)%Q]
                   w1))
    end.
Proof.
  unfold DocumentsPage.poll_with, DocumentsPage.setFileStatus, poll_end.
  unfold mbind, eff_mbind, eff_bind, try_catch.
  destruct (status w) as [[sr | err] w1]; [| reflexivity].
  destruct (bool_decide (TaskStatusResponse.status sr = "completed")).
  - destruct currentBusiness as [b |]; unfold logged, with_files; cbn;
      rewrite <- ?app_assoc; reflexivity.
  - destruct (bool_decide (TaskStatusResponse.status sr = "failed"));
      unfold logged, with_files, queued; cbn; rewrite <- ?app_assoc; reflexivity.
Qed.

Lemma pollTaskStatus_spec (currentBusiness : option Business.t) (taskId fileId : string)
      (w : World) :
  DocumentsPage.pollTaskStatus currentBusiness taskId fileId w =
    match DocumentAPI.getTaskStatus taskId 0 w with
    | (Normal statusResponse, w1) =>
        (Normal tt, poll_end currentBusiness taskId fileId statusResponse w1)
    | (Throw err, w1) =>
        (Normal tt,
         queued (CbPoll currentBusiness taskId fileId)
           (logged [EvSetTimeout (CbPoll currentBusiness taskId fileId)
                      (config.polling.interval * config.polling.backoffMultiplier)%Q]
                   w1))
    end.
Proof. apply poll_with_spec. Qed.

(** A call of [pollTaskStatus] that is not awaited and the rest of it,
    run one after the other, are the call run to its end. *)
Lemma pollTaskStatus_started_spec (currentBusiness : option Business.t)
      (taskId fileId : string) (w : World) :
  (request ← DocumentAPI.send_status taskId;
   DocumentsPage.pollTaskStatus_started currentBusiness taskId fileId request) w =
  DocumentsPage.pollTaskStatus currentBusiness taskId fileId w.
Proof.
  unfold DocumentsPage.pollTaskStatus_started, DocumentsPage.pollTaskStatus.
  unfold mbind at 1. unfold eff_mbind, eff_bind at 1.
  rewrite !poll_with_spec.
  unfold DocumentAPI.getTaskStatus_started, DocumentAPI.getTaskStatus,
    DocumentAPI.getTaskStatus_fuel.
  cbn [Nat.sub]. unfold mbind, eff_mbind, eff_bind.
  rewrite send_status_spec, poll_with_spec. reflexivity.
Qed.

Lemma fire_idle (w : World) : pending w = [] -> DocumentsPage.fire w = (Normal tt, w).
Proof. intros H. unfold DocumentsPage.fire. eff. rewrite H. reflexivity. Qed.

Lemma run_idle (k : nat) (w : World) : pending w = [] -> DocumentsPage.run k w = (Normal tt, w).
Proof.
  intros H. induction k as [| k IH]; [reflexivity |].
  cbn [DocumentsPage.run]. unfold mbind, eff_mbind, eff_bind.
  rewrite (fire_idle _ H). exact IH.
Qed.

Lemma fire_poll (currentBusiness : option Business.t) (taskId fileId : string)
      (rest : list Callback) (w : World) :
  pending w = CbPoll currentBusiness taskId fileId :: rest ->
  DocumentsPage.fire w =
    DocumentsPage.pollTaskStatus currentBusiness taskId fileId
      (mkWorld (files w) (isUploading w) (log w) rest
               (status_backend w) (status_requests w)).
Proof. intros H. unfold DocumentsPage.fire. eff. rewrite H. reflexivity. Qed.

Lemma count_app (p : Event -> bool) (l1 l2 : list Event) :
  count p (l1 ++ l2) = (count p l1 + count p l2)%nat.
Proof. unfold count. rewrite List.filter_app, length_app. reflexivity. Qed.

Lemma count_poll_rounds (p : Event -> bool) (cb : Callback) (taskId : string) (n : nat) :
  count p (poll_rounds cb taskId n) =
  (n * count p (status_round taskId ++ [EvSetTimeout cb config.polling.interval]))%nat.
Proof.
  unfold poll_rounds. induction n as [| n IH]; [reflexivity |].
  cbn [replicate concat]. rewrite count_app, IH. reflexivity.
Qed.

Lemma poll_end_terminal (currentBusiness : option Business.t) (taskId fileId : string)
      (sr : TaskStatusResponse.t) (w : World) :
  terminal sr = true ->
  pending (poll_end currentBusiness taskId fileId sr w) = pending w /\
  status_requests (poll_end currentBusiness taskId fileId sr w) = status_requests w.
Proof.
  unfold terminal, poll_end. intros Ht.
  destruct (bool_decide (TaskStatusResponse.status sr = "completed")); [split; reflexivity |].
  destruct (bool_decide (TaskStatusResponse.status sr = "failed")); [split; reflexivity |].
  discriminate.
Qed.

Lemma poll_end_pending (currentBusiness : option Business.t) (taskId fileId : string)
      (sr : TaskStatusResponse.t) (w : World) :
  terminal sr = false ->
  poll_end currentBusiness taskId fileId sr w =
    queued (CbPoll currentBusiness taskId fileId)
      (logged [EvSetTimeout (CbPoll currentBusiness taskId fileId) config.polling.interval] w).
Proof.
  unfold terminal, poll_end. intros Ht.
  destruct (bool_decide (TaskStatusResponse.status sr = "completed")); [discriminate |].
  destruct (bool_decide (TaskStatusResponse.status sr = "failed")); [discriminate |].
  reflexivity.
Qed.

(** The polls of a task whose status is not terminal [n] times and
    terminal then, with at least [n] turns of the event loop. *)
Lemma poll_chain (currentBusiness : option Business.t) (taskId fileId : string)
      (final : TaskStatusResponse.t) (n : nat) :
  forall (k : nat) (w : World),
    pending w = [] ->
    (forall i, (i < n)%nat -> exists sr, answers w i sr /\ terminal sr = false) ->
    answers w n final -> terminal final = true ->
    (n <= k)%nat ->
    (DocumentsPage.pollTaskStatus currentBusiness taskId fileId;; DocumentsPage.run k) w =
      (Normal tt,
       poll_end currentBusiness taskId fileId final
         (polled (CbPoll currentBusiness taskId fileId) taskId n w)).
Proof.
  induction n as [| n IH]; intros k w Hpend Hbefore Hfinal Hterm Hk.
  - destruct Hfinal as (r & Hr & Hok & Hjson).
    rewrite Nat.add_0_r in Hr.
    unfold mbind, eff_mbind, eff_bind.
    rewrite pollTaskStatus_spec, (getTaskStatus_answered _ _ _ Hr Hok), Hjson.
    assert (requested (status_round taskId) w =
            polled (CbPoll currentBusiness taskId fileId) taskId 0 w) as ->.
    { unfold requested, polled, poll_rounds. cbn [replicate concat app].
      rewrite Hpend. f_equal. lia. }
    apply run_idle.
    destruct (poll_end_terminal currentBusiness taskId fileId final
                (polled (CbPoll currentBusiness taskId fileId) taskId 0 w) Hterm) as [-> _].
    reflexivity.
  - destruct (Hbefore 0%nat ltac:(lia)) as (sr & (r & Hr & Hok & Hjson) & Hnt).
    rewrite Nat.add_0_r in Hr.
    destruct k as [| k]; [lia |].
    unfold mbind, eff_mbind, eff_bind.
    rewrite pollTaskStatus_spec, (getTaskStatus_answered _ _ _ Hr Hok), Hjson.
    rewrite (poll_end_pending _ _ _ _ _ Hnt).
    cbn [DocumentsPage.run]. unfold mbind, eff_mbind, eff_bind.
    rewrite (fire_poll currentBusiness taskId fileId []);
      [| unfold queued, logged, requested; cbn; rewrite Hpend; reflexivity].
    set (w2 := mkWorld _ _ _ _ _ _).
    specialize (IH k w2).
    unfold mbind, eff_mbind, eff_bind in IH.
    destruct (DocumentsPage.pollTaskStatus currentBusiness taskId fileId w2)
      as [[[] | err] w3] eqn:Hpoll.
    + rewrite IH; try lia; try assumption; try reflexivity.
      * f_equal. f_equal. unfold polled, poll_rounds. subst w2. cbn.
        f_equal; [| lia]. rewrite <- !app_assoc. reflexivity.
      * intros i Hi. destruct (Hbefore (S i) ltac:(lia)) as (sr' & (r' & Hr' & Hx) & Hnt').
        exists sr'. split; [| exact Hnt']. exists r'. split; [| exact Hx].
        subst w2. cbn. rewrite <- Hr'. f_equal. lia.
      * destruct Hfinal as (r' & Hr' & Hx). exists r'. split; [| exact Hx].
        subst w2. cbn. rewrite <- Hr'. f_equal. lia.
    + exfalso. rewrite pollTaskStatus_spec in Hpoll.
      destruct (DocumentAPI.getTaskStatus taskId 0 w2) as [[? | ?] ?]; discriminate.
Qed.

Lemma count_status_round (taskId : string) :
  count is_status_request (status_round taskId) = 1%nat /\
  count is_poll_timer (status_round taskId) = 0%nat /\
  (forall fileId, count (is_terminal_update fileId) (status_round taskId) = 0%nat) /\
  count is_list_request (status_round taskId) = 0%nat.
Proof. repeat split. Qed.

(** ** Failures of a poll *)

Lemma error_of_reply_name {T} (r : Response T) :
  ename (DocumentAPI.error_of_reply r) <> "AbortError".
Proof.
  unfold DocumentAPI.error_of_reply.
  destruct (error_body r) as [[d |] | e]; discriminate.
Qed.

Lemma retried_message (retryCount : nat) (e : JsError) :
  ename e <> "AbortError" ->
  retried retryCount e = (retryCount <? 3)%nat && includes (emessage e) "fetch".
Proof.
  intros Hname. unfold retried.
  rewrite (bool_decide_eq_false_2 _ Hname). reflexivity.
Qed.

Lemma getTaskStatus_frame (taskId : string) (retryCount : nat) (w : World) :
  let w' := snd (DocumentAPI.getTaskStatus taskId retryCount w) in
  files w' = files w /\ isUploading w' = isUploading w /\ pending w' = pending w /\
  status_backend w' = status_backend w /\
  (status_requests w < status_requests w')%nat /\
  exists evs, log w' = log w ++ evs /\ count is_poll_timer evs = 0%nat.
Proof. apply getTaskStatus_fuel_frame. Qed.

(** Four transient failures in a row: [getTaskStatus] makes its three
    retries, after 1000, 2000 and 3000 ms, and throws the last error. *)
Lemma getTaskStatus_gives_up (taskId : string) (e : JsError) (w : World) :
  (forall i, (i < 4)%nat -> status_backend w (status_requests w + i) = Rejected e) ->
  ename e = "AbortError" \/ includes (emessage e) "fetch" = true ->
  DocumentAPI.getTaskStatus taskId 0 w =
    (Throw e,
     mkWorld (files w) (isUploading w)
       (log w ++
        [abort_timer; EvRequest (ReqTaskStatus taskId); retry_pause 0;
         abort_timer; EvRequest (ReqTaskStatus taskId); retry_pause 1;
         abort_timer; EvRequest (ReqTaskStatus taskId); retry_pause 2;
         abort_timer; EvRequest (ReqTaskStatus taskId)])
       (pending w) (status_backend w) (status_requests w + 4)).
Proof.
  intros Hrej He.
  assert (forall n, (n < 3)%nat -> retried n e = true) as Hretry.
  { intros n Hn. unfold retried. destruct (Nat.ltb_spec n 3); [| lia]. cbn.
    destruct He as [-> | ->]; [reflexivity | apply orb_true_r]. }
  assert (retried 3 e = false) as Hstop by reflexivity.
  pose proof (Hrej 0%nat ltac:(lia)) as H0. rewrite Nat.add_0_r in H0.
  pose proof (Hrej 1%nat ltac:(lia)) as H1.
  replace (status_requests w + 1)%nat with (S (status_requests w)) in H1 by lia.
  pose proof (Hrej 2%nat ltac:(lia)) as H2.
  replace (status_requests w + 2)%nat with (S (S (status_requests w))) in H2 by lia.
  pose proof (Hrej 3%nat ltac:(lia)) as H3.
  replace (status_requests w + 3)%nat with (S (S (S (status_requests w)))) in H3 by lia.
  unfold DocumentAPI.getTaskStatus. cbn [Nat.sub].
  rewrite getTaskStatus_fuel_step. cbv zeta. rewrite H0, (Hretry 0%nat) by lia.
  rewrite getTaskStatus_fuel_step. cbv zeta. cbn [requested status_backend status_requests].
  rewrite H1, (Hretry 1%nat) by lia.
  rewrite getTaskStatus_fuel_step. cbv zeta. cbn [requested status_backend status_requests].
  rewrite H2, (Hretry 2%nat) by lia.
  rewrite getTaskStatus_fuel_step. cbv zeta. cbn [requested status_backend status_requests].
  rewrite H3, Hstop.
  unfold requested. cbn. rewrite <- !app_assoc. cbn.
  repeat f_equal. lia.
Qed.

Lemma backoff_delay :
  (config.polling.interval * config.polling.backoffMultiplier == 3000)%Q.
Proof. reflexivity. Qed.

(** C7 (amended).  Every failure that [getTaskStatus] reports to
    [pollTaskStatus], whatever the error, is retried and not aborted: the
    poll ends normally, leaves the files as they are and sets one timer
    for the next poll, of [config.polling.interval *
    config.polling.backoffMultiplier] = 3000 ms.  Which failures of the
    status request are reported depends on the error.  An error whose name
    is [AbortError] (the timeout of 10 s) or whose message contains
    [fetch] is first retried inside [getTaskStatus], while
    [retryCount < 3], after [1000 * (retryCount + 1)] ms; only the fourth
    such failure in a row is reported to the poll.  Any other error, a
    network error whose message does not contain [fetch] for one, is
    reported at once, after the one request. *)
Theorem poll_failure_retried (currentBusiness : option Business.t)
        (taskId fileId : string) (w : World) :
  let cb := CbPoll currentBusiness taskId fileId in
  let delay := (config.polling.interval * config.polling.backoffMultiplier)%Q in
  (forall err w1,
     DocumentAPI.getTaskStatus taskId 0 w = (Throw err, w1) ->
     DocumentsPage.pollTaskStatus currentBusiness taskId fileId w =
       (Normal tt, queued cb (logged [EvSetTimeout cb delay] w1)) /\
     files w1 = files w /\ pending w1 = pending w) /\
  (delay == 3000)%Q /\
  (forall retryCount e,
     status_backend w (status_requests w) = Rejected e ->
     (retryCount < 3)%nat ->
     ename e = "AbortError" \/ includes (emessage e) "fetch" = true ->
     DocumentAPI.getTaskStatus taskId retryCount w =
     DocumentAPI.getTaskStatus taskId (S retryCount)
       (requested [abort_timer; EvRequest (ReqTaskStatus taskId);
                   EvSetTimeout CbResolve (inject_Z (1000 * (Z.of_nat retryCount + 1)))]
                  w)) /\
  (forall e,
     (forall i, (i < 4)%nat -> status_backend w (status_requests w + i) = Rejected e) ->
     ename e = "AbortError" \/ includes (emessage e) "fetch" = true ->
     eval (DocumentAPI.getTaskStatus taskId 0) w = Throw e /\
     pending (exec (DocumentsPage.pollTaskStatus currentBusiness taskId fileId) w) =
       pending w ++ [cb]) /\
  (forall retryCount e,
     status_backend w (status_requests w) = Rejected e ->
     ename e <> "AbortError" -> includes (emessage e) "fetch" = false ->
     DocumentAPI.getTaskStatus taskId retryCount w =
       (Throw e, requested [abort_timer; EvRequest (ReqTaskStatus taskId)] w)) /\
  (forall e,
     status_backend w (status_requests w) = Rejected e ->
     ename e <> "AbortError" -> includes (emessage e) "fetch" = false ->
     DocumentsPage.pollTaskStatus currentBusiness taskId fileId w =
       (Normal tt,
        queued cb
          (logged [EvSetTimeout cb delay]
             (requested [abort_timer; EvRequest (ReqTaskStatus taskId)] w)))).
Proof.
  cbv zeta.
  assert (forall retryCount e,
            status_backend w (status_requests w) = Rejected e ->
            ename e <> "AbortError" -> includes (emessage e) "fetch" = false ->
            DocumentAPI.getTaskStatus taskId retryCount w =
              (Throw e, requested [abort_timer; EvRequest (ReqTaskStatus taskId)] w))
    as Hatonce.
  { intros retryCount e Hr Hname Hinc. unfold DocumentAPI.getTaskStatus.
    rewrite getTaskStatus_fuel_step. cbv zeta.
    rewrite Hr, (retried_message _ _ Hname), Hinc, andb_false_r. reflexivity. }
  split; [| split; [apply backoff_delay | split; [| split; [| split]]]].
  - intros err w1 Hget. rewrite pollTaskStatus_spec, Hget.
    split; [reflexivity |].
    pose proof (getTaskStatus_frame taskId 0 w) as Hframe. cbv zeta in Hframe.
    rewrite Hget in Hframe. cbn [snd] in Hframe.
    destruct Hframe as (Hf & _ & Hp & _). split; assumption.
  - intros retryCount e Hr Hlt He.
    exact (getTaskStatus_retries taskId retryCount e w Hr Hlt He).
  - intros e Hrej He. unfold eval, exec.
    rewrite pollTaskStatus_spec, (getTaskStatus_gives_up taskId e w Hrej He).
    split; reflexivity.
  - exact Hatonce.
  - intros e Hr Hname Hinc.
    rewrite pollTaskStatus_spec, (Hatonce 0%nat e Hr Hname Hinc). reflexivity.
Qed.

Lemma poll_failure_retried_witness :
  pending (exec (DocumentsPage.pollTaskStatus (Some acme) "task-1" "file-1")
                (page_after_upload unreachable)) =
    [CbPoll (Some acme) "task-1" "file-1"] /\
  log (exec (DocumentsPage.pollTaskStatus (Some acme) "task-1" "file-1")
            (page_after_upload offline)) =
    [EvSetTimeout CbAbort 10000; EvRequest (ReqTaskStatus "task-1");
     EvSetTimeout (CbPoll (Some acme) "task-1" "file-1")
                  (config.polling.interval * config.polling.backoffMultiplier)%Q].
Proof.
  split.
  - destruct (poll_failure_retried (Some acme) "task-1" "file-1"
                (page_after_upload unreachable)) as (_ & _ & _ & H & _).
    destruct (H failed_to_fetch) as [_ Hp].
    + intros i Hi. reflexivity.
    + right. reflexivity.
    + exact Hp.
  - destruct (poll_failure_retried (Some acme) "task-1" "file-1"
                (page_after_upload offline)) as (_ & _ & _ & _ & _ & H).
    unfold exec. rewrite (H load_failed eq_refl ltac:(discriminate) eq_refl).
    reflexivity.
Defined.

(** C7 as stated fails: the first status request of a poll meets a network
    error; the request is sent again after 1000 ms, not after
    [interval * backoffMultiplier] = 3000 ms, and the poll, which finds the
    task [completed] at the second request, sets no timer of its own. *)
Lemma network_error_retried_after_one_second :
  let w' :=
    exec (DocumentsPage.pollTaskStatus (Some acme) "task-1" "file-1")
         (page_after_upload one_network_error) in
  one_network_error 0 = Rejected failed_to_fetch /\
  includes (emessage failed_to_fetch) "fetch" = true /\
  log w' =
    [EvSetTimeout CbAbort 10000; EvRequest (ReqTaskStatus "task-1");
     EvSetTimeout CbResolve 1000;
     EvSetTimeout CbAbort 10000; EvRequest (ReqTaskStatus "task-1"); EvClearTimeout;
     EvFileStatus "file-1" success_;
     EvToast (mkToast ToastSuccess "Document processing completed" None);
     EvRequest (ReqListDocuments "biz-1" 100 0)] /\
  pending w' = [] /\
  ~ (1000 == config.polling.interval * config.polling.backoffMultiplier)%Q.
Proof.
  cbv zeta. repeat split; try reflexivity.
  intros H. vm_compute in H. discriminate.
Qed.

(** ** Error messages of the wrappers *)

(** The body of an error reply, read as an object: it parses as JSON and
    is not [null]. *)
Lemma error_json_Normal {T} (r : Response T) (d : ErrorBody) :
  error_json r = Normal d <-> error_body r = Normal (Some d).
Proof.
  unfold error_json. destruct (error_body r) as [[d' |] | e]; split; congruence.
Qed.

(** [getTaskStatus] on a reply that is not 2xx and whose error message
    does not contain [fetch]: the error is thrown without a retry. *)
Lemma getTaskStatus_http_error (taskId : string) (r : Response TaskStatusResponse.t)
      (w : World) :
  status_backend w (status_requests w) = Replied r ->
  ok r = false ->
  includes (emessage (DocumentAPI.error_of_reply r)) "fetch" = false ->
  eval (DocumentAPI.getTaskStatus taskId 0) w = Throw (DocumentAPI.error_of_reply r).
Proof.
  intros Hreply Hok Hinc. unfold eval, DocumentAPI.getTaskStatus.
  rewrite getTaskStatus_fuel_step. cbv zeta. rewrite Hreply, Hok.
  rewrite (retried_message _ _ (error_of_reply_name r)), Hinc. reflexivity.
Qed.

(** [getTaskStatus] on a reply that is not 2xx and whose error message
    contains [fetch]: the request is sent again, as after a network
    error. *)
Lemma getTaskStatus_http_error_retried (taskId : string)
      (r : Response TaskStatusResponse.t) (w : World) :
  status_backend w (status_requests w) = Replied r ->
  ok r = false ->
  includes (emessage (DocumentAPI.error_of_reply r)) "fetch" = true ->
  DocumentAPI.getTaskStatus taskId 0 w =
  DocumentAPI.getTaskStatus taskId 1
    (requested [abort_timer; EvRequest (ReqTaskStatus taskId); EvClearTimeout; retry_pause 0]
               w).
Proof.
  intros Hreply Hok Hinc. unfold DocumentAPI.getTaskStatus at 1.
  rewrite getTaskStatus_fuel_step. cbv zeta. rewrite Hreply, Hok.
  rewrite (retried_message _ _ (error_of_reply_name r)), Hinc. reflexivity.
Qed.

(** What the three wrappers throw on a reply that is not 2xx. *)
Lemma wrapper_not_ok {W T} (r : Response T) (w : W) :
  ok r = false ->
  let thrown :=
    match error_body r with
    | Normal (Some errorData) =>
        new_Error (or_else (detail errorData) (http_status_line r))
    | Normal None => null_property_error
    | Throw _ => new_Error "Unknown error"
    end in
  ChatAPI.call (Replied r) w = (Throw thrown, w) /\
  BusinessAPI.handleResponse r w = (Throw thrown, w) /\
  DocumentAPI.call (Replied r) w = (Throw (DocumentAPI.error_of_reply r), w).
Proof.
  intros Hok. unfold ChatAPI.call, ChatAPI.handleResponse, BusinessAPI.handleResponse,
    DocumentAPI.call.
  eff. rewrite Hok. destruct (error_body r) as [[d |] | e]; repeat split; reflexivity.
Qed.

(** C9 (amended).  A call of the wrappers of [ChatAPI], [BusinessAPI] and
    [DocumentAPI] that receives a reply that is not 2xx throws an error,
    which depends on the body of the reply.  When the body parses as JSON
    and has a [detail] that is not empty, it is an [Error] whose message
    is that [detail].  When the body parses as JSON and has no [detail],
    or an empty one, the message is generic and contains the HTTP status:
    [HTTP <status>: <statusText>] in [ChatAPI] and [BusinessAPI],
    [HTTP <status>] in [DocumentAPI].  When the body is not JSON,
    [DocumentAPI] throws [HTTP <status>], and [ChatAPI] and [BusinessAPI]
    throw [Unknown error].  When the body is the JSON text [null], the
    three of them throw the [TypeError] of the read of [detail].
    [getTaskStatus] throws the error of [DocumentAPI] at once when its
    message does not contain [fetch]; when it does, [getTaskStatus]
    sends the request again, as it does after a network error. *)
Theorem wrapper_error_message {T} (r : Response T) :
  ok r = false ->
  (forall d m,
     error_body r = Normal (Some d) -> detail d = Some m -> m <> "" ->
     forall (W : Type) (w : W),
       ChatAPI.call (Replied r) w = (Throw (new_Error m), w) /\
       BusinessAPI.handleResponse r w = (Throw (new_Error m), w) /\
       DocumentAPI.call (Replied r) w = (Throw (new_Error m), w)) /\
  (forall d,
     error_body r = Normal (Some d) -> detail d = None \/ detail d = Some "" ->
     forall (W : Type) (w : W),
       ChatAPI.call (Replied r) w = (Throw (new_Error (http_status_line r)), w) /\
       BusinessAPI.handleResponse r w = (Throw (new_Error (http_status_line r)), w) /\
       DocumentAPI.call (Replied r) w = (Throw (new_Error (http_status r)), w)) /\
  (forall e,
     error_body r = Throw e ->
     forall (W : Type) (w : W),
       ChatAPI.call (Replied r) w = (Throw (new_Error "Unknown error"), w) /\
       BusinessAPI.handleResponse r w = (Throw (new_Error "Unknown error"), w) /\
       DocumentAPI.call (Replied r) w = (Throw (new_Error (http_status r)), w)) /\
  (error_body r = Normal None ->
   instanceof_TypeError null_property_error = true /\
   forall (W : Type) (w : W),
     ChatAPI.call (Replied r) w = (Throw null_property_error, w) /\
     BusinessAPI.handleResponse r w = (Throw null_property_error, w) /\
     DocumentAPI.call (Replied r) w = (Throw null_property_error, w)) /\
  includes (http_status_line r) (pretty (status r)) = true /\
  includes (http_status r) (pretty (status r)) = true /\
  (forall (rs : Response TaskStatusResponse.t) (taskId : string) (w : World),
     status_backend w (status_requests w) = Replied rs -> ok rs = false ->
     (forall (W : Type) (w0 : W),
        DocumentAPI.call (Replied rs) w0 = (Throw (DocumentAPI.error_of_reply rs), w0)) /\
     (includes (emessage (DocumentAPI.error_of_reply rs)) "fetch" = false ->
      eval (DocumentAPI.getTaskStatus taskId 0) w = Throw (DocumentAPI.error_of_reply rs)) /\
     (includes (emessage (DocumentAPI.error_of_reply rs)) "fetch" = true ->
      DocumentAPI.getTaskStatus taskId 0 w =
      DocumentAPI.getTaskStatus taskId 1
        (requested [abort_timer; EvRequest (ReqTaskStatus taskId); EvClearTimeout;
                    EvSetTimeout CbResolve 1000] w))).
Proof.
  intros Hok.
  assert (forall (W : Type) (w : W) thrown thrown',
            match error_body r with
            | Normal (Some errorData) =>
                new_Error (or_else (detail errorData) (http_status_line r))
            | Normal None => null_property_error
            | Throw _ => new_Error "Unknown error"
            end = thrown ->
            DocumentAPI.error_of_reply r = thrown' ->
            ChatAPI.call (Replied r) w = (Throw thrown, w) /\
            BusinessAPI.handleResponse r w = (Throw thrown, w) /\
            DocumentAPI.call (Replied r) w = (Throw thrown', w)) as Hall.
  { intros W w thrown thrown' <- <-. exact (wrapper_not_ok r w Hok). }
  split.
  { intros d m Hd Hm Hne W w. apply Hall.
    - rewrite Hd, (or_else_detail _ m _ Hm Hne). reflexivity.
    - unfold DocumentAPI.error_of_reply. rewrite Hd, (or_else_detail _ m _ Hm Hne).
      reflexivity. }
  split.
  { intros d Hd Hno W w. apply Hall.
    - rewrite Hd, (or_else_no_detail _ _ Hno). reflexivity.
    - unfold DocumentAPI.error_of_reply. rewrite Hd, (or_else_no_detail _ _ Hno).
      reflexivity. }
  split.
  { intros e He W w. apply Hall.
    - rewrite He. reflexivity.
    - unfold DocumentAPI.error_of_reply. rewrite He. reflexivity. }
  split.
  { intros Hnull. split; [reflexivity |]. intros W w. apply Hall.
    - rewrite Hnull. reflexivity.
    - unfold DocumentAPI.error_of_reply. rewrite Hnull. reflexivity. }
  split; [apply http_status_line_includes |].
  split; [apply http_status_includes |].
  intros rs taskId w Hreply Hoks.
  split; [intros W w0; apply (wrapper_not_ok rs w0 Hoks) |].
  split.
  - apply getTaskStatus_http_error; assumption.
  - apply getTaskStatus_http_error_retried; assumption.
Qed.

Lemma wrapper_error_message_witness :
  ChatAPI.call (Replied error_with_detail) tt = (Throw (new_Error "Task not found"), tt) /\
  DocumentAPI.call (Replied error_with_detail) tt = (Throw (new_Error "Task not found"), tt) /\
  BusinessAPI.handleResponse null_body tt = (Throw null_property_error, tt).
Proof.
  destruct (wrapper_error_message error_with_detail eq_refl) as (H & _).
  destruct (H {| detail := Some "Task not found" |} "Task not found" eq_refl eq_refl
              ltac:(discriminate) unit tt) as (Hchat & _ & Hdoc).
  destruct (wrapper_error_message null_body eq_refl) as (_ & _ & _ & Hnull & _).
  destruct (Hnull eq_refl) as (_ & Hthrown).
  destruct (Hthrown unit tt) as (_ & Hbusiness & _).
  split; [exact Hchat |]. split; [exact Hdoc | exact Hbusiness].
Defined.

(** C9 as stated fails.  The body of the reply 500 parses as JSON, to
    [{}], and the message of the error is not a [detail] of that body,
    which has none: it is the generic message.  The body of the reply 502
    is not JSON, and the message that [ChatAPI] and [BusinessAPI] give is
    not the generic one with the HTTP status: they put
    [{ detail: 'Unknown error' }] in the place of the parsed body, where
    [DocumentAPI] says [HTTP 502]. *)
Lemma wrapper_error_without_detail :
  (ok error_without_detail = false /\
   error_json error_without_detail = Normal {| detail := None |} /\
   ChatAPI.call (Replied error_without_detail) tt =
     (Throw (new_Error "HTTP 500: Internal Server Error"), tt) /\
   BusinessAPI.handleResponse error_without_detail tt =
     (Throw (new_Error "HTTP 500: Internal Server Error"), tt) /\
   DocumentAPI.call (Replied error_without_detail) tt =
     (Throw (new_Error "HTTP 500"), tt)) /\
  (ok bad_gateway = false /\
   error_json bad_gateway = Throw json_syntax_error /\
   ChatAPI.call (Replied bad_gateway) tt = (Throw (new_Error "Unknown error"), tt) /\
   BusinessAPI.handleResponse bad_gateway tt = (Throw (new_Error "Unknown error"), tt) /\
   includes "Unknown error" (pretty (status bad_gateway)) = false /\
   DocumentAPI.call (Replied bad_gateway) tt = (Throw (new_Error "HTTP 502"), tt)).
Proof. repeat split; reflexivity. Qed.

(** ** Validation of the files to upload *)

Lemma upload_requests_app (l1 l2 : list Event) :
  upload_requests (l1 ++ l2) = upload_requests l1 ++ upload_requests l2.
Proof.
  induction l1 as [| e l1 IH]; [reflexivity |].
  destruct e as [[] | | | |]; cbn; rewrite ?IH; reflexivity.
Qed.

Section UploadsOnly.
Variable Q : File.t -> Prop.

Lemma uploads_only_refl (w : World) : uploads_only Q w w.
Proof.
  split.
  - exists []. split; [rewrite app_nil_r; reflexivity | constructor].
  - exists []. split; [rewrite app_nil_r; reflexivity | constructor].
Qed.

Lemma uploads_only_trans (a b c : World) :
  uploads_only Q a b -> uploads_only Q b c -> uploads_only Q a c.
Proof.
  intros [(e1 & H1 & Q1) (a1 & F1 & A1)] [(e2 & H2 & Q2) (a2 & F2 & A2)]. split.
  - exists (e1 ++ e2). split.
    + rewrite H2, H1, app_assoc. reflexivity.
    + rewrite upload_requests_app. apply Forall_app. split; assumption.
  - exists (a1 ++ a2). split.
    + rewrite F2, F1, map_app, app_assoc. reflexivity.
    + apply Forall_app. split; assumption.
Qed.

(** A result that the computation can end with satisfies [Post]. *)
Lemma keeps_bind_post {A B} (Post : A -> Prop) (m : Eff World A) (k : A -> Eff World B) :
  keeps (uploads_only Q) m ->
  (forall w a, fst (m w) = Normal a -> Post a) ->
  (forall a, Post a -> keeps (uploads_only Q) (k a)) ->
  keeps (uploads_only Q) (m ≫= k).
Proof.
  intros Hm Hpost Hk w. specialize (Hm w). specialize (Hpost w).
  unfold mbind, eff_mbind, eff_bind.
  destruct (m w) as [[a | e] w1]; cbn in *; [| exact Hm].
  eapply uploads_only_trans; [exact Hm | apply Hk, Hpost; reflexivity].
Qed.

Lemma keeps_emit (e : Event) :
  Forall Q (upload_requests [e]) -> keeps (uploads_only Q) (emit e).
Proof.
  intros He w. split.
  - exists [e]. split; [reflexivity | exact He].
  - exists []. split; [rewrite app_nil_r; reflexivity | constructor].
Qed.

Lemma keeps_silent (f : World -> World) :
  (forall w, log (f w) = log w /\ files (f w) = files w) ->
  keeps (uploads_only Q) (modify f).
Proof.
  intros Hf w. destruct (Hf w) as [Hl Hfiles]. cbn. split.
  - exists []. split; [rewrite Hl, app_nil_r; reflexivity | constructor].
  - exists []. split; [rewrite Hfiles, app_nil_r; reflexivity | constructor].
Qed.

Lemma map_entry_of_update_file (fileId : string) (g : UploadedFile.t -> UploadedFile.t)
      (l : list UploadedFile.t) :
  (forall f, entry_of (g f) = entry_of f) ->
  map entry_of (DocumentsPage.update_file fileId g l) = map entry_of l.
Proof.
  intros Hg. unfold DocumentsPage.update_file. rewrite List.map_map.
  apply List.map_ext. intros f. destruct (bool_decide _); [apply Hg | reflexivity].
Qed.

Lemma keeps_update_file (fileId : string) (g : UploadedFile.t -> UploadedFile.t) :
  (forall f, entry_of (g f) = entry_of f) ->
  keeps (uploads_only Q) (setFiles (DocumentsPage.update_file fileId g)).
Proof.
  intros Hg w.
  change (snd (setFiles (DocumentsPage.update_file fileId g) w))
    with (with_files (DocumentsPage.update_file fileId g) w).
  unfold with_files. split; cbn [log files].
  - exists []. split; [rewrite app_nil_r; reflexivity | constructor].
  - exists []. split; [| constructor].
    rewrite (map_entry_of_update_file _ _ _ Hg), app_nil_r. reflexivity.
Qed.

Lemma keeps_add_files (validFiles : list (File.t * string)) :
  Forall (fun entry => Q (fst entry)) validFiles ->
  keeps (uploads_only Q)
        (setFiles (fun prev => prev ++ map DocumentsPage.new_file validFiles)).
Proof.
  intros Hvalid w.
  change (snd (setFiles (fun prev => prev ++ map DocumentsPage.new_file validFiles) w))
    with (with_files (fun prev => prev ++ map DocumentsPage.new_file validFiles) w).
  unfold with_files. split; cbn [log files].
  - exists []. split; [rewrite app_nil_r; reflexivity | constructor].
  - exists (map fst validFiles). split.
    + rewrite List.map_app, !List.map_map. reflexivity.
    + apply Forall_map. exact Hvalid.
Qed.

Lemma keeps_send_status (taskId : string) :
  keeps (uploads_only Q) (DocumentAPI.send_status taskId).
Proof.
  intros w. rewrite send_status_spec. unfold requested. cbn [snd log files]. split.
  - eexists. split; [reflexivity | constructor].
  - exists []. split; [rewrite app_nil_r; reflexivity | constructor].
Qed.

End UploadsOnly.

(** Apply the rules of [keeps] for [uploads_only Q]. *)
Ltac keeps_uploads Q :=
  repeat first
    [ match goal with
      | |- keeps _ (DocumentAPI.send_status _) => apply keeps_send_status
      | |- keeps _ (_ ≫= _) => apply (keeps_bind _ (uploads_only_trans Q)); [ | intros ? ]
      end
    | apply keeps_emit; constructor
    | apply keeps_silent; intros ?; split; reflexivity
    | apply keeps_update_file; intros ?; reflexivity
    | progress unfold toast_error
    | progress unfold toast_success
    | progress unfold setTimeout
    | progress unfold DocumentsPage.setFileStatus
    | progress unfold setIsUploading
    | progress unfold enqueue
    | keeps_step (uploads_only_refl Q) (uploads_only_trans Q) ].

Lemma keeps_validateFile (Q : File.t -> Prop) (file : File.t) :
  keeps (uploads_only Q) (DocumentsPage.validateFile file).
Proof. unfold DocumentsPage.validateFile. keeps_uploads Q. Qed.

Lemma validateFile_true (file : File.t) (w : World) :
  fst (DocumentsPage.validateFile file w) = Normal true -> within_limit file.
Proof.
  unfold DocumentsPage.validateFile, within_limit, DocumentsPage.maxFileSize.
  destruct (Z.ltb_spec config.upload.maxFileSize (File.size file)) as [Hlt | Hle].
  - eff. discriminate.
  - intros _. exact Hle.
Qed.

Lemma validateFile_oversize (file : File.t) (w : World) :
  config.upload.maxFileSize < File.size file ->
  DocumentsPage.validateFile file w =
    (Normal false,
     logged [EvToast (mkToast ToastError "File too large. Maximum size is 10 MB" None)] w).
Proof.
  intros Hlt. unfold DocumentsPage.validateFile, DocumentsPage.maxFileSize.
  destruct (Z.ltb_spec config.upload.maxFileSize (File.size file)) as [_ | Hle]; [| lia].
  reflexivity.
Qed.

Lemma keeps_validate_all (Q : File.t -> Prop) (ids : nat -> string) (fileList : list File.t) :
  forall n, keeps (uploads_only Q) (DocumentsPage.validate_all ids n fileList).
Proof.
  induction fileList as [| file rest IH]; intros n; cbn [DocumentsPage.validate_all].
  - keeps_uploads Q.
  - apply (keeps_bind _ (uploads_only_trans Q)); [apply keeps_validateFile |].
    intros [|]; [| apply IH].
    apply (keeps_bind _ (uploads_only_trans Q)); [apply IH |].
    intros validFiles. keeps_uploads Q.
Qed.

(** The upload set holds files of the list that are within the limit. *)
Lemma validate_all_valid (ids : nat -> string) (fileList : list File.t) :
  forall n w validFiles,
    fst (DocumentsPage.validate_all ids n fileList w) = Normal validFiles ->
    Forall (fun entry => within_limit (fst entry) /\ In (fst entry) fileList) validFiles.
Proof.
  induction fileList as [| file rest IH]; intros n w validFiles;
    cbn [DocumentsPage.validate_all].
  - eff. intros [= <-]. constructor.
  - unfold mbind, eff_mbind, eff_bind.
    destruct (DocumentsPage.validateFile file w) as [[[|] | e] w1] eqn:Hv; cbn.
    + destruct (DocumentsPage.validate_all ids (S n) rest w1) as [[vs | e] w2] eqn:Hrest;
        cbn; [| discriminate].
      intros [= <-]. constructor.
      * split; [| left; reflexivity].
        apply (validateFile_true file w). rewrite Hv. reflexivity.
      * eapply Forall_impl; [apply (IH (S n) w1); rewrite Hrest; reflexivity |].
        cbn. intros entry [Hl Hin]. split; [exact Hl | right; exact Hin].
    + intros Hrest. eapply Forall_impl; [apply (IH n w1); exact Hrest |].
      cbn. intros entry [Hl Hin]. split; [exact Hl | right; exact Hin].
    + discriminate.
Qed.

Lemma keeps_mapM_silent (Q : File.t -> Prop) (f : QArith_base.Q -> Eff World unit) (l : list QArith_base.Q) :
  (forall q, keeps (uploads_only Q) (f q)) ->
  keeps (uploads_only Q) (mapM f l).
Proof.
  intros Hf. induction l as [| q l IH]; cbn [mapM].
  - keeps_uploads Q.
  - apply (keeps_bind _ (uploads_only_trans Q)); [apply Hf |]. intros y.
    apply (keeps_bind _ (uploads_only_trans Q)); [exact IH |]. intros k.
    keeps_uploads Q.
Qed.

Lemma keeps_uploadFile (Q : File.t -> Prop) (currentBusiness : option Business.t)
      (file : File.t) (fileId : string) (up : Upload) (now : Z) :
  Q file ->
  keeps (uploads_only Q) (DocumentsPage.uploadFile currentBusiness file fileId up now).
Proof.
  intros HQ. unfold DocumentsPage.uploadFile.
  destruct currentBusiness as [b |]; [| keeps_uploads Q].
  apply (keeps_try_catch _ (uploads_only_trans Q)); [| intros err; keeps_uploads Q].
  apply (keeps_bind _ (uploads_only_trans Q)); [| intros response; keeps_uploads Q].
  unfold DocumentAPI.uploadDocument.
  apply (keeps_bind _ (uploads_only_trans Q));
    [apply keeps_emit; repeat constructor; exact HQ | intros _].
  apply (keeps_bind _ (uploads_only_trans Q));
    [apply keeps_mapM_silent; intros q; keeps_uploads Q | intros _].
  keeps_uploads Q.
Qed.

Lemma keeps_upload_all (Q : File.t -> Prop) (currentBusiness : option Business.t)
      (uploads : File.t -> Upload) (now : nat -> Z) (n : nat)
      (validFiles : list (File.t * string)) :
  Forall (fun entry => Q (fst entry)) validFiles ->
  keeps (uploads_only Q) (DocumentsPage.upload_all currentBusiness uploads now n validFiles).
Proof.
  intros Hvalid. revert n.
  induction Hvalid as [| [file fileId] rest HQ _ IH]; intros n;
    cbn [DocumentsPage.upload_all].
  - keeps_uploads Q.
  - apply (keeps_bind _ (uploads_only_trans Q)); [apply keeps_uploadFile; exact HQ |].
    intros _. apply IH.
Qed.

(** [handleFiles] sends upload requests only for files of the list that
    are within the size limit. *)
Lemma keeps_handleFiles (currentBusiness : option Business.t) (ids : nat -> string)
      (uploads : File.t -> Upload) (now : nat -> Z) (fileList : list File.t) :
  keeps (uploads_only (fun file => within_limit file /\ In file fileList))
        (DocumentsPage.handleFiles currentBusiness ids uploads now fileList).
Proof.
  set (Q := fun file => within_limit file /\ In file fileList).
  unfold DocumentsPage.handleFiles.
  apply (keeps_bind _ (uploads_only_trans Q)); [keeps_uploads Q | intros w0].
  destruct (isUploading w0); [keeps_uploads Q |].
  apply (keeps_bind_post Q (Forall (fun entry => Q (fst entry)))).
  - apply keeps_validate_all.
  - intros w validFiles Hv. exact (validate_all_valid ids fileList 0 w validFiles Hv).
  - intros validFiles Hvalid. cbv zeta.
    destruct (0 <? length (map DocumentsPage.new_file validFiles))%nat;
      [| keeps_uploads Q].
    apply (keeps_bind _ (uploads_only_trans Q));
      [apply keeps_add_files; exact Hvalid | intros _].
    apply (keeps_bind _ (uploads_only_trans Q)); [keeps_uploads Q | intros _].
    apply (keeps_bind _ (uploads_only_trans Q));
      [apply keeps_upload_all; exact Hvalid | intros _].
    keeps_uploads Q.
Qed.

(** C5.  A file whose size exceeds [config.upload.maxFileSize], 10 MiB,
    is rejected by [validateFile], which shows a toast and sends nothing;
    the upload set that [handleFiles] builds does not contain it;
    [handleFiles] adds no entry for it to the file list of the page; and
    [handleFiles] sends no upload request for it: every entry it adds and
    every upload request it sends is for a file of the list that is
    within the limit. *)
Theorem oversize_file_rejected (currentBusiness : option Business.t)
        (ids : nat -> string) (uploads : File.t -> Upload) (now : nat -> Z)
        (fileList : list File.t) (file : File.t) (w : World) :
  config.upload.maxFileSize < File.size file ->
  let w' := exec (DocumentsPage.handleFiles currentBusiness ids uploads now fileList) w in
  config.upload.maxFileSize = 10485760 /\
  DocumentsPage.validateFile file w =
    (Normal false,
     logged [EvToast (mkToast ToastError "File too large. Maximum size is 10 MB" None)] w) /\
  (forall validFiles,
     eval (DocumentsPage.validate_all ids 0 fileList) w = Normal validFiles ->
     ~ In file (map fst validFiles)) /\
  (exists added,
     map entry_of (files w') = map entry_of (files w) ++ map file_entry added /\
     ~ In file added /\
     Forall (fun f => File.size f <= config.upload.maxFileSize /\ In f fileList) added) /\
  (exists evs,
     log w' = log w ++ evs /\
     ~ In file (upload_requests evs) /\
     Forall (fun f => File.size f <= config.upload.maxFileSize /\ In f fileList)
            (upload_requests evs)).
Proof.
  intros Hbig w'. subst w'.
  assert (forall l : list File.t,
            Forall (fun f => within_limit f /\ In f fileList) l -> ~ In file l) as Hnot.
  { intros l Hall Hin. rewrite Forall_forall in Hall.
    destruct (Hall file) as [Hl _]; [apply list_elem_of_In; exact Hin |].
    unfold within_limit in Hl. lia. }
  split; [reflexivity |].
  split; [apply validateFile_oversize; exact Hbig |].
  split.
  - intros validFiles Hv. apply Hnot.
    apply (validate_all_valid ids fileList 0 w validFiles) in Hv.
    apply Forall_map. exact Hv.
  - destruct (keeps_handleFiles currentBusiness ids uploads now fileList w)
      as [(evs & Hlog & Hall) (added & Hfiles & Hadded)].
    split.
    + exists added. split; [exact Hfiles |]. split; [apply Hnot; exact Hadded | exact Hadded].
    + exists evs. split; [exact Hlog |]. split; [apply Hnot; exact Hall | exact Hall].
Qed.

Lemma oversize_file_rejected_witness :
  exists evs,
    log (exec (DocumentsPage.handleFiles (Some acme) (fun n => "file-" +:+ pretty n)
                 upload_ok (fun _ => 0) [huge_pdf; small_pdf])
              empty_page) = [] ++ evs /\
    ~ In huge_pdf (upload_requests evs).
Proof.
  destruct (oversize_file_rejected (Some acme) (fun n => "file-" +:+ pretty n)
              upload_ok (fun _ => 0) [huge_pdf; small_pdf] huge_pdf empty_page)
    as (_ & _ & _ & _ & evs & Hlog & Hnot & _).
  - reflexivity.
  - exists evs. split; assumption.
Defined.

(** ** The polls that an upload starts *)

Lemma queues_refl (w : World) : queues_polls_with_business w w.
Proof. exists []. split; [rewrite app_nil_r; reflexivity | constructor]. Qed.

Lemma queues_trans (a b c : World) :
  queues_polls_with_business a b -> queues_polls_with_business b c ->
  queues_polls_with_business a c.
Proof.
  intros (q1 & H1 & P1) (q2 & H2 & P2). exists (q1 ++ q2). split.
  - rewrite H2, H1, app_assoc. reflexivity.
  - apply Forall_app. split; assumption.
Qed.

Lemma keeps_queue_unchanged (f : World -> World) :
  (forall w, pending (f w) = pending w) ->
  keeps queues_polls_with_business (modify f).
Proof.
  intros Hf w. exists []. cbn. split; [rewrite Hf, app_nil_r; reflexivity | constructor].
Qed.

Lemma keeps_enqueue (cb : Callback) :
  holds_business cb -> keeps queues_polls_with_business (enqueue cb).
Proof. intros Hcb w. exists [cb]. split; [reflexivity | repeat constructor; exact Hcb]. Qed.

Lemma keeps_queue_send_status (taskId : string) :
  keeps queues_polls_with_business (DocumentAPI.send_status taskId).
Proof.
  intros w. rewrite send_status_spec. exists [].
  split; [rewrite app_nil_r; reflexivity | constructor].
Qed.

Ltac keeps_queue :=
  repeat first
    [ match goal with
      | |- keeps _ (DocumentAPI.send_status _) => apply keeps_queue_send_status
      | |- keeps _ (_ ≫= _) => apply (keeps_bind _ queues_trans); [ | intros ? ]
      end
    | apply keeps_enqueue; first [exact I | discriminate]
    | apply keeps_queue_unchanged; intros ?; reflexivity
    | progress unfold toast_error
    | progress unfold toast_success
    | progress unfold setTimeout
    | progress unfold DocumentsPage.setFileStatus
    | progress unfold emit
    | progress unfold setFiles
    | progress unfold setIsUploading
    | keeps_step queues_refl queues_trans ].

Lemma keeps_queue_mapM (f : QArith_base.Q -> Eff World unit) (l : list QArith_base.Q) :
  (forall q, keeps queues_polls_with_business (f q)) ->
  keeps queues_polls_with_business (mapM f l).
Proof.
  intros Hf. induction l as [| q l IH]; cbn [mapM].
  - keeps_queue.
  - apply (keeps_bind _ queues_trans); [apply Hf |]. intros y.
    apply (keeps_bind _ queues_trans); [exact IH |]. intros k.
    keeps_queue.
Qed.

(** Every poll that [uploadFile] starts holds the business of the page:
    without one, [uploadFile] returns before it uploads. *)
Lemma uploadFile_polls_with_business (currentBusiness : option Business.t)
      (file : File.t) (fileId : string) (up : Upload) (now : Z) :
  keeps queues_polls_with_business
        (DocumentsPage.uploadFile currentBusiness file fileId up now).
Proof.
  unfold DocumentsPage.uploadFile.
  destruct currentBusiness as [b |]; [| keeps_queue].
  apply (keeps_try_catch _ queues_trans); [| intros err; keeps_queue].
  apply (keeps_bind _ queues_trans); [| intros response; keeps_queue].
  unfold DocumentAPI.uploadDocument.
  apply (keeps_bind _ queues_trans); [keeps_queue | intros _].
  apply (keeps_bind _ queues_trans);
    [apply keeps_queue_mapM; intros q; keeps_queue | intros _].
  keeps_queue.
Qed.

(** * Further properties of the session code *)

(** ** [AuthAPI]: token validation and the cached profile *)

Lemma AuthAPI_validateToken_spec (reply : Fetch unit) (s : Storage) :
  AuthAPI.validateToken reply s =
    (Normal
       (truthy_opt (AuthAPI.getToken s) &&
        match reply with
        | Replied r => ok r
        | Rejected err => instanceof_TypeError err && includes (emessage err) "fetch"
        end),
     s).
Proof.
  unfold AuthAPI.validateToken. eff.
  destruct (truthy_opt (AuthAPI.getToken s)); cbn; [| reflexivity].
  destruct reply as [err | r]; cbn.
  - destruct (instanceof_TypeError err && includes (emessage err) "fetch"); reflexivity.
  - destruct (ok r); reflexivity.
Qed.

(** What [getUserProfile()] does, by the entry [user_profile]. *)
Lemma AuthAPI_getUserProfile_spec {J : Json} (s : Storage) :
  AuthAPI.getUserProfile s =
    match getItem "user_profile" s with
    | Some profile =>
        if truthy profile then
          match JSON_parse profile with
          | ParsedProfile p => (Normal (Some p), s)
          | _ => (Normal None, removeItem "user_profile" s)
          end
        else (Normal None, s)
    | None => (Normal None, s)
    end.
Proof.
  unfold AuthAPI.getUserProfile. eff.
  destruct (getItem "user_profile" s) as [profile |]; [| reflexivity].
  destruct (truthy profile); [| reflexivity].
  eff. destruct (JSON_parse profile); reflexivity.
Qed.

Lemma truthy_true (t : string) : truthy t = true <-> t <> "".
Proof. destruct t; cbn; split; congruence. Qed.

(** X1.  [AuthAPI.validateToken()] never throws and never writes to the
    storage.  Without a stored token that is not empty it answers [false]
    whatever the backend does; with one, it answers [true] for a 2xx reply,
    [false] for any other reply, and for a rejected [fetch] it answers
    [true] exactly when the error is a [TypeError] whose message contains
    [fetch]. *)
Theorem validateToken_never_throws (reply : Fetch unit) (s : Storage) :
  exec (AuthAPI.validateToken reply) s = s /\
  exists answer,
    eval (AuthAPI.validateToken reply) s = Normal answer /\
    (answer = true <->
     (exists t, getItem "auth_token" s = Some t /\ t <> "") /\
     ((exists r, reply = Replied r /\ ok r = true) \/
      (exists err, reply = Rejected err /\ eclass err = TypeErrorC /\
                   includes (emessage err) "fetch" = true))).
Proof.
  unfold exec, eval. rewrite AuthAPI_validateToken_spec. cbn [fst snd].
  split; [reflexivity |]. eexists. split; [reflexivity |].
  rewrite andb_true_iff, truthy_opt_true. unfold AuthAPI.getToken.
  apply and_iff_compat_l.
  destruct reply as [err | r].
  - rewrite andb_true_iff. unfold instanceof_TypeError. split.
    + intros [Hc Hm]. right. exists err. repeat split; [| exact Hm].
      destruct (eclass err); congruence.
    + intros [(r & [=] & _) | (err' & [= <-] & Hc & Hm)]. rewrite Hc. split; [reflexivity | exact Hm].
  - split.
    + intros Hok. left. exists r. split; [reflexivity | exact Hok].
    + intros [(r' & [= <-] & Hok) | (err & [=] & _)]. exact Hok.
Qed.

(** X2.  [AuthAPI.getUserProfile()] never throws and never touches the
    token.  It returns a profile exactly when [user_profile] holds a text
    that is not empty and parses to one, and it then leaves the storage as
    it is.  A text that is not empty and does not parse to a profile
    (malformed, or [null]) is removed from the storage; a missing entry
    and an empty one are left alone. *)
Theorem getUserProfile_drops_corrupt_cache {J : Json} (s : Storage) :
  let s' := exec AuthAPI.getUserProfile s in
  (exists cached,
     eval AuthAPI.getUserProfile s = Normal cached /\
     forall p,
       cached = Some p <->
       exists profile,
         getItem "user_profile" s = Some profile /\ profile <> "" /\
         JSON_parse profile = ParsedProfile p) /\
  getItem "auth_token" s' = getItem "auth_token" s /\
  (forall profile,
     getItem "user_profile" s = Some profile -> profile <> "" ->
     (forall p, JSON_parse profile <> ParsedProfile p) ->
     s' = removeItem "user_profile" s /\ getItem "user_profile" s' = None) /\
  (getItem "user_profile" s = None \/ getItem "user_profile" s = Some "" \/
   (exists profile p, getItem "user_profile" s = Some profile /\
                      JSON_parse profile = ParsedProfile p) ->
   s' = s).
Proof.
  cbv zeta. unfold exec, eval. rewrite AuthAPI_getUserProfile_spec.
  destruct (getItem "user_profile" s) as [profile |] eqn:Hget.
  - destruct (truthy profile) eqn:Ht.
    + apply truthy_true in Ht.
      destruct (JSON_parse profile) as [| | p] eqn:Hp; cbn [fst snd].
      * split; [| split; [| split]].
        -- eexists. split; [reflexivity |]. intros p. split; [discriminate |].
           intros (pr & [= <-] & _ & Hq). congruence.
        -- unfold getItem, removeItem. apply lookup_delete_ne. discriminate.
        -- intros pr [= <-] _ _. split; [reflexivity |].
           unfold getItem, removeItem. apply lookup_delete_eq.
        -- intros [[=] | [[= ->] | (pr & p & [= <-] & Hq)]]; congruence.
      * split; [| split; [| split]].
        -- eexists. split; [reflexivity |]. intros p. split; [discriminate |].
           intros (pr & [= <-] & _ & Hq). congruence.
        -- unfold getItem, removeItem. apply lookup_delete_ne. discriminate.
        -- intros pr [= <-] _ _. split; [reflexivity |].
           unfold getItem, removeItem. apply lookup_delete_eq.
        -- intros [[=] | [[= ->] | (pr & p & [= <-] & Hq)]]; congruence.
      * split; [| split; [| split]].
        -- eexists. split; [reflexivity |]. intros q. split.
           ++ intros [= <-]. exists profile. split; [reflexivity |]. split; assumption.
           ++ intros (pr & [= <-] & _ & Hq). congruence.
        -- reflexivity.
        -- intros pr [= <-] _ Hno. exfalso. exact (Hno p Hp).
        -- reflexivity.
    + assert (profile = "") as -> by (destruct profile; [reflexivity | discriminate]).
      cbn [fst snd]. split; [| split; [| split]].
      * eexists. split; [reflexivity |]. intros p. split; [discriminate |].
        intros (pr & [= <-] & Hne & _). congruence.
      * reflexivity.
      * intros pr [= <-] Hne. congruence.
      * reflexivity.
  - cbn [fst snd]. split; [| split; [| split]].
    + eexists. split; [reflexivity |]. intros p. split; [discriminate |].
      intros (pr & [=] & _).
    + reflexivity.
    + intros pr [=].
    + reflexivity.
Qed.

Lemma getUserProfile_drops_corrupt_cache_witness :
  exec (AuthAPI.getUserProfile (J := sample_json)) corrupt_cache =
    removeItem "user_profile" corrupt_cache /\
  getItem "user_profile" (exec (AuthAPI.getUserProfile (J := sample_json)) corrupt_cache)
    = None.
Proof.
  destruct (getUserProfile_drops_corrupt_cache (J := sample_json) corrupt_cache)
    as (_ & _ & H & _).
  apply (H "{broken"); [reflexivity | discriminate | intros p; vm_compute; discriminate].
Defined.

(** What [getCurrentUser()] does, by the outcome of its request. *)
Lemma AuthAPI_getCurrentUser_spec {J : Json} (reply : Fetch UserProfile) (s : Storage) :
  AuthAPI.getCurrentUser reply s =
    match reply with
    | Rejected err => (Throw err, s)
    | Replied r =>
        if ok r then
          match json r with
          | Normal u => (Normal u, setItem "user_profile" (JSON_stringify u) s)
          | Throw err => (Throw err, s)
          end
        else
          match error_json r with
          | Normal errorData =>
              (Throw (new_Error (or_else (detail errorData) "Failed to get user profile")), s)
          | Throw err => (Throw err, s)
          end
    end.
Proof.
  unfold AuthAPI.getCurrentUser. destruct reply as [err | r]; eff; [reflexivity |].
  destruct (ok r); eff.
  - destruct (json r); reflexivity.
  - destruct (error_json r); reflexivity.
Qed.

(** X3.  [AuthAPI.getCurrentUser()] caches what it fetches: on a 2xx reply
    with a profile it returns the profile and writes its JSON text under
    [user_profile], so that (for a [JSON] whose [parse] reads back what
    [stringify] wrote) a following [getUserProfile()] returns the same
    profile.  On every failure it throws and leaves the storage as it was:
    a rejected request throws the rejection; a 2xx reply whose body is not
    JSON throws the error of the parser; a reply that is not 2xx throws
    the [detail] of its JSON body, or [Failed to get user profile] without
    one, and the error of reading the body when that fails.  It never
    touches the token. *)
Theorem getCurrentUser_caches_profile {J : Json} (reply : Fetch UserProfile) (s : Storage) :
  let s' := exec (AuthAPI.getCurrentUser reply) s in
  (forall r u,
     reply = Replied r -> ok r = true -> json r = Normal u ->
     eval (AuthAPI.getCurrentUser reply) s = Normal u /\
     getItem "user_profile" s' = Some (JSON_stringify u) /\
     (JSON_stringify u <> "" -> JSON_parse (JSON_stringify u) = ParsedProfile u ->
      AuthAPI.getUserProfile s' = (Normal (Some u), s'))) /\
  (forall err, eval (AuthAPI.getCurrentUser reply) s = Throw err -> s' = s) /\
  (forall e, reply = Rejected e -> eval (AuthAPI.getCurrentUser reply) s = Throw e) /\
  (forall r e,
     reply = Replied r -> ok r = true -> json r = Throw e ->
     eval (AuthAPI.getCurrentUser reply) s = Throw e) /\
  (forall r d,
     reply = Replied r -> ok r = false -> error_json r = Normal d ->
     eval (AuthAPI.getCurrentUser reply) s =
       Throw (new_Error (or_else (detail d) "Failed to get user profile"))) /\
  (forall r e,
     reply = Replied r -> ok r = false -> error_json r = Throw e ->
     eval (AuthAPI.getCurrentUser reply) s = Throw e) /\
  getItem "auth_token" s' = getItem "auth_token" s.
Proof.
  cbv zeta. unfold exec, eval. rewrite AuthAPI_getCurrentUser_spec.
  split; [| split; [| split; [| split; [| split; [| split]]]]].
  - intros r u -> Hok Hjson. rewrite Hok, Hjson. cbn [fst snd].
    split; [reflexivity |].
    assert (getItem "user_profile" (setItem "user_profile" (JSON_stringify u) s)
            = Some (JSON_stringify u)) as Hget by apply lookup_insert_eq.
    split; [exact Hget |].
    intros Hne Hparse. exact (getUserProfile_cached _ _ _ Hget Hne Hparse).
  - intros err. destruct reply as [e | r]; [reflexivity |].
    destruct (ok r); [destruct (json r) | destruct (error_json r)];
      cbn [fst snd]; try reflexivity; discriminate.
  - intros e ->. reflexivity.
  - intros r e -> Hok Hjson. rewrite Hok, Hjson. reflexivity.
  - intros r d -> Hok Hd. rewrite Hok, Hd. reflexivity.
  - intros r e -> Hok He. rewrite Hok, He. reflexivity.
  - destruct reply as [e | r]; [reflexivity |].
    destruct (ok r); [destruct (json r) | destruct (error_json r)];
      cbn [fst snd]; try reflexivity.
    unfold getItem, setItem. apply lookup_insert_ne. discriminate.
Qed.

Lemma getCurrentUser_caches_profile_witness :
  let s' := exec (AuthAPI.getCurrentUser (J := sample_json) (Replied (reply_200 alice))) ∅ in
  AuthAPI.getUserProfile (J := sample_json) s' = (Normal (Some alice), s').
Proof.
  cbv zeta.
  destruct (getCurrentUser_caches_profile (J := sample_json) (Replied (reply_200 alice)) ∅)
    as (H & _).
  destruct (H (reply_200 alice) alice eq_refl eq_refl eq_refl) as (_ & _ & Hround).
  apply Hround; [discriminate | reflexivity].
Defined.




(** ** [AuthAPI]: replies that are not what the client expects *)

(** What [handleResponse] does with a reply. *)
Lemma AuthAPI_handleResponse_spec {T} (r : Response T) (s : Storage) :
  AuthAPI.handleResponse r s =
    (if is_html r then
       if status r =? 404 then
         Throw (new_Error "API endpoint not found. Please check if the backend server is running and the URL is correct.")
       else if 500 <=? status r then
         Throw (new_Error "Server error occurred. Please try again later.")
       else
         Throw (new_Error "Unexpected server response. Please check your network connection and try again.")
     else
       match json r with
       | Normal v => Normal v
       | Throw _ =>
           Throw {| eclass := TypeErrorC; ename := "TypeError";
                    emessage := "body stream already read" |}
       end,
     s).
Proof.
  unfold AuthAPI.handleResponse, body_already_read.
  destruct (is_html r); eff.
  - destruct (status r =? 404); [reflexivity |].
    destruct (500 <=? status r); reflexivity.
  - destruct (json r); reflexivity.
Qed.

(** X5.  [AuthAPI.handleResponse] never writes to the storage.  A reply
    whose content type contains [text/html] is never returned as a value:
    it becomes an error whose message depends on the status alone (404,
    500 and above, any other).  Of the other replies it returns the parsed
    JSON body.  When the body is not JSON, the handler of the parse error
    reads the body a second time before it throws, and that read is
    rejected: the error that leaves the function is the [TypeError] of the
    second read, never the error [Invalid response format from server]
    that the handler was about to throw.  [login] lets these errors
    through and stores nothing. *)
Theorem handleResponse_html_or_json {T} (r : Response T) (s : Storage) :
  exec (AuthAPI.handleResponse r) s = s /\
  (is_html r = true ->
   eval (AuthAPI.handleResponse r) s =
     Throw (new_Error
       (if status r =? 404 then
          "API endpoint not found. Please check if the backend server is running and the URL is correct."
        else if 500 <=? status r then
          "Server error occurred. Please try again later."
        else
          "Unexpected server response. Please check your network connection and try again."))) /\
  (forall v, eval (AuthAPI.handleResponse r) s = Normal v <->
             is_html r = false /\ json r = Normal v) /\
  (forall e, is_html r = false -> json r = Throw e ->
     exists err,
       eval (AuthAPI.handleResponse r) s = Throw err /\
       instanceof_TypeError err = true /\
       emessage err <> "Invalid response format from server") /\
  (forall (J : Json) (data : LoginForm) (rl : Response LoginResponse.t) err,
     ok rl = true ->
     eval (AuthAPI.handleResponse rl) s = Throw err ->
     AuthAPI.login data (Replied rl) s = (Throw err, s)).
Proof.
  unfold exec, eval. rewrite AuthAPI_handleResponse_spec. cbn [fst snd].
  split; [reflexivity |]. split; [| split; [| split]].
  - intros ->. destruct (status r =? 404); [reflexivity |].
    destruct (500 <=? status r); reflexivity.
  - intros v. destruct (is_html r).
    + split; [| intros [[=] _]].
      destruct (status r =? 404); [discriminate |].
      destruct (500 <=? status r); discriminate.
    + destruct (json r) as [v' | e]; split.
      * intros [= <-]. split; reflexivity.
      * intros [_ [= <-]]. reflexivity.
      * discriminate.
      * intros [_ [=]].
  - intros e -> ->. eexists. split; [reflexivity |]. split; [reflexivity | discriminate].
  - intros J data rl err Hok. rewrite AuthAPI_handleResponse_spec. cbn [fst].
    intros Hthrow. unfold AuthAPI.login.
    unfold mbind, eff_mbind, eff_bind, try_catch. cbn [await_fetch mret eff_mret eff_ret].
    rewrite Hok. cbn [negb]. rewrite AuthAPI_handleResponse_spec.
    rewrite Hthrow. reflexivity.
Qed.

Lemma handleResponse_html_or_json_witness :
  exists err,
    eval (AuthAPI.handleResponse plain_text_reply) ∅ = Throw err /\
    instanceof_TypeError err = true /\
    emessage err <> "Invalid response format from server".
Proof.
  destruct (handleResponse_html_or_json plain_text_reply ∅) as (_ & _ & _ & H & _).
  apply (H json_syntax_error); reflexivity.
Defined.

(** ** Signing up *)

Lemma AuthAPI_signup_spec (data : SignupForm.t) (reply : Fetch UserProfile) (s : Storage) :
  AuthAPI.signup data reply s =
    (match reply with
     | Rejected err => Throw err
     | Replied r =>
         if ok r then fst (AuthAPI.handleResponse r s)
         else
           match fst (AuthAPI.handleResponse (as_error r) s) with
           | Normal errorData =>
               Throw (new_Error (or_else (detail (default {| detail := None |} errorData))
                                         "Registration failed"))
           | Throw err => Throw err
           end
     end,
     s).
Proof.
  unfold AuthAPI.signup. unfold mbind, eff_mbind, eff_bind, try_catch.
  destruct reply as [err | r]; cbn [await_fetch throw mret eff_mret eff_ret]; [reflexivity |].
  destruct (ok r); cbn [negb]; rewrite AuthAPI_handleResponse_spec; cbn [fst].
  - destruct (is_html r).
    + destruct (status r =? 404); [reflexivity |].
      destruct (500 <=? status r); reflexivity.
    + destruct (json r); reflexivity.
  - destruct (is_html (as_error r)).
    + destruct (status (as_error r) =? 404); [reflexivity |].
      destruct (500 <=? status (as_error r)); reflexivity.
    + destruct (json (as_error r)); reflexivity.
Qed.

Lemma AuthProvider_signup_spec (data : SignupForm.t) (reply : Fetch UserProfile)
      (st : AuthProvider.State) :
  AuthProvider.signup data reply st =
    match fst (AuthAPI.signup data reply (AuthProvider.storage st)) with
    | Normal newUser =>
        (Normal tt,
         AuthProvider.mkState (AuthProvider.storage st) (AuthProvider.user st) false
           (AuthProvider.pushed st ++
              ["/auth/verify-email?email=" +:+ encodeURIComponent (email newUser)])
           (AuthProvider.toasts st ++
              [mkToast ToastSuccess "Account created successfully!"
                 (Some "Please check your email to verify your account.")]))
    | Throw err =>
        (Throw err,
         AuthProvider.mkState (AuthProvider.storage st) (AuthProvider.user st) false
           (AuthProvider.pushed st)
           (AuthProvider.toasts st ++
              [mkToast ToastError "Registration failed" (Some (emessage err))]))
    end.
Proof.
  unfold AuthProvider.signup, AuthProvider.api, AuthProvider.setIsLoading,
    AuthProvider.toast, AuthProvider.router_push.
  unfold mbind, eff_mbind, eff_bind, try_catch, try_finally, zoom, modify.
  cbn [AuthProvider.storage AuthProvider.user AuthProvider.isLoading
       AuthProvider.pushed AuthProvider.toasts].
  rewrite AuthAPI_signup_spec. cbn [fst snd].
  match goal with |- context [match ?c with Normal _ => _ | Throw _ => _ end] =>
    destruct c end; reflexivity.
Qed.

(** X6.  Signing up does not authenticate.  Whatever the backend
    answers, [signup] of the provider leaves the storage and the session
    user as they were (and so the flag [isAuthenticated]) and ends with
    [isLoading] false.  When it ends normally it has shown the toast of
    success and pushed the verification page once, with the e-mail address
    of the new user as an encoded query parameter; when it throws it has
    pushed nothing and shown the message of the error in a toast.  A reply
    that is not 2xx and carries a [detail] that is not empty makes it throw
    that [detail]. *)
Theorem signup_does_not_authenticate (data : SignupForm.t) (reply : Fetch UserProfile)
        (st : AuthProvider.State) :
  let st' := exec (AuthProvider.signup data reply) st in
  AuthProvider.storage st' = AuthProvider.storage st /\
  AuthProvider.user st' = AuthProvider.user st /\
  AuthProvider.isAuthenticated st' = AuthProvider.isAuthenticated st /\
  AuthProvider.isLoading st' = false /\
  (eval (AuthProvider.signup data reply) st = Normal tt ->
   exists r newUser,
     reply = Replied r /\ ok r = true /\ json r = Normal newUser /\
     AuthProvider.pushed st' =
       AuthProvider.pushed st ++
         ["/auth/verify-email?email=" +:+ encodeURIComponent (email newUser)] /\
     AuthProvider.toasts st' =
       AuthProvider.toasts st ++
         [mkToast ToastSuccess "Account created successfully!"
            (Some "Please check your email to verify your account.")]) /\
  (forall err,
     eval (AuthProvider.signup data reply) st = Throw err ->
     AuthProvider.pushed st' = AuthProvider.pushed st /\
     AuthProvider.toasts st' =
       AuthProvider.toasts st ++
         [mkToast ToastError "Registration failed" (Some (emessage err))]) /\
  (forall r d m,
     reply = Replied r -> ok r = false -> is_html r = false ->
     error_json r = Normal d -> detail d = Some m -> m <> "" ->
     eval (AuthProvider.signup data reply) st = Throw (new_Error m)).
Proof.
  cbv zeta. unfold exec, eval. rewrite AuthProvider_signup_spec.
  rewrite AuthAPI_signup_spec. cbn [fst].
  split; [| split; [| split; [| split; [| split; [| split]]]]].
  - match goal with |- context [match ?c with Normal _ => _ | Throw _ => _ end] =>
      destruct c end; reflexivity.
  - match goal with |- context [match ?c with Normal _ => _ | Throw _ => _ end] =>
      destruct c end; reflexivity.
  - match goal with |- context [match ?c with Normal _ => _ | Throw _ => _ end] =>
      destruct c end; reflexivity.
  - match goal with |- context [match ?c with Normal _ => _ | Throw _ => _ end] =>
      destruct c end; reflexivity.
  - destruct reply as [err | r]; [discriminate |].
    rewrite !AuthAPI_handleResponse_spec. cbn [fst].
    destruct (ok r) eqn:Hok.
    + destruct (is_html r).
      * destruct (status r =? 404); [discriminate |].
        destruct (500 <=? status r); discriminate.
      * destruct (json r) as [newUser | e] eqn:Hjson; [| discriminate].
        intros _. exists r, newUser. repeat split; try reflexivity; assumption.
    + destruct (is_html (as_error r)).
      * destruct (status (as_error r) =? 404); [discriminate |].
        destruct (500 <=? status (as_error r)); discriminate.
      * destruct (json (as_error r)); discriminate.
  - intros err.
    match goal with |- context [match ?c with Normal _ => _ | Throw _ => _ end] =>
      destruct c as [newUser | e] end; [discriminate |].
    cbn [fst snd]. intros [= <-]. split; reflexivity.
  - intros r d m -> Hok Hhtml Hd Hm Hne.
    rewrite Hok, AuthAPI_handleResponse_spec. cbn [fst].
    change (is_html (as_error r)) with (is_html r). rewrite Hhtml.
    change (json (as_error r)) with (error_body r).
    rewrite (proj1 (error_json_Normal r d) Hd). cbn [default].
    rewrite (or_else_detail _ m _ Hm Hne). reflexivity.
Qed.

Lemma signup_does_not_authenticate_witness :
  eval (AuthProvider.signup alice_signup (Replied email_taken)) no_session =
    Throw (new_Error "REGISTER_USER_ALREADY_EXISTS").
Proof.
  destruct (signup_does_not_authenticate alice_signup (Replied email_taken) no_session)
    as (_ & _ & _ & _ & _ & _ & H).
  apply (H email_taken {| detail := Some "REGISTER_USER_ALREADY_EXISTS" |}
           "REGISTER_USER_ALREADY_EXISTS");
    [reflexivity | reflexivity | reflexivity | reflexivity | reflexivity | discriminate].
Defined.

(** ** Password recovery and e-mail verification *)

(** X7.  [forgotPassword], [resetPassword], [sendVerificationCode] and
    [verifyCode] never touch the storage, and rethrow what they catch.
    On a reply that is not 2xx they throw the [detail] of its JSON body,
    or their own message when the body has none; when that body is not
    JSON they throw the error of the parser, and their own message is not
    used.  On a 2xx reply [forgotPassword] and [resetPassword] report
    success without reading the body, while the other two return the
    body, or throw when it is not JSON. *)
Theorem recovery_calls_errors (email code token password : string) :
  throws_server_error (AuthAPI.forgotPassword email) "Failed to send reset email" /\
  throws_server_error (AuthAPI.resetPassword token password) "Password reset failed" /\
  throws_server_error (AuthAPI.sendVerificationCode email) "Failed to send verification code" /\
  throws_server_error (AuthAPI.verifyCode email code) "Code verification failed" /\
  forall (s : Storage),
    (forall r, ok r = true ->
       eval (AuthAPI.forgotPassword email (Replied r)) s =
         Normal (AuthResponse.mk true "Password reset email sent successfully") /\
       eval (AuthAPI.resetPassword token password (Replied r)) s =
         Normal (AuthResponse.mk true "Password reset successfully")) /\
    (forall r, ok r = true ->
       eval (AuthAPI.sendVerificationCode email (Replied r)) s = json r /\
       eval (AuthAPI.verifyCode email code (Replied r)) s = json r).
Proof.
  unfold throws_server_error, AuthAPI.forgotPassword, AuthAPI.resetPassword,
    AuthAPI.sendVerificationCode, AuthAPI.verifyCode.
  repeat match goal with |- _ /\ _ => split end.
  1-4: intros s; repeat match goal with |- _ /\ _ => split end.
  all: try (intros [e | r]; eff; [reflexivity |];
            destruct (ok r); eff; [try destruct (json r); reflexivity |];
            destruct (error_json r); reflexivity).
  all: try (intros e; reflexivity).
  all: try (intros r d Hok Hd; eff; rewrite Hok; eff; rewrite Hd; reflexivity).
  all: intros s; split; intros r Hok; eff; rewrite Hok; eff; split;
    try reflexivity; destruct (json r); reflexivity.
Qed.

Lemma recovery_calls_errors_witness :
  eval (AuthAPI.forgotPassword "alice@example.com" (Replied bad_gateway)) stored_session =
    Throw json_syntax_error.
Proof.
  destruct (recovery_calls_errors "alice@example.com" "123456" "reset-1" "Secret123")
    as (Hforgot & _).
  destruct (Hforgot stored_session) as (_ & _ & _ & Hparse).
  apply Hparse; reflexivity.
Defined.

(** ** The initialisation of the provider *)

(** [initializeAuth] from a storage with a token that is not empty, in
    terms of the calls of [AuthAPI] that it makes. *)
Lemma initializeAuth_spec {J : Json} (currentPath : string)
      (validate_reply logout_reply : Fetch unit)
      (me_reply : Fetch UserProfile) (status_reply : Fetch BusinessStatus)
      (st : AuthProvider.State) :
  truthy_opt (AuthAPI.getToken (AuthProvider.storage st)) = true ->
  let cached := fst (AuthAPI.getUserProfile (AuthProvider.storage st)) in
  let s1 := snd (AuthAPI.getUserProfile (AuthProvider.storage st)) in
  AuthProvider.initializeAuth currentPath validate_reply logout_reply me_reply status_reply st =
    (Normal tt,
     if token_accepted validate_reply then
       match AuthAPI.getCurrentUser me_reply s1 with
       | (Normal currentUser, s2) =>
           AuthProvider.mkState s2 (Some currentUser) false
             (AuthProvider.pushed st ++
                if checked_path currentPath then
                  if negb (business_answer status_reply) &&
                     negb (bool_decide (currentPath = "/onboarding"))
                  then ["/onboarding"]
                  else if business_answer status_reply &&
                          (bool_decide (currentPath = "/") || startsWith currentPath "/auth")
                  then ["/dashboard"]
                  else []
                else [])
             (AuthProvider.toasts st)
       | (Throw _, s2) =>
           match cached with
           | Normal (Some p) =>
               AuthProvider.mkState s2 (Some p) false (AuthProvider.pushed st)
                                    (AuthProvider.toasts st)
           | _ =>
               AuthProvider.mkState (cleared s2) None false (AuthProvider.pushed st)
                                    (AuthProvider.toasts st)
           end
       end
     else
       AuthProvider.mkState (cleared s1) None false (AuthProvider.pushed st)
                            (AuthProvider.toasts st)).
Proof.
  intros Htok. cbv zeta.
  assert (truthy_opt (AuthAPI.getToken (snd (AuthAPI.getUserProfile (AuthProvider.storage st))))
          = true) as Htok1.
  { rewrite AuthAPI_getUserProfile_spec.
    destruct (getItem "user_profile" (AuthProvider.storage st)) as [profile |]; [| exact Htok].
    destruct (truthy profile); [| exact Htok].
    destruct (JSON_parse profile); cbn [snd]; try exact Htok.
    all: unfold AuthAPI.getToken, getItem, removeItem;
      rewrite lookup_delete_ne by discriminate; exact Htok. }
  unfold AuthProvider.initializeAuth, AuthProvider.api, AuthProvider.setIsLoading,
    AuthProvider.setUser, AuthProvider.router_push, checked_path, cleared.
  unfold mbind, eff_mbind, eff_bind, try_catch, try_finally, zoom, modify, get_world,
    mret, eff_mret, eff_ret.
  cbn [AuthProvider.storage AuthProvider.user AuthProvider.isLoading
       AuthProvider.pushed AuthProvider.toasts].
  rewrite Htok. cbn [negb].
  assert (exists c, fst (AuthAPI.getUserProfile (AuthProvider.storage st)) = Normal c) as [c Hc].
  { rewrite AuthAPI_getUserProfile_spec.
    destruct (getItem "user_profile" (AuthProvider.storage st)) as [profile |];
      [| eexists; reflexivity].
    destruct (truthy profile); [| eexists; reflexivity].
    destruct (JSON_parse profile); eexists; reflexivity. }
  destruct (AuthAPI.getUserProfile (AuthProvider.storage st)) as [cached s1] eqn:Hprof.
  cbn [fst snd] in *. subst cached.
  destruct c as [p |];
    cbn [AuthProvider.storage AuthProvider.user AuthProvider.isLoading
         AuthProvider.pushed AuthProvider.toasts].
  all: rewrite AuthAPI_validateToken_spec, Htok1; cbn [andb fst snd].
  all: fold (token_accepted validate_reply).
  all: destruct (token_accepted validate_reply);
    cbn [negb AuthProvider.storage AuthProvider.user AuthProvider.isLoading
         AuthProvider.pushed AuthProvider.toasts];
    [| rewrite AuthAPI_logout_spec; reflexivity].
  all: destruct (AuthAPI.getCurrentUser me_reply s1) as [[currentUser | err] s2] eqn:Hme;
    cbn [AuthProvider.storage AuthProvider.user AuthProvider.isLoading
         AuthProvider.pushed AuthProvider.toasts];
    try (rewrite AuthAPI_logout_spec); try reflexivity.
  all: destruct (bool_decide (currentPath = "/") || startsWith currentPath "/auth" ||
                 bool_decide (currentPath = "/dashboard")); [| rewrite app_nil_r; reflexivity].
  all: rewrite hasRegisteredBusiness_spec; fold (business_answer status_reply).
  all: destruct (business_answer status_reply); cbn [negb andb].
  all: try (destruct (bool_decide (currentPath = "/") || startsWith currentPath "/auth");
            cbn; rewrite ?app_nil_r; reflexivity).
  all: destruct (bool_decide (currentPath = "/onboarding")); cbn;
    rewrite ?app_nil_r; reflexivity.
Qed.

Lemma initializeAuth_no_token {J : Json} (currentPath : string)
      (validate_reply logout_reply : Fetch unit)
      (me_reply : Fetch UserProfile) (status_reply : Fetch BusinessStatus)
      (st : AuthProvider.State) :
  truthy_opt (AuthAPI.getToken (AuthProvider.storage st)) = false ->
  AuthProvider.initializeAuth currentPath validate_reply logout_reply me_reply status_reply st =
    (Normal tt,
     AuthProvider.mkState (AuthProvider.storage st) (AuthProvider.user st) false
       (AuthProvider.pushed st) (AuthProvider.toasts st)).
Proof.
  intros Htok.
  unfold AuthProvider.initializeAuth, AuthProvider.setIsLoading.
  unfold mbind, eff_mbind, eff_bind, try_catch, try_finally, modify, get_world.
  rewrite Htok. reflexivity.
Qed.

(** The completion of [getCurrentUser] does not depend on the storage. *)
Lemma getCurrentUser_eval {J : Json} (reply : Fetch UserProfile) (s s0 : Storage) :
  fst (AuthAPI.getCurrentUser reply s) = fst (AuthAPI.getCurrentUser reply s0).
Proof.
  rewrite !AuthAPI_getCurrentUser_spec. destruct reply as [err | r]; [reflexivity |].
  destruct (ok r); [destruct (json r) | destruct (error_json r)]; reflexivity.
Qed.

Lemma getCurrentUser_failure {J : Json} (reply : Fetch UserProfile) (s : Storage) err :
  fst (AuthAPI.getCurrentUser reply s) = Throw err ->
  snd (AuthAPI.getCurrentUser reply s) = s.
Proof.
  rewrite AuthAPI_getCurrentUser_spec. destruct reply as [e | r]; [reflexivity |].
  destruct (ok r); [destruct (json r) | destruct (error_json r)];
    cbn; try reflexivity; discriminate.
Qed.

Lemma validateToken_answer (reply : Fetch unit) (s : Storage) (answer : bool) :
  eval (AuthAPI.validateToken reply) s = Normal answer ->
  truthy_opt (AuthAPI.getToken s) && token_accepted reply = answer.
Proof.
  unfold eval. rewrite AuthAPI_validateToken_spec. cbn. intros [= <-]. reflexivity.
Qed.

(** X8.  [initializeAuth] always settles: for every storage, path and
    outcome of its four requests it ends normally, with [isLoading] false
    and without a toast.  Without a stored token (none, or the empty
    string) it changes nothing else.  It navigates at most once, to
    [/onboarding] or to [/dashboard], only on the paths [/], [/auth...]
    and [/dashboard], and only when it ends with a session user. *)
Theorem initializeAuth_settles {J : Json} (currentPath : string)
        (validate_reply logout_reply : Fetch unit)
        (me_reply : Fetch UserProfile) (status_reply : Fetch BusinessStatus)
        (st : AuthProvider.State) :
  let init :=
    AuthProvider.initializeAuth currentPath validate_reply logout_reply me_reply status_reply in
  let st' := exec init st in
  eval init st = Normal tt /\
  AuthProvider.isLoading st' = false /\
  AuthProvider.toasts st' = AuthProvider.toasts st /\
  (truthy_opt (AuthAPI.getToken (AuthProvider.storage st)) = false ->
   AuthProvider.storage st' = AuthProvider.storage st /\
   AuthProvider.user st' = AuthProvider.user st /\
   AuthProvider.pushed st' = AuthProvider.pushed st) /\
  exists l,
    AuthProvider.pushed st' = AuthProvider.pushed st ++ l /\
    (l = [] \/ l = ["/onboarding"] \/ l = ["/dashboard"]) /\
    (l <> [] ->
     AuthProvider.user st' <> None /\
     (currentPath = "/" \/ startsWith currentPath "/auth" = true \/
      currentPath = "/dashboard")).
Proof.
  cbv zeta. unfold eval, exec.
  destruct (truthy_opt (AuthAPI.getToken (AuthProvider.storage st))) eqn:Htok.
  - pose proof (initializeAuth_spec currentPath validate_reply logout_reply me_reply
                  status_reply st Htok) as Hspec.
    cbv zeta in Hspec. rewrite Hspec. clear Hspec. cbn [fst snd].
    destruct (token_accepted validate_reply).
    + destruct (AuthAPI.getCurrentUser me_reply _) as [[currentUser | err] s2].
      * cbn. repeat split; try discriminate.
        unfold checked_path.
        destruct (bool_decide (currentPath = "/")) eqn:H1;
          destruct (startsWith currentPath "/auth") eqn:H2;
          destruct (bool_decide (currentPath = "/dashboard")) eqn:H3;
          destruct (business_answer status_reply);
          destruct (bool_decide (currentPath = "/onboarding"));
          cbn; eexists; (split; [reflexivity |]);
          (split; [first [left; reflexivity | right; left; reflexivity
                         | right; right; reflexivity] |]);
          intros Hl; try (exfalso; apply Hl; reflexivity);
          (split; [discriminate |]);
          try (apply bool_decide_eq_true in H1); try (apply bool_decide_eq_true in H3);
          first [left; assumption | right; left; reflexivity | right; right; assumption].
      * destruct (fst (AuthAPI.getUserProfile (AuthProvider.storage st))) as [[p |] | e];
          cbn; repeat split; try discriminate;
          exists []; rewrite app_nil_r; (split; [reflexivity |]);
          (split; [left; reflexivity | intros Hl; exfalso; apply Hl; reflexivity]).
    + cbn. repeat split; try discriminate.
      exists []. rewrite app_nil_r. split; [reflexivity |].
      split; [left; reflexivity | intros Hl; exfalso; apply Hl; reflexivity].
  - rewrite (initializeAuth_no_token _ _ _ _ _ _ Htok). cbn.
    repeat split.
    exists []. rewrite app_nil_r. split; [reflexivity |].
    split; [left; reflexivity | intros Hl; exfalso; apply Hl; reflexivity].
Qed.

Lemma initializeAuth_settles_witness :
  let st' :=
    exec (AuthProvider.initializeAuth (J := sample_json) "/dashboard/documents"
            (Replied (reply_200 tt)) (Replied (reply_200 tt))
            (Replied (reply_200 alice)) (Replied (reply_200 no_business)))
         empty_token_session in
  AuthProvider.storage st' = AuthProvider.storage empty_token_session /\
  AuthProvider.user st' = Some alice /\
  AuthProvider.pushed st' = [].
Proof.
  cbv zeta.
  refine (let H := initializeAuth_settles (J := sample_json) "/dashboard/documents"
                     (Replied (reply_200 tt)) (Replied (reply_200 tt))
                     (Replied (reply_200 alice)) (Replied (reply_200 no_business))
                     empty_token_session in _).
  destruct H as (_ & _ & _ & H & _). apply H. reflexivity.
Defined.

(** X9.  A token that the backend does not accept ends the session at
    start-up.  When [validateToken()] answers [false] for a stored token
    (the reply is not 2xx, or the request failed with an error that is not
    a [TypeError] mentioning [fetch]), [initializeAuth] removes
    [auth_token] and [user_profile], clears the session user, a cached
    profile included, and navigates nowhere; the profile is not
    fetched. *)
Theorem initializeAuth_rejected_token {J : Json} (currentPath : string)
        (validate_reply logout_reply : Fetch unit)
        (me_reply : Fetch UserProfile) (status_reply : Fetch BusinessStatus)
        (st : AuthProvider.State) :
  truthy_opt (AuthAPI.getToken (AuthProvider.storage st)) = true ->
  eval (AuthAPI.validateToken validate_reply) (AuthProvider.storage st) = Normal false ->
  let st' :=
    exec (AuthProvider.initializeAuth currentPath validate_reply logout_reply
            me_reply status_reply) st in
  getItem "auth_token" (AuthProvider.storage st') = None /\
  getItem "user_profile" (AuthProvider.storage st') = None /\
  AuthProvider.user st' = None /\
  AuthProvider.isAuthenticated st' = false /\
  AuthProvider.pushed st' = AuthProvider.pushed st /\
  st' =
    exec (AuthProvider.initializeAuth currentPath validate_reply logout_reply
            (Rejected failed_to_fetch) (Rejected failed_to_fetch)) st.
Proof.
  intros Htok Hvalid. cbv zeta. unfold exec.
  apply validateToken_answer in Hvalid. rewrite Htok in Hvalid. cbn in Hvalid.
  pose proof (initializeAuth_spec currentPath validate_reply logout_reply me_reply
                status_reply st Htok) as Hspec.
  pose proof (initializeAuth_spec currentPath validate_reply logout_reply
                (Rejected failed_to_fetch) (Rejected failed_to_fetch) st Htok) as Hspec0.
  cbv zeta in Hspec, Hspec0. rewrite Hspec, Hspec0, Hvalid. cbn [snd].
  pose proof (removed_both (snd (AuthAPI.getUserProfile (AuthProvider.storage st))))
    as [Ht Hp].
  unfold cleared, AuthProvider.isAuthenticated. cbn.
  repeat split; assumption.
Qed.

Lemma initializeAuth_rejected_token_witness :
  let st' :=
    exec (AuthProvider.initializeAuth (J := sample_json) "/dashboard"
            (Replied unauthorized) (Replied (reply_200 tt))
            (Replied (reply_200 alice)) (Replied (reply_200 one_business)))
         alice_session in
  getItem "auth_token" (AuthProvider.storage st') = None /\
  getItem "user_profile" (AuthProvider.storage st') = None /\
  AuthProvider.user st' = None.
Proof.
  cbv zeta.
  refine (let H := initializeAuth_rejected_token (J := sample_json) "/dashboard"
                     (Replied unauthorized) (Replied (reply_200 tt))
                     (Replied (reply_200 alice)) (Replied (reply_200 one_business))
                     alice_session eq_refl eq_refl in _).
  destruct H as (Ht & Hp & Hu & _). repeat split; assumption.
Defined.

(** X10.  A backend that cannot be asked does not end a cached session.
    When [validateToken()] answers [true] (as it does when the request
    fails with a [TypeError] that mentions [fetch]) and the request of the
    profile fails, in whatever way, [initializeAuth] keeps the profile of
    the cache as session user and the storage as it is, token included,
    and navigates nowhere.  Without a usable profile in the cache the same
    failure ends the session: both entries are removed and there is no
    session user. *)
Theorem initializeAuth_keeps_cached_session {J : Json} (currentPath : string)
        (validate_reply logout_reply : Fetch unit)
        (me_reply : Fetch UserProfile) (status_reply : Fetch BusinessStatus)
        (st : AuthProvider.State) (err : JsError) :
  eval (AuthAPI.validateToken validate_reply) (AuthProvider.storage st) = Normal true ->
  eval (AuthAPI.getCurrentUser me_reply) (AuthProvider.storage st) = Throw err ->
  let st' :=
    exec (AuthProvider.initializeAuth currentPath validate_reply logout_reply
            me_reply status_reply) st in
  (forall profile p,
     getItem "user_profile" (AuthProvider.storage st) = Some profile -> profile <> "" ->
     JSON_parse profile = ParsedProfile p ->
     AuthProvider.storage st' = AuthProvider.storage st /\
     AuthProvider.user st' = Some p /\
     AuthProvider.isAuthenticated st' = true /\
     AuthProvider.pushed st' = AuthProvider.pushed st) /\
  (eval AuthAPI.getUserProfile (AuthProvider.storage st) = Normal None ->
   getItem "auth_token" (AuthProvider.storage st') = None /\
   getItem "user_profile" (AuthProvider.storage st') = None /\
   AuthProvider.user st' = None /\
   AuthProvider.pushed st' = AuthProvider.pushed st).
Proof.
  intros Hvalid Hme. cbv zeta. unfold exec.
  apply validateToken_answer in Hvalid. apply andb_true_iff in Hvalid as [Htok Hacc].
  pose proof (initializeAuth_spec currentPath validate_reply logout_reply me_reply
                status_reply st Htok) as Hspec.
  cbv zeta in Hspec. rewrite Hspec, Hacc. clear Hspec. cbn [snd].
  unfold eval in Hme.
  set (s1 := snd (AuthAPI.getUserProfile (AuthProvider.storage st))).
  rewrite (getCurrentUser_eval me_reply _ s1) in Hme.
  pose proof (getCurrentUser_failure me_reply s1 err Hme) as Hs2.
  destruct (AuthAPI.getCurrentUser me_reply s1) as [c s2]. cbn [fst snd] in *.
  subst c s2. subst s1. split.
  - intros profile p Hget Hne Hparse.
    rewrite (getUserProfile_cached _ _ _ Hget Hne Hparse).
    unfold AuthProvider.isAuthenticated. cbn. repeat split. exact Htok.
  - unfold eval. intros Hnone. rewrite Hnone.
    pose proof (removed_both (snd (AuthAPI.getUserProfile (AuthProvider.storage st))))
      as [Ht Hp].
    unfold cleared. cbn. repeat split; assumption.
Qed.

Lemma initializeAuth_keeps_cached_session_witness :
  let st' :=
    exec (AuthProvider.initializeAuth (J := sample_json) "/dashboard"
            (Rejected failed_to_fetch) (Rejected failed_to_fetch)
            (Rejected failed_to_fetch) (Rejected failed_to_fetch))
         reloading_tab in
  AuthProvider.storage st' = stored_session /\
  AuthProvider.user st' = Some alice /\
  AuthProvider.isAuthenticated st' = true /\
  AuthProvider.pushed st' = [].
Proof.
  cbv zeta.
  refine (let H := initializeAuth_keeps_cached_session (J := sample_json) "/dashboard"
                     (Rejected failed_to_fetch) (Rejected failed_to_fetch)
                     (Rejected failed_to_fetch) (Rejected failed_to_fetch)
                     reloading_tab failed_to_fetch eq_refl eq_refl in _).
  destruct H as (H & _).
  apply (H "{alice@example.com}" alice); [reflexivity | discriminate | reflexivity].
Defined.

(** X11.  With an accepted token and a profile that the backend delivers,
    [initializeAuth] makes the fetched profile the session user, caches it
    under [user_profile], keeps the token, and looks at the business
    registration on the paths [/], [/auth...] and [/dashboard] only:
    without a business it pushes [/onboarding]; with one it pushes
    [/dashboard] from [/] and [/auth...] and nothing from [/dashboard].  On
    any other path it pushes nothing.  A status request that fails counts
    as no business. *)
Theorem initializeAuth_refreshes_and_redirects {J : Json} (currentPath : string)
        (validate_reply logout_reply : Fetch unit)
        (rm : Response UserProfile) (currentUser : UserProfile)
        (status_reply : Fetch BusinessStatus) (st : AuthProvider.State) :
  eval (AuthAPI.validateToken validate_reply) (AuthProvider.storage st) = Normal true ->
  ok rm = true -> json rm = Normal currentUser ->
  let st' :=
    exec (AuthProvider.initializeAuth currentPath validate_reply logout_reply
            (Replied rm) status_reply) st in
  let hasBusiness := eval (BusinessAPI.hasRegisteredBusiness status_reply) st in
  AuthProvider.user st' = Some currentUser /\
  getItem "user_profile" (AuthProvider.storage st') = Some (JSON_stringify currentUser) /\
  getItem "auth_token" (AuthProvider.storage st') =
    getItem "auth_token" (AuthProvider.storage st) /\
  AuthProvider.isAuthenticated st' = true /\
  (currentPath <> "/" -> startsWith currentPath "/auth" = false ->
   currentPath <> "/dashboard" ->
   AuthProvider.pushed st' = AuthProvider.pushed st) /\
  (currentPath = "/" \/ startsWith currentPath "/auth" = true \/ currentPath = "/dashboard" ->
   hasBusiness = Normal false ->
   AuthProvider.pushed st' = AuthProvider.pushed st ++ ["/onboarding"]) /\
  (currentPath = "/" \/ startsWith currentPath "/auth" = true ->
   hasBusiness = Normal true ->
   AuthProvider.pushed st' = AuthProvider.pushed st ++ ["/dashboard"]) /\
  (currentPath = "/dashboard" -> hasBusiness = Normal true ->
   AuthProvider.pushed st' = AuthProvider.pushed st) /\
  (forall e, status_reply = Rejected e -> hasBusiness = Normal false).
Proof.
  intros Hvalid Hok Hjson. cbv zeta. unfold exec, eval.
  rewrite hasRegisteredBusiness_spec. cbn [fst]. fold (business_answer status_reply).
  apply validateToken_answer in Hvalid. apply andb_true_iff in Hvalid as [Htok Hacc].
  pose proof (initializeAuth_spec currentPath validate_reply logout_reply (Replied rm)
                status_reply st Htok) as Hspec.
  cbv zeta in Hspec. rewrite Hspec, Hacc. clear Hspec. cbn [snd].
  rewrite AuthAPI_getCurrentUser_spec, Hok, Hjson. cbn [snd].
  set (s1 := snd (AuthAPI.getUserProfile (AuthProvider.storage st))).
  assert (getItem "auth_token" s1 = getItem "auth_token" (AuthProvider.storage st)) as Hkeep.
  { subst s1. rewrite AuthAPI_getUserProfile_spec.
    destruct (getItem "user_profile" (AuthProvider.storage st)) as [profile |];
      [| reflexivity].
    destruct (truthy profile); [| reflexivity].
    destruct (JSON_parse profile); cbn [snd]; try reflexivity.
    all: unfold getItem, removeItem; apply lookup_delete_ne; discriminate. }
  assert (getItem "auth_token" (setItem "user_profile" (JSON_stringify currentUser) s1)
          = getItem "auth_token" (AuthProvider.storage st)) as Htoken.
  { rewrite <- Hkeep. unfold getItem, setItem. apply lookup_insert_ne. discriminate. }
  unfold AuthProvider.isAuthenticated.
  cbn [AuthProvider.storage AuthProvider.user AuthProvider.pushed].
  split; [reflexivity |]. split; [apply lookup_insert_eq |].
  split; [exact Htoken |].
  split.
  { unfold AuthAPI.getToken in *. rewrite Htoken, Htok. reflexivity. }
  unfold checked_path.
  split; [| split; [| split; [| split]]].
  - intros H1 H2 H3.
    rewrite (bool_decide_eq_false_2 _ H1), H2, (bool_decide_eq_false_2 _ H3).
    cbn. apply app_nil_r.
  - intros Hpath [= Hb]. rewrite Hb. cbn [negb andb].
    assert (bool_decide (currentPath = "/") || startsWith currentPath "/auth" ||
            bool_decide (currentPath = "/dashboard") = true) as ->.
    { destruct Hpath as [-> | [-> | ->]]; [reflexivity | apply orb_true_iff; left;
        apply orb_true_r | reflexivity]. }
    assert (bool_decide (currentPath = "/onboarding") = false) as ->.
    { apply bool_decide_eq_false_2. intros ->.
      destruct Hpath as [[=] | [[=] | [=]]]. }
    reflexivity.
  - intros Hpath [= Hb]. rewrite Hb. cbn [negb andb].
    assert (bool_decide (currentPath = "/") || startsWith currentPath "/auth" = true) as Hp.
    { destruct Hpath as [-> | ->]; [reflexivity | apply orb_true_r]. }
    rewrite Hp. reflexivity.
  - intros -> [= Hb]. rewrite Hb. cbn. apply app_nil_r.
  - intros e ->. reflexivity.
Qed.

Lemma initializeAuth_refreshes_and_redirects_witness :
  AuthProvider.pushed
    (exec (AuthProvider.initializeAuth (J := sample_json) "/auth/login"
             (Replied (reply_200 tt)) (Replied (reply_200 tt))
             (Replied (reply_200 alice)) (Replied (reply_200 one_business)))
          reloading_tab) = ["/dashboard"].
Proof.
  refine (let H := initializeAuth_refreshes_and_redirects (J := sample_json) "/auth/login"
                     (Replied (reply_200 tt)) (Replied (reply_200 tt))
                     (reply_200 alice) alice (Replied (reply_200 one_business))
                     reloading_tab eq_refl eq_refl eq_refl in _).
  destruct H as (_ & _ & _ & _ & _ & _ & H & _).
  apply H; [right; reflexivity | reflexivity].
Defined.

(** ** Refreshing the user, and profiles written by other tabs *)

(** X12.  [refreshUser] never throws.  When the profile cannot be
    fetched, for whatever reason, it does all that [logout] does: the two
    entries of the session are removed, the session user is cleared, the
    toast [Logged out successfully] is shown and [/auth] is pushed.  When
    the profile is fetched it becomes the session user and is cached, and
    nothing else changes. *)
Theorem refreshUser_failure_logs_out {J : Json} (reply : Fetch UserProfile)
        (logout_reply : Fetch unit) (st : AuthProvider.State) :
  let st' := exec (AuthProvider.refreshUser reply logout_reply) st in
  eval (AuthProvider.refreshUser reply logout_reply) st = Normal tt /\
  (forall err,
     eval (AuthAPI.getCurrentUser reply) (AuthProvider.storage st) = Throw err ->
     AuthProvider.refreshUser reply logout_reply st = AuthProvider.logout logout_reply st /\
     getItem "auth_token" (AuthProvider.storage st') = None /\
     getItem "user_profile" (AuthProvider.storage st') = None /\
     AuthProvider.user st' = None /\
     AuthProvider.pushed st' = AuthProvider.pushed st ++ ["/auth"] /\
     AuthProvider.toasts st' =
       AuthProvider.toasts st ++ [mkToast ToastSuccess "Logged out successfully" None]) /\
  (forall r currentUser,
     reply = Replied r -> ok r = true -> json r = Normal currentUser ->
     st' =
       AuthProvider.mkState
         (setItem "user_profile" (JSON_stringify currentUser) (AuthProvider.storage st))
         (Some currentUser) (AuthProvider.isLoading st) (AuthProvider.pushed st)
         (AuthProvider.toasts st)).
Proof.
  cbv zeta.
  assert (AuthProvider.refreshUser reply logout_reply st =
          match AuthAPI.getCurrentUser reply (AuthProvider.storage st) with
          | (Normal currentUser, s') =>
              (Normal tt,
               AuthProvider.mkState s' (Some currentUser) (AuthProvider.isLoading st)
                 (AuthProvider.pushed st) (AuthProvider.toasts st))
          | (Throw _, s') =>
              AuthProvider.logout logout_reply
                (AuthProvider.mkState s' (AuthProvider.user st) (AuthProvider.isLoading st)
                   (AuthProvider.pushed st) (AuthProvider.toasts st))
          end) as Hspec.
  { unfold AuthProvider.refreshUser, AuthProvider.api, AuthProvider.setUser.
    unfold mbind, eff_mbind, eff_bind, try_catch, zoom, modify.
    destruct (AuthAPI.getCurrentUser reply (AuthProvider.storage st)) as [[u | err] s'];
      reflexivity. }
  unfold exec, eval. rewrite Hspec. split; [| split].
  - destruct (AuthAPI.getCurrentUser reply (AuthProvider.storage st)) as [[u | err] s'];
      [reflexivity |].
    rewrite AuthProvider_logout_spec. reflexivity.
  - intros err Hme.
    pose proof (getCurrentUser_failure reply _ err Hme) as Hsame.
    destruct (AuthAPI.getCurrentUser reply (AuthProvider.storage st)) as [c s'].
    cbn [fst snd] in Hme, Hsame. subst c s'.
    assert (AuthProvider.mkState (AuthProvider.storage st) (AuthProvider.user st)
              (AuthProvider.isLoading st) (AuthProvider.pushed st) (AuthProvider.toasts st)
            = st) as -> by (destruct st; reflexivity).
    split; [reflexivity |].
    rewrite AuthProvider_logout_spec. cbn.
    destruct (removed_both (AuthProvider.storage st)) as [Ht Hp].
    repeat split; assumption.
  - intros r currentUser -> Hok Hjson.
    rewrite AuthAPI_getCurrentUser_spec, Hok, Hjson. reflexivity.
Qed.

Lemma refreshUser_failure_logs_out_witness :
  let st' :=
    exec (AuthProvider.refreshUser (J := sample_json) (Rejected failed_to_fetch)
            (Rejected failed_to_fetch))
         alice_session in
  AuthProvider.user st' = None /\
  getItem "auth_token" (AuthProvider.storage st') = None /\
  AuthProvider.pushed st' = ["/dashboard"; "/auth"].
Proof.
  cbv zeta.
  destruct (refreshUser_failure_logs_out (J := sample_json) (Rejected failed_to_fetch)
              (Rejected failed_to_fetch) alice_session) as (_ & H & _).
  destruct (H failed_to_fetch eq_refl) as (_ & Ht & _ & Hu & Hp & _).
  repeat split; assumption.
Defined.

(** X13.  The listener of storage events never throws and never writes
    to the storage on an event for [user_profile]: a removed profile clears
    the session user; a new value that parses to a profile becomes the
    session user, one that parses to [null] clears it, and one that is
    empty or malformed leaves it as it is.  Events for any other key than
    [auth_token] and [user_profile], and the event without key that
    [localStorage.clear()] sends, change nothing. *)
Theorem storage_event_user_profile {J : Json} (e : StorageEvent) (st : AuthProvider.State) :
  let st' := exec (AuthProvider.handleStorageChange e) st in
  eval (AuthProvider.handleStorageChange e) st = Normal tt /\
  (key e = Some "user_profile" ->
   AuthProvider.storage st' = AuthProvider.storage st /\
   AuthProvider.pushed st' = AuthProvider.pushed st /\
   AuthProvider.toasts st' = AuthProvider.toasts st /\
   (newValue e = None -> AuthProvider.user st' = None) /\
   (forall v p, newValue e = Some v -> v <> "" -> JSON_parse v = ParsedProfile p ->
                AuthProvider.user st' = Some p) /\
   (forall v, newValue e = Some v -> v <> "" -> JSON_parse v = ParsedNull ->
              AuthProvider.user st' = None) /\
   (forall v, newValue e = Some v -> v = "" \/ JSON_parse v = ParseError -> st' = st)) /\
  (key e <> Some "auth_token" -> key e <> Some "user_profile" -> st' = st).
Proof.
  cbv zeta. unfold exec, eval.
  unfold AuthProvider.handleStorageChange, AuthProvider.setUser, AuthProvider.api.
  unfold mbind, eff_mbind, eff_bind, try_catch, zoom, modify, get_world.
  destruct (bool_decide (key e = Some "auth_token")) eqn:Hk1.
  - apply bool_decide_eq_true in Hk1. split; [| split].
    + destruct (newValue e) as [v |]; [| reflexivity].
      destruct (truthy v && negb (bool_decide (AuthProvider.user st ≠ None)));
        [| reflexivity].
      rewrite AuthAPI_getUserProfile_spec.
      destruct (getItem "user_profile" (AuthProvider.storage st)) as [profile |];
        [| reflexivity].
      destruct (truthy profile); [| reflexivity].
      destruct (JSON_parse profile); reflexivity.
    + rewrite Hk1. discriminate.
    + intros Hne. congruence.
  - apply bool_decide_eq_false in Hk1.
    destruct (bool_decide (key e = Some "user_profile")) eqn:Hk2.
    + apply bool_decide_eq_true in Hk2. split; [| split].
      * destruct (newValue e) as [v |]; [| reflexivity].
        destruct (truthy v); [| reflexivity].
        destruct (JSON_parse v); reflexivity.
      * intros _. destruct (newValue e) as [v |].
        -- destruct (truthy v) eqn:Hv.
           ++ apply truthy_true in Hv.
              destruct (JSON_parse v) eqn:Hp; cbn;
                repeat split; try discriminate; try congruence.
              all: intros v' [= <-] [-> | Hq];
                first [congruence | destruct st; reflexivity].
           ++ assert (v = "") as -> by (destruct v; [reflexivity | discriminate]).
              cbn. repeat split; try discriminate; try congruence.
        -- cbn. repeat split; discriminate.
      * intros _ Hne. congruence.
    + split; [reflexivity |]. split; [| reflexivity].
      apply bool_decide_eq_false in Hk2. intros Hk. congruence.
Qed.

Lemma storage_event_user_profile_witness :
  AuthProvider.user
    (exec (AuthProvider.handleStorageChange (J := sample_json) profile_event) no_session)
    = Some alice.
Proof.
  destruct (storage_event_user_profile (J := sample_json) profile_event no_session)
    as (_ & H & _).
  destruct (H eq_refl) as (_ & _ & _ & _ & Hp & _).
  apply (Hp "{alice@example.com}" alice); [reflexivity | discriminate | reflexivity].
Defined.

(** ** A session from login to logout *)

Lemma AuthAPI_isAuthenticated_total {J : Json} (s : Storage) :
  exists answer, eval AuthAPI.isAuthenticated s = Normal answer.
Proof.
  unfold eval, AuthAPI.isAuthenticated.
  unfold mbind, eff_mbind, eff_bind, get_world.
  rewrite AuthAPI_getUserProfile_spec.
  destruct (getItem "user_profile" s) as [profile |]; [| eexists; reflexivity].
  destruct (truthy profile); [| eexists; reflexivity].
  destruct (JSON_parse profile); eexists; reflexivity.
Qed.

(** X14.  The two entries that [login] writes are the ones that the
    readers of the session look for.  After a login that the backend
    accepts with a token that is not empty (and a [JSON] whose [parse] reads
    back what [stringify] wrote), [getToken()] returns the token,
    [getUserProfile()] returns the user of the reply and
    [AuthAPI.isAuthenticated()] is true; after a [logout()] that follows,
    [AuthAPI.isAuthenticated()] is false, whatever the backend answers to
    the logout. *)
Theorem login_then_logout {J : Json} (data : LoginForm) (r : Response LoginResponse.t)
        (result : LoginResponse.t) (logout_reply : Fetch unit) (s : Storage) :
  ok r = true -> is_html r = false -> json r = Normal result ->
  LoginResponse.access_token result <> "" ->
  JSON_stringify (LoginResponse.user result) <> "" ->
  JSON_parse (JSON_stringify (LoginResponse.user result)) =
    ParsedProfile (LoginResponse.user result) ->
  let login := AuthAPI.login data (Replied r) in
  AuthAPI.getToken (exec login s) = Some (LoginResponse.access_token result) /\
  eval (login;; AuthAPI.getUserProfile) s = Normal (Some (LoginResponse.user result)) /\
  eval (login;; AuthAPI.isAuthenticated) s = Normal true /\
  eval (login;; AuthAPI.logout logout_reply;; AuthAPI.isAuthenticated) s = Normal false /\
  exec (login;; AuthAPI.logout logout_reply) s = cleared s.
Proof.
  intros Hok Hhtml Hjson Htok Hne Hparse. cbv zeta.
  unfold exec, eval, mbind, eff_mbind, eff_bind.
  rewrite (AuthAPI_login_accepted _ _ _ _ Hok Hhtml Hjson).
  apply truthy_true in Htok. rewrite Htok.
  set (s1 := setItem "user_profile" _ _).
  assert (getItem "auth_token" s1 = Some (LoginResponse.access_token result)) as Ht.
  { subst s1. unfold getItem, setItem.
    rewrite lookup_insert_ne by discriminate. apply lookup_insert_eq. }
  assert (getItem "user_profile" s1 = Some (JSON_stringify (LoginResponse.user result)))
    as Hp by apply lookup_insert_eq.
  cbn [fst snd].
  split; [exact Ht |].
  split; [rewrite (getUserProfile_cached _ _ _ Hp Hne Hparse); reflexivity |].
  split.
  { apply AuthAPI_isAuthenticated_true. split.
    - eexists. split; [exact Ht |]. apply truthy_true. exact Htok.
    - eexists _, _. split; [exact Hp |]. split; [exact Hne | exact Hparse]. }
  rewrite AuthAPI_logout_spec. cbn [fst snd].
  split.
  - destruct (AuthAPI_isAuthenticated_total
                (removeItem "user_profile" (removeItem "auth_token" s1))) as [[|] Hauth];
      unfold eval in Hauth; rewrite Hauth; [| reflexivity].
    apply AuthAPI_isAuthenticated_true in Hauth as [(t & Hget & _) _].
    destruct (removed_both s1) as [Hnone _]. congruence.
  - subst s1. unfold cleared, removeItem, setItem. apply map_eq. intros k.
    destruct (decide (k = "user_profile")) as [-> | Hk1].
    + rewrite !lookup_delete_eq. reflexivity.
    + rewrite !(lookup_delete_ne _ "user_profile") by congruence.
      destruct (decide (k = "auth_token")) as [-> | Hk2].
      * rewrite !lookup_delete_eq. reflexivity.
      * rewrite !(lookup_delete_ne _ "auth_token") by congruence.
        rewrite !lookup_insert_ne by congruence. reflexivity.
Qed.

Lemma login_then_logout_witness :
  eval (AuthAPI.login (J := sample_json) sample_form (Replied alice_login);;
        AuthAPI.logout (Rejected failed_to_fetch);;
        AuthAPI.isAuthenticated (J := sample_json)) ∅ = Normal false.
Proof.
  destruct (login_then_logout (J := sample_json) sample_form alice_login
              (LoginResponse.mk "tok-1" "bearer" alice) (Rejected failed_to_fetch) ∅
              eq_refl eq_refl eq_refl ltac:(discriminate) ltac:(discriminate) eq_refl)
    as (_ & _ & _ & H & _).
  exact H.
Defined.

(** ** The guard of the protected pages *)

(** X15.  [ProtectedRoute] shows its children only for a settled,
    authenticated session: the provider is not loading, no redirect is
    under way, there is a session user and the storage holds a token that
    is not empty.  Once its effect has run, the guard never renders
    [null]: for a session that is loading it shows the fallback or the
    spinner and pushes nothing; for a settled session without
    authentication it pushes [/auth/login] once and shows the fallback or
    the spinner [Redirecting...]; for a settled authenticated session it
    shows the children and pushes nothing. *)
Theorem protected_route_gate (fallback : bool) (st : ProtectedRoute.State) :
  let st' := exec ProtectedRoute.effect st in
  let a := ProtectedRoute.auth st in
  (ProtectedRoute.render fallback st = ProtectedRoute.Children <->
   AuthProvider.isLoading a = false /\ ProtectedRoute.isRedirecting st = false /\
   AuthProvider.user a <> None /\
   exists t, getItem "auth_token" (AuthProvider.storage a) = Some t /\ t <> "") /\
  eval ProtectedRoute.effect st = Normal tt /\
  ProtectedRoute.render fallback st' <> ProtectedRoute.Nothing /\
  (AuthProvider.isLoading a = true ->
   st' = st /\ ProtectedRoute.render fallback st' <> ProtectedRoute.Children) /\
  (AuthProvider.isLoading a = false -> AuthProvider.isAuthenticated a = false ->
   AuthProvider.pushed (ProtectedRoute.auth st') = AuthProvider.pushed a ++ ["/auth/login"] /\
   ProtectedRoute.render fallback st' =
     if fallback then ProtectedRoute.Fallback else ProtectedRoute.Spinner "Redirecting...") /\
  (AuthProvider.isLoading a = false -> AuthProvider.isAuthenticated a = true ->
   ProtectedRoute.auth st' = a /\
   ProtectedRoute.render fallback st' = ProtectedRoute.Children).
Proof.
  cbv zeta. unfold exec, eval.
  unfold ProtectedRoute.effect, ProtectedRoute.render, ProtectedRoute.setIsRedirecting,
    ProtectedRoute.router_push, AuthProvider.router_push.
  unfold mbind, eff_mbind, eff_bind, zoom, modify, get_world, mret, eff_mret, eff_ret.
  destruct st as [a redirecting]. cbn [ProtectedRoute.auth ProtectedRoute.isRedirecting].
  pose proof (isAuthenticated_truthy a) as Hauth.
  split.
  - destruct (AuthProvider.isLoading a), redirecting; cbn [orb].
    1-3: split; [destruct fallback; intros [=] | intros (H1 & H2 & _); congruence].
    destruct (AuthProvider.isAuthenticated a) eqn:Ha; cbn [negb orb].
    + destruct Hauth as [Hauth _]. destruct (Hauth eq_refl) as [Hu Ht].
      rewrite (bool_decide_eq_true_2 _ Hu). cbn. split; [| reflexivity].
      intros _. repeat split; assumption.
    + split; [discriminate |]. intros (_ & _ & Hu & Ht).
      destruct Hauth as [_ Hauth]. discriminate (Hauth (conj Hu Ht)).
  - destruct (AuthProvider.isLoading a) eqn:Hl; cbn [negb andb].
    + cbn. rewrite Hl. cbn. repeat split; try discriminate; destruct fallback; discriminate.
    + destruct (AuthProvider.isAuthenticated a) eqn:Ha; cbn [negb andb fst snd
        ProtectedRoute.auth ProtectedRoute.isRedirecting AuthProvider.isLoading
        AuthProvider.pushed].
      * rewrite Hl, Ha. cbn [orb negb].
        destruct Hauth as [Hauth _]. destruct (Hauth eq_refl) as [Hu Ht].
        rewrite (bool_decide_eq_true_2 _ Hu). cbn.
        repeat split; try discriminate.
      * cbn. rewrite Hl. cbn.
        repeat split; try discriminate; destruct fallback; discriminate.
Qed.

Lemma protected_route_gate_witness :
  let st' := exec ProtectedRoute.effect (ProtectedRoute.mkState no_session true) in
  AuthProvider.pushed (ProtectedRoute.auth st') = ["/auth/login"] /\
  ProtectedRoute.render false st' = ProtectedRoute.Spinner "Redirecting...".
Proof.
  cbv zeta.
  destruct (protected_route_gate false (ProtectedRoute.mkState no_session true))
    as (_ & _ & _ & _ & H & _).
  apply H; reflexivity.
Defined.

(** * Further properties of the business code *)

(** ** The primary business *)

(** One request of [BusinessAPI] followed by [handleResponse]. *)
Lemma BusinessAPI_request_spec {W T} (reply : Fetch T) (w : W) :
  (response ← await_fetch reply; BusinessAPI.handleResponse response) w =
    (match reply with
     | Rejected err => Throw err
     | Replied r =>
         if ok r then json r
         else
           Throw match error_body r with
                 | Normal (Some errorData) =>
                     new_Error (or_else (detail errorData) (http_status_line r))
                 | Normal None => null_property_error
                 | Throw _ => new_Error "Unknown error"
                 end
     end,
     w).
Proof.
  unfold BusinessAPI.handleResponse, mbind, eff_mbind, eff_bind.
  destruct reply as [err | r]; cbn [await_fetch throw mret eff_mret eff_ret]; [reflexivity |].
  destruct (ok r); cbn [negb]; [destruct (json r); reflexivity |].
  destruct (error_body r) as [[d |] | e]; reflexivity.
Qed.

Lemma find_first (A : Type) (p : A -> bool) (pre post : list A) (b : A) :
  Forall (fun x => p x = false) pre -> p b = true ->
  List.find p (pre ++ b :: post) = Some b.
Proof.
  intros Hpre Hb. induction Hpre as [| x pre Hx _ IH]; cbn.
  - rewrite Hb. reflexivity.
  - rewrite Hx. exact IH.
Qed.

Lemma find_none (A : Type) (p : A -> bool) (l : list A) :
  Forall (fun x => p x = false) l -> List.find p l = None.
Proof.
  induction 1 as [| x l Hx _ IH]; cbn; [reflexivity |]. rewrite Hx. exact IH.
Qed.

Lemma owner_or_admin_member (b : BusinessListItem.t) :
  owner_or_admin b = false <-> BusinessListItem.user_role b = member.
Proof.
  unfold owner_or_admin. destruct (BusinessListItem.user_role b); vm_compute;
    split; congruence.
Qed.

Lemma getPrimaryBusiness_spec {W} (list_reply : Fetch BusinessListResponse.t)
      (details : string -> Fetch BusinessResponse.t) (w : W) :
  businessAPI.getPrimaryBusiness list_reply details w =
    (Normal
       match fst (businessAPI.getUserBusinesses list_reply w) with
       | Normal response =>
           match
             match List.find owner_or_admin (BusinessListResponse.businesses response) with
             | Some business => Some business
             | None => head (BusinessListResponse.businesses response)
             end
           with
           | Some primaryBusiness =>
               match fst (businessAPI.getBusiness (BusinessListItem.id primaryBusiness)
                            details w) with
               | Normal businessResponse => BusinessResponse.business businessResponse
               | Throw _ => None
               end
           | None => None
           end
       | Throw _ => None
       end,
     w).
Proof.
  unfold businessAPI.getPrimaryBusiness, businessAPI.getUserBusinesses,
    businessAPI.getBusiness.
  unfold try_catch. unfold mbind at 1. unfold eff_mbind at 1. unfold eff_bind at 1.
  rewrite !BusinessAPI_request_spec. cbn [fst snd].
  match goal with |- context [match ?c with Normal _ => _ | Throw _ => _ end] =>
    destruct c as [response | err] end; [| reflexivity].
  cbv zeta. fold owner_or_admin.
  change (fun business : BusinessListItem.t =>
            bool_decide (BusinessListItem.user_role business = owner) ||
            bool_decide (BusinessListItem.user_role business = admin))
    with owner_or_admin.
  destruct (match List.find owner_or_admin (BusinessListResponse.businesses response) with
            | Some business => Some business
            | None => head (BusinessListResponse.businesses response)
            end) as [primaryBusiness |]; [| reflexivity].
  unfold mbind at 1. unfold eff_mbind at 1. unfold eff_bind at 1.
  rewrite !BusinessAPI_request_spec. cbn [fst snd].
  match goal with |- context [match ?c with Normal _ => _ | Throw _ => _ end] =>
    destruct c end; reflexivity.
Qed.

(** X16.  [getPrimaryBusiness()] never throws and changes nothing.  It
    answers [null] when the list of businesses cannot be fetched and when
    it is empty.  Otherwise it asks for the details of one business: the
    first of the list in which the user is owner or admin, and the first of
    the list when the user is a plain member of all of them.  Its answer
    is the [business] of those details, and [null] when they cannot be
    fetched. *)
Theorem getPrimaryBusiness_picks_owner {W} (list_reply : Fetch BusinessListResponse.t)
        (details : string -> Fetch BusinessResponse.t) (w : W) :
  let primary := businessAPI.getPrimaryBusiness list_reply details in
  let details_of business :=
    match eval (businessAPI.getBusiness (BusinessListItem.id business) details) w with
    | Normal businessResponse => BusinessResponse.business businessResponse
    | Throw _ => None
    end in
  exec primary w = w /\
  (exists answer, eval primary w = Normal answer) /\
  (forall err, eval (businessAPI.getUserBusinesses list_reply) w = Throw err ->
               eval primary w = Normal None) /\
  (forall response,
     eval (businessAPI.getUserBusinesses list_reply) w = Normal response ->
     (BusinessListResponse.businesses response = [] -> eval primary w = Normal None) /\
     (forall pre business post,
        BusinessListResponse.businesses response = pre ++ business :: post ->
        Forall (fun b => BusinessListItem.user_role b = member) pre ->
        BusinessListItem.user_role business <> member ->
        eval primary w = Normal (details_of business)) /\
     (forall business rest,
        BusinessListResponse.businesses response = business :: rest ->
        Forall (fun b => BusinessListItem.user_role b = member) (business :: rest) ->
        eval primary w = Normal (details_of business))).
Proof.
  cbv zeta. unfold exec, eval. rewrite getPrimaryBusiness_spec. cbn [fst snd].
  split; [reflexivity |]. split; [eexists; reflexivity |]. split.
  - intros err ->. reflexivity.
  - intros response ->. split; [| split].
    + intros ->. reflexivity.
    + intros pre business post -> Hpre Hrole.
      rewrite (find_first _ owner_or_admin pre post business); [reflexivity | |].
      * eapply Forall_impl; [exact Hpre |]. intros b. apply owner_or_admin_member.
      * destruct (owner_or_admin business) eqn:Hb; [reflexivity |].
        apply owner_or_admin_member in Hb. contradiction.
    + intros business rest -> Hall.
      rewrite (find_none _ owner_or_admin (business :: rest)); [reflexivity |].
      eapply Forall_impl; [exact Hall |]. intros b. apply owner_or_admin_member.
Qed.

Lemma getPrimaryBusiness_picks_owner_witness :
  eval (businessAPI.getPrimaryBusiness (Replied (reply_200 two_businesses)) business_details)
       tt = Normal (Some acme).
Proof.
  destruct (getPrimaryBusiness_picks_owner (Replied (reply_200 two_businesses))
              business_details tt) as (_ & _ & _ & H).
  destruct (H two_businesses eq_refl) as (_ & Hpick & _).
  apply (Hpick [BusinessListItem.mk "biz-0" "Globex" "globex" member]
               (BusinessListItem.mk "biz-1" "Acme" "acme" owner) []);
    [reflexivity | repeat constructor | discriminate].
Defined.

(** ** The registration of a business *)

Lemma onboarding_onSubmit_spec (data : Onboarding.BusinessFormData)
      (reply : Fetch BusinessResponse.t) (st : Onboarding.State) :
  let outcome :=
    match fst (businessAPI.createBusiness reply st) with
    | Normal response =>
        if BusinessResponse.success response then None
        else Some (str_or (BusinessResponse.message response) "Failed to create business")
    | Throw err => Some (emessage err)
    end in
  Onboarding.onSubmit data reply st =
    (Normal tt,
     match outcome with
     | None =>
         Onboarding.mkState (Onboarding.currentStep st) false
           (Onboarding.toasts st ++
              [mkToast ToastSuccess "Business registered successfully!"
                 (Some "Welcome to Traliq.ai! Redirecting to your dashboard...")])
           (Onboarding.scheduled st ++ [("/dashboard", 1500)])
     | Some errorMessage =>
         Onboarding.mkState (Onboarding.currentStep st) false
           (Onboarding.toasts st ++
              [mkToast ToastError "Registration failed"
                 (Some (if mentions_auth_status errorMessage
                        then "Please log in again to continue."
                        else "Please try again or contact support if the issue persists."))])
           (Onboarding.scheduled st ++
              if mentions_auth_status errorMessage then [("/auth/login", 2000)] else [])
     end).
Proof.
  cbv zeta. unfold Onboarding.onSubmit, businessAPI.createBusiness, mentions_auth_status,
    Onboarding.setIsLoading, Onboarding.toast, Onboarding.push_later.
  unfold try_finally, try_catch.
  unfold mbind at 1 2. unfold eff_mbind at 1 2. unfold eff_bind at 1 2.
  unfold modify at 1.
  rewrite !BusinessAPI_request_spec. cbn [fst snd].
  match goal with |- context [match ?c with Normal _ => _ | Throw _ => _ end] =>
    destruct c as [response | err] end.
  - destruct (BusinessResponse.success response); cbn; [reflexivity |].
    destruct (includes _ "401" || includes _ "403"); cbn; rewrite ?app_nil_r; reflexivity.
  - cbn. destruct (includes _ "401" || includes _ "403"); cbn; rewrite ?app_nil_r;
      reflexivity.
Qed.

(** X17.  [onSubmit] of the onboarding page never throws and always ends
    with [isLoading] false, on the step it was on.  After a 2xx reply with
    [success: true] it announces the success and schedules the navigation
    to [/dashboard] in 1500 ms.  A 2xx reply with [success: false] is a
    failure whose message is the [message] of the reply, or
    [Failed to create business] when it is empty.  Every failure, that one
    and every error that [createBusiness] throws, shows one toast and
    schedules the navigation to [/auth/login], in 2000 ms, exactly when
    the message of the error contains [401] or [403].  The status of the
    reply itself is not looked at: a reply 401 or 403 whose body is a JSON
    object without [detail] leads to the login page (the message is the
    generic one, with the status), while the same reply with a body that
    is not JSON (the message is [Unknown error]) or with the body [null]
    (the error is the [TypeError] of the read of [detail]) does not. *)
Theorem onboarding_submit_outcomes (data : Onboarding.BusinessFormData)
        (reply : Fetch BusinessResponse.t) (st : Onboarding.State) :
  let st' := exec (Onboarding.onSubmit data reply) st in
  let to_login := ("/auth/login", 2000) in
  let failure errorMessage :=
    Onboarding.scheduled st' =
      Onboarding.scheduled st ++
        (if includes errorMessage "401" || includes errorMessage "403"
         then [to_login] else []) /\
    Onboarding.toasts st' =
      Onboarding.toasts st ++
        [mkToast ToastError "Registration failed"
           (Some (if includes errorMessage "401" || includes errorMessage "403"
                  then "Please log in again to continue."
                  else "Please try again or contact support if the issue persists."))] in
  eval (Onboarding.onSubmit data reply) st = Normal tt /\
  Onboarding.isLoading st' = false /\
  Onboarding.currentStep st' = Onboarding.currentStep st /\
  (forall r response,
     reply = Replied r -> ok r = true -> json r = Normal response ->
     BusinessResponse.success response = true ->
     Onboarding.scheduled st' = Onboarding.scheduled st ++ [("/dashboard", 1500)] /\
     Onboarding.toasts st' =
       Onboarding.toasts st ++
         [mkToast ToastSuccess "Business registered successfully!"
            (Some "Welcome to Traliq.ai! Redirecting to your dashboard...")]) /\
  (forall r response,
     reply = Replied r -> ok r = true -> json r = Normal response ->
     BusinessResponse.success response = false ->
     failure (str_or (BusinessResponse.message response) "Failed to create business")) /\
  (forall err,
     eval (businessAPI.createBusiness reply) st = Throw err ->
     failure (emessage err)) /\
  (forall e, reply = Rejected e -> failure (emessage e)) /\
  (forall r e,
     reply = Replied r -> ok r = true -> json r = Throw e -> failure (emessage e)) /\
  (forall r d,
     reply = Replied r -> status r = 401 \/ status r = 403 ->
     error_json r = Normal d -> detail d = None \/ detail d = Some "" ->
     Onboarding.scheduled st' = Onboarding.scheduled st ++ [to_login]) /\
  (forall r e,
     reply = Replied r -> ok r = false -> error_json r = Throw e ->
     Onboarding.scheduled st' = Onboarding.scheduled st) /\
  (forall r,
     reply = Replied r -> ok r = false -> error_body r = Normal None ->
     eval (businessAPI.createBusiness reply) st = Throw null_property_error /\
     Onboarding.scheduled st' = Onboarding.scheduled st).
Proof.
  cbv zeta. unfold exec, eval.
  pose proof (onboarding_onSubmit_spec data reply st) as Hspec. cbv zeta in Hspec.
  rewrite Hspec. clear Hspec. cbn [fst snd].
  unfold businessAPI.createBusiness. rewrite BusinessAPI_request_spec. cbn [fst].
  split; [reflexivity |].
  split; [match goal with |- context [match ?o with Some _ => _ | None => _ end] =>
            destruct o end; reflexivity |].
  split; [match goal with |- context [match ?o with Some _ => _ | None => _ end] =>
            destruct o end; reflexivity |].
  split; [| split; [| split; [| split; [| split; [| split; [| split]]]]]].
  - intros r response -> Hok Hjson Hsucc. rewrite Hok, Hjson, Hsucc. split; reflexivity.
  - intros r response -> Hok Hjson Hsucc. rewrite Hok, Hjson, Hsucc.
    unfold mentions_auth_status. split; reflexivity.
  - intros err Herr. rewrite Herr. unfold mentions_auth_status. split; reflexivity.
  - intros e ->. unfold mentions_auth_status. split; reflexivity.
  - intros r e -> Hok Hjson. rewrite Hok, Hjson. unfold mentions_auth_status.
    split; reflexivity.
  - intros r d -> Hstatus Hd Hdetail.
    assert (ok r = false) as Hok.
    { unfold ok. destruct Hstatus as [-> | ->]; reflexivity. }
    rewrite Hok, (proj1 (error_json_Normal r d) Hd), (or_else_no_detail _ _ Hdetail).
    cbn [emessage new_Error].
    assert (mentions_auth_status (http_status_line r) = true) as ->; [| reflexivity].
    unfold mentions_auth_status. pose proof (http_status_line_includes r) as Hinc.
    destruct Hstatus as [Hs | Hs]; rewrite Hs in Hinc;
      change (pretty 401) with "401" in Hinc; change (pretty 403) with "403" in Hinc;
      rewrite Hinc; [reflexivity | apply orb_true_r].
  - intros r e -> Hok He. rewrite Hok. unfold error_json in He.
    destruct (error_body r) as [[d |] | e']; [discriminate | |]; cbn; apply app_nil_r.
  - intros r -> Hok Hnull. rewrite Hok, Hnull. split; [reflexivity |]. cbn. apply app_nil_r.
Qed.

Lemma onboarding_submit_outcomes_witness :
  Onboarding.scheduled
    (exec (Onboarding.onSubmit acme_form (Replied session_expired)) onboarding_start)
    = [("/auth/login", 2000)] /\
  Onboarding.scheduled
    (exec (Onboarding.onSubmit acme_form (Replied session_expired_html)) onboarding_start)
    = [] /\
  Onboarding.toasts
    (exec (Onboarding.onSubmit acme_form (Replied (reply_200 slug_taken))) onboarding_start)
    = [mkToast ToastError "Registration failed"
         (Some "Please try again or contact support if the issue persists.")].
Proof.
  split; [| split].
  - destruct (onboarding_submit_outcomes acme_form (Replied session_expired)
                onboarding_start) as (_ & _ & _ & _ & _ & _ & _ & _ & H & _).
    apply (H session_expired {| detail := None |});
      [reflexivity | left; reflexivity | reflexivity | left; reflexivity].
  - destruct (onboarding_submit_outcomes acme_form (Replied session_expired_html)
                onboarding_start) as (_ & _ & _ & _ & _ & _ & _ & _ & _ & H & _).
    apply (H session_expired_html json_syntax_error); reflexivity.
  - destruct (onboarding_submit_outcomes acme_form (Replied (reply_200 slug_taken))
                onboarding_start) as (_ & _ & _ & _ & H & _).
    destruct (H (reply_200 slug_taken) slug_taken eq_refl eq_refl eq_refl eq_refl)
      as (_ & Htoasts).
    exact Htoasts.
Defined.

(** * Further properties of the documents code *)

(** ** Uploads *)

Lemma mapM_progress (fileId : string) (percentages : list Q) (w : World) :
  exists l,
    mapM (fun progress =>
            setFiles (DocumentsPage.update_file fileId (DocumentsPage.with_progress progress)))
         percentages w =
      (Normal l, with_files (progress_updates fileId percentages) w).
Proof.
  revert w. induction percentages as [| p ps IH]; intros w.
  - exists []. destruct w. reflexivity.
  - cbn [mapM]. unfold mbind at 1. unfold eff_mbind at 1. unfold eff_bind at 1.
    change (setFiles (DocumentsPage.update_file fileId (DocumentsPage.with_progress p)) w)
      with (Normal tt,
            with_files (DocumentsPage.update_file fileId (DocumentsPage.with_progress p)) w).
    cbv iota beta.
    destruct (IH (with_files (DocumentsPage.update_file fileId
                                (DocumentsPage.with_progress p)) w)) as [l Hl].
    unfold mbind at 1. unfold eff_mbind at 1. unfold eff_bind at 1.
    rewrite Hl. eexists. reflexivity.
Qed.

(** The end of an upload request, as [uploadDocument] reports it. *)
Lemma uploadDocument_spec (file : File.t) (businessId fileId : string) (up : Upload)
      (w : World) :
  DocumentAPI.uploadDocument file businessId
    (fun progress =>
       setFiles (DocumentsPage.update_file fileId (DocumentsPage.with_progress progress)))
    up w =
    (match outcome up with
     | XhrLoad xhr =>
         if (200 <=? status xhr) && (status xhr <? 300) then
           match json xhr with
           | Normal response => Normal response
           | Throw _ => Throw (new_Error "Invalid JSON response")
           end
         else
           match error_json xhr with
           | Normal errorResponse =>
               Throw (new_Error (or_else (detail errorResponse) (http_status xhr)))
           | Throw _ => Throw (new_Error (http_status_line xhr))
           end
     | XhrError => Throw (new_Error "Network error occurred")
     | XhrTimeout => Throw (new_Error "Upload timeout")
     end,
     with_files (progress_updates fileId (progress_events up))
       (logged [EvRequest (ReqUpload file businessId)] w)).
Proof.
  unfold DocumentAPI.uploadDocument.
  unfold mbind at 1 2. unfold eff_mbind at 1 2. unfold eff_bind at 1 2.
  rewrite emit_spec.
  destruct (mapM_progress fileId (progress_events up)
              (logged [EvRequest (ReqUpload file businessId)] w)) as [l ->].
  destruct (outcome up) as [xhr | |]; try reflexivity.
  destruct ((200 <=? status xhr) && (status xhr <? 300)).
  - destruct (json xhr); reflexivity.
  - destruct (error_json xhr); reflexivity.
Qed.

Lemma uploadFile_spec (b : Business.t) (file : File.t) (fileId : string) (up : Upload)
      (now : Z) (w : World) :
  let onProgress progress :=
    setFiles (DocumentsPage.update_file fileId (DocumentsPage.with_progress progress)) in
  let w1 :=
    with_files (progress_updates fileId (progress_events up))
      (logged [EvRequest (ReqUpload file (Business.id b))] w) in
  DocumentsPage.uploadFile (Some b) file fileId up now w =
    (Normal tt,
     match fst (DocumentAPI.uploadDocument file (Business.id b) onProgress up w) with
     | Normal response =>
         queued (CbLoadDocuments (Business.id b))
           (logged [EvSetTimeout (CbLoadDocuments (Business.id b)) 1000]
              (queued (CbPollStarted (Some b) (UploadResponse.task_id response) fileId
                                     (status_requests w))
                 (requested [abort_timer;
                             EvRequest (ReqTaskStatus (UploadResponse.task_id response))]
                    (logged [EvFileStatus fileId processing;
                             EvToast (mkToast ToastSuccess
                                        ("Upload successful: " +:+
                                         UploadResponse.filename response)
                                        None)]
                       (with_files
                          (DocumentsPage.update_file fileId
                             (DocumentsPage.with_upload response now)) w1)))))
     | Throw err =>
         logged [EvFileStatus fileId error_;
                 EvToast (mkToast ToastError ("Upload failed: " +:+ emessage err) None)]
           (with_files
              (DocumentsPage.update_file fileId (DocumentsPage.with_error (emessage err)))
              w1)
     end).
Proof.
  cbv zeta. unfold DocumentsPage.uploadFile, try_catch.
  unfold mbind at 1. unfold eff_mbind at 1. unfold eff_bind at 1.
  rewrite uploadDocument_spec. cbn [fst snd].
  match goal with |- context [match ?c with Normal _ => _ | Throw _ => _ end] =>
    destruct c as [response | err] end.
  - unfold DocumentsPage.setFileStatus, toast_success, setTimeout, enqueue,
      DocumentAPI.send_status, abort_timer, emit, setFiles, logged, queued, requested,
      with_files.
    unfold mbind, eff_mbind, eff_bind, modify, get_world. cbn.
    rewrite <- !app_assoc. reflexivity.
  - unfold DocumentsPage.setFileStatus, toast_error, emit, setFiles, logged, with_files.
    unfold mbind, eff_mbind, eff_bind, modify. cbn.
    rewrite <- !app_assoc. reflexivity.
Qed.

(** The updates of the file list touch the entries with the given id
    only, and keep the ids. *)
Lemma update_file_ids (fileId : string) (g : UploadedFile.t -> UploadedFile.t)
      (l : list UploadedFile.t) :
  (forall f, UploadedFile.id (g f) = UploadedFile.id f) ->
  map UploadedFile.id (DocumentsPage.update_file fileId g l) = map UploadedFile.id l.
Proof.
  intros Hg. unfold DocumentsPage.update_file. rewrite List.map_map.
  apply List.map_ext. intros f. destruct (bool_decide _); [apply Hg | reflexivity].
Qed.

Lemma update_file_others (fileId : string) (g : UploadedFile.t -> UploadedFile.t)
      (l : list UploadedFile.t) (f : UploadedFile.t) :
  In f l -> UploadedFile.id f <> fileId -> In f (DocumentsPage.update_file fileId g l).
Proof.
  intros Hin Hne. unfold DocumentsPage.update_file. apply List.in_map_iff.
  exists f. split; [| exact Hin]. rewrite bool_decide_eq_false_2 by exact Hne. reflexivity.
Qed.

Lemma update_file_updated (fileId : string) (g : UploadedFile.t -> UploadedFile.t)
      (l : list UploadedFile.t) (P : UploadedFile.t -> Prop) :
  (forall f, UploadedFile.id (g f) = UploadedFile.id f) ->
  (forall f, P (g f)) ->
  Forall (fun f => UploadedFile.id f = fileId -> P f) (DocumentsPage.update_file fileId g l).
Proof.
  intros Hid HP. unfold DocumentsPage.update_file. apply Forall_forall. intros f' Hin.
  apply list_elem_of_In, List.in_map_iff in Hin as (f & <- & _).
  destruct (bool_decide (UploadedFile.id f = fileId)) eqn:Hb.
  - intros _. apply HP.
  - apply bool_decide_eq_false in Hb. intros Heq. contradiction.
Qed.

Lemma progress_updates_ids (fileId : string) (percentages : list Q)
      (l : list UploadedFile.t) :
  map UploadedFile.id (progress_updates fileId percentages l) = map UploadedFile.id l.
Proof.
  unfold progress_updates. revert l.
  induction percentages as [| p ps IH]; intros l; [reflexivity |].
  cbn [fold_left]. rewrite IH. apply update_file_ids. reflexivity.
Qed.

Lemma progress_updates_others (fileId : string) (percentages : list Q)
      (l : list UploadedFile.t) (f : UploadedFile.t) :
  In f l -> UploadedFile.id f <> fileId -> In f (progress_updates fileId percentages l).
Proof.
  unfold progress_updates. revert l.
  induction percentages as [| p ps IH]; intros l Hin Hne; [exact Hin |].
  cbn [fold_left]. apply IH; [| exact Hne]. apply update_file_others; assumption.
Qed.

(** X18.  [uploadFile] never throws, and an upload that fails is reported
    on the entry of the file and in a toast, with the message of the
    failure: [Network error occurred] for a network error, [Upload timeout]
    for a timeout, [Invalid JSON response] for a 2xx reply that is not JSON,
    the [detail] of the body (or [HTTP <status>] without one) for another
    reply with a JSON body, and [HTTP <status>: <statusText>] for another
    reply that is not JSON.  The entries with the id of the file get the
    status [error] and that message, the other entries and the ids are
    untouched, one upload request was sent, and no poll is started.
    Without a business the function shows a toast and sends nothing. *)
Theorem upload_failure_is_reported (b : Business.t) (file : File.t) (fileId : string)
        (up : Upload) (now : Z) (w : World) :
  let w' := exec (DocumentsPage.uploadFile (Some b) file fileId up now) w in
  let reported msg :=
    log w' =
      log w ++ [EvRequest (ReqUpload file (Business.id b)); EvFileStatus fileId error_;
                EvToast (mkToast ToastError ("Upload failed: " +:+ msg) None)] /\
    pending w' = pending w /\
    files w' =
      DocumentsPage.update_file fileId (DocumentsPage.with_error msg)
        (progress_updates fileId (progress_events up) (files w)) /\
    map UploadedFile.id (files w') = map UploadedFile.id (files w) /\
    Forall (fun f => UploadedFile.id f = fileId ->
                     UploadedFile.status f = error_ /\
                     UploadedFile.errorMessage f = Some msg) (files w') /\
    (forall f, In f (files w) -> UploadedFile.id f <> fileId -> In f (files w')) in
  eval (DocumentsPage.uploadFile (Some b) file fileId up now) w = Normal tt /\
  (outcome up = XhrError -> reported "Network error occurred") /\
  (outcome up = XhrTimeout -> reported "Upload timeout") /\
  (forall xhr e,
     outcome up = XhrLoad xhr -> 200 <= status xhr < 300 -> json xhr = Throw e ->
     reported "Invalid JSON response") /\
  (forall xhr d,
     outcome up = XhrLoad xhr -> ~ 200 <= status xhr < 300 -> error_json xhr = Normal d ->
     reported (or_else (detail d) (http_status xhr))) /\
  (forall xhr e,
     outcome up = XhrLoad xhr -> ~ 200 <= status xhr < 300 -> error_json xhr = Throw e ->
     reported (http_status_line xhr)) /\
  DocumentsPage.uploadFile None file fileId up now w =
    (Normal tt, logged [EvToast (mkToast ToastError "No business selected" None)] w).
Proof.
  cbv zeta. unfold exec, eval.
  pose proof (uploadFile_spec b file fileId up now w) as Hspec. cbv zeta in Hspec.
  rewrite Hspec. clear Hspec. rewrite uploadDocument_spec. cbn [fst snd].
  assert (forall msg,
            let w' :=
              logged [EvFileStatus fileId error_;
                      EvToast (mkToast ToastError ("Upload failed: " +:+ msg) None)]
                (with_files
                   (DocumentsPage.update_file fileId (DocumentsPage.with_error msg))
                   (with_files (progress_updates fileId (progress_events up))
                      (logged [EvRequest (ReqUpload file (Business.id b))] w))) in
            log w' =
              log w ++ [EvRequest (ReqUpload file (Business.id b)); EvFileStatus fileId error_;
                        EvToast (mkToast ToastError ("Upload failed: " +:+ msg) None)] /\
            pending w' = pending w /\
            files w' =
              DocumentsPage.update_file fileId (DocumentsPage.with_error msg)
                (progress_updates fileId (progress_events up) (files w)) /\
            map UploadedFile.id (files w') = map UploadedFile.id (files w) /\
            Forall (fun f => UploadedFile.id f = fileId ->
                             UploadedFile.status f = error_ /\
                             UploadedFile.errorMessage f = Some msg) (files w') /\
            (forall f, In f (files w) -> UploadedFile.id f <> fileId -> In f (files w')))
    as Hreport.
  { intros msg. cbv zeta. unfold logged, with_files. cbn [log pending files].
    split; [rewrite <- app_assoc; reflexivity |].
    split; [reflexivity |]. split; [reflexivity |].
    split; [rewrite update_file_ids by reflexivity; apply progress_updates_ids |].
    split.
    - apply update_file_updated; [reflexivity |]. intros f. split; reflexivity.
    - intros f Hin Hne. apply update_file_others; [| exact Hne].
      apply progress_updates_others; assumption. }
  cbv zeta in Hreport.
  split; [destruct (outcome up) as [xhr | |];
          [destruct ((200 <=? status xhr) && (status xhr <? 300));
           [destruct (json xhr) | destruct (error_json xhr)] | |]; reflexivity |].
  split; [intros ->; apply Hreport |].
  split; [intros ->; apply Hreport |].
  split; [| split; [| split]].
  - intros xhr e -> Hs ->.
    assert ((200 <=? status xhr) && (status xhr <? 300) = true) as ->
      by (apply andb_true_iff; split; [apply Z.leb_le | apply Z.ltb_lt]; lia).
    apply Hreport.
  - intros xhr d -> Hs ->.
    assert ((200 <=? status xhr) && (status xhr <? 300) = false) as ->.
    { apply not_true_is_false. intros H. apply andb_true_iff in H as [H1 H2].
      apply Z.leb_le in H1. apply Z.ltb_lt in H2. lia. }
    apply Hreport.
  - intros xhr e -> Hs ->.
    assert ((200 <=? status xhr) && (status xhr <? 300) = false) as ->.
    { apply not_true_is_false. intros H. apply andb_true_iff in H as [H1 H2].
      apply Z.leb_le in H1. apply Z.ltb_lt in H2. lia. }
    apply Hreport.
  - reflexivity.
Qed.

Lemma upload_failure_is_reported_witness :
  ok bad_upload = false /\
  log (exec (DocumentsPage.uploadFile (Some acme) small_pdf "file-1"
               (mkUpload [50%Q] (XhrLoad bad_upload)) 0)
            (mkWorld [uploading_pdf] true [] [] unreachable 0)) =
    [EvRequest (ReqUpload small_pdf "biz-1"); EvFileStatus "file-1" error_;
     EvToast (mkToast ToastError "Upload failed: Unsupported file content" None)].
Proof.
  split; [reflexivity |].
  destruct (upload_failure_is_reported acme small_pdf "file-1"
              (mkUpload [50%Q] (XhrLoad bad_upload)) 0
              (mkWorld [uploading_pdf] true [] [] unreachable 0))
    as (_ & _ & _ & _ & H & _).
  destruct (H bad_upload {| detail := Some "Unsupported file content" |} eq_refl)
    as (Hlog & _); [cbn; lia | reflexivity |].
  exact Hlog.
Defined.

(** X19.  An upload that the backend accepts (a 2xx reply with a JSON
    body) leaves the entries with the id of the file in the status
    [processing], at 100 percent, with the task and the document of the
    reply, and starts the follow-up in this order.  The poll of the task
    starts inside [uploadFile], which does not wait for it: the timer of
    10 s that aborts the first status request is set and that request is
    sent before [uploadFile] goes on; the rest of the poll, which holds
    the business of the page and waits for the answer to that request, is
    left to run later (the request and that rest make up [pollTaskStatus]).
    Then one refresh of the document list is scheduled
    after 1000 ms.  One upload request and one status request were sent,
    the other entries are untouched, and the call ends normally. *)
Theorem upload_success_starts_polling (b : Business.t) (file : File.t) (fileId : string)
        (up : Upload) (now : Z) (w : World) (xhr : Response UploadResponse.t)
        (response : UploadResponse.t) :
  outcome up = XhrLoad xhr -> 200 <= status xhr < 300 -> json xhr = Normal response ->
  let w' := exec (DocumentsPage.uploadFile (Some b) file fileId up now) w in
  eval (DocumentsPage.uploadFile (Some b) file fileId up now) w = Normal tt /\
  log w' =
    log w ++
      [EvRequest (ReqUpload file (Business.id b)); EvFileStatus fileId processing;
       EvToast (mkToast ToastSuccess
                  ("Upload successful: " +:+ UploadResponse.filename response) None);
       EvSetTimeout CbAbort 10000;
       EvRequest (ReqTaskStatus (UploadResponse.task_id response));
       EvSetTimeout (CbLoadDocuments (Business.id b)) 1000] /\
  status_requests w' = S (status_requests w) /\
  pending w' =
    pending w ++ [CbPollStarted (Some b) (UploadResponse.task_id response) fileId
                                (status_requests w);
                  CbLoadDocuments (Business.id b)] /\
  (forall w0,
     (request ← DocumentAPI.send_status (UploadResponse.task_id response);
      DocumentsPage.pollTaskStatus_started (Some b) (UploadResponse.task_id response)
                                           fileId request) w0 =
     DocumentsPage.pollTaskStatus (Some b) (UploadResponse.task_id response) fileId w0) /\
  map UploadedFile.id (files w') = map UploadedFile.id (files w) /\
  Forall (fun f => UploadedFile.id f = fileId ->
                   UploadedFile.status f = processing /\
                   (UploadedFile.progress f == 100)%Q /\
                   UploadedFile.taskId f = Some (UploadResponse.task_id response) /\
                   UploadedFile.documentId f = Some (UploadResponse.document_id response) /\
                   UploadedFile.uploadedAt f = Some now) (files w') /\
  (forall f, In f (files w) -> UploadedFile.id f <> fileId -> In f (files w')).
Proof.
  intros Hout Hs Hjson. cbv zeta. unfold exec, eval.
  pose proof (uploadFile_spec b file fileId up now w) as Hspec. cbv zeta in Hspec.
  rewrite Hspec. clear Hspec. rewrite uploadDocument_spec. cbn [fst snd].
  rewrite Hout.
  assert ((200 <=? status xhr) && (status xhr <? 300) = true) as ->
    by (apply andb_true_iff; split; [apply Z.leb_le | apply Z.ltb_lt]; lia).
  rewrite Hjson. autorewrite with world. unfold abort_timer.
  split; [reflexivity |].
  split; [rewrite <- !app_assoc; reflexivity |].
  split; [reflexivity |].
  split; [rewrite <- !app_assoc; reflexivity |].
  split; [intros w0; apply pollTaskStatus_started_spec |].
  split; [rewrite update_file_ids by reflexivity; apply progress_updates_ids |].
  split.
  - apply update_file_updated; [reflexivity |]. intros f. repeat split; reflexivity.
  - intros f Hin Hne. apply update_file_others; [| exact Hne].
    apply progress_updates_others; assumption.
Qed.

Lemma upload_success_starts_polling_witness :
  let w' :=
    exec (DocumentsPage.uploadFile (Some acme) small_pdf "file-1" (upload_ok small_pdf) 0)
         (mkWorld [uploading_pdf] true [] [] unreachable 0) in
  pending w' = [CbPollStarted (Some acme) "task-1" "file-1" 0; CbLoadDocuments "biz-1"] /\
  status_requests w' = 1%nat.
Proof.
  destruct (upload_success_starts_polling acme small_pdf "file-1" (upload_ok small_pdf) 0
              (mkWorld [uploading_pdf] true [] [] unreachable 0)
              (reply_200 (UploadResponse.mk "task-1" "doc-1" "small.pdf"))
              (UploadResponse.mk "task-1" "doc-1" "small.pdf") eq_refl)
    as (_ & _ & Hn & Hp & _); [cbn; lia | reflexivity |].
  split; [exact Hp | exact Hn].
Defined.

(** ** The poll that an upload starts *)

Lemma files_with_pending q w : files (with_pending q w) = files w.
Proof. reflexivity. Qed.
Lemma isUploading_with_pending q w : isUploading (with_pending q w) = isUploading w.
Proof. reflexivity. Qed.
Lemma log_with_pending q w : log (with_pending q w) = log w.
Proof. reflexivity. Qed.
Lemma pending_with_pending q w : pending (with_pending q w) = q.
Proof. reflexivity. Qed.
Lemma status_backend_with_pending q w :
  status_backend (with_pending q w) = status_backend w.
Proof. reflexivity. Qed.
Lemma status_requests_with_pending q w :
  status_requests (with_pending q w) = status_requests w.
Proof. reflexivity. Qed.
Lemma files_polled cb taskId n w : files (polled cb taskId n w) = files w.
Proof. reflexivity. Qed.
Lemma log_polled cb taskId n w :
  log (polled cb taskId n w) = log w ++ poll_rounds cb taskId n ++ status_round taskId.
Proof. reflexivity. Qed.
Lemma pending_polled cb taskId n w : pending (polled cb taskId n w) = [].
Proof. reflexivity. Qed.
Lemma status_requests_polled cb taskId n w :
  status_requests (polled cb taskId n w) = (status_requests w + n + 1)%nat.
Proof. reflexivity. Qed.

#[export] Hint Rewrite
  files_with_pending isUploading_with_pending log_with_pending pending_with_pending
  status_backend_with_pending status_requests_with_pending
  files_polled log_polled pending_polled status_requests_polled : world.

(** One turn of the event loop. *)
Lemma fire_queued (cb : Callback) (rest : list Callback) (w : World) :
  pending w = cb :: rest ->
  DocumentsPage.fire w =
    match cb with
    | CbPoll currentBusiness taskId fileId =>
        DocumentsPage.pollTaskStatus currentBusiness taskId fileId
    | CbPollStarted currentBusiness taskId fileId request =>
        DocumentsPage.pollTaskStatus_started currentBusiness taskId fileId request
    | CbLoadDocuments businessId => DocumentsPage.loadDocuments businessId
    | CbAbort | CbResolve => mret tt
    end (with_pending rest w).
Proof.
  intros H. unfold DocumentsPage.fire.
  unfold mbind at 1. unfold eff_mbind, eff_bind at 1. unfold get_world.
  rewrite H. destruct cb; reflexivity.
Qed.

Lemma run_step (k : nat) (w : World) :
  DocumentsPage.run (S k) w =
    match DocumentsPage.fire w with
    | (Normal _, w1) => DocumentsPage.run k w1
    | (Throw err, w1) => (Throw err, w1)
    end.
Proof. reflexivity. Qed.

Lemma poll_end_completed (b : Business.t) (taskId fileId : string)
      (sr : TaskStatusResponse.t) (w : World) :
  TaskStatusResponse.status sr = "completed" ->
  poll_end (Some b) taskId fileId sr w =
    logged [EvFileStatus fileId success_;
            EvToast (mkToast ToastSuccess "Document processing completed" None);
            EvRequest (ReqListDocuments (Business.id b) 100 0)]
      (with_files (DocumentsPage.update_file fileId (DocumentsPage.with_status success_)) w).
Proof.
  intros H. unfold poll_end. rewrite (bool_decide_eq_true_2 _ H). reflexivity.
Qed.

Lemma poll_end_failed (currentBusiness : option Business.t) (taskId fileId : string)
      (sr : TaskStatusResponse.t) (w : World) :
  TaskStatusResponse.status sr = "failed" ->
  poll_end currentBusiness taskId fileId sr w =
    logged [EvFileStatus fileId error_;
            EvToast (mkToast ToastError "Document processing failed" None)]
      (with_files
         (DocumentsPage.update_file fileId
            (DocumentsPage.with_error
               (or_else (TaskStatusResponse.message sr) "Processing failed"))) w).
Proof.
  intros H. unfold poll_end.
  rewrite bool_decide_eq_false_2 by (rewrite H; discriminate).
  rewrite (bool_decide_eq_true_2 _ H). reflexivity.
Qed.

Lemma terminal_cases (sr : TaskStatusResponse.t) :
  terminal sr = true ->
  TaskStatusResponse.status sr = "completed" \/ TaskStatusResponse.status sr = "failed".
Proof.
  unfold terminal. intros H. apply orb_true_iff in H as [H | H];
    apply bool_decide_eq_true in H; [left | right]; exact H.
Qed.

Lemma terminal_completed (sr : TaskStatusResponse.t) :
  TaskStatusResponse.status sr = "completed" -> terminal sr = true.
Proof. intros H. unfold terminal. rewrite (bool_decide_eq_true_2 _ H). reflexivity. Qed.

Lemma terminal_failed (sr : TaskStatusResponse.t) :
  TaskStatusResponse.status sr = "failed" -> terminal sr = true.
Proof.
  intros H. unfold terminal. rewrite (bool_decide_eq_true_2 _ H). apply orb_true_r.
Qed.

(** An update of the entries with the id [fileId] that sets their status
    and keeps what [given_status] asks for. *)
Lemma update_file_given_status (fileId : string) (s : FileStatus)
      (g : UploadedFile.t -> UploadedFile.t) (l : list UploadedFile.t) :
  (forall f, UploadedFile.id (g f) = UploadedFile.id f /\ UploadedFile.status (g f) = s /\
             entry_of (g f) = entry_of f /\
             UploadedFile.progress (g f) = UploadedFile.progress f /\
             UploadedFile.taskId (g f) = UploadedFile.taskId f /\
             UploadedFile.documentId (g f) = UploadedFile.documentId f) ->
  given_status fileId s l (DocumentsPage.update_file fileId g l).
Proof.
  intros Hg. unfold given_status, DocumentsPage.update_file.
  induction l as [| f l IH]; [constructor |].
  cbn [map]. constructor; [| exact IH].
  destruct (bool_decide (UploadedFile.id f = fileId)) eqn:Hid; [| reflexivity].
  apply bool_decide_eq_true in Hid. destruct (Hg f) as (H1 & H2 & H3 & H4 & H5 & H6).
  repeat split; congruence.
Qed.

Lemma given_status_success (fileId : string) (l : list UploadedFile.t) :
  given_status fileId success_ l
    (DocumentsPage.update_file fileId (DocumentsPage.with_status success_) l).
Proof. apply update_file_given_status. intros f. repeat split. Qed.

Lemma given_status_error (fileId msg : string) (l : list UploadedFile.t) :
  given_status fileId error_ l
    (DocumentsPage.update_file fileId (DocumentsPage.with_error msg) l).
Proof. apply update_file_given_status. intros f. repeat split. Qed.

(** The rest of [getTaskStatus] touches neither the files nor the
    queue. *)
Lemma getTaskStatus_from_frame (fuel : nat) (taskId : string) (retryCount request : nat)
      (w : World) :
  let w' := snd (DocumentAPI.getTaskStatus_from fuel taskId retryCount request w) in
  files w' = files w /\ pending w' = pending w.
Proof.
  cbv zeta. rewrite getTaskStatus_from_step. cbv zeta.
  assert (forall w0, files w0 = files w -> pending w0 = pending w ->
            let w' := snd match fuel with
                          | S fuel' =>
                              DocumentAPI.getTaskStatus_fuel fuel' taskId (S retryCount) w0
                          | O => (Throw (new_Error "getTaskStatus: out of fuel"), w0)
                          end in
            files w' = files w /\ pending w' = pending w) as Hagain.
  { intros w0 Hf Hp. cbv zeta. destruct fuel as [| fuel']; [split; assumption |].
    destruct (getTaskStatus_fuel_frame fuel' taskId (S retryCount) w0)
      as (Hf' & _ & Hp' & _).
    split; congruence. }
  cbv zeta in Hagain.
  destruct (status_backend w request) as [e | r].
  - destruct (retried retryCount e); [apply Hagain; reflexivity | split; reflexivity].
  - destruct (ok r); [split; reflexivity |].
    destruct (retried retryCount (DocumentAPI.error_of_reply r));
      [apply Hagain; reflexivity | split; reflexivity].
Qed.

(** One poll, from the status that its call of [getTaskStatus] reads. *)
Lemma poll_with_answered (b : Business.t) (taskId fileId : string)
      (status : Eff World TaskStatusResponse.t) (w w1 : World)
      (statusResponse : TaskStatusResponse.t) :
  status w = (Normal statusResponse, w1) ->
  files w1 = files w -> pending w1 = pending w ->
  let poll := CbPoll (Some b) taskId fileId in
  let call := DocumentsPage.poll_with (Some b) taskId fileId status in
  let w' := exec call w in
  eval call w = Normal tt /\
  (terminal statusResponse = false ->
   files w' = files w /\
   pending w' = pending w ++ [poll] /\
   log w' = log w1 ++ [EvSetTimeout poll config.polling.interval]) /\
  (TaskStatusResponse.status statusResponse = "completed" ->
   given_status fileId success_ (files w) (files w') /\
   pending w' = pending w /\
   log w' =
     log w1 ++ [EvFileStatus fileId success_;
                EvToast (mkToast ToastSuccess "Document processing completed" None);
                EvRequest (ReqListDocuments (Business.id b) 100 0)]) /\
  (TaskStatusResponse.status statusResponse = "failed" ->
   given_status fileId error_ (files w) (files w') /\
   pending w' = pending w /\
   log w' =
     log w1 ++ [EvFileStatus fileId error_;
                EvToast (mkToast ToastError "Document processing failed" None)]).
Proof.
  intros Hstatus Hf Hp. cbv zeta. unfold eval, exec.
  rewrite poll_with_spec, Hstatus. cbn [fst snd].
  split; [reflexivity |]. split; [| split].
  - intros Hnt. rewrite (poll_end_pending _ _ _ _ _ Hnt). autorewrite with world.
    rewrite Hf, Hp. repeat split.
  - intros Hc. rewrite (poll_end_completed _ _ _ _ _ Hc). autorewrite with world.
    rewrite Hf, Hp. split; [apply given_status_success | split; reflexivity].
  - intros Hc. rewrite (poll_end_failed _ _ _ _ _ Hc). autorewrite with world.
    rewrite Hf, Hp. split; [apply given_status_error | split; reflexivity].
Qed.

(** The rest of a poll whose request is answered with a 2xx reply. *)
Lemma pollTaskStatus_started_answered (currentBusiness : option Business.t)
      (taskId fileId : string) (request : nat) (r : Response TaskStatusResponse.t)
      (sr : TaskStatusResponse.t) (w : World) :
  status_backend w request = Replied r -> ok r = true -> json r = Normal sr ->
  DocumentsPage.pollTaskStatus_started currentBusiness taskId fileId request w =
    (Normal tt, poll_end currentBusiness taskId fileId sr (logged [EvClearTimeout] w)).
Proof.
  intros Hr Hok Hjson. unfold DocumentsPage.pollTaskStatus_started.
  rewrite poll_with_spec. unfold DocumentAPI.getTaskStatus_started.
  rewrite getTaskStatus_from_step. cbv zeta. rewrite Hr, Hok, Hjson. reflexivity.
Qed.

Lemma loadDocuments_spec (businessId : string) (w : World) :
  DocumentsPage.loadDocuments businessId w =
    (Normal tt, logged [EvRequest (ReqListDocuments businessId 100 0)] w).
Proof. reflexivity. Qed.

(** The turns of the event loop after an upload that started a poll, on a
    page with nothing else queued: the rest of the first poll, the refresh
    of the document list, and the polls that follow until the status is
    terminal. *)
Lemma started_poll_run (b : Business.t) (taskId fileId : string)
      (final : TaskStatusResponse.t) (n k R : nat) (w : World) :
  let poll := CbPoll (Some b) taskId fileId in
  let load := CbLoadDocuments (Business.id b) in
  let refresh := EvRequest (ReqListDocuments (Business.id b) 100 0) in
  pending w = [CbPollStarted (Some b) taskId fileId R; load] ->
  status_requests w = S R ->
  (forall i, (i < n)%nat ->
     exists r sr, status_backend w (R + i) = Replied r /\ ok r = true /\
                  json r = Normal sr /\ terminal sr = false) ->
  (exists r, status_backend w (R + n) = Replied r /\ ok r = true /\ json r = Normal final) ->
  terminal final = true ->
  (n + 2 <= k)%nat ->
  DocumentsPage.run k w =
    (Normal tt,
     match n with
     | O =>
         logged [refresh]
           (with_pending []
              (poll_end (Some b) taskId fileId final
                 (logged [EvClearTimeout] (with_pending [load] w))))
     | S m =>
         poll_end (Some b) taskId fileId final
           (polled poll taskId m
              (with_pending []
                 (logged [refresh]
                    (with_pending [poll]
                       (queued poll
                          (logged [EvSetTimeout poll config.polling.interval]
                             (logged [EvClearTimeout] (with_pending [load] w))))))))
     end).
Proof.
  cbv zeta. intros Hpend Hreq Hbefore Hfinal Hterm Hk.
  destruct k as [| [| k]]; [lia | lia |].
  rewrite run_step, (fire_queued _ _ _ Hpend).
  destruct n as [| m].
  - destruct Hfinal as (r & Hr & Hok & Hjson). rewrite Nat.add_0_r in Hr.
    rewrite (pollTaskStatus_started_answered _ _ _ _ r final); try assumption.
    rewrite run_step.
    rewrite (fire_queued (CbLoadDocuments (Business.id b)) []);
      [| destruct (poll_end_terminal (Some b) taskId fileId final
                     (logged [EvClearTimeout]
                        (with_pending [CbLoadDocuments (Business.id b)] w)) Hterm)
           as [-> _]; reflexivity].
    rewrite loadDocuments_spec. apply run_idle. reflexivity.
  - destruct (Hbefore 0%nat ltac:(lia)) as (r & sr & Hr & Hok & Hjson & Hnt).
    rewrite Nat.add_0_r in Hr.
    rewrite (pollTaskStatus_started_answered _ _ _ _ r sr); try assumption.
    rewrite (poll_end_pending _ _ _ _ _ Hnt).
    rewrite run_step.
    rewrite (fire_queued (CbLoadDocuments (Business.id b)) [CbPoll (Some b) taskId fileId]);
      [| reflexivity].
    rewrite loadDocuments_spec.
    destruct k as [| k]; [lia |].
    rewrite run_step.
    rewrite (fire_queued (CbPoll (Some b) taskId fileId) []); [| reflexivity].
    set (w3 := with_pending [] _).
    pose proof (poll_chain (Some b) taskId fileId final m k w3) as Hchain.
    unfold mbind, eff_mbind, eff_bind in Hchain.
    destruct (DocumentsPage.pollTaskStatus (Some b) taskId fileId w3)
      as [[[] | err] w4] eqn:Hpoll.
    + apply Hchain; [reflexivity | | | exact Hterm | lia].
      * intros i Hi. destruct (Hbefore (S i) ltac:(lia)) as (r' & sr' & Hr' & Hx & Hj & Hnt').
        exists sr'. split; [| exact Hnt']. exists r'. split; [| split; assumption].
        subst w3. autorewrite with world. rewrite Hreq, <- Hr'. f_equal. lia.
      * destruct Hfinal as (r' & Hr' & Hx). exists r'. split; [| exact Hx].
        subst w3. autorewrite with world. rewrite Hreq, <- Hr'. f_equal. lia.
    + exfalso. rewrite pollTaskStatus_spec in Hpoll.
      destruct (DocumentAPI.getTaskStatus taskId 0 w3) as [[? | ?] ?]; discriminate.
Qed.

(** C6.  A poll stops at the first terminal status and reschedules itself
    until then.  One poll, [pollTaskStatus] or the rest of the call that
    [uploadFile] started, on any page and whatever else is queued, reads
    one status from [getTaskStatus].  When that status is neither
    [completed] nor [failed] it leaves the files as they are and sets one
    timer of [config.polling.interval] ms for the next poll of the same
    task, which is queued behind what was queued.  When it is [completed]
    the entries with the id of the file get the status [success], the
    other entries stay as they are, nothing is queued, and the document
    list is requested once; when it is [failed] those entries get the
    status [error], nothing is queued and no list is requested.  So, for
    an upload that the backend accepts on a page with nothing queued, when
    the backend answers [n] times with a status that is not terminal and
    then with a terminal one, after the upload and any number
    [k >= n + 2] of turns of the event loop: [n + 1] status requests were
    sent, the first of them by [uploadFile]; [n] poll timers were set; no
    call is queued any more; the entries of the file, [processing] after
    the upload, were given their final status, once; and the document list
    was requested once by the timer that [uploadFile] set, and once more by
    the poll exactly if the status is [completed]. *)
Theorem polling_until_terminal (b : Business.t) (taskId fileId : string) :
  let poll := CbPoll (Some b) taskId fileId in
  let refresh := EvRequest (ReqListDocuments (Business.id b) 100 0) in
  let one_poll (call : Eff World unit) (status : Eff World TaskStatusResponse.t) :=
    forall (w w1 : World) (statusResponse : TaskStatusResponse.t),
      status w = (Normal statusResponse, w1) ->
      let w' := exec call w in
      eval call w = Normal tt /\
      (terminal statusResponse = false ->
       files w' = files w /\
       pending w' = pending w ++ [poll] /\
       log w' = log w1 ++ [EvSetTimeout poll config.polling.interval]) /\
      (TaskStatusResponse.status statusResponse = "completed" ->
       given_status fileId success_ (files w) (files w') /\
       pending w' = pending w /\
       log w' =
         log w1 ++ [EvFileStatus fileId success_;
                    EvToast (mkToast ToastSuccess "Document processing completed" None);
                    refresh]) /\
      (TaskStatusResponse.status statusResponse = "failed" ->
       given_status fileId error_ (files w) (files w') /\
       pending w' = pending w /\
       log w' =
         log w1 ++ [EvFileStatus fileId error_;
                    EvToast (mkToast ToastError "Document processing failed" None)]) in
  one_poll (DocumentsPage.pollTaskStatus (Some b) taskId fileId)
           (DocumentAPI.getTaskStatus taskId 0) /\
  (forall request,
     one_poll (DocumentsPage.pollTaskStatus_started (Some b) taskId fileId request)
              (DocumentAPI.getTaskStatus_started taskId request)) /\
  forall (file : File.t) (up : Upload) (now : Z) (xhr : Response UploadResponse.t)
         (response : UploadResponse.t) (final : TaskStatusResponse.t) (n k : nat)
         (w : World),
    pending w = [] ->
    outcome up = XhrLoad xhr -> 200 <= status xhr < 300 -> json xhr = Normal response ->
    UploadResponse.task_id response = taskId ->
    (forall i, (i < n)%nat -> exists sr, answers w i sr /\ terminal sr = false) ->
    answers w n final -> terminal final = true ->
    (n + 2 <= k)%nat ->
    let upload := DocumentsPage.uploadFile (Some b) file fileId up now in
    let completed := bool_decide (TaskStatusResponse.status final = "completed") in
    let w0 := exec upload w in
    let w' := exec (upload;; DocumentsPage.run k) w in
    eval (upload;; DocumentsPage.run k) w = Normal tt /\
    pending w0 =
      [CbPollStarted (Some b) taskId fileId (status_requests w);
       CbLoadDocuments (Business.id b)] /\
    Forall (fun f => UploadedFile.id f = fileId -> UploadedFile.status f = processing)
           (files w0) /\
    given_status fileId (if completed then success_ else error_) (files w0) (files w') /\
    pending w' = [] /\
    status_requests w' = (status_requests w + n + 1)%nat /\
    exists evs,
      log w' = log w ++ evs /\
      count is_status_request evs = (n + 1)%nat /\
      count is_poll_timer evs = n /\
      count (is_terminal_update fileId) evs = 1%nat /\
      count is_list_request evs = if completed then 2%nat else 1%nat.
Proof.
  cbv zeta. split; [| split].
  - intros w w1 sr Hstatus.
    pose proof (getTaskStatus_frame taskId 0 w) as Hframe. cbv zeta in Hframe.
    rewrite Hstatus in Hframe. cbn [snd] in Hframe. destruct Hframe as (Hf & _ & Hp & _).
    exact (poll_with_answered b taskId fileId _ w w1 sr Hstatus Hf Hp).
  - intros request w w1 sr Hstatus.
    pose proof (getTaskStatus_from_frame 3 taskId 0 request w) as Hframe.
    cbv zeta in Hframe. unfold DocumentAPI.getTaskStatus_started in Hstatus.
    rewrite Hstatus in Hframe. cbn [snd] in Hframe. destruct Hframe as (Hf & Hp).
    exact (poll_with_answered b taskId fileId _ w w1 sr Hstatus Hf Hp).
  - intros file up now xhr response final n k w Hpend Hout Hs Hjson Htask Hbefore Hfinal
           Hterm Hk.
    subst taskId.
    pose proof (uploadFile_spec b file fileId up now w) as Hup. cbv zeta in Hup.
    rewrite uploadDocument_spec in Hup. cbn [fst] in Hup. rewrite Hout in Hup.
    assert ((200 <=? status xhr) && (status xhr <? 300) = true) as Hcond
      by (apply andb_true_iff; split; [apply Z.leb_le | apply Z.ltb_lt]; lia).
    rewrite Hcond, Hjson in Hup.
    set (W0 := queued (CbLoadDocuments (Business.id b)) _) in Hup.
    assert (pending W0 =
              [CbPollStarted (Some b) (UploadResponse.task_id response) fileId
                             (status_requests w);
               CbLoadDocuments (Business.id b)]) as HpendW0.
    { subst W0. autorewrite with world. rewrite Hpend. reflexivity. }
    assert (status_requests W0 = S (status_requests w)) as HreqW0.
    { subst W0. autorewrite with world. reflexivity. }
    assert (status_backend W0 = status_backend w) as HbackW0.
    { subst W0. autorewrite with world. reflexivity. }
    pose proof (started_poll_run b (UploadResponse.task_id response) fileId final n k
                  (status_requests w) W0 HpendW0 HreqW0) as Hrun.
    cbv zeta in Hrun.
    assert ((DocumentsPage.uploadFile (Some b) file fileId up now;; DocumentsPage.run k) w =
            DocumentsPage.run k W0) as Hall.
    { unfold mbind, eff_mbind, eff_bind. rewrite Hup. reflexivity. }
    unfold eval, exec. rewrite Hall, Hup, Hrun; [| | | exact Hterm | exact Hk].
    2:{ intros i Hi. destruct (Hbefore i Hi) as (sr & (r & Hr & Hok & Hj) & Hnt).
        exists r, sr. rewrite HbackW0. repeat split; assumption. }
    2:{ destruct Hfinal as (r & Hr & Hx). exists r. rewrite HbackW0. split; assumption. }
    clear Hrun Hall. cbn [fst snd].
    split; [reflexivity |]. split; [exact HpendW0 |].
    split.
    { subst W0. autorewrite with world.
      apply update_file_updated; [reflexivity |]. intros f. reflexivity. }
    assert (exists evs0,
              log W0 = log w ++ evs0 /\
              count is_status_request evs0 = 1%nat /\
              count is_poll_timer evs0 = 0%nat /\
              count (is_terminal_update fileId) evs0 = 0%nat /\
              count is_list_request evs0 = 0%nat) as (evs0 & HlogW0 & C01 & C02 & C03 & C04).
    { subst W0. autorewrite with world. eexists.
      split; [rewrite <- !app_assoc; reflexivity |]. repeat split. }
    destruct (count_status_round (UploadResponse.task_id response)) as (C1 & C2 & C3 & C4).
    destruct (terminal_cases final Hterm) as [Hc | Hf].
    + rewrite (bool_decide_eq_true_2 _ Hc).
      destruct n as [| m]; rewrite (poll_end_completed _ _ _ _ _ Hc);
        autorewrite with world; rewrite HreqW0, HlogW0.
      * split; [apply given_status_success |]. split; [reflexivity |].
        split; [lia |].
        eexists. split; [rewrite <- !app_assoc; reflexivity |].
        rewrite !count_app, C01, C02, C03, C04.
        unfold count. cbn [List.filter is_status_request is_poll_timer is_list_request
                             is_terminal_update length].
        rewrite ?(bool_decide_eq_true_2 (fileId = fileId)) by reflexivity. cbn. repeat split.
      * split; [apply given_status_success |]. split; [reflexivity |].
        split; [lia |].
        eexists. split; [rewrite <- !app_assoc; reflexivity |].
        rewrite !count_app, !count_poll_rounds, !count_app, C01, C02, C03, C04, C1, C2,
          C3, C4.
        unfold count. cbn [List.filter is_status_request is_poll_timer is_list_request
                             is_terminal_update length].
        rewrite ?(bool_decide_eq_true_2 (fileId = fileId)) by reflexivity. cbn. repeat split; lia.
    + rewrite bool_decide_eq_false_2 by (rewrite Hf; discriminate).
      destruct n as [| m]; rewrite (poll_end_failed _ _ _ _ _ Hf);
        autorewrite with world; rewrite HreqW0, HlogW0.
      * split; [apply given_status_error |]. split; [reflexivity |].
        split; [lia |].
        eexists. split; [rewrite <- !app_assoc; reflexivity |].
        rewrite !count_app, C01, C02, C03, C04.
        unfold count. cbn [List.filter is_status_request is_poll_timer is_list_request
                             is_terminal_update length].
        rewrite ?(bool_decide_eq_true_2 (fileId = fileId)) by reflexivity. cbn. repeat split.
      * split; [apply given_status_error |]. split; [reflexivity |].
        split; [lia |].
        eexists. split; [rewrite <- !app_assoc; reflexivity |].
        rewrite !count_app, !count_poll_rounds, !count_app, C01, C02, C03, C04, C1, C2,
          C3, C4.
        unfold count. cbn [List.filter is_status_request is_poll_timer is_list_request
                             is_terminal_update length].
        rewrite ?(bool_decide_eq_true_2 (fileId = fileId)) by reflexivity. cbn. repeat split; lia.
Qed.

(** The run of the specification, from the upload on: the backend reports
    [processing] three times, then [completed]. *)
Lemma polling_until_terminal_witness :
  let w' :=
    exec (DocumentsPage.uploadFile (Some acme) small_pdf "file-1" (upload_ok small_pdf) 0;;
          DocumentsPage.run 5)
         (page_uploading three_then_completed) in
  pending w' = [] /\
  map UploadedFile.status (files w') = [success_] /\
  count is_status_request (log w') = 4%nat /\
  count is_poll_timer (log w') = 3%nat /\
  count (is_terminal_update "file-1") (log w') = 1%nat /\
  count is_list_request (log w') = 2%nat.
Proof.
  cbv zeta.
  destruct (polling_until_terminal acme "task-1" "file-1") as (_ & _ & H).
  destruct (H small_pdf (upload_ok small_pdf) 0
              (reply_200 (UploadResponse.mk "task-1" "doc-1" "small.pdf"))
              (UploadResponse.mk "task-1" "doc-1" "small.pdf")
              (TaskStatusResponse.mk "task-1" "completed" "2024-01-01T00:00:00Z" None None)
              3%nat 5%nat (page_uploading three_then_completed))
    as (_ & _ & _ & _ & Hp & _ & evs & Hlog & Hreq & Htimers & Hterm & Hlist).
  - reflexivity.
  - reflexivity.
  - cbn. lia.
  - reflexivity.
  - reflexivity.
  - intros i Hi.
    exists (TaskStatusResponse.mk "task-1" "processing" "2024-01-01T00:00:00Z" None None).
    split; [| reflexivity].
    exists (reply_200
              (TaskStatusResponse.mk "task-1" "processing" "2024-01-01T00:00:00Z" None None)).
    split; [| split; reflexivity].
    destruct i as [| [| [| i]]]; [reflexivity | reflexivity | reflexivity | lia].
  - exists (reply_200
              (TaskStatusResponse.mk "task-1" "completed" "2024-01-01T00:00:00Z" None None)).
    split; [reflexivity | split; reflexivity].
  - reflexivity.
  - lia.
  - cbn [log page_uploading app] in Hlog. rewrite Hlog.
    split; [exact Hp |]. split; [reflexivity |]. repeat split; assumption.
Defined.

(** ** The validation of a file *)

Lemma validateFile_spec (file : File.t) (w : World) :
  DocumentsPage.validateFile file w =
    (Normal (accepted_file file),
     if config.upload.maxFileSize <? File.size file then
       logged [EvToast (mkToast ToastError "File too large. Maximum size is 10 MB" None)] w
     else if accepted_file file then w
     else
       logged [EvToast (mkToast ToastError
                 "Invalid file type. Supported types: .pdf, .doc, .docx, .txt, .rtf, .csv, .xlsx, .xls"
                 None)] w).
Proof.
  unfold DocumentsPage.validateFile, accepted_file, DocumentsPage.maxFileSize,
    DocumentsPage.acceptedFileTypes.
  destruct (Z.ltb_spec config.upload.maxFileSize (File.size file)) as [Hlt | Hle].
  - assert ((File.size file <=? config.upload.maxFileSize) = false) as ->
      by (apply Z.leb_gt; exact Hlt).
    reflexivity.
  - assert ((File.size file <=? config.upload.maxFileSize) = true) as ->
      by (apply Z.leb_le; exact Hle).
    cbn [andb].
    destruct (bool_decide _); [destruct w |]; reflexivity.
Qed.

Lemma includes_dot_cons (c : ascii) (s : string) :
  includes (String c s) "." = Ascii.eqb c "." || includes s ".".
Proof.
  cbn [includes String.prefix].
  destruct (Ascii.ascii_dec "." c) as [<- | Hne].
  - destruct s; reflexivity.
  - assert (Ascii.eqb c "." = false) as ->; [| reflexivity].
    apply Ascii.eqb_neq. congruence.
Qed.

Lemma append_assoc (a b c : string) : (a +:+ b) +:+ c = a +:+ (b +:+ c).
Proof.
  induction a as [| x a IH]; [reflexivity |].
  change ((String x a +:+ b) +:+ c) with (String x ((a +:+ b) +:+ c)).
  rewrite IH. reflexivity.
Qed.

(** A name without dot is its own last segment. *)
Lemma split_dot_pop_no_dot (s seg : string) :
  includes s "." = false -> split_dot_pop s seg = seg +:+ s.
Proof.
  revert seg. induction s as [| c s IH]; intros seg Hno.
  - cbn. symmetry. apply append_empty_r.
  - rewrite includes_dot_cons in Hno. apply orb_false_iff in Hno as [Hc Hs].
    cbn [split_dot_pop]. rewrite Hc, (IH _ Hs), append_assoc. reflexivity.
Qed.

(** The last segment is what follows the last dot. *)
Lemma split_dot_pop_last (base ext seg : string) :
  includes ext "." = false ->
  split_dot_pop (base +:+ "." +:+ ext) seg = ext.
Proof.
  intros Hno. revert seg. induction base as [| c base IH]; intros seg.
  - change ("" +:+ "." +:+ ext) with (String "." ext). cbn [split_dot_pop].
    rewrite Ascii.eqb_refl. apply (split_dot_pop_no_dot ext "" Hno).
  - change (String c base +:+ "." +:+ ext) with (String c (base +:+ "." +:+ ext)).
    cbn [split_dot_pop]. destruct (Ascii.eqb c "."); apply IH.
Qed.

Lemma lower_ascii_dot (c : ascii) : Ascii.eqb (lower_ascii c) "." = Ascii.eqb c ".".
Proof. destruct c as [[] [] [] [] [] [] [] []]; reflexivity. Qed.

Lemma toLowerCase_app (a b : string) :
  toLowerCase (a +:+ b) = toLowerCase a +:+ toLowerCase b.
Proof.
  induction a as [| x a IH]; [reflexivity |].
  change (String x a +:+ b) with (String x (a +:+ b)). cbn [toLowerCase].
  rewrite IH. reflexivity.
Qed.

(** Lower-casing commutes with taking the last segment. *)
Lemma toLowerCase_split_dot_pop (s seg : string) :
  toLowerCase (split_dot_pop s seg) = split_dot_pop (toLowerCase s) (toLowerCase seg).
Proof.
  revert seg. induction s as [| c s IH]; intros seg; [reflexivity |].
  cbn [split_dot_pop toLowerCase]. rewrite lower_ascii_dot.
  destruct (Ascii.eqb c "."); rewrite IH; [reflexivity |].
  rewrite toLowerCase_app. reflexivity.
Qed.

(** X20.  [validateFile] never throws; it accepts a file exactly when its
    size is at most 10 MiB and the text after the last dot of its name,
    in lower case and with a dot in front, is one of the eight accepted
    types; the whole name counts when it has no dot.  It shows nothing
    for a file it accepts and exactly one toast, and nothing else, for a
    file it rejects.  The decision depends on the name up to the case of
    its letters only. *)
Theorem validateFile_by_extension (file : File.t) (w : World) :
  let extension := "." +:+ toLowerCase (split_dot_pop (File.name file) "") in
  (exists accepted,
     eval (DocumentsPage.validateFile file) w = Normal accepted /\
     (accepted = true <->
      File.size file <= 10 * 1024 * 1024 /\
      In extension [".pdf"; ".doc"; ".docx"; ".txt"; ".rtf"; ".csv"; ".xlsx"; ".xls"]) /\
     (accepted = true -> exec (DocumentsPage.validateFile file) w = w) /\
     (accepted = false ->
      exists msg,
        exec (DocumentsPage.validateFile file) w =
          logged [EvToast (mkToast ToastError msg None)] w)) /\
  (forall base ext,
     File.name file = base +:+ "." +:+ ext -> includes ext "." = false ->
     extension = "." +:+ toLowerCase ext) /\
  (includes (File.name file) "." = false ->
   extension = "." +:+ toLowerCase (File.name file)) /\
  (forall file',
     File.size file' = File.size file ->
     toLowerCase (File.name file') = toLowerCase (File.name file) ->
     eval (DocumentsPage.validateFile file') w = eval (DocumentsPage.validateFile file) w).
Proof.
  cbv zeta. unfold exec, eval. split; [| split; [| split]].
  - rewrite validateFile_spec. cbn [fst snd]. eexists. split; [reflexivity |].
    split; [| split].
    + unfold accepted_file. rewrite andb_true_iff, Z.leb_le, bool_decide_eq_true.
      unfold config.upload.maxFileSize, config.upload.acceptedFileTypes.
      rewrite list_elem_of_In. reflexivity.
    + intros Hacc. rewrite Hacc.
      destruct (Z.ltb_spec config.upload.maxFileSize (File.size file)) as [Hlt | Hle];
        [| reflexivity].
      unfold accepted_file in Hacc. apply andb_true_iff in Hacc as [Hle _].
      apply Z.leb_le in Hle. lia.
    + intros Hacc. rewrite Hacc.
      destruct (config.upload.maxFileSize <? File.size file); eexists; reflexivity.
  - intros base ext -> Hno. rewrite (split_dot_pop_last base ext "" Hno). reflexivity.
  - intros Hno. rewrite (split_dot_pop_no_dot _ "" Hno). reflexivity.
  - intros file' Hsize Hname. rewrite !validateFile_spec. cbn [fst].
    unfold accepted_file. rewrite Hsize.
    rewrite !(toLowerCase_split_dot_pop _ ""), Hname. reflexivity.
Qed.

Lemma validateFile_by_extension_witness :
  "." +:+ toLowerCase (split_dot_pop "Annual.Report.2024.PDF" "") = ".pdf".
Proof.
  destruct (validateFile_by_extension
              (File.mk "Annual.Report.2024.PDF" 2048 "application/pdf") empty_page)
    as (_ & H & _).
  apply (H "Annual.Report.2024" "PDF"); reflexivity.
Defined.

(** ** The files that [handleFiles] uploads *)

Lemma validate_all_spec (ids : nat -> string) (fileList : list File.t) :
  forall n w,
    exists evs,
      DocumentsPage.validate_all ids n fileList w =
        (Normal (with_ids ids n (List.filter accepted_file fileList)), logged evs w) /\
      upload_requests evs = [].
Proof.
  induction fileList as [| file rest IH]; intros n w; cbn [DocumentsPage.validate_all].
  - exists []. split; [| reflexivity]. unfold logged. rewrite app_nil_r.
    destruct w; reflexivity.
  - unfold mbind at 1. unfold eff_mbind at 1. unfold eff_bind at 1.
    rewrite validateFile_spec. cbn [List.filter].
    set (w1 := if config.upload.maxFileSize <? File.size file then _ else _).
    assert (exists ev1, w1 = logged ev1 w /\ upload_requests ev1 = []) as (ev1 & Hw1 & Hev1).
    { subst w1. destruct (config.upload.maxFileSize <? File.size file);
        [eexists; split; reflexivity |].
      destruct (accepted_file file); [| eexists; split; reflexivity].
      exists []. split; [| reflexivity]. unfold logged. rewrite app_nil_r.
      destruct w; reflexivity. }
    destruct (accepted_file file).
    + destruct (IH (S n) w1) as (evs & Hrest & Hevs).
      unfold mbind at 1. unfold eff_mbind at 1. unfold eff_bind at 1.
      rewrite Hrest. exists (ev1 ++ evs). split.
      * cbn [with_ids]. rewrite Hw1, logged_logged. reflexivity.
      * rewrite upload_requests_app, Hev1, Hevs. reflexivity.
    + destruct (IH n w1) as (evs & Hrest & Hevs).
      rewrite Hrest. exists (ev1 ++ evs). split.
      * rewrite Hw1, logged_logged. reflexivity.
      * rewrite upload_requests_app, Hev1, Hevs. reflexivity.
Qed.

(** What one [uploadFile] does to the page, whatever the upload ends
    with. *)
Lemma uploadFile_effect (b : Business.t) (file : File.t) (fileId : string) (up : Upload)
      (now : Z) (w : World) :
  let w' := snd (DocumentsPage.uploadFile (Some b) file fileId up now w) in
  fst (DocumentsPage.uploadFile (Some b) file fileId up now w) = Normal tt /\
  isUploading w' = isUploading w /\
  (exists evs, log w' = log w ++ evs /\ upload_requests evs = [file]) /\
  exists g,
    files w' = map g (files w) /\
    forall f,
      UploadedFile.id (g f) = UploadedFile.id f /\
      entry_of (g f) = entry_of f.
Proof.
  cbv zeta.
  pose proof (uploadFile_spec b file fileId up now w) as Hspec. cbv zeta in Hspec.
  rewrite Hspec. clear Hspec. cbn [fst snd].
  assert (exists g0,
            progress_updates fileId (progress_events up) (files w) = map g0 (files w) /\
            forall f, UploadedFile.id (g0 f) = UploadedFile.id f /\
                      entry_of (g0 f) = entry_of f)
    as (g0 & Hg0 & Hprop0).
  { unfold progress_updates. generalize (files w).
    induction (progress_events up) as [| p ps IH]; intros l.
    - exists (fun f => f). split; [rewrite List.map_id; reflexivity |].
      intros f. repeat split.
    - cbn [fold_left]. destruct (IH (DocumentsPage.update_file fileId
                                       (DocumentsPage.with_progress p) l)) as (g & Hg & Hp).
      exists (fun f => g (if bool_decide (UploadedFile.id f = fileId)
                          then DocumentsPage.with_progress p f else f)).
      split; [rewrite Hg; unfold DocumentsPage.update_file; apply List.map_map |].
      intros f. destruct (Hp (if bool_decide (UploadedFile.id f = fileId)
                              then DocumentsPage.with_progress p f else f)) as (H1 & H2).
      rewrite H1, H2. destruct (bool_decide _); repeat split. }
  split; [reflexivity |].
  match goal with |- context [match ?c with Normal _ => _ | Throw _ => _ end] =>
    destruct c as [response | err] end;
    autorewrite with world.
  - split; [reflexivity |]. split.
    + eexists. split; [rewrite <- !app_assoc; reflexivity | reflexivity].
    + exists (fun f => let f0 := g0 f in
                       if bool_decide (UploadedFile.id f0 = fileId)
                       then DocumentsPage.with_upload response now f0 else f0).
      split; [rewrite Hg0; unfold DocumentsPage.update_file; apply List.map_map |].
      intros f. destruct (Hprop0 f) as (H1 & H2). cbv zeta.
      destruct (bool_decide (UploadedFile.id (g0 f) = fileId)); split; assumption.
  - split; [reflexivity |]. split.
    + eexists. split; [rewrite <- !app_assoc; reflexivity | reflexivity].
    + exists (fun f => let f0 := g0 f in
                       if bool_decide (UploadedFile.id f0 = fileId)
                       then DocumentsPage.with_error (emessage err) f0 else f0).
      split; [rewrite Hg0; unfold DocumentsPage.update_file; apply List.map_map |].
      intros f. destruct (Hprop0 f) as (H1 & H2). cbv zeta.
      destruct (bool_decide (UploadedFile.id (g0 f) = fileId)); split; assumption.
Qed.

Lemma upload_all_effect (b : Business.t) (uploads : File.t -> Upload) (now : nat -> Z)
      (validFiles : list (File.t * string)) :
  forall n w,
    let w' := snd (DocumentsPage.upload_all (Some b) uploads now n validFiles w) in
    fst (DocumentsPage.upload_all (Some b) uploads now n validFiles w) = Normal tt /\
    isUploading w' = isUploading w /\
    (exists evs, log w' = log w ++ evs /\ upload_requests evs = map fst validFiles) /\
    exists g,
      files w' = map g (files w) /\
      forall f,
        UploadedFile.id (g f) = UploadedFile.id f /\
        entry_of (g f) = entry_of f.
Proof.
  induction validFiles as [| [file fileId] rest IH]; intros n w; cbv zeta;
    cbn [DocumentsPage.upload_all].
  - cbn. repeat split; [exists []; rewrite app_nil_r; split; reflexivity |].
    exists (fun f => f). split; [rewrite List.map_id; reflexivity |].
    intros f. repeat split.
  - unfold mbind, eff_mbind, eff_bind.
    pose proof (uploadFile_effect b file fileId (uploads file) (now n) w) as Hone.
    cbv zeta in Hone.
    destruct (DocumentsPage.uploadFile (Some b) file fileId (uploads file) (now n) w)
      as [c w1]. cbn [fst snd] in Hone.
    destruct Hone as (-> & Hu1 & (ev1 & Hl1 & Hr1) & g1 & Hf1 & Hg1).
    cbv beta iota. specialize (IH (S n) w1). cbv zeta in IH.
    destruct (DocumentsPage.upload_all (Some b) uploads now (S n) rest w1) as [c2 w2].
    cbn [fst snd] in *.
    destruct IH as (-> & Hu2 & (ev2 & Hl2 & Hr2) & g2 & Hf2 & Hg2).
    split; [reflexivity |]. split; [congruence |]. split.
    + exists (ev1 ++ ev2). split; [rewrite Hl2, Hl1, app_assoc; reflexivity |].
      rewrite upload_requests_app, Hr1, Hr2. reflexivity.
    + exists (fun f => g2 (g1 f)). split; [rewrite Hf2, Hf1; apply List.map_map |].
      intros f. destruct (Hg1 f) as (A1 & A2).
      destruct (Hg2 (g1 f)) as (B1 & B2).
      split; congruence.
Qed.

Lemma with_ids_fst (ids : nat -> string) (l : list File.t) :
  forall n, map fst (with_ids ids n l) = l.
Proof. induction l as [| f l IH]; intros n; cbn; [| rewrite IH]; reflexivity. Qed.

Lemma handleFiles_spec (currentBusiness : option Business.t) (ids : nat -> string)
      (uploads : File.t -> Upload) (now : nat -> Z) (fileList : list File.t) (w : World) :
  isUploading w = false ->
  let validFiles := with_ids ids 0 (List.filter accepted_file fileList) in
  exists evs,
    upload_requests evs = [] /\
    DocumentsPage.handleFiles currentBusiness ids uploads now fileList w =
      match validFiles with
      | [] => (Normal tt, logged evs w)
      | _ :: _ =>
          match
            DocumentsPage.upload_all currentBusiness uploads now 0 validFiles
              (mkWorld (files w ++ map DocumentsPage.new_file validFiles) true
                       (log w ++ evs) (pending w) (status_backend w) (status_requests w))
          with
          | (Normal _, w2) =>
              (Normal tt,
               mkWorld (files w2) false (log w2) (pending w2) (status_backend w2)
                       (status_requests w2))
          | (Throw err, w2) => (Throw err, w2)
          end
      end.
Proof.
  intros Hidle. cbv zeta.
  destruct (validate_all_spec ids fileList 0 w) as (evs & Hval & Hevs).
  exists evs. split; [exact Hevs |].
  unfold DocumentsPage.handleFiles.
  unfold mbind at 1. unfold eff_mbind at 1. unfold eff_bind at 1.
  unfold get_world. rewrite Hidle.
  unfold mbind at 1. unfold eff_mbind at 1. unfold eff_bind at 1.
  rewrite Hval. cbv zeta.
  destruct (with_ids ids 0 (List.filter accepted_file fileList)) as [| entry rest];
    [reflexivity |].
  cbn [map length Nat.ltb Nat.leb].
  unfold setFiles, setIsUploading, modify, logged.
  unfold mbind, eff_mbind, eff_bind. cbn [files isUploading log pending status_backend
                                           status_requests].
  destruct (DocumentsPage.upload_all _ _ _ _ _ _) as [[[] | err] w2]; reflexivity.
Qed.

Lemma upload_all_without_business (uploads : File.t -> Upload) (now : nat -> Z)
      (validFiles : list (File.t * string)) :
  forall n w,
    exists evs,
      DocumentsPage.upload_all None uploads now n validFiles w = (Normal tt, logged evs w) /\
      upload_requests evs = [].
Proof.
  induction validFiles as [| [file fileId] rest IH]; intros n w;
    cbn [DocumentsPage.upload_all].
  - exists []. split; [| reflexivity]. unfold logged. rewrite app_nil_r.
    destruct w; reflexivity.
  - unfold mbind, eff_mbind, eff_bind. cbn [DocumentsPage.uploadFile].
    unfold toast_error. rewrite emit_spec.
    destruct (IH (S n) (logged [EvToast (mkToast ToastError "No business selected" None)] w))
      as (evs & -> & Hevs).
    eexists. split; [rewrite logged_logged; reflexivity |].
    rewrite upload_requests_app, Hevs. reflexivity.
Qed.

(** X21.  [handleFiles] never throws and never leaves the page in the
    uploading state: it ends with [isUploading] as it found it.  While an
    upload is under way it does nothing but show a toast.  When the list
    holds no file that [validateFile] accepts it adds no entry, sends no
    upload request and queues nothing.  When the page has no business it
    adds an entry in the status [uploading] for each accepted file, and
    sends no request for them. *)
Theorem handleFiles_settles (currentBusiness : option Business.t) (ids : nat -> string)
        (uploads : File.t -> Upload) (now : nat -> Z) (fileList : list File.t) (w : World) :
  let handle := DocumentsPage.handleFiles currentBusiness ids uploads now fileList in
  let w' := exec handle w in
  eval handle w = Normal tt /\
  isUploading w' = isUploading w /\
  (isUploading w = true ->
   w' = logged [EvToast (mkToast ToastError "Please wait for current uploads to complete"
                                 None)] w) /\
  (isUploading w = false -> List.filter accepted_file fileList = [] ->
   files w' = files w /\ pending w' = pending w /\
   exists evs, log w' = log w ++ evs /\ upload_requests evs = []) /\
  (isUploading w = false -> currentBusiness = None ->
   files w' =
     files w ++
       map DocumentsPage.new_file (with_ids ids 0 (List.filter accepted_file fileList)) /\
   pending w' = pending w /\
   exists evs, log w' = log w ++ evs /\ upload_requests evs = []).
Proof.
  cbv zeta. unfold exec, eval.
  destruct (isUploading w) eqn:Hbusy.
  - unfold DocumentsPage.handleFiles, toast_error.
    unfold mbind, eff_mbind, eff_bind, get_world. rewrite Hbusy, emit_spec. cbn.
    rewrite Hbusy. repeat split; discriminate.
  - destruct (handleFiles_spec currentBusiness ids uploads now fileList w Hbusy)
      as (evs & Hevs & Hspec).
    cbv zeta in Hspec. rewrite Hspec. clear Hspec.
    destruct (with_ids ids 0 (List.filter accepted_file fileList)) as [| entry rest] eqn:Hvalid.
    + cbn. rewrite Hbusy. rewrite app_nil_r.
      repeat split; try discriminate; intros; exists evs; (split; [reflexivity | exact Hevs]).
    + assert (List.filter accepted_file fileList <> []) as Hne.
      { intros Hnil. rewrite Hnil in Hvalid. discriminate. }
      destruct currentBusiness as [b |].
      * pose proof (upload_all_effect b uploads now (entry :: rest) 0
                      (mkWorld (files w ++ map DocumentsPage.new_file (entry :: rest)) true
                               (log w ++ evs) (pending w) (status_backend w)
                               (status_requests w))) as Heff.
        cbv zeta in Heff.
        destruct (DocumentsPage.upload_all (Some b) uploads now 0 (entry :: rest) _)
          as [c w2]. cbn [fst snd] in Heff. destruct Heff as (-> & _).
        cbn. repeat split; try discriminate; intros; contradiction.
      * destruct (upload_all_without_business uploads now (entry :: rest) 0
                    (mkWorld (files w ++ map DocumentsPage.new_file (entry :: rest)) true
                             (log w ++ evs) (pending w) (status_backend w)
                             (status_requests w))) as (evs2 & -> & Hevs2).
        cbn. repeat split; try discriminate; try (intros; contradiction).
        exists (evs ++ evs2).
        split; [rewrite app_assoc; reflexivity |].
        rewrite upload_requests_app, Hevs, Hevs2. reflexivity.
Qed.

Lemma handleFiles_settles_witness :
  let busy := mkWorld [uploading_pdf] true [] [] unreachable 0 in
  exec (DocumentsPage.handleFiles (Some acme) (fun n => "file-" +:+ pretty n) upload_ok
          (fun _ => 0) [small_pdf]) busy =
    logged [EvToast (mkToast ToastError "Please wait for current uploads to complete" None)]
           busy.
Proof.
  cbv zeta.
  destruct (handleFiles_settles (Some acme) (fun n => "file-" +:+ pretty n) upload_ok
              (fun _ => 0) [small_pdf] (mkWorld [uploading_pdf] true [] [] unreachable 0))
    as (_ & _ & H & _).
  apply H. reflexivity.
Defined.

(** X22.  With a business and no upload under way, [handleFiles] uploads
    the files of the list that [validateFile] accepts, each once and in the
    order of the list, and no other file.  It appends one entry for each of
    them to the file list, in the same order and with the ids it drew,
    and leaves the names, sizes, types and ids of the entries that were
    there.  (The status of an entry when [handleFiles] returns is not part
    of the statement: the poll of an earlier file is under way while the
    later files upload.) *)
Theorem handleFiles_uploads_in_order (b : Business.t) (ids : nat -> string)
        (uploads : File.t -> Upload) (now : nat -> Z) (fileList : list File.t) (w : World) :
  isUploading w = false ->
  let accepted := List.filter accepted_file fileList in
  let w' := exec (DocumentsPage.handleFiles (Some b) ids uploads now fileList) w in
  (exists evs, log w' = log w ++ evs /\ upload_requests evs = accepted) /\
  exists old new,
    files w' = old ++ new /\
    map UploadedFile.id old = map UploadedFile.id (files w) /\
    map entry_of old = map entry_of (files w) /\
    map entry_of new = map file_entry accepted /\
    map UploadedFile.id new = map snd (with_ids ids 0 accepted).
Proof.
  intros Hidle. cbv zeta. unfold exec.
  destruct (handleFiles_spec (Some b) ids uploads now fileList w Hidle)
    as (evs & Hevs & Hspec).
  cbv zeta in Hspec. rewrite Hspec. clear Hspec.
  set (accepted := List.filter accepted_file fileList).
  destruct (with_ids ids 0 accepted) as [| entry rest] eqn:Hvalid.
  - assert (accepted = []) as -> by (destruct accepted; [reflexivity | discriminate]).
    cbn. split; [exists evs; split; [reflexivity | exact Hevs] |].
    exists (files w), []. rewrite app_nil_r. repeat split.
  - pose proof (upload_all_effect b uploads now (entry :: rest) 0
                  (mkWorld (files w ++ map DocumentsPage.new_file (entry :: rest)) true
                           (log w ++ evs) (pending w) (status_backend w)
                           (status_requests w))) as Heff.
    cbv zeta in Heff.
    destruct (DocumentsPage.upload_all (Some b) uploads now 0 (entry :: rest) _) as [c w2].
    cbn [fst snd] in Heff.
    destruct Heff as (-> & _ & (evs2 & Hlog & Hreq) & g & Hfiles & Hg).
    cbn [snd log files] in *. rewrite <- Hvalid in *. clear Hvalid entry rest.
    split.
    + exists (evs ++ evs2). split; [rewrite Hlog, app_assoc; reflexivity |].
      rewrite upload_requests_app, Hevs, Hreq, with_ids_fst. reflexivity.
    + exists (map g (files w)), (map g (map DocumentsPage.new_file (with_ids ids 0 accepted))).
      split; [rewrite Hfiles; apply List.map_app |].
      split; [rewrite List.map_map; apply List.map_ext; intros f; apply Hg |].
      split; [rewrite List.map_map; apply List.map_ext; intros f; apply Hg |].
      split.
      { rewrite !List.map_map. rewrite <- (with_ids_fst ids accepted 0) at 2.
        rewrite List.map_map. apply List.map_ext. intros [file fileId].
        destruct (Hg (DocumentsPage.new_file (file, fileId))) as (_ & ->). reflexivity. }
      rewrite !List.map_map. apply List.map_ext. intros [file fileId].
      destruct (Hg (DocumentsPage.new_file (file, fileId))) as (-> & _). reflexivity.
Qed.

Lemma handleFiles_uploads_in_order_witness :
  exists evs,
    log (exec (DocumentsPage.handleFiles (Some acme) (fun n => "file-" +:+ pretty n)
                 upload_ok (fun _ => 0)
                 [huge_pdf; small_pdf; File.mk "notes.TXT" 12 "text/plain";
                  File.mk "setup.exe" 4096 "application/octet-stream"])
              empty_page) = [] ++ evs /\
    upload_requests evs = [small_pdf; File.mk "notes.TXT" 12 "text/plain"].
Proof.
  destruct (handleFiles_uploads_in_order acme (fun n => "file-" +:+ pretty n) upload_ok
              (fun _ => 0)
              [huge_pdf; small_pdf; File.mk "notes.TXT" 12 "text/plain";
               File.mk "setup.exe" 4096 "application/octet-stream"] empty_page eq_refl)
    as ((evs & Hlog & Hreq) & _).
  exists evs. split; [exact Hlog | exact Hreq].
Defined.

(** ** The requests of one call of [getTaskStatus] *)

Lemma retried_stops (retryCount : nat) (e : JsError) :
  (3 <= retryCount)%nat -> retried retryCount e = false.
Proof.
  intros H. unfold retried. destruct (Nat.ltb_spec retryCount 3); [lia | reflexivity].
Qed.

Lemma getTaskStatus_fuel_requests (fuel : nat) (taskId : string) :
  forall (retryCount : nat) (w : World),
    (3 <= fuel + retryCount)%nat ->
    let w' := snd (DocumentAPI.getTaskStatus_fuel fuel taskId retryCount w) in
    exists n,
      (1 <= n)%nat /\
      (forall i, (i < n - 1)%nat -> attempt_retried retryCount w i = true) /\
      attempt_retried retryCount w (n - 1) = false /\
      fst (DocumentAPI.getTaskStatus_fuel fuel taskId retryCount w) =
        attempt_outcome w (n - 1) /\
      status_requests w' = (status_requests w + n)%nat /\
      exists evs, log w' = log w ++ evs /\ count is_status_request evs = n.
Proof.
  induction fuel as [| fuel IH]; intros c w Hfuel; cbv zeta;
    rewrite getTaskStatus_fuel_step; cbv zeta.
  - assert (forall e, retried c e = false) as Hstop by (intros e; apply retried_stops; lia).
    exists 1%nat. unfold attempt_retried, attempt_outcome. cbn [Nat.sub].
    rewrite !Nat.add_0_r.
    destruct (status_backend w (status_requests w)) as [e | r];
      [| destruct (ok r)]; rewrite ?Hstop; cbn.
    all: repeat split; try lia; try (intros i Hi; lia).
    all: eexists; split; [reflexivity | reflexivity].
  - destruct (status_backend w (status_requests w)) as [e | r] eqn:Hfirst;
      [| destruct (ok r) eqn:Hok].
    all: try match goal with |- context [retried ?k ?x] => destruct (retried k x) eqn:Hretry end.
    all: try (exists 1%nat; unfold attempt_retried, attempt_outcome; cbn [Nat.sub];
              rewrite !Nat.add_0_r, Hfirst, ?Hok, ?Hretry; cbn;
              repeat split; try lia; try (intros i Hi; lia);
              eexists; split; reflexivity).
    all: match goal with
         | |- context [DocumentAPI.getTaskStatus_fuel _ _ (S ?k) ?w1] =>
             destruct (IH (S k) w1 ltac:(lia))
               as (n & Hn & Hbefore & Hlast & Heval & Hreq & evs & Hlog & Hcount);
             set (w2 := w1) in *
         end.
    all: assert (forall i, attempt_retried (S c) w2 i = attempt_retried c w (S i)) as Hshift
        by (intros i; unfold attempt_retried; subst w2; cbn [requested status_backend status_requests];
            replace (S (status_requests w) + i)%nat with (status_requests w + S i)%nat by lia;
            replace (S c + i)%nat with (c + S i)%nat by lia; reflexivity).
    all: assert (attempt_outcome w2 (n - 1) = attempt_outcome w (S n - 1)) as Hout
        by (unfold attempt_outcome; subst w2; cbn [requested status_backend status_requests];
            replace (S (status_requests w) + (n - 1))%nat
              with (status_requests w + (S n - 1))%nat by lia; reflexivity).
    all: exists (S n); split; [lia |].
    all: split;
      [ intros i Hi; destruct i as [| i];
        [ unfold attempt_retried; rewrite !Nat.add_0_r, Hfirst, ?Hok; cbn; exact Hretry
        | rewrite <- Hshift; apply Hbefore; lia ] |].
    all: split; [replace (S n - 1)%nat with (S (n - 1)) by lia; rewrite <- Hshift; exact Hlast |].
    all: split; [rewrite Heval; exact Hout |].
    all: split; [rewrite Hreq; subst w2; cbn; lia |].
    all: eexists; split; [rewrite Hlog; subst w2; cbn [requested log]; rewrite <- app_assoc; reflexivity |].
    all: rewrite count_app, Hcount; reflexivity.
Qed.

(** X23.  One call of [getTaskStatus(taskId)] sends at least one and at
    most four status requests.  It asks again exactly after a request
    that failed with an [AbortError] or with a message that contains
    [fetch] (a network error, a timeout, or a reply that is not 2xx whose
    [detail] contains [fetch]), as long as fewer than three retries were
    made; it ends with what its last request gave: the body of a 2xx
    reply, the error of another reply, or the rejection.  The error of a
    reply that is not 2xx is an [Error] with the [detail] of the body, or
    with [HTTP <status>] when the body has no [detail] or is not JSON, and
    the [TypeError] of the read of [detail] when the body is [null]; that
    last one is never retried.  The call changes neither the files nor
    the queue of the page. *)
Theorem getTaskStatus_requests (taskId : string) (w : World) :
  let w' := exec (DocumentAPI.getTaskStatus taskId 0) w in
  exists n,
    (1 <= n <= 4)%nat /\
    (forall i, (i < n - 1)%nat -> attempt_retried 0 w i = true) /\
    attempt_retried 0 w (n - 1) = false /\
    eval (DocumentAPI.getTaskStatus taskId 0) w = attempt_outcome w (n - 1) /\
    status_requests w' = (status_requests w + n)%nat /\
    (exists evs, log w' = log w ++ evs /\ count is_status_request evs = n) /\
    files w' = files w /\ pending w' = pending w /\
    (forall r : Response TaskStatusResponse.t,
       ok r = false ->
       DocumentAPI.error_of_reply r =
         match error_body r with
         | Normal (Some errorData) =>
             new_Error (or_else (detail errorData) (http_status r))
         | Normal None => null_property_error
         | Throw _ => new_Error (http_status r)
         end) /\
    (forall r,
       status_backend w (status_requests w) = Replied r -> ok r = false ->
       error_body r = Normal None ->
       n = 1%nat /\ eval (DocumentAPI.getTaskStatus taskId 0) w = Throw null_property_error).
Proof.
  cbv zeta. unfold exec, eval, DocumentAPI.getTaskStatus.
  destruct (getTaskStatus_fuel_requests (3 - 0) taskId 0 w ltac:(lia))
    as (n & Hn & Hbefore & Hlast & Heval & Hreq & Hlog).
  pose proof (getTaskStatus_fuel_frame (3 - 0) taskId 0 w) as Hframe.
  cbv zeta in Hframe. destruct Hframe as (Hfiles & _ & Hpending & _).
  exists n.
  assert (n <= 4)%nat as Hle.
  { destruct (le_lt_dec n 4) as [Hle | Hgt]; [exact Hle | exfalso].
    specialize (Hbefore 3%nat ltac:(lia)). unfold attempt_retried in Hbefore.
    destruct (status_backend w (status_requests w + 3)) as [e | r].
    - rewrite retried_stops in Hbefore by lia. discriminate.
    - rewrite retried_stops in Hbefore by lia. rewrite andb_false_r in Hbefore.
      discriminate. }
  split; [lia |]. split; [exact Hbefore |]. split; [exact Hlast |].
  split; [exact Heval |]. split; [exact Hreq |]. split; [exact Hlog |].
  split; [exact Hfiles |]. split; [exact Hpending |]. split.
  - intros r _. unfold DocumentAPI.error_of_reply.
    destruct (error_body r) as [[d |] | e]; reflexivity.
  - intros r Hr Hok Hnull.
    assert (DocumentAPI.error_of_reply r = null_property_error) as Herr
      by (unfold DocumentAPI.error_of_reply; rewrite Hnull; reflexivity).
    assert (n = 1%nat) as ->.
    { destruct (decide (n = 1%nat)) as [H1 | H1]; [exact H1 | exfalso].
      specialize (Hbefore 0%nat ltac:(lia)). unfold attempt_retried in Hbefore.
      rewrite Nat.add_0_r, Hr, Herr in Hbefore. rewrite andb_false_r in Hbefore.
      discriminate. }
    split; [reflexivity |].
    rewrite Heval. unfold attempt_outcome. cbn [Nat.sub].
    rewrite Nat.add_0_r, Hr, Hok, Herr. reflexivity.
Qed.

(** ** Polls of a task that never ends *)

Lemma poll_rounds_S (cb : Callback) (taskId : string) (n : nat) :
  poll_rounds cb taskId (S n) =
    (status_round taskId ++ [EvSetTimeout cb config.polling.interval]) ++
    poll_rounds cb taskId n.
Proof. reflexivity. Qed.

Lemma poll_without_end (currentBusiness : option Business.t) (taskId fileId : string) :
  forall (k : nat) (w : World),
    pending w = [] ->
    (forall i, exists sr, answers w i sr /\ terminal sr = false) ->
    (DocumentsPage.pollTaskStatus currentBusiness taskId fileId;; DocumentsPage.run k) w =
      (Normal tt,
       mkWorld (files w) (isUploading w)
         (log w ++ poll_rounds (CbPoll currentBusiness taskId fileId) taskId (S k))
         [CbPoll currentBusiness taskId fileId]
         (status_backend w) (status_requests w + S k)).
Proof.
  induction k as [| k IH]; intros w Hpend Hall.
  - destruct (Hall 0%nat) as (sr & (r & Hr & Hok & Hjson) & Hnt).
    rewrite Nat.add_0_r in Hr.
    unfold mbind, eff_mbind, eff_bind.
    rewrite pollTaskStatus_spec, (getTaskStatus_answered _ _ _ Hr Hok), Hjson.
    rewrite (poll_end_pending _ _ _ _ _ Hnt).
    cbn [DocumentsPage.run]. unfold mret, eff_mret, eff_ret.
    unfold queued, logged, requested, poll_rounds. cbn. rewrite Hpend.
    rewrite <- app_assoc. cbn. do 2 f_equal. lia.
  - destruct (Hall 0%nat) as (sr & (r & Hr & Hok & Hjson) & Hnt).
    rewrite Nat.add_0_r in Hr.
    unfold mbind, eff_mbind, eff_bind.
    rewrite pollTaskStatus_spec, (getTaskStatus_answered _ _ _ Hr Hok), Hjson.
    rewrite (poll_end_pending _ _ _ _ _ Hnt).
    cbn [DocumentsPage.run]. unfold mbind, eff_mbind, eff_bind.
    rewrite (fire_poll currentBusiness taskId fileId []);
      [| unfold queued, logged, requested; cbn; rewrite Hpend; reflexivity].
    set (w2 := mkWorld _ _ _ _ _ _).
    specialize (IH w2).
    unfold mbind, eff_mbind, eff_bind in IH.
    destruct (DocumentsPage.pollTaskStatus currentBusiness taskId fileId w2)
      as [[[] | err] w3] eqn:Hpoll.
    + rewrite IH.
      * f_equal. rewrite (poll_rounds_S _ _ (S k)). subst w2. cbn.
        f_equal; [| lia]. rewrite <- !app_assoc. reflexivity.
      * reflexivity.
      * intros i. destruct (Hall (S i)) as (sr' & (r' & Hr' & Hx) & Hnt').
        exists sr'. split; [| exact Hnt']. exists r'. split; [| exact Hx].
        subst w2. cbn. rewrite <- Hr'. f_equal. lia.
    + exfalso. rewrite pollTaskStatus_spec in Hpoll.
      destruct (DocumentAPI.getTaskStatus taskId 0 w2) as [[? | ?] ?]; discriminate.
Qed.

(** X24.  Polling has no bound of its own.  As long as the backend answers
    the status requests of a task with a status that is neither
    [completed] nor [failed], every poll sets the timer of the next one:
    after the first poll and [k] turns of the event loop, for any [k],
    [k + 1] status requests were sent and [k + 1] timers set, the next
    poll is queued, and the entry of the file was never updated.  This
    holds beyond [config.polling.maxRetries] polls as well, a value that
    the page does not read. *)
Theorem polling_never_gives_up (currentBusiness : option Business.t)
        (taskId fileId : string) (w : World) (k : nat) :
  pending w = [] ->
  (forall i, exists sr, answers w i sr /\ terminal sr = false) ->
  let cb := CbPoll currentBusiness taskId fileId in
  let run_polls n := exec (DocumentsPage.pollTaskStatus currentBusiness taskId fileId;;
                           DocumentsPage.run n) w in
  pending (run_polls k) = [cb] /\
  status_requests (run_polls k) = (status_requests w + k + 1)%nat /\
  files (run_polls k) = files w /\
  (exists evs,
     log (run_polls k) = log w ++ evs /\
     count is_status_request evs = (k + 1)%nat /\
     count is_poll_timer evs = (k + 1)%nat /\
     count (is_terminal_update fileId) evs = 0%nat) /\
  pending (run_polls (Z.to_nat config.polling.maxRetries)) = [cb].
Proof.
  intros Hpend Hall. cbv zeta. unfold exec.
  rewrite !(poll_without_end currentBusiness taskId fileId _ w Hpend Hall). cbn [snd].
  cbn [pending status_requests files log].
  split; [reflexivity |]. split; [lia |]. split; [reflexivity |]. split; [| reflexivity].
  eexists. split; [reflexivity |].
  rewrite !count_poll_rounds, !count_app.
  destruct (count_status_round taskId) as (-> & -> & Hterm & _). rewrite Hterm.
  cbn. repeat split; lia.
Qed.

Lemma polling_never_gives_up_witness :
  pending (exec (DocumentsPage.pollTaskStatus (Some acme) "task-1" "file-1";;
                 DocumentsPage.run 200)
                (page_after_upload always_processing)) =
    [CbPoll (Some acme) "task-1" "file-1"].
Proof.
  destruct (polling_never_gives_up (Some acme) "task-1" "file-1"
              (page_after_upload always_processing) 200 eq_refl) as (H & _).
  - intros i. eexists. split.
    + eexists. split; [reflexivity |]. split; reflexivity.
    + reflexivity.
  - exact H.
Defined.
(** ** Removing a file from the list *)

Lemma update_file_absent (fileId : string) (g : UploadedFile.t -> UploadedFile.t)
      (l : list UploadedFile.t) :
  (forall f, In f l -> UploadedFile.id f <> fileId) ->
  DocumentsPage.update_file fileId g l = l.
Proof.
  unfold DocumentsPage.update_file. intros Habsent.
  induction l as [| f l IH]; [reflexivity |]. cbn [map].
  rewrite bool_decide_eq_false_2 by (apply Habsent; left; reflexivity).
  f_equal. apply IH. intros f' Hin. apply Habsent. right. exact Hin.
Qed.

Lemma removeFile_spec (fileId : string) (w : World) :
  DocumentsPage.removeFile fileId w =
    (Normal tt,
     with_files (List.filter (fun f => negb (bool_decide (UploadedFile.id f = fileId)))) w).
Proof. reflexivity. Qed.

(** X25.  [removeFile] takes the entries with the given id out of the file
    list, keeps the others in their order, and cancels nothing: the queue
    of the page is as before, so a poll queued for the file still runs.
    When that poll then reads a terminal status it leaves the file list
    as it is, the file does not come back, but it still logs its update
    and shows its toast. *)
Theorem removeFile_does_not_stop_polling (currentBusiness : option Business.t)
        (taskId fileId : string) (final : TaskStatusResponse.t) (w : World) :
  answers w 0 final -> terminal final = true ->
  let w1 := exec (DocumentsPage.removeFile fileId) w in
  let w2 := exec (DocumentsPage.pollTaskStatus currentBusiness taskId fileId) w1 in
  files w1 = List.filter (fun f => negb (bool_decide (UploadedFile.id f = fileId))) (files w) /\
  (forall f, In f (files w1) <-> In f (files w) /\ UploadedFile.id f <> fileId) /\
  pending w1 = pending w /\ log w1 = log w /\
  files w2 = files w1 /\
  exists evs,
    log w2 = log w ++ evs /\
    count (is_terminal_update fileId) evs = 1%nat /\
    exists t, In (EvToast t) evs.
Proof.
  intros (r & Hr & Hok & Hjson) Hterm. cbv zeta. unfold exec.
  rewrite removeFile_spec. cbn [snd].
  set (kept := List.filter _ (files w)).
  assert (forall f, In f kept <-> In f (files w) /\ UploadedFile.id f <> fileId) as Hkept.
  { intros f. subst kept. rewrite List.filter_In.
    destruct (bool_decide_reflect (UploadedFile.id f = fileId)) as [Heq | Hne]; cbn.
    - split; [intros [_ [=]] | intros [_ Hne]; contradiction].
    - split; [intros [Hin _]; split; assumption | intros [Hin _]; split; [assumption | reflexivity]]. }
  split; [reflexivity |]. split; [exact Hkept |]. split; [reflexivity |]. split; [reflexivity |].
  rewrite Nat.add_0_r in Hr.
  rewrite pollTaskStatus_spec.
  rewrite (getTaskStatus_answered taskId r (with_files _ w)) by assumption.
  rewrite Hjson. cbn [snd]. unfold terminal in Hterm. unfold poll_end.
  assert (forall g, DocumentsPage.update_file fileId g kept = kept) as Hsame.
  { intros g. apply update_file_absent. intros f Hin. apply Hkept in Hin. apply Hin. }
  destruct (bool_decide (TaskStatusResponse.status final = "completed")).
  - unfold logged, with_files, requested. cbn [files log]. rewrite Hsame.
    split; [reflexivity |].
    eexists. split; [rewrite <- app_assoc; reflexivity |].
    rewrite !count_app.
    destruct (count_status_round taskId) as (_ & _ & -> & _).
    split.
    + unfold count. cbn. rewrite bool_decide_eq_true_2 by reflexivity.
      destruct currentBusiness; reflexivity.
    + eexists. apply in_or_app. right. right. left. reflexivity.
  - destruct (bool_decide (TaskStatusResponse.status final = "failed")); [| discriminate].
    unfold logged, with_files, requested. cbn [files log]. rewrite Hsame.
    split; [reflexivity |].
    eexists. split; [rewrite <- app_assoc; reflexivity |].
    rewrite !count_app.
    destruct (count_status_round taskId) as (_ & _ & -> & _).
    split.
    + unfold count. cbn. rewrite bool_decide_eq_true_2 by reflexivity. reflexivity.
    + eexists. apply in_or_app. right. right. left. reflexivity.
Qed.

Lemma removeFile_does_not_stop_polling_witness :
  let w1 := exec (DocumentsPage.removeFile "file-1") (page_after_upload (fun _ => status_reply "completed")) in
  files w1 = [] /\
  files (exec (DocumentsPage.pollTaskStatus (Some acme) "task-1" "file-1") w1) = files w1.
Proof.
  cbv zeta.
  destruct (removeFile_does_not_stop_polling (Some acme) "task-1" "file-1"
              (TaskStatusResponse.mk "task-1" "completed" "2024-01-01T00:00:00Z" None None)
              (page_after_upload (fun _ => status_reply "completed")))
    as (Hfiles & _ & _ & _ & Hsame & _).
  - eexists. split; [reflexivity |]. split; reflexivity.
  - reflexivity.
  - split; [exact Hfiles | exact Hsame].
Defined.
(** * Properties of the chat page *)

(** ** Sending a message *)

Lemma call_any_world {W T} (reply : Fetch T) (w : W) :
  ChatAPI.call reply w = (answer reply, w).
Proof.
  unfold answer, eval, ChatAPI.call, ChatAPI.handleResponse.
  destruct reply as [e | r]; [reflexivity |].
  unfold mbind, eff_mbind, eff_bind, await_fetch, await, throw. cbn.
  destruct (ok r); cbn; [destruct (json r); reflexivity |].
  destruct (error_body r) as [[d |] | e]; reflexivity.
Qed.

(** Run the code of the page on a world given by its fields. *)
Ltac chat_run :=
  cbv beta iota zeta delta
    [ChatPage.handleSendMessage ChatPage.initializeChat ChatPage.resetChat
     ChatPage.sendMessage ChatPage.createConversation ChatPage.getBotConfig
     ChatPage.healthCheck ChatPage.generateCustomerId ChatPage.Date_now
     ChatPage.setMessages ChatPage.setInputValue ChatPage.setIsLoading ChatPage.setIsTyping
     ChatPage.setIsConnected ChatPage.setConversationId ChatPage.setBusinessNamespace
     ChatPage.setBotConfig ChatPage.setError ChatPage.setState ChatPage.send ChatPage.show
     mbind eff_mbind eff_bind mret eff_mret eff_ret get_world modify throw
     try_finally try_catch fst snd exec eval
     ChatPage.state ChatPage.toasts ChatPage.requests ChatPage.clock_reads
     ChatPage.random_reads ChatPage.messages ChatPage.inputValue ChatPage.isTyping
     ChatPage.isLoading ChatPage.isConnected ChatPage.conversationId
     ChatPage.businessNamespace ChatPage.botConfig ChatPage.error ChatMessage.id].

Lemma mark_last (id : string) (s : ChatMessage.Status) (prev : list ChatMessage.t)
      (content : string) (sender : ChatMessage.Sender) (timestamp : Z)
      (s0 : option ChatMessage.Status) (score : option Q) (model : option string) :
  ChatPage.mark id s (prev ++ [ChatMessage.mk id content sender timestamp s0 score model]) =
    ChatPage.mark id s prev ++ [ChatMessage.mk id content sender timestamp (Some s) score model].
Proof.
  unfold ChatPage.mark. rewrite List.map_app. cbn.
  rewrite bool_decide_eq_true_2 by reflexivity. reflexivity.
Qed.

Lemma mark_mark (id : string) (s1 s2 : ChatMessage.Status) (prev : list ChatMessage.t) :
  ChatPage.mark id s2 (ChatPage.mark id s1 prev) = ChatPage.mark id s2 prev.
Proof.
  unfold ChatPage.mark. rewrite List.map_map. apply List.map_ext. intros msg.
  destruct (bool_decide (ChatMessage.id msg = id)) eqn:Hid; cbn; rewrite Hid; reflexivity.
Qed.

(** X26.  [handleSendMessage] never throws.  It does nothing at all when
    the input is empty or white space, when the page is loading, or when
    the page has no business namespace or no conversation.  Otherwise it
    sends exactly one chat request, which carries the trimmed input, the
    namespace, the conversation and the session of the page; it empties
    the input, ends with [isTyping] and [isLoading] false, and adds exactly
    two messages to the list: the message of the user, marked [sent] when
    the send succeeded and [error] when it failed, and one message of the
    bot. *)
Theorem handleSendMessage_sends_once (user : option UserProfile) (sessionId : string)
        (clock : nat -> Z) (random : nat -> string) (reply : Fetch ChatResponse.t)
        (w : ChatPage.World) :
  let send := ChatPage.handleSendMessage user sessionId clock random reply in
  let st := ChatPage.state w in
  let st' := ChatPage.state (exec send w) in
  eval send w = Normal tt /\
  (send_blocked st = true -> exec send w = w) /\
  (send_blocked st = false ->
   (exists chatRequest,
      ChatPage.requests (exec send w) = ChatPage.requests w ++ [ChatPage.ReqChat chatRequest] /\
      ChatRequest.message chatRequest = trim (ChatPage.inputValue st) /\
      Some (ChatRequest.business_namespace chatRequest) = ChatPage.businessNamespace st /\
      ChatRequest.conversation_id chatRequest = ChatPage.conversationId st /\
      ChatRequest.session_id chatRequest = Some sessionId) /\
   ChatPage.inputValue st' = "" /\
   ChatPage.isTyping st' = false /\
   ChatPage.isLoading st' = false /\
   ChatPage.conversationId st' = ChatPage.conversationId st /\
   ChatPage.businessNamespace st' = ChatPage.businessNamespace st /\
   exists botMessage,
     let s := match send_failure reply with
              | Some _ => ChatMessage.error
              | None => ChatMessage.sent
              end in
     ChatPage.messages st' =
       ChatPage.mark (pretty (clock (ChatPage.clock_reads w))) s (ChatPage.messages st) ++
       [user_message clock w s; botMessage] /\
     ChatMessage.sender botMessage = ChatMessage.bot).
Proof.
  cbv zeta. unfold send_blocked, send_failure, user_message.
  destruct w as [[msgs input typing loading connected cid ns config err] toasts reqs cr rr].
  cbn [ChatPage.state ChatPage.businessNamespace ChatPage.conversationId
       ChatPage.inputValue ChatPage.isLoading ChatPage.clock_reads ChatPage.messages].
  destruct ns as [ns |]; [destruct cid as [cid |] |]; cbn [truthy_opt negb].
  2, 3: rewrite ?orb_true_r; repeat split; discriminate.
  destruct (negb (truthy (trim input)) || loading || negb (truthy ns) || negb (truthy cid))
    eqn:Hguard.
  { chat_run. rewrite Hguard. repeat split; discriminate. }
  chat_run. rewrite Hguard. chat_run. rewrite call_any_world.
  destruct (answer reply) as [response | e];
    [destruct (ChatResponse.success response);
     [destruct (ChatResponse.message_id response) as [message_id |];
      [destruct (truthy message_id) |] |] |].
  all: chat_run; rewrite ?mark_last, ?mark_mark, <- ?app_assoc; cbn [app].
  all: split; [reflexivity |]; split; [discriminate |]; intros _.
  all: split; [eexists; split; [reflexivity |]; repeat split |].
  all: repeat (split; [reflexivity |]).
  all: eexists; split; reflexivity.
Qed.

Lemma handleSendMessage_sends_once_witness :
  exists chatRequest,
    ChatPage.requests
      (exec (ChatPage.handleSendMessage (Some alice) "session-1" sample_clock sample_random
               (Rejected failed_to_fetch)) chat_ready) =
      ChatPage.requests chat_ready ++ [ChatPage.ReqChat chatRequest] /\
    ChatRequest.message chatRequest = "Where is my order?".
Proof.
  destruct (handleSendMessage_sends_once (Some alice) "session-1" sample_clock sample_random
              (Rejected failed_to_fetch) chat_ready) as (_ & _ & H).
  destruct (H eq_refl) as ((chatRequest & Hreq & Hmsg & _) & _).
  exists chatRequest. split; [exact Hreq | exact Hmsg].
Defined.

(** X27.  How [handleSendMessage] shows the outcome of a send.  A send
    that fails, because the request is rejected, because the reply is an
    error, or because the reply says [success: false] (the message is then
    [Failed to get response from AI]), sets [error] to the message of the
    error, shows the toast [Message Failed: ...], leaves the message of the
    user in the list marked [error], and adds a message of the bot with
    the fallback text of the bot configuration, or a text of the page when
    there is none.  A send that succeeds clears [error], shows no toast,
    and adds the answer of the bot, under the id that the backend gave it
    or under an id made from the clock. *)
Theorem handleSendMessage_outcome_shown (user : option UserProfile) (sessionId : string)
        (clock : nat -> Z) (random : nat -> string) (reply : Fetch ChatResponse.t)
        (w : ChatPage.World) :
  let send := ChatPage.handleSendMessage user sessionId clock random reply in
  let st := ChatPage.state w in
  let st' := ChatPage.state (exec send w) in
  let fallback :=
    or_else (ChatPage.botConfig st ≫= BotConfig.fallback_message)
      "I apologize, but I'm having trouble processing your request right now. Please try again." in
  send_blocked st = false ->
  exists botMessage,
    last (ChatPage.messages st') = Some botMessage /\
    ChatMessage.sender botMessage = ChatMessage.bot /\
    ChatMessage.status botMessage = Some ChatMessage.sent /\
    match answer reply with
    | Normal response =>
        if ChatResponse.success response then
          ChatPage.error st' = None /\
          ChatPage.toasts (exec send w) = ChatPage.toasts w /\
          In (user_message clock w ChatMessage.sent) (ChatPage.messages st') /\
          ChatMessage.content botMessage = ChatResponse.response response /\
          ChatMessage.id botMessage =
            or_else (ChatResponse.message_id response)
                    (pretty (clock (ChatPage.clock_reads w + 3)%nat + 1))
        else
          ChatPage.error st' = Some "Failed to get response from AI" /\
          ChatPage.toasts (exec send w) =
            ChatPage.toasts w ++
            [ChatPage.ToastFailure "Message Failed: Failed to get response from AI"] /\
          In (user_message clock w ChatMessage.error) (ChatPage.messages st') /\
          ChatMessage.content botMessage = fallback
    | Throw err =>
        ChatPage.error st' = Some (emessage err) /\
        ChatPage.toasts (exec send w) =
          ChatPage.toasts w ++ [ChatPage.ToastFailure ("Message Failed: " +:+ emessage err)] /\
        In (user_message clock w ChatMessage.error) (ChatPage.messages st') /\
        ChatMessage.content botMessage = fallback
    end.
Proof.
  cbv zeta. unfold send_blocked, user_message.
  destruct w as [[msgs input typing loading connected cid ns config err] toasts reqs cr rr].
  cbn [ChatPage.state ChatPage.businessNamespace ChatPage.conversationId
       ChatPage.inputValue ChatPage.isLoading ChatPage.clock_reads ChatPage.messages
       ChatPage.botConfig ChatPage.toasts].
  destruct ns as [ns |]; [destruct cid as [cid |] |]; cbn [truthy_opt negb].
  2, 3: rewrite ?orb_true_r; discriminate.
  intros Hguard.
  chat_run. rewrite Hguard. chat_run. rewrite call_any_world.
  replace (cr + 3)%nat with (S (S (S cr))) by lia.
  destruct (answer reply) as [response | e];
    [destruct (ChatResponse.success response);
     [unfold or_else; destruct (ChatResponse.message_id response) as [message_id |];
      [destruct (truthy message_id) |] |] |].
  all: chat_run; rewrite ?mark_last, ?mark_mark.
  all: eexists; split; [apply last_snoc |].
  all: repeat split.
  all: apply in_or_app; left; apply in_or_app; right; left; reflexivity.
Qed.

Lemma handleSendMessage_outcome_shown_witness :
  ChatPage.toasts
    (exec (ChatPage.handleSendMessage (Some alice) "session-1" sample_clock sample_random
             (Rejected failed_to_fetch)) chat_ready) =
    [ChatPage.ToastFailure "Message Failed: Failed to fetch"] /\
  exists botMessage,
    last (ChatPage.messages (ChatPage.state
      (exec (ChatPage.handleSendMessage (Some alice) "session-1" sample_clock sample_random
               (Replied (reply_200 bot_answer))) chat_ready))) = Some botMessage /\
    ChatMessage.content botMessage = "It ships tomorrow." /\
    ChatMessage.id botMessage = "msg-7".
Proof.
  split.
  - destruct (handleSendMessage_outcome_shown (Some alice) "session-1" sample_clock
                sample_random (Rejected failed_to_fetch) chat_ready eq_refl)
      as (botMessage & _ & _ & _ & _ & Htoast & _).
    exact Htoast.
  - destruct (handleSendMessage_outcome_shown (Some alice) "session-1" sample_clock
                sample_random (Replied (reply_200 bot_answer)) chat_ready eq_refl)
      as (botMessage & Hlast & _ & _ & _ & _ & _ & Hcontent & Hid).
    exists botMessage. split; [exact Hlast |]. split; [exact Hcontent | exact Hid].
Defined.
(** ** The start of a chat *)

Lemma getPrimaryBusiness_any_world {W} (list_reply : Fetch BusinessListResponse.t)
      (details : string -> Fetch BusinessResponse.t) (w : W) :
  businessAPI.getPrimaryBusiness list_reply details w =
    (Normal (primary_business list_reply details), w).
Proof.
  unfold primary_business, eval. rewrite !getPrimaryBusiness_spec. cbn [fst].
  unfold businessAPI.getUserBusinesses, businessAPI.getBusiness.
  rewrite !BusinessAPI_request_spec. cbn [fst].
  f_equal. f_equal.
  destruct list_reply as [e | r]; [reflexivity |].
  destruct (ok r); [| reflexivity]. destruct (json r) as [response | e]; [| reflexivity].
  match goal with |- context [match ?o with Some _ => _ | None => _ end] => destruct o end;
    [| reflexivity].
  rewrite !BusinessAPI_request_spec. reflexivity.
Qed.

Lemma healthCheck_any_world {W} (reply : Fetch HealthData) (w : W) :
  ChatAPI.healthCheck reply w = (eval (ChatAPI.healthCheck reply) tt, w).
Proof.
  unfold eval, ChatAPI.healthCheck, ChatAPI.handleResponse.
  destruct reply as [e | r]; [reflexivity |].
  unfold mbind, eff_mbind, eff_bind, await_fetch, await, throw, try_catch. cbn.
  destruct (ok r); cbn.
  - destruct (json r) as [data | e]; cbn; [| reflexivity].
    destruct (healthy data); [reflexivity |]. destruct (health_status data); reflexivity.
  - destruct (error_body r) as [[d |] | e]; reflexivity.
Qed.

Lemma healthCheck_verdict (reply : Fetch HealthData) :
  match reply with
  | Rejected e => eval (ChatAPI.healthCheck reply) tt = Throw e
  | Replied r =>
      exists verdict, eval (ChatAPI.healthCheck reply) tt = Normal verdict /\
                      (ok r = false -> verdict = false)
  end.
Proof.
  unfold eval, ChatAPI.healthCheck, ChatAPI.handleResponse.
  destruct reply as [e | r]; [reflexivity |].
  unfold mbind, eff_mbind, eff_bind, await_fetch, await, throw, try_catch. cbn.
  destruct (ok r); cbn.
  - destruct (json r) as [data | e]; cbn; [| eexists; split; [reflexivity | discriminate]].
    destruct (healthy data); [eexists; split; [reflexivity | discriminate] |].
    destruct (health_status data); eexists; (split; [reflexivity | discriminate]).
  - destruct (error_body r) as [[d |] | e]; eexists; (split; [reflexivity | reflexivity]).
Qed.

(** X28.  [initializeChat] never throws.  Without a signed-in user it does
    nothing.  With one it always ends with [isLoading] false.  When
    [getPrimaryBusiness] finds no business (or fails), the page shows the
    error [No business found. Please register a business first.], sends
    no request to the chatbot service and keeps its connection state,
    conversation and messages.  When the health request is rejected, the
    page shows the message of the rejection, goes offline, shows a toast,
    and creates no conversation. *)
Theorem initializeChat_settles (user : option UserProfile) (sessionId : string)
        (clock : nat -> Z) (random : nat -> string)
        (list_reply : Fetch BusinessListResponse.t)
        (details : string -> Fetch BusinessResponse.t)
        (health_reply : Fetch HealthData) (config_reply : Fetch BotConfigResponse.t)
        (conversation_reply : Fetch ConversationResponse.t) (w : ChatPage.World) :
  let init := ChatPage.initializeChat user sessionId clock random list_reply details
                health_reply config_reply conversation_reply in
  let st := ChatPage.state w in
  let w' := exec init w in
  let st' := ChatPage.state w' in
  eval init w = Normal tt /\
  (user = None -> w' = w) /\
  (user <> None ->
   ChatPage.isLoading st' = false /\
   (primary_business list_reply details = None ->
    ChatPage.error st' = Some "No business found. Please register a business first." /\
    ChatPage.requests w' = ChatPage.requests w /\
    ChatPage.toasts w' = ChatPage.toasts w /\
    ChatPage.isConnected st' = ChatPage.isConnected st /\
    ChatPage.conversationId st' = ChatPage.conversationId st /\
    ChatPage.messages st' = ChatPage.messages st) /\
   (forall business e,
      primary_business list_reply details = Some business ->
      health_reply = Rejected e ->
      ChatPage.error st' = Some (emessage e) /\
      ChatPage.isConnected st' = false /\
      ChatPage.toasts w' =
        ChatPage.toasts w ++
        [ChatPage.ToastFailure "Failed to connect to chat service. Please try again."] /\
      ChatPage.requests w' = ChatPage.requests w ++ [ChatPage.ReqHealth] /\
      ChatPage.businessNamespace st' = Some (Business.namespace business) /\
      ChatPage.conversationId st' = ChatPage.conversationId st /\
      ChatPage.messages st' = ChatPage.messages st)).
Proof.
  cbv zeta.
  destruct w as [[msgs input typing loading connected cid ns config err] toasts reqs cr rr].
  destruct user as [u |]; [| chat_run; repeat split; congruence].
  chat_run. rewrite getPrimaryBusiness_any_world.
  destruct (primary_business list_reply details) as [business |].
  - chat_run. rewrite healthCheck_any_world.
    pose proof (healthCheck_verdict health_reply) as Hhealth.
    destruct health_reply as [e | r].
    + rewrite Hhealth. chat_run.
      split; [reflexivity |]. split; [discriminate |]. intros _.
      split; [reflexivity |]. split; [discriminate |].
      intros business' e' [= <-] [= <-]. repeat split.
    + destruct Hhealth as (verdict & -> & _). chat_run.
      repeat rewrite call_any_world.
      destruct (answer config_reply) as [configResponse | configError];
        [destruct (BotConfigResponse.success configResponse) |];
        chat_run; repeat rewrite call_any_world.
      all: destruct (answer conversation_reply) as [conversationResponse | e];
        [destruct (ConversationResponse.success conversationResponse) |]; chat_run.
      all: split; [reflexivity |]; split; [discriminate |]; intros _.
      all: split; [reflexivity |]; split; [discriminate |].
      all: intros business' e' _ [=].
  - chat_run.
    split; [reflexivity |]. split; [discriminate |]. intros _.
    split; [reflexivity |]. split; [intros _; repeat split |].
    intros business e [=].
Qed.

Lemma initializeChat_settles_witness :
  ChatPage.error
    (ChatPage.state
       (exec (ChatPage.initializeChat (Some alice) "session-1" sample_clock sample_random
                (Rejected failed_to_fetch) business_details (Replied service_down)
                (Replied (reply_200 acme_bot)) (Replied (reply_200 conversation_created)))
             chat_start)) =
    Some "No business found. Please register a business first.".
Proof.
  destruct (initializeChat_settles (Some alice) "session-1" sample_clock sample_random
              (Rejected failed_to_fetch) business_details (Replied service_down)
              (Replied (reply_200 acme_bot)) (Replied (reply_200 conversation_created))
              chat_start) as (_ & _ & H).
  destruct (H ltac:(discriminate)) as (_ & Hnone & _).
  destruct (Hnone eq_refl) as (Herror & _).
  exact Herror.
Defined.

(** X29.  Once the health request is answered, [initializeChat] marks the
    page as connected whatever the answer is: the verdict of
    [healthCheck] is not looked at, and it is [false] for every reply that
    is not 2xx.  A bot configuration that cannot be fetched is ignored.
    When the conversation is created, the page holds its id and exactly
    one message, the welcome of the bot, whose text is the greeting of
    the bot configuration that the page held before the call, not of the
    one the call has just fetched.  When the backend answers
    [success: false] the page stays connected without a conversation,
    and shows neither an error nor a toast.  When the creation fails the
    page goes offline and shows the error. *)
Theorem initializeChat_connects (u : UserProfile) (sessionId : string)
        (clock : nat -> Z) (random : nat -> string)
        (list_reply : Fetch BusinessListResponse.t)
        (details : string -> Fetch BusinessResponse.t)
        (r : Response HealthData) (config_reply : Fetch BotConfigResponse.t)
        (conversation_reply : Fetch ConversationResponse.t) (business : Business.t)
        (w : ChatPage.World) :
  let init := ChatPage.initializeChat (Some u) sessionId clock random list_reply details
                (Replied r) config_reply conversation_reply in
  let st := ChatPage.state w in
  let w' := exec init w in
  let st' := ChatPage.state w' in
  let greeting :=
    or_else (ChatPage.botConfig st ≫= BotConfig.greeting_message)
      "Hello! I'm here to help you with any questions you might have. How can I assist you today?" in
  primary_business list_reply details = Some business ->
  (ok r = false -> eval (ChatAPI.healthCheck (Replied r)) tt = Normal false) /\
  ChatPage.businessNamespace st' = Some (Business.namespace business) /\
  ChatPage.botConfig st' =
    match answer config_reply with
    | Normal configResponse =>
        if BotConfigResponse.success configResponse
        then Some (BotConfigResponse.config configResponse)
        else ChatPage.botConfig st
    | Throw _ => ChatPage.botConfig st
    end /\
  (exists request,
     ChatPage.requests w' =
       ChatPage.requests w ++
       [ChatPage.ReqHealth; ChatPage.ReqBotConfig (Business.namespace business);
        ChatPage.ReqConversation request] /\
     ConversationCreateRequest.business_namespace request = Business.namespace business /\
     ConversationCreateRequest.session_id request = Some sessionId /\
     ConversationCreateRequest.customer_email request = Some (email u) /\
     ConversationCreateRequest.customer_name request = Some (or_else (name u) (email u))) /\
  match answer conversation_reply with
  | Normal conversationResponse =>
      ChatPage.isConnected st' = true /\
      ChatPage.error st' = None /\
      ChatPage.toasts w' = ChatPage.toasts w /\
      if ConversationResponse.success conversationResponse then
        ChatPage.conversationId st' =
          Some (ConversationResponse.conversation_id conversationResponse) /\
        exists timestamp,
          ChatPage.messages st' =
            [ChatMessage.mk "welcome" greeting ChatMessage.bot timestamp
               (Some ChatMessage.sent) None None]
      else
        ChatPage.conversationId st' = ChatPage.conversationId st /\
        ChatPage.messages st' = ChatPage.messages st
  | Throw err =>
      ChatPage.isConnected st' = false /\
      ChatPage.error st' = Some (emessage err) /\
      ChatPage.toasts w' =
        ChatPage.toasts w ++
        [ChatPage.ToastFailure "Failed to connect to chat service. Please try again."] /\
      ChatPage.conversationId st' = ChatPage.conversationId st /\
      ChatPage.messages st' = ChatPage.messages st
  end.
Proof.
  cbv zeta. intros Hbusiness.
  destruct w as [[msgs input typing loading connected cid ns config err] toasts reqs cr rr].
  split.
  { intros Hok. destruct (healthCheck_verdict (Replied r)) as (verdict & -> & Hfalse).
    rewrite (Hfalse Hok). reflexivity. }
  chat_run. rewrite getPrimaryBusiness_any_world, Hbusiness.
  chat_run. rewrite healthCheck_any_world.
  destruct (healthCheck_verdict (Replied r)) as (verdict & -> & _). chat_run.
  repeat rewrite call_any_world.
  destruct (answer config_reply) as [configResponse | configError];
    [destruct (BotConfigResponse.success configResponse) |];
    chat_run; repeat rewrite call_any_world.
  all: destruct (answer conversation_reply) as [conversationResponse | e];
    [destruct (ConversationResponse.success conversationResponse) |]; chat_run.
  all: rewrite <- ?app_assoc; cbn [app].
  all: split; [reflexivity |]; split; [reflexivity |].
  all: split; [eexists; split; [reflexivity |]; repeat split |].
  all: repeat split.
  all: eexists; reflexivity.
Qed.

Lemma initializeChat_connects_witness :
  let st' :=
    ChatPage.state
      (exec (ChatPage.initializeChat (Some alice) "session-1" sample_clock sample_random
               (Replied (reply_200 two_businesses)) business_details (Replied service_down)
               (Replied (reply_200 acme_bot)) (Replied (reply_200 conversation_created)))
            chat_start) in
  ChatPage.isConnected st' = true /\
  ChatPage.conversationId st' = Some "conv-1".
Proof.
  cbv zeta.
  pose proof (initializeChat_connects alice "session-1" sample_clock sample_random
                (Replied (reply_200 two_businesses)) business_details service_down
                (Replied (reply_200 acme_bot)) (Replied (reply_200 conversation_created))
                acme chat_start eq_refl) as H.
  cbv zeta in H. destruct H as (_ & _ & _ & _ & Hconnected & _ & _ & Hid & _).
  split; [exact Hconnected | exact Hid].
Defined.
(** X30.  [resetChat] does nothing while the page has no business
    namespace.  Otherwise it never throws, never shows [Reset Failed], and
    always ends by announcing [Started a new conversation], also when no
    conversation was started: when the health request is rejected the
    page is left without messages and without a conversation, with the
    toast of the failure followed by the announcement. *)
Theorem resetChat_always_announces (user : option UserProfile) (sessionId : string)
        (clock : nat -> Z) (random : nat -> string)
        (list_reply : Fetch BusinessListResponse.t)
        (details : string -> Fetch BusinessResponse.t)
        (health_reply : Fetch HealthData) (config_reply : Fetch BotConfigResponse.t)
        (conversation_reply : Fetch ConversationResponse.t) (w : ChatPage.World) :
  let reset := ChatPage.resetChat user sessionId clock random list_reply details
                 health_reply config_reply conversation_reply in
  let st := ChatPage.state w in
  let w' := exec reset w in
  let st' := ChatPage.state w' in
  eval reset w = Normal tt /\
  (truthy_opt (ChatPage.businessNamespace st) = false -> w' = w) /\
  (truthy_opt (ChatPage.businessNamespace st) = true ->
   (exists shown,
      ChatPage.toasts w' =
        ChatPage.toasts w ++ shown ++ [ChatPage.ToastPlain "Started a new conversation"] /\
      ~ In (ChatPage.ToastPlain "Reset Failed") shown) /\
   (forall u business e,
      user = Some u ->
      primary_business list_reply details = Some business ->
      health_reply = Rejected e ->
      ChatPage.messages st' = [] /\
      ChatPage.conversationId st' = None /\
      ChatPage.isConnected st' = false /\
      ChatPage.toasts w' =
        ChatPage.toasts w ++
        [ChatPage.ToastFailure "Failed to connect to chat service. Please try again.";
         ChatPage.ToastPlain "Started a new conversation"])).
Proof.
  cbv zeta.
  destruct w as [[msgs input typing loading connected cid ns config err] toasts reqs cr rr].
  cbn [ChatPage.state ChatPage.businessNamespace ChatPage.toasts].
  destruct (truthy_opt ns) eqn:Hns.
  2: { chat_run. rewrite Hns. cbn [negb]. chat_run. repeat split; discriminate. }
  chat_run. rewrite Hns. cbn [negb]. chat_run.
  destruct user as [u |].
  2: { chat_run. split; [reflexivity |]. split; [discriminate |]. intros _.
       split; [exists []; split; [reflexivity | intros []] |].
       intros u business e [=]. }
  chat_run. rewrite getPrimaryBusiness_any_world.
  destruct (primary_business list_reply details) as [business |].
  - chat_run. rewrite healthCheck_any_world.
    pose proof (healthCheck_verdict health_reply) as Hhealth.
    destruct health_reply as [e | r].
    + rewrite Hhealth. chat_run.
      split; [reflexivity |]. split; [discriminate |]. intros _.
      split.
      * eexists [_]. split; [rewrite <- app_assoc; reflexivity |].
        intros [[=] | []].
      * intros u' business' e' _ _ _. rewrite <- app_assoc. repeat split.
    + destruct Hhealth as (verdict & -> & _). chat_run.
      repeat rewrite call_any_world.
      destruct (answer config_reply) as [configResponse | configError];
        [destruct (BotConfigResponse.success configResponse) |];
        chat_run; repeat rewrite call_any_world.
      all: destruct (answer conversation_reply) as [conversationResponse | e];
        [destruct (ConversationResponse.success conversationResponse) |]; chat_run.
      all: split; [reflexivity |]; split; [discriminate |]; intros _.
      all: split; [| intros u' business' e' _ _ [=]].
      all: try (exists []; split; [reflexivity | intros []]).
      all: eexists [_]; split; [rewrite <- app_assoc; reflexivity |]; intros [[=] | []].
  - chat_run.
    split; [reflexivity |]. split; [discriminate |]. intros _.
    split; [exists []; split; [reflexivity | intros []] |].
    intros u' business e _ [=].
Qed.

Lemma resetChat_always_announces_witness :
  ChatPage.toasts
    (exec (ChatPage.resetChat (Some alice) "session-1" sample_clock sample_random
             (Replied (reply_200 two_businesses)) business_details
             (Rejected failed_to_fetch)
             (Replied (reply_200 acme_bot)) (Replied (reply_200 conversation_created)))
          chat_ready) =
    [ChatPage.ToastFailure "Failed to connect to chat service. Please try again.";
     ChatPage.ToastPlain "Started a new conversation"].
Proof.
  destruct (resetChat_always_announces (Some alice) "session-1" sample_clock sample_random
              (Replied (reply_200 two_businesses)) business_details
              (Rejected failed_to_fetch)
              (Replied (reply_200 acme_bot)) (Replied (reply_200 conversation_created))
              chat_ready) as (_ & _ & H).
  destruct (H eq_refl) as (_ & Hfailed).
  destruct (Hfailed alice acme failed_to_fetch eq_refl eq_refl eq_refl)
    as (_ & _ & _ & Htoasts).
  exact Htoasts.
Defined.
